(** * The netlist updater of pcbnew (BOARD_NETLIST_UPDATER)

    A shallow embedding of
    [pcbnew/netlist_reader/board_netlist_updater.cpp]: the pass that
    reconciles an imported schematic netlist with the footprints, pads, nets,
    zones and vias of a board.

    Conventions of the embedding.
    - A [wxString] is a [string].  Messages built with [Printf] are kept as a
      constructor of [MSG] carrying the arguments of the format.
    - A [FOOTPRINT*] is a handle [FP_REF]: the position of the footprint in
      the board's footprint list, or the position of an object created during
      the pass in the updater's store of new footprints.  A [PAD*] is the
      handle of its footprint and the position of the pad in it.
    - A [NETINFO_ITEM*] held by a pad, a via or a zone is represented by the
      name of the net it points to: the registry keeps net names unique.
    - The counters are C++ [int]s; they are counted in [Z] and only ever
      incremented from 0, once per reported message at most.
    - Geometry (positions, parents, ratsnest display) is left out. *)

From stdpp Require Import base option list gmap strings fin_maps.
From Stdlib Require Import ZArith Ascii.
From Stdlib Require String OrderedTypeEx.

Local Open Scope Z_scope.
Local Open Scope string_scope.

(** ** Strings *)

Definition IsEmpty (s : string) : bool := bool_decide (s = "").

Definition lower_ascii (a : ascii) : ascii :=
  let n := nat_of_ascii a in
  if (Nat.leb 65 n && Nat.leb n 90)%bool then ascii_of_nat (n + 32) else a.

Fixpoint MakeLower (s : string) : string :=
  match s with
  | EmptyString => EmptyString
  | String a s' => String (lower_ascii a) (MakeLower s')
  end.

(** [a.CmpNoCase( b ) == 0] *)
Definition CmpNoCase_eq (a b : string) : bool :=
  bool_decide (MakeLower a = MakeLower b).

(** ** Reporter *)

Inductive SEVERITY :=
| RPT_SEVERITY_INFO
| RPT_SEVERITY_ACTION
| RPT_SEVERITY_WARNING
| RPT_SEVERITY_ERROR.

Global Instance SEVERITY_eq_dec : EqDecision SEVERITY.
Proof. solve_decision. Defined.

(** One constructor per format string of the source file. *)
Inductive MSG :=
| MsgCannotAddNoFootprint (ref : string)
| MsgCannotAddNotFound (ref fpid : string)
| MsgAdd (ref fpid : string)
| MsgCannotUpdateNoFootprint (ref : string)
| MsgCannotUpdateNotFound (ref fpid : string)
| MsgChangeFootprint (ref oldId newId : string)
| MsgChangeReference (old new : string)
| MsgChangeValue (ref old new : string)
| MsgUpdateSymbolAssociation (ref old new : string)
| MsgUpdateProperties (ref : string)
| MsgSetExcludeFromBOM (ref : string)
| MsgRemoveExcludeFromBOM (ref : string)
| MsgDisconnect (ref pin : string)
| MsgNoNetForPin (ref pin : string)
| MsgAddNet (net : string)
| MsgReconnect (ref pin old new : string)
| MsgConnect (ref pin new : string)
| MsgReconnectVia (old new : string)
| MsgViaUnknownNet (net : string)
| MsgReconnectZone (old new : string)
| MsgZoneNoPads (net : string)
| MsgRemoveSinglePadNet (net : string)
| MsgPadNotFound (ref pad fpid : string)
| MsgProcessingSymbol (ref fpid : string)
| MsgMultipleFootprints (ref : string)
| MsgCannotRemoveLocked (ref : string)
| MsgRemoveUnusedFootprint (ref : string)
| MsgRemoveUnusedNet (net : string)
| MsgEmpty
| MsgTotal (warnings errors : Z).

Global Instance MSG_eq_dec : EqDecision MSG.
Proof. solve_decision. Defined.

(** The two entry points of the reporter the updater calls. *)
Inductive REPORT :=
| Report (msg : MSG) (sev : SEVERITY)
| ReportTail (msg : MSG) (sev : SEVERITY).

Global Instance REPORT_eq_dec : EqDecision REPORT.
Proof. solve_decision. Defined.

(** ** Board items *)

Record NETINFO_ITEM := {
  net_name : string;
  net_code : Z;
  net_isCurrent : bool
}.

Global Instance NETINFO_ITEM_eq_dec : EqDecision NETINFO_ITEM.
Proof. solve_decision. Defined.

Definition SetIsCurrent (b : bool) (n : NETINFO_ITEM) : NETINFO_ITEM :=
  {| net_name := net_name n; net_code := net_code n; net_isCurrent := b |}.

Record PAD := {
  pad_name : string;
  pad_pinFunction : string;
  pad_pinType : string;
  pad_net : string;
  pad_onCopper : bool;
  pad_locked : bool
}.

Global Instance PAD_eq_dec : EqDecision PAD.
Proof. solve_decision. Defined.

Definition SetPinFunction (s : string) (p : PAD) : PAD :=
  {| pad_name := pad_name p; pad_pinFunction := s; pad_pinType := pad_pinType p;
     pad_net := pad_net p; pad_onCopper := pad_onCopper p; pad_locked := pad_locked p |}.

Definition SetPinType (s : string) (p : PAD) : PAD :=
  {| pad_name := pad_name p; pad_pinFunction := pad_pinFunction p; pad_pinType := s;
     pad_net := pad_net p; pad_onCopper := pad_onCopper p; pad_locked := pad_locked p |}.

(** [pad->SetNet( netinfo )], with the net given by its name. *)
Definition SetNet (n : string) (p : PAD) : PAD :=
  {| pad_name := pad_name p; pad_pinFunction := pad_pinFunction p;
     pad_pinType := pad_pinType p; pad_net := n; pad_onCopper := pad_onCopper p;
     pad_locked := pad_locked p |}.

Definition SetLocked (b : bool) (p : PAD) : PAD :=
  {| pad_name := pad_name p; pad_pinFunction := pad_pinFunction p;
     pad_pinType := pad_pinType p; pad_net := pad_net p; pad_onCopper := pad_onCopper p;
     pad_locked := b |}.

Record FOOTPRINT := {
  fp_reference : string;
  fp_value : string;
  fp_path : string;
  fp_fpid : string;
  fp_properties : gmap string string;
  fp_attributes : Z;
  fp_locked : bool;
  fp_pads : list PAD
}.

Global Instance FOOTPRINT_eq_dec : EqDecision FOOTPRINT.
Proof. solve_decision. Defined.

Definition SetReference (s : string) (f : FOOTPRINT) : FOOTPRINT :=
  {| fp_reference := s; fp_value := fp_value f; fp_path := fp_path f; fp_fpid := fp_fpid f;
     fp_properties := fp_properties f; fp_attributes := fp_attributes f;
     fp_locked := fp_locked f; fp_pads := fp_pads f |}.

Definition SetValue (s : string) (f : FOOTPRINT) : FOOTPRINT :=
  {| fp_reference := fp_reference f; fp_value := s; fp_path := fp_path f; fp_fpid := fp_fpid f;
     fp_properties := fp_properties f; fp_attributes := fp_attributes f;
     fp_locked := fp_locked f; fp_pads := fp_pads f |}.

Definition SetPath (s : string) (f : FOOTPRINT) : FOOTPRINT :=
  {| fp_reference := fp_reference f; fp_value := fp_value f; fp_path := s; fp_fpid := fp_fpid f;
     fp_properties := fp_properties f; fp_attributes := fp_attributes f;
     fp_locked := fp_locked f; fp_pads := fp_pads f |}.

Definition SetProperties (m : gmap string string) (f : FOOTPRINT) : FOOTPRINT :=
  {| fp_reference := fp_reference f; fp_value := fp_value f; fp_path := fp_path f;
     fp_fpid := fp_fpid f; fp_properties := m; fp_attributes := fp_attributes f;
     fp_locked := fp_locked f; fp_pads := fp_pads f |}.

Definition SetAttributes (a : Z) (f : FOOTPRINT) : FOOTPRINT :=
  {| fp_reference := fp_reference f; fp_value := fp_value f; fp_path := fp_path f;
     fp_fpid := fp_fpid f; fp_properties := fp_properties f; fp_attributes := a;
     fp_locked := fp_locked f; fp_pads := fp_pads f |}.

Definition SetPads (ps : list PAD) (f : FOOTPRINT) : FOOTPRINT :=
  {| fp_reference := fp_reference f; fp_value := fp_value f; fp_path := fp_path f;
     fp_fpid := fp_fpid f; fp_properties := fp_properties f;
     fp_attributes := fp_attributes f; fp_locked := fp_locked f; fp_pads := ps |}.

(** Modelled from the spec: the fabrication-attribute bitmask has a
    "board-only" and an "excluded-from-BOM" flag; the masks are declared in
    footprint.h as distinct single bits. *)
Definition FP_EXCLUDE_FROM_BOM : Z := 8.
Definition FP_BOARD_ONLY : Z := 16.

(** [FOOTPRINT::FindPadByName]: the first pad of that name. *)
Definition FindPadByName (name : string) (f : FOOTPRINT) : option PAD :=
  List.find (fun p => bool_decide (pad_name p = name)) (fp_pads f).

Inductive FP_REF :=
| OnBoard (i : nat)
| Staged (j : nat).

Global Instance FP_REF_eq_dec : EqDecision FP_REF.
Proof. solve_decision. Defined.

Global Instance FP_REF_countable : Countable FP_REF.
Proof.
  refine (inj_countable' (fun r => match r with OnBoard i => inl i | Staged j => inr j end)
                         (fun s => match s with inl i => OnBoard i | inr j => Staged j end) _).
  by intros [].
Defined.

Definition PAD_REF : Type := FP_REF * nat.

Record ZONE := {
  zone_net : string;
  zone_onCopper : bool;
  zone_isRuleArea : bool;
  (** what [GetConnectivity()->GetConnectedPads( zone )] answers *)
  zone_connectedPads : list PAD_REF
}.

Inductive KICAD_T := PCB_TRACE_T | PCB_ARC_T | PCB_VIA_T.

Global Instance KICAD_T_eq_dec : EqDecision KICAD_T.
Proof. solve_decision. Defined.

Record TRACK := {
  track_type : KICAD_T;
  track_net : string
}.

Record BOARD := {
  b_footprints : list FOOTPRINT;
  b_nets : list NETINFO_ITEM;
  b_zones : list ZONE;
  b_tracks : list TRACK
}.

(** ** Netlist *)

Record COMPONENT_NET := {
  cn_pinName : string;
  cn_netName : string;
  cn_pinFunction : string;
  cn_pinType : string
}.

Definition IsValid (n : COMPONENT_NET) : bool := negb (IsEmpty (cn_pinName n)).

Definition m_emptyNet : COMPONENT_NET :=
  {| cn_pinName := ""; cn_netName := ""; cn_pinFunction := ""; cn_pinType := "" |}.

Record COMPONENT := {
  c_reference : string;
  c_value : string;
  c_path : string;
  c_fpid : string;
  c_properties : gmap string string;
  c_nets : list COMPONENT_NET
}.

(** Modelled from the spec: [COMPONENT::GetNet( aPinName )] of pcb_netlist,
    "look up the matching named pin on the Component"; the empty net, which
    is not valid, stands for an absent pin. *)
Definition GetNet (c : COMPONENT) (pinName : string) : COMPONENT_NET :=
  default m_emptyNet
    (List.find (fun n => bool_decide (cn_pinName n = pinName)) (c_nets c)).

Definition NETLIST : Type := list COMPONENT.

(** [GetProperties().count( key )] as a test. *)
Definition has_property (m : gmap string string) (key : string) : bool :=
  bool_decide (is_Some (m !! key)).

(** Modelled from the spec: [NETLIST::GetComponentByReference] and
    [NETLIST::GetComponentByPath] of pcb_netlist return the component a
    footprint's reference, or path identity, designates, or null. *)
Definition GetComponentByReference (nl : NETLIST) (ref : string) : option COMPONENT :=
  List.find (fun c => bool_decide (c_reference c = ref)) nl.

Definition GetComponentByPath (nl : NETLIST) (path : string) : option COMPONENT :=
  List.find (fun c => bool_decide (c_path c = path)) nl.

(** ** The frame, the commit and the updater *)

(** The services of [PCB_EDIT_FRAME] the updater calls; they are defined
    in other files of pcbnew and are taken as given.  [ExchangeFootprint old new]
    is the object that replaces [old] once [new] has taken over its placement
    and connections.  [UnescapeString], of the string utilities, is taken as
    given with them: it gives the text a net name is shown as, its escape
    sequences turned into the characters they stand for. *)
Record FRAME := {
  LoadFootprint : string -> option FOOTPRINT;
  ExchangeFootprint : FOOTPRINT -> FOOTPRINT -> FOOTPRINT;
  m_AddUnlockedPads : bool;
  UnescapeString : string -> string
}.

(** Modelled from the spec: the transaction is "an ordered list of pending
    mutations (add, remove, modify-with-snapshot) that is either applied
    atomically or discarded"; [BOARD_COMMIT] itself is defined in board_commit.cpp. *)
Inductive CHANGE :=
| ChAdd (r : FP_REF)
| ChRemove (r : FP_REF)
| ChModified (r : FP_REF) (copy : FOOTPRINT)
| ChAddNet (n : NETINFO_ITEM)
| ChRemovedNet (n : NETINFO_ITEM)
| ChModifyTrack (k : nat)
| ChModifyZone (k : nat).

Definition change_ref (c : CHANGE) : option FP_REF :=
  match c with
  | ChAdd r | ChRemove r | ChModified r _ => Some r
  | _ => None
  end.

(** [m_commit.GetStatus( footprint )] as a test: is the object staged? *)
Definition GetStatus (changes : list CHANGE) (r : FP_REF) : bool :=
  existsb (fun c => bool_decide (change_ref c = Some r)) changes.

Record UPDATER := {
  m_frame : FRAME;
  m_commit : list CHANGE;
  m_board : BOARD;
  m_reporter : list REPORT;
  (** the footprint objects created during the pass, [Staged j] is the j-th *)
  m_newFootprints : list FOOTPRINT;
  m_padNets : gmap PAD_REF string;
  m_padPinFunctions : gmap PAD_REF string;
  m_zoneConnectionsCache : gmap nat (list PAD_REF);
  m_oldToNewNets : gmap string string;
  (** a null entry is [None] *)
  m_addedNets : gmap string (option NETINFO_ITEM);
  m_addedComponents : list FP_REF;
  (** the local [footprintMap] of [UpdateNetlist], keyed by the position of
      the component in the netlist *)
  footprintMap : gmap nat FP_REF;
  m_deleteSinglePadNets : bool;
  m_deleteUnusedComponents : bool;
  m_isDryRun : bool;
  m_replaceFootprints : bool;
  m_lookupByTimestamp : bool;
  m_warnForNoNetPads : bool;
  m_warningCount : Z;
  m_errorCount : Z;
  m_newFootprintsCount : Z
}.

Definition with_commit (x : list CHANGE) (u : UPDATER) : UPDATER :=
  {| m_frame := m_frame u; m_commit := x; m_board := m_board u;
     m_reporter := m_reporter u; m_newFootprints := m_newFootprints u;
     m_padNets := m_padNets u; m_padPinFunctions := m_padPinFunctions u;
     m_zoneConnectionsCache := m_zoneConnectionsCache u;
     m_oldToNewNets := m_oldToNewNets u; m_addedNets := m_addedNets u;
     m_addedComponents := m_addedComponents u; footprintMap := footprintMap u;
     m_deleteSinglePadNets := m_deleteSinglePadNets u;
     m_deleteUnusedComponents := m_deleteUnusedComponents u;
     m_isDryRun := m_isDryRun u; m_replaceFootprints := m_replaceFootprints u;
     m_lookupByTimestamp := m_lookupByTimestamp u;
     m_warnForNoNetPads := m_warnForNoNetPads u;
     m_warningCount := m_warningCount u; m_errorCount := m_errorCount u;
     m_newFootprintsCount := m_newFootprintsCount u |}.

Definition with_board (x : BOARD) (u : UPDATER) : UPDATER :=
  {| m_frame := m_frame u; m_commit := m_commit u; m_board := x;
     m_reporter := m_reporter u; m_newFootprints := m_newFootprints u;
     m_padNets := m_padNets u; m_padPinFunctions := m_padPinFunctions u;
     m_zoneConnectionsCache := m_zoneConnectionsCache u;
     m_oldToNewNets := m_oldToNewNets u; m_addedNets := m_addedNets u;
     m_addedComponents := m_addedComponents u; footprintMap := footprintMap u;
     m_deleteSinglePadNets := m_deleteSinglePadNets u;
     m_deleteUnusedComponents := m_deleteUnusedComponents u;
     m_isDryRun := m_isDryRun u; m_replaceFootprints := m_replaceFootprints u;
     m_lookupByTimestamp := m_lookupByTimestamp u;
     m_warnForNoNetPads := m_warnForNoNetPads u;
     m_warningCount := m_warningCount u; m_errorCount := m_errorCount u;
     m_newFootprintsCount := m_newFootprintsCount u |}.

Definition with_reporter (x : list REPORT) (u : UPDATER) : UPDATER :=
  {| m_frame := m_frame u; m_commit := m_commit u; m_board := m_board u;
     m_reporter := x; m_newFootprints := m_newFootprints u;
     m_padNets := m_padNets u; m_padPinFunctions := m_padPinFunctions u;
     m_zoneConnectionsCache := m_zoneConnectionsCache u;
     m_oldToNewNets := m_oldToNewNets u; m_addedNets := m_addedNets u;
     m_addedComponents := m_addedComponents u; footprintMap := footprintMap u;
     m_deleteSinglePadNets := m_deleteSinglePadNets u;
     m_deleteUnusedComponents := m_deleteUnusedComponents u;
     m_isDryRun := m_isDryRun u; m_replaceFootprints := m_replaceFootprints u;
     m_lookupByTimestamp := m_lookupByTimestamp u;
     m_warnForNoNetPads := m_warnForNoNetPads u;
     m_warningCount := m_warningCount u; m_errorCount := m_errorCount u;
     m_newFootprintsCount := m_newFootprintsCount u |}.

Definition with_newFootprints (x : list FOOTPRINT) (u : UPDATER) : UPDATER :=
  {| m_frame := m_frame u; m_commit := m_commit u; m_board := m_board u;
     m_reporter := m_reporter u; m_newFootprints := x;
     m_padNets := m_padNets u; m_padPinFunctions := m_padPinFunctions u;
     m_zoneConnectionsCache := m_zoneConnectionsCache u;
     m_oldToNewNets := m_oldToNewNets u; m_addedNets := m_addedNets u;
     m_addedComponents := m_addedComponents u; footprintMap := footprintMap u;
     m_deleteSinglePadNets := m_deleteSinglePadNets u;
     m_deleteUnusedComponents := m_deleteUnusedComponents u;
     m_isDryRun := m_isDryRun u; m_replaceFootprints := m_replaceFootprints u;
     m_lookupByTimestamp := m_lookupByTimestamp u;
     m_warnForNoNetPads := m_warnForNoNetPads u;
     m_warningCount := m_warningCount u; m_errorCount := m_errorCount u;
     m_newFootprintsCount := m_newFootprintsCount u |}.

Definition with_padNets (x : gmap PAD_REF string) (u : UPDATER) : UPDATER :=
  {| m_frame := m_frame u; m_commit := m_commit u; m_board := m_board u;
     m_reporter := m_reporter u; m_newFootprints := m_newFootprints u;
     m_padNets := x; m_padPinFunctions := m_padPinFunctions u;
     m_zoneConnectionsCache := m_zoneConnectionsCache u;
     m_oldToNewNets := m_oldToNewNets u; m_addedNets := m_addedNets u;
     m_addedComponents := m_addedComponents u; footprintMap := footprintMap u;
     m_deleteSinglePadNets := m_deleteSinglePadNets u;
     m_deleteUnusedComponents := m_deleteUnusedComponents u;
     m_isDryRun := m_isDryRun u; m_replaceFootprints := m_replaceFootprints u;
     m_lookupByTimestamp := m_lookupByTimestamp u;
     m_warnForNoNetPads := m_warnForNoNetPads u;
     m_warningCount := m_warningCount u; m_errorCount := m_errorCount u;
     m_newFootprintsCount := m_newFootprintsCount u |}.

Definition with_padPinFunctions (x : gmap PAD_REF string) (u : UPDATER) : UPDATER :=
  {| m_frame := m_frame u; m_commit := m_commit u; m_board := m_board u;
     m_reporter := m_reporter u; m_newFootprints := m_newFootprints u;
     m_padNets := m_padNets u; m_padPinFunctions := x;
     m_zoneConnectionsCache := m_zoneConnectionsCache u;
     m_oldToNewNets := m_oldToNewNets u; m_addedNets := m_addedNets u;
     m_addedComponents := m_addedComponents u; footprintMap := footprintMap u;
     m_deleteSinglePadNets := m_deleteSinglePadNets u;
     m_deleteUnusedComponents := m_deleteUnusedComponents u;
     m_isDryRun := m_isDryRun u; m_replaceFootprints := m_replaceFootprints u;
     m_lookupByTimestamp := m_lookupByTimestamp u;
     m_warnForNoNetPads := m_warnForNoNetPads u;
     m_warningCount := m_warningCount u; m_errorCount := m_errorCount u;
     m_newFootprintsCount := m_newFootprintsCount u |}.

Definition with_zoneConnectionsCache (x : gmap nat (list PAD_REF)) (u : UPDATER) : UPDATER :=
  {| m_frame := m_frame u; m_commit := m_commit u; m_board := m_board u;
     m_reporter := m_reporter u; m_newFootprints := m_newFootprints u;
     m_padNets := m_padNets u; m_padPinFunctions := m_padPinFunctions u;
     m_zoneConnectionsCache := x;
     m_oldToNewNets := m_oldToNewNets u; m_addedNets := m_addedNets u;
     m_addedComponents := m_addedComponents u; footprintMap := footprintMap u;
     m_deleteSinglePadNets := m_deleteSinglePadNets u;
     m_deleteUnusedComponents := m_deleteUnusedComponents u;
     m_isDryRun := m_isDryRun u; m_replaceFootprints := m_replaceFootprints u;
     m_lookupByTimestamp := m_lookupByTimestamp u;
     m_warnForNoNetPads := m_warnForNoNetPads u;
     m_warningCount := m_warningCount u; m_errorCount := m_errorCount u;
     m_newFootprintsCount := m_newFootprintsCount u |}.

Definition with_oldToNewNets (x : gmap string string) (u : UPDATER) : UPDATER :=
  {| m_frame := m_frame u; m_commit := m_commit u; m_board := m_board u;
     m_reporter := m_reporter u; m_newFootprints := m_newFootprints u;
     m_padNets := m_padNets u; m_padPinFunctions := m_padPinFunctions u;
     m_zoneConnectionsCache := m_zoneConnectionsCache u;
     m_oldToNewNets := x; m_addedNets := m_addedNets u;
     m_addedComponents := m_addedComponents u; footprintMap := footprintMap u;
     m_deleteSinglePadNets := m_deleteSinglePadNets u;
     m_deleteUnusedComponents := m_deleteUnusedComponents u;
     m_isDryRun := m_isDryRun u; m_replaceFootprints := m_replaceFootprints u;
     m_lookupByTimestamp := m_lookupByTimestamp u;
     m_warnForNoNetPads := m_warnForNoNetPads u;
     m_warningCount := m_warningCount u; m_errorCount := m_errorCount u;
     m_newFootprintsCount := m_newFootprintsCount u |}.

Definition with_addedNets (x : gmap string (option NETINFO_ITEM)) (u : UPDATER) : UPDATER :=
  {| m_frame := m_frame u; m_commit := m_commit u; m_board := m_board u;
     m_reporter := m_reporter u; m_newFootprints := m_newFootprints u;
     m_padNets := m_padNets u; m_padPinFunctions := m_padPinFunctions u;
     m_zoneConnectionsCache := m_zoneConnectionsCache u;
     m_oldToNewNets := m_oldToNewNets u; m_addedNets := x;
     m_addedComponents := m_addedComponents u; footprintMap := footprintMap u;
     m_deleteSinglePadNets := m_deleteSinglePadNets u;
     m_deleteUnusedComponents := m_deleteUnusedComponents u;
     m_isDryRun := m_isDryRun u; m_replaceFootprints := m_replaceFootprints u;
     m_lookupByTimestamp := m_lookupByTimestamp u;
     m_warnForNoNetPads := m_warnForNoNetPads u;
     m_warningCount := m_warningCount u; m_errorCount := m_errorCount u;
     m_newFootprintsCount := m_newFootprintsCount u |}.

Definition with_addedComponents (x : list FP_REF) (u : UPDATER) : UPDATER :=
  {| m_frame := m_frame u; m_commit := m_commit u; m_board := m_board u;
     m_reporter := m_reporter u; m_newFootprints := m_newFootprints u;
     m_padNets := m_padNets u; m_padPinFunctions := m_padPinFunctions u;
     m_zoneConnectionsCache := m_zoneConnectionsCache u;
     m_oldToNewNets := m_oldToNewNets u; m_addedNets := m_addedNets u;
     m_addedComponents := x; footprintMap := footprintMap u;
     m_deleteSinglePadNets := m_deleteSinglePadNets u;
     m_deleteUnusedComponents := m_deleteUnusedComponents u;
     m_isDryRun := m_isDryRun u; m_replaceFootprints := m_replaceFootprints u;
     m_lookupByTimestamp := m_lookupByTimestamp u;
     m_warnForNoNetPads := m_warnForNoNetPads u;
     m_warningCount := m_warningCount u; m_errorCount := m_errorCount u;
     m_newFootprintsCount := m_newFootprintsCount u |}.

Definition with_footprintMap (x : gmap nat FP_REF) (u : UPDATER) : UPDATER :=
  {| m_frame := m_frame u; m_commit := m_commit u; m_board := m_board u;
     m_reporter := m_reporter u; m_newFootprints := m_newFootprints u;
     m_padNets := m_padNets u; m_padPinFunctions := m_padPinFunctions u;
     m_zoneConnectionsCache := m_zoneConnectionsCache u;
     m_oldToNewNets := m_oldToNewNets u; m_addedNets := m_addedNets u;
     m_addedComponents := m_addedComponents u; footprintMap := x;
     m_deleteSinglePadNets := m_deleteSinglePadNets u;
     m_deleteUnusedComponents := m_deleteUnusedComponents u;
     m_isDryRun := m_isDryRun u; m_replaceFootprints := m_replaceFootprints u;
     m_lookupByTimestamp := m_lookupByTimestamp u;
     m_warnForNoNetPads := m_warnForNoNetPads u;
     m_warningCount := m_warningCount u; m_errorCount := m_errorCount u;
     m_newFootprintsCount := m_newFootprintsCount u |}.

Definition with_counts (w e n : Z) (u : UPDATER) : UPDATER :=
  {| m_frame := m_frame u; m_commit := m_commit u; m_board := m_board u;
     m_reporter := m_reporter u; m_newFootprints := m_newFootprints u;
     m_padNets := m_padNets u; m_padPinFunctions := m_padPinFunctions u;
     m_zoneConnectionsCache := m_zoneConnectionsCache u;
     m_oldToNewNets := m_oldToNewNets u; m_addedNets := m_addedNets u;
     m_addedComponents := m_addedComponents u; footprintMap := footprintMap u;
     m_deleteSinglePadNets := m_deleteSinglePadNets u;
     m_deleteUnusedComponents := m_deleteUnusedComponents u;
     m_isDryRun := m_isDryRun u; m_replaceFootprints := m_replaceFootprints u;
     m_lookupByTimestamp := m_lookupByTimestamp u;
     m_warnForNoNetPads := m_warnForNoNetPads u;
     m_warningCount := w; m_errorCount := e; m_newFootprintsCount := n |}.

(** The constructor: default options, null reporter, counters at zero. *)
Definition BOARD_NETLIST_UPDATER (aFrame : FRAME) (aBoard : BOARD) : UPDATER :=
  {| m_frame := aFrame; m_commit := []; m_board := aBoard;
     m_reporter := []; m_newFootprints := [];
     m_padNets := ∅; m_padPinFunctions := ∅; m_zoneConnectionsCache := ∅;
     m_oldToNewNets := ∅; m_addedNets := ∅; m_addedComponents := [];
     footprintMap := ∅;
     m_deleteSinglePadNets := true; m_deleteUnusedComponents := false;
     m_isDryRun := false; m_replaceFootprints := true;
     m_lookupByTimestamp := false; m_warnForNoNetPads := false;
     m_warningCount := 0; m_errorCount := 0; m_newFootprintsCount := 0 |}.

(** The option setters of the header. *)
Definition SetOptions (deleteSinglePadNets deleteUnused dryRun replaceFootprints
                       lookupByTimestamp warnForNoNetPads : bool) (u : UPDATER) : UPDATER :=
  {| m_frame := m_frame u; m_commit := m_commit u; m_board := m_board u;
     m_reporter := m_reporter u; m_newFootprints := m_newFootprints u;
     m_padNets := m_padNets u; m_padPinFunctions := m_padPinFunctions u;
     m_zoneConnectionsCache := m_zoneConnectionsCache u;
     m_oldToNewNets := m_oldToNewNets u; m_addedNets := m_addedNets u;
     m_addedComponents := m_addedComponents u; footprintMap := footprintMap u;
     m_deleteSinglePadNets := deleteSinglePadNets;
     m_deleteUnusedComponents := deleteUnused;
     m_isDryRun := dryRun; m_replaceFootprints := replaceFootprints;
     m_lookupByTimestamp := lookupByTimestamp;
     m_warnForNoNetPads := warnForNoNetPads;
     m_warningCount := m_warningCount u; m_errorCount := m_errorCount u;
     m_newFootprintsCount := m_newFootprintsCount u |}.

Definition report (msg : MSG) (sev : SEVERITY) (u : UPDATER) : UPDATER :=
  with_reporter (m_reporter u ++ [Report msg sev]) u.

Definition reportTail (msg : MSG) (sev : SEVERITY) (u : UPDATER) : UPDATER :=
  with_reporter (m_reporter u ++ [ReportTail msg sev]) u.

Definition inc_errorCount (u : UPDATER) : UPDATER :=
  with_counts (m_warningCount u) (m_errorCount u + 1) (m_newFootprintsCount u) u.

Definition inc_warningCount (u : UPDATER) : UPDATER :=
  with_counts (m_warningCount u + 1) (m_errorCount u) (m_newFootprintsCount u) u.

Definition inc_newFootprintsCount (u : UPDATER) : UPDATER :=
  with_counts (m_warningCount u) (m_errorCount u) (m_newFootprintsCount u + 1) u.

Definition stage (c : CHANGE) (u : UPDATER) : UPDATER :=
  with_commit (m_commit u ++ [c]) u.

(** ** Footprint objects behind a handle *)

Definition deref (u : UPDATER) (r : FP_REF) : option FOOTPRINT :=
  match r with
  | OnBoard i => b_footprints (m_board u) !! i
  | Staged j => m_newFootprints u !! j
  end.

Definition with_footprints (fps : list FOOTPRINT) (b : BOARD) : BOARD :=
  {| b_footprints := fps; b_nets := b_nets b; b_zones := b_zones b;
     b_tracks := b_tracks b |}.

Definition with_nets (nets : list NETINFO_ITEM) (b : BOARD) : BOARD :=
  {| b_footprints := b_footprints b; b_nets := nets; b_zones := b_zones b;
     b_tracks := b_tracks b |}.

Definition with_zones (zs : list ZONE) (b : BOARD) : BOARD :=
  {| b_footprints := b_footprints b; b_nets := b_nets b; b_zones := zs;
     b_tracks := b_tracks b |}.

Definition with_tracks (ts : list TRACK) (b : BOARD) : BOARD :=
  {| b_footprints := b_footprints b; b_nets := b_nets b; b_zones := b_zones b;
     b_tracks := ts |}.

Definition store (r : FP_REF) (f : FOOTPRINT) (u : UPDATER) : UPDATER :=
  match r with
  | OnBoard i => with_board (with_footprints (<[i:=f]> (b_footprints (m_board u))) (m_board u)) u
  | Staged j => with_newFootprints (<[j:=f]> (m_newFootprints u)) u
  end.

(** ** Net registry *)

(** [BOARD::FindNet( aNetname )] *)
Definition FindNet (name : string) (b : BOARD) : option NETINFO_ITEM :=
  List.find (fun n => bool_decide (net_name n = name)) (b_nets b).

(** [BOARD::FindNet( aNetcode )] *)
Definition FindNetByCode (code : Z) (b : BOARD) : option NETINFO_ITEM :=
  List.find (fun n => bool_decide (net_code n = code)) (b_nets b).

(** [NETINFO_LIST::UNCONNECTED] *)
Definition UNCONNECTED : Z := 0.

(** The name of the net [SetNetCode( aNetCode )] binds an item of the board
    to: the net of that code, or the orphaned net, which has no name. *)
Definition NetnameOfCode (code : Z) (b : BOARD) : string :=
  match FindNetByCode code b with
  | Some n => net_name n
  | None => ""
  end.

(** [SetIsCurrent( true )] on the net object a name designates. *)
Definition markCurrent (name : string) (b : BOARD) : BOARD :=
  with_nets (List.map (fun n => if bool_decide (net_name n = name)
                                then SetIsCurrent true n else n) (b_nets b)) b.

(** [new NETINFO_ITEM( m_board, netName )]: no code yet, current. *)
Definition new_NETINFO_ITEM (name : string) : NETINFO_ITEM :=
  {| net_name := name; net_code := -1; net_isCurrent := true |}.

(** ** The dry-run caches *)

Definition cacheNetname (aPad : PAD_REF) (aNetname : string) (u : UPDATER) : UPDATER :=
  with_padNets (<[aPad := aNetname]> (m_padNets u)) u.

Definition pad_at (u : UPDATER) (aPad : PAD_REF) : option PAD :=
  f ← deref u aPad.1; fp_pads f !! aPad.2.

(** [aPad->GetNetname()] through a handle; a handle that designates no pad
    reads as the empty name. *)
Definition GetNetname (u : UPDATER) (aPad : PAD_REF) : string :=
  from_option pad_net "" (pad_at u aPad).

Definition GetPinFunction (u : UPDATER) (aPad : PAD_REF) : string :=
  from_option pad_pinFunction "" (pad_at u aPad).

Definition getNetname (u : UPDATER) (aPad : PAD_REF) : string :=
  if m_isDryRun u then
    match m_padNets u !! aPad with
    | Some n => n
    | None => GetNetname u aPad
    end
  else GetNetname u aPad.

Definition cachePinFunction (aPad : PAD_REF) (aPinFunction : string) (u : UPDATER) : UPDATER :=
  with_padPinFunctions (<[aPad := aPinFunction]> (m_padPinFunctions u)) u.

Definition getPinFunction (u : UPDATER) (aPad : PAD_REF) : string :=
  if m_isDryRun u then
    match m_padPinFunctions u !! aPad with
    | Some n => n
    | None => GetPinFunction u aPad
    end
  else GetPinFunction u aPad.

(** ** addNewComponent and replaceComponent *)

Definition addNewComponent (aComponent : COMPONENT) (u : UPDATER) : option FP_REF * UPDATER :=
  if IsEmpty (c_fpid aComponent) then
    (None, inc_errorCount
             (report (MsgCannotAddNoFootprint (c_reference aComponent)) RPT_SEVERITY_ERROR u))
  else
    match LoadFootprint (m_frame u) (c_fpid aComponent) with
    | None =>
        (None, inc_errorCount
                 (report (MsgCannotAddNotFound (c_reference aComponent) (c_fpid aComponent))
                         RPT_SEVERITY_ERROR u))
    | Some footprint =>
        let u := report (MsgAdd (c_reference aComponent) (c_fpid aComponent))
                        RPT_SEVERITY_ACTION u in
        (* the library pads are not on a board yet: net code 0 is the
           orphaned net, which has no name *)
        let footprint :=
          SetPads (List.map (fun pad => SetNet "" (SetLocked (negb (m_AddUnlockedPads (m_frame u))) pad))
                            (fp_pads footprint)) footprint in
        let u := inc_newFootprintsCount u in
        if negb (m_isDryRun u) then
          let r := Staged (length (m_newFootprints u)) in
          let u := with_newFootprints (m_newFootprints u ++ [footprint]) u in
          let u := with_addedComponents (m_addedComponents u ++ [r]) u in
          let u := stage (ChAdd r) u in
          (Some r, u)
        else (None, u)
    end.

Definition replaceComponent (aPcbComponent : FP_REF) (old : FOOTPRINT)
    (aNewComponent : COMPONENT) (u : UPDATER) : option FP_REF * UPDATER :=
  if IsEmpty (c_fpid aNewComponent) then
    (None, inc_errorCount
             (report (MsgCannotUpdateNoFootprint (c_reference aNewComponent))
                     RPT_SEVERITY_ERROR u))
  else
    match LoadFootprint (m_frame u) (c_fpid aNewComponent) with
    | None =>
        (None, inc_errorCount
                 (report (MsgCannotUpdateNotFound (c_reference aNewComponent)
                                                  (c_fpid aNewComponent))
                         RPT_SEVERITY_ERROR u))
    | Some newFootprint =>
        let u := report (MsgChangeFootprint (fp_reference old) (fp_fpid old)
                                            (c_fpid aNewComponent))
                        RPT_SEVERITY_ACTION u in
        let u := inc_newFootprintsCount u in
        if negb (m_isDryRun u) then
          (* m_frame->ExchangeFootprint( aPcbComponent, newFootprint, m_commit ):
             the old object is staged for removal, the new one for addition *)
          let r := Staged (length (m_newFootprints u)) in
          let u := with_newFootprints
                     (m_newFootprints u ++ [ExchangeFootprint (m_frame u) old newFootprint]) u in
          let u := stage (ChAdd r) (stage (ChRemove aPcbComponent) u) in
          (Some r, u)
        else (None, u)
    end.

(** ** updateFootprintParameters *)

(** One field test of the metadata sync: report the change and, outside a
    dry run, apply it. *)
Definition syncField (msg : MSG) (set : FOOTPRINT -> FOOTPRINT)
    (s : FOOTPRINT * UPDATER * bool) : FOOTPRINT * UPDATER * bool :=
  let '(f, u, changed) := s in
  let u := report msg RPT_SEVERITY_ACTION u in
  if negb (m_isDryRun u) then (set f, u, true) else (f, u, changed).

Definition hasExcludeFromBOM (attributes : Z) : bool :=
  Z.ltb 0 (Z.land attributes FP_EXCLUDE_FROM_BOM).

Definition syncParameters (aNetlistComponent : COMPONENT)
    (s : FOOTPRINT * UPDATER * bool) : FOOTPRINT * UPDATER * bool :=
  let c := aNetlistComponent in
  let s :=
    if bool_decide (fp_reference s.1.1 ≠ c_reference c) then
      syncField (MsgChangeReference (fp_reference s.1.1) (c_reference c))
                (SetReference (c_reference c)) s
    else s in
  let s :=
    if bool_decide (fp_value s.1.1 ≠ c_value c) then
      syncField (MsgChangeValue (fp_reference s.1.1) (fp_value s.1.1) (c_value c))
                (SetValue (c_value c)) s
    else s in
  let s :=
    if bool_decide (fp_path s.1.1 ≠ c_path c) then
      syncField (MsgUpdateSymbolAssociation (fp_reference s.1.1) (fp_path s.1.1) (c_path c))
                (SetPath (c_path c)) s
    else s in
  let s :=
    if bool_decide (fp_properties s.1.1 ≠ c_properties c) then
      syncField (MsgUpdateProperties (fp_reference s.1.1))
                (SetProperties (c_properties c)) s
    else s in
  if negb (Bool.eqb (has_property (c_properties c) "exclude_from_bom")
               (hasExcludeFromBOM (fp_attributes s.1.1))) then
    if has_property (c_properties c) "exclude_from_bom" then
      syncField (MsgSetExcludeFromBOM (fp_reference s.1.1))
                (SetAttributes (Z.lor (fp_attributes s.1.1) FP_EXCLUDE_FROM_BOM)) s
    else
      syncField (MsgRemoveExcludeFromBOM (fp_reference s.1.1))
                (SetAttributes (Z.land (fp_attributes s.1.1) (Z.lnot FP_EXCLUDE_FROM_BOM))) s
  else s.

Definition updateFootprintParameters (aPcbFootprint : FP_REF)
    (aNetlistComponent : COMPONENT) (u : UPDATER) : UPDATER :=
  match deref u aPcbFootprint with
  | None => u
  | Some f =>
      (* a copy only if the footprint has not been staged during this update *)
      let copy := if GetStatus (m_commit u) aPcbFootprint then None else Some f in
      let '(f', u, changed) := syncParameters aNetlistComponent (f, u, false) in
      let u := store aPcbFootprint f' u in
      match copy with
      | Some cp => if changed then stage (ChModified aPcbFootprint cp) u else u
      | None => u
      end
  end.

(** ** updateComponentPadConnections *)

(** [m_addedNets[ netName ]] under [m_addedNets.count( netName )]. *)
Definition lookupAddedNet (netName : string) (u : UPDATER) : option NETINFO_ITEM :=
  mjoin (m_addedNets u !! netName).

(** The pin function and the pin type of the pad follow the netlist. *)
Definition syncPin (aPad : PAD_REF) (pinFunction pinType : string) (pad : PAD)
    (s : UPDATER * bool) : PAD * (UPDATER * bool) :=
  let '(u, changed) := s in
  if negb (m_isDryRun u) then
    let '(pad, changed) :=
      if bool_decide (pad_pinFunction pad ≠ pinFunction)
      then (SetPinFunction pinFunction pad, true) else (pad, changed) in
    let '(pad, changed) :=
      if bool_decide (pad_pinType pad ≠ pinType)
      then (SetPinType pinType pad, true) else (pad, changed) in
    (pad, (u, changed))
  else (pad, (cachePinFunction aPad pinFunction u, changed)).

(** The pad has no net in the netlist, or is on no copper layer. *)
Definition disconnectPad (aPad : PAD_REF) (fpRef : string) (pad : PAD)
    (s : UPDATER * bool) : PAD * (UPDATER * bool) :=
  let '(u, changed) := s in
  let u :=
    if negb (IsEmpty (pad_net pad)) then
      report (MsgDisconnect fpRef (pad_name pad)) RPT_SEVERITY_ACTION u
    else if m_warnForNoNetPads u && pad_onCopper pad && negb (IsEmpty (pad_name pad)) then
      report (MsgNoNetForPin fpRef (pad_name pad)) RPT_SEVERITY_WARNING u
    else u in
  if negb (m_isDryRun u) then
    let pad := SetNet (NetnameOfCode UNCONNECTED (m_board u)) pad in
    (* a pad without net cannot have a pin function *)
    let pad := if IsEmpty (pad_net pad) then SetPinFunction "" pad else pad in
    (pad, (u, true))
  else (pad, (cacheNetname aPad "" u, changed)).

(** The net to bind the pad to: the one found on the board, else one added
    earlier in the pass, else a new one, which is staged and announced. *)
Definition findOrAddNet (netName : string) (netinfo : option NETINFO_ITEM)
    (s : UPDATER * bool) : NETINFO_ITEM * (UPDATER * bool) :=
  let '(u, changed) := s in
  let netinfo :=
    match netinfo with
    | Some n => Some n
    | None => lookupAddedNet netName u
    end in
  match netinfo with
  | Some n => (n, (u, changed))
  | None =>
      let n := new_NETINFO_ITEM netName in
      let '(u, changed) :=
        if negb (m_isDryRun u) then (stage (ChAddNet n) u, true) else (u, changed) in
      let u := with_addedNets (<[netName := Some n]> (m_addedNets u)) u in
      (n, (report (MsgAddNet (UnescapeString (m_frame u) netName)) RPT_SEVERITY_ACTION u,
           changed))
  end.

(** The pad has a net in the netlist. *)
Definition connectPad (aPad : PAD_REF) (fpRef : string) (netName : string) (pad : PAD)
    (s : UPDATER * bool) : PAD * (UPDATER * bool) :=
  let '(u, changed) := s in
  let netinfo := FindNet netName (m_board u) in
  let u :=
    if bool_decide (is_Some netinfo) && negb (m_isDryRun u)
    then with_board (markCurrent netName (m_board u)) u else u in
  if bool_decide (pad_net pad ≠ netName) then
    let '(n, (u, changed)) := findOrAddNet netName netinfo (u, changed) in
    let u :=
      if negb (IsEmpty (pad_net pad)) then
        report (MsgReconnect fpRef (pad_name pad) (UnescapeString (m_frame u) (pad_net pad))
                             (UnescapeString (m_frame u) netName)) RPT_SEVERITY_ACTION
               (with_oldToNewNets (<[pad_net pad := netName]> (m_oldToNewNets u)) u)
      else
        report (MsgConnect fpRef (pad_name pad) (UnescapeString (m_frame u) netName))
               RPT_SEVERITY_ACTION u in
    if negb (m_isDryRun u) then (SetNet (net_name n) pad, (u, true))
    else (pad, (cacheNetname aPad netName u, changed))
  else (pad, (u, changed)).

(** The body of the loop over the pads of the footprint: [aPad] is the
    handle of [pad], [fpRef] is [aFootprint->GetReference()]. *)
Definition updatePad (aPad : PAD_REF) (fpRef : string) (aNewComponent : COMPONENT)
    (pad : PAD) (s : UPDATER * bool) : PAD * (UPDATER * bool) :=
  let net := GetNet aNewComponent (pad_name pad) in
  let pinFunction := if IsValid net then cn_pinFunction net else "" in
  let pinType := if IsValid net then cn_pinType net else "" in
  let '(pad, s) := syncPin aPad pinFunction pinType pad s in
  if negb (IsValid net) || negb (pad_onCopper pad)
  then disconnectPad aPad fpRef pad s
  else connectPad aPad fpRef (cn_netName net) pad s.

Fixpoint updatePads (aFootprint : FP_REF) (fpRef : string) (aNewComponent : COMPONENT)
    (j : nat) (pads : list PAD) (s : UPDATER * bool) : list PAD * (UPDATER * bool) :=
  match pads with
  | [] => ([], s)
  | pad :: rest =>
      let '(pad', s') := updatePad (aFootprint, j) fpRef aNewComponent pad s in
      let '(rest', s'') := updatePads aFootprint fpRef aNewComponent (S j) rest s' in
      (pad' :: rest', s'')
  end.

Definition updateComponentPadConnections (aFootprint : FP_REF)
    (aNewComponent : COMPONENT) (u : UPDATER) : UPDATER :=
  match deref u aFootprint with
  | None => u
  | Some f =>
      let copy := if GetStatus (m_commit u) aFootprint then None else Some f in
      let '(pads, (u, changed)) :=
        updatePads aFootprint (fp_reference f) aNewComponent 0%nat (fp_pads f) (u, false) in
      let u := store aFootprint (SetPads pads f) u in
      match copy with
      | Some cp => if changed then stage (ChModified aFootprint cp) u else u
      | None => u
      end
  end.

(** ** Zones and vias *)

Definition electrical (z : ZONE) : bool :=
  zone_onCopper z && negb (zone_isRuleArea z).

Definition cacheCopperZoneConnections (u : UPDATER) : UPDATER :=
  foldl (fun u kz =>
           if negb (zone_onCopper kz.2) || zone_isRuleArea kz.2 then u
           else with_zoneConnectionsCache
                  (<[kz.1 := zone_connectedPads kz.2]> (m_zoneConnectionsCache u)) u)
        u (imap (fun k z => (k, z)) (b_zones (m_board u))).

Definition netlistNetnames (aNetlist : NETLIST) : gset string :=
  list_to_set (List.concat (List.map (fun c => List.map cn_netName (c_nets c)) aNetlist)).

(** [FindNet( name )], then [m_addedNets[ name ]]: a missing key gets a null
    entry. *)
Definition resolveNet (name : string) (u : UPDATER) : option NETINFO_ITEM * UPDATER :=
  match FindNet name (m_board u) with
  | Some n => (Some n, u)
  | None =>
      match m_addedNets u !! name with
      | Some x => (x, u)
      | None => (None, with_addedNets (<[name := None]> (m_addedNets u)) u)
      end
  end.

Definition SetTrackNet (n : string) (t : TRACK) : TRACK :=
  {| track_type := track_type t; track_net := n |}.

Definition SetZoneNet (n : string) (z : ZONE) : ZONE :=
  {| zone_net := n; zone_onCopper := zone_onCopper z;
     zone_isRuleArea := zone_isRuleArea z;
     zone_connectedPads := zone_connectedPads z |}.

(** The body of the loop over the tracks. *)
Definition updateVia (names : gset string) (k : nat) (u : UPDATER) : UPDATER :=
  match b_tracks (m_board u) !! k with
  | None => u
  | Some via =>
      if negb (bool_decide (track_type via = PCB_VIA_T)) then u
      else if bool_decide (track_net via ∈ names) then u
      else
        let updatedNetname := default "" (m_oldToNewNets u !! track_net via) in
        if negb (IsEmpty updatedNetname) then
          let u := report (MsgReconnectVia (UnescapeString (m_frame u) (track_net via))
                                           (UnescapeString (m_frame u) updatedNetname))
                          RPT_SEVERITY_ACTION u in
          if negb (m_isDryRun u) then
            let '(netinfo, u) := resolveNet updatedNetname u in
            match netinfo with
            | Some n =>
                let u := stage (ChModifyTrack k) u in
                with_board (with_tracks (<[k := SetTrackNet (net_name n) via]>
                                           (b_tracks (m_board u))) (m_board u)) u
            | None => u
            end
          else u
        else
          inc_warningCount
            (report (MsgViaUnknownNet (UnescapeString (m_frame u) (track_net via)))
                    RPT_SEVERITY_WARNING u)
  end.

(** The body of the loop over the zones. *)
Definition updateZone (names : gset string) (k : nat) (u : UPDATER) : UPDATER :=
  match b_zones (m_board u) !! k with
  | None => u
  | Some zone =>
      if negb (zone_onCopper zone) || zone_isRuleArea zone then u
      else if bool_decide (zone_net zone ∈ names) then u
      else
        let '(cached, u) :=
          match m_zoneConnectionsCache u !! k with
          | Some pads => (pads, u)
          | None => ([], with_zoneConnectionsCache (<[k := []]> (m_zoneConnectionsCache u)) u)
          end in
        (* the first cached pad whose net name differs from the zone's *)
        let updatedNetname :=
          match List.find (fun pad => bool_decide (getNetname u pad ≠ zone_net zone)) cached with
          | Some pad => getNetname u pad
          | None => ""
          end in
        let updatedNetname :=
          if IsEmpty updatedNetname then default "" (m_oldToNewNets u !! zone_net zone)
          else updatedNetname in
        if negb (IsEmpty updatedNetname) then
          let u := report (MsgReconnectZone (UnescapeString (m_frame u) (zone_net zone))
                                            (UnescapeString (m_frame u) updatedNetname))
                          RPT_SEVERITY_ACTION u in
          if negb (m_isDryRun u) then
            let '(netinfo, u) := resolveNet updatedNetname u in
            match netinfo with
            | Some n =>
                let u := stage (ChModifyZone k) u in
                with_board (with_zones (<[k := SetZoneNet (net_name n) zone]>
                                          (b_zones (m_board u))) (m_board u)) u
            | None => u
            end
          else u
        else
          inc_warningCount
            (report (MsgZoneNoPads (UnescapeString (m_frame u) (zone_net zone)))
                    RPT_SEVERITY_WARNING u)
  end.

Definition updateCopperZoneNets (aNetlist : NETLIST) (u : UPDATER) : UPDATER :=
  let names := netlistNetnames aNetlist in
  let u := foldl (fun u k => updateVia names k u) u
                 (seq 0 (length (b_tracks (m_board u)))) in
  foldl (fun u k => updateZone names k u) u (seq 0 (length (b_zones (m_board u)))).

(** ** deleteSinglePadNets *)

(** [BOARD::GetPads]: the pads of the board's footprints, in board order. *)
Definition GetPads (b : BOARD) : list PAD_REF :=
  List.concat (imap (fun i f => imap (fun j _ => (OnBoard i, j)) (fp_pads f))
                    (b_footprints b)).

(** [std::sort] with the comparator [getNetname( a ) < getNetname( b )],
    here by insertion. *)
Fixpoint insertPad (u : UPDATER) (p : PAD_REF) (l : list PAD_REF) : list PAD_REF :=
  match l with
  | [] => [p]
  | q :: l' =>
      if String.ltb (getNetname u q) (getNetname u p)
      then q :: insertPad u p l' else p :: l
  end.

Definition sortPads (u : UPDATER) (l : list PAD_REF) : list PAD_REF :=
  foldr (insertPad u) [] l.

(** [aPad->SetNetCode( code )] through a handle. *)
Definition SetNetCode_at (aPad : PAD_REF) (code : Z) (u : UPDATER) : UPDATER :=
  match deref u aPad.1 with
  | None => u
  | Some f =>
      match fp_pads f !! aPad.2 with
      | None => u
      | Some pad =>
          store aPad.1
            (SetPads (<[aPad.2 := SetNet (NetnameOfCode code (m_board u)) pad]> (fp_pads f)) f) u
      end
  end.

(** What both places of the function do to a pad found alone on its net. *)
Definition clearPadNet (aPad : PAD_REF) (u : UPDATER) : UPDATER :=
  if negb (m_isDryRun u) then SetNetCode_at aPad UNCONNECTED u
  else cacheNetname aPad "" u.

(** Is a copper zone attached to this net? *)
Definition zoneOnNet (u : UPDATER) (name : string) : bool :=
  existsb (fun zone => zone_onCopper zone && negb (zone_isRuleArea zone)
                       && bool_decide (zone_net zone = name))
          (b_zones (m_board u)).

Record SCAN := {
  count : Z;
  netname : string;
  previouspad : option PAD_REF;
  scan_u : UPDATER
}.

(** The body of the loop over the sorted pad list. *)
Definition scanPad (s : SCAN) (pad : PAD_REF) : SCAN :=
  let u := scan_u s in
  if IsEmpty (getNetname u pad) then s
  else if bool_decide (netname s ≠ getNetname u pad) then
    (* end of net *)
    let u :=
      match previouspad s with
      | Some prev =>
          if bool_decide (count s = 1) then
            let count := if zoneOnNet u (getNetname u prev) then count s + 1 else count s in
            if bool_decide (count = 1) then
              clearPadNet prev
                (report (MsgRemoveSinglePadNet (UnescapeString (m_frame u) (getNetname u prev)))
                        RPT_SEVERITY_ACTION u)
            else u
          else u
      | None => u
      end in
    {| count := 1; netname := getNetname u pad; previouspad := Some pad; scan_u := u |}
  else
    {| count := count s + 1; netname := netname s; previouspad := Some pad; scan_u := u |}.

Definition deleteSinglePadNets (u : UPDATER) : UPDATER :=
  (* m_board->BuildListOfNets() rebuilds derived lists only *)
  let padlist := sortPads u (GetPads (m_board u)) in
  let s := foldl scanPad
                 {| count := 0; netname := ""; previouspad := None; scan_u := u |} padlist in
  (* examine last pad *)
  if bool_decide (count s = 1) then
    match previouspad s with
    | Some prev => clearPadNet prev (scan_u s)
    | None => scan_u s
    end
  else scan_u s.

(** ** testConnectivity *)

Definition testComponent (u : UPDATER) (ic : nat * COMPONENT) : UPDATER :=
  match footprintMap u !! ic.1 with
  | None => u       (* it can be missing in partial designs *)
  | Some r =>
      match deref u r with
      | None => u
      | Some footprint =>
          foldl (fun u net =>
                   if bool_decide (is_Some (FindPadByName (cn_pinName net) footprint)) then u
                   else inc_errorCount
                          (report (MsgPadNotFound (c_reference ic.2) (cn_pinName net)
                                                  (fp_fpid footprint))
                                  RPT_SEVERITY_ERROR u))
                u (c_nets ic.2)
      end
  end.

Definition testConnectivity (aNetlist : NETLIST) (u : UPDATER) : UPDATER :=
  foldl testComponent u (imap (fun i c => (i, c)) aNetlist).

(** ** The transaction, applied *)

(** Modelled from the spec: [NETINFO_LIST::RemoveUnusedNets] of
    netinfo_list.cpp, "at the end, any net still stale is removed". *)
Definition RemoveUnusedNets (b : BOARD) : BOARD :=
  with_nets (List.filter net_isCurrent (b_nets b)) b.

(** Modelled from the spec: a net added to the board gets a "unique integer
    code" and the registry keeps a "unique net name". *)
Definition freeNetCode (nets : list NETINFO_ITEM) : Z :=
  1 + foldr (fun n m => Z.max (net_code n) m) 0 nets.

Definition AppendNet (n : NETINFO_ITEM) (nets : list NETINFO_ITEM) : list NETINFO_ITEM :=
  if existsb (fun n' => bool_decide (net_name n' = net_name n)) nets then nets
  else nets ++ [{| net_name := net_name n; net_code := freeNetCode nets;
                   net_isCurrent := net_isCurrent n |}].

(** The nets staged for addition join the registry. *)
Definition pushNets (nets : list NETINFO_ITEM) (changes : list CHANGE) : list NETINFO_ITEM :=
  foldl (fun nets c => match c with ChAddNet n => AppendNet n nets | _ => nets end)
        nets changes.

Definition isRemoved (changes : list CHANGE) (r : FP_REF) : bool :=
  existsb (fun c => match c with ChRemove r' => bool_decide (r' = r) | _ => false end) changes.

(** Modelled from the spec: [BOARD_COMMIT::Push] of board_commit.cpp applies
    the pending mutations "atomically": the footprints staged for removal
    leave the board, the footprints and the nets staged for addition join
    it, in the order they were staged. *)
Definition Push (u : UPDATER) : UPDATER :=
  let changes := m_commit u in
  let kept :=
    omap (fun kf : nat * FOOTPRINT => if isRemoved changes (OnBoard kf.1) then None else Some kf.2)
         (imap (fun k f => (k, f)) (b_footprints (m_board u))) in
  let added :=
    omap (fun c => match c with
                   | ChAdd r => if isRemoved changes r then None else deref u r
                   | _ => None
                   end) changes in
  let nets := pushNets (b_nets (m_board u)) changes in
  with_commit [] (with_board (with_nets nets (with_footprints (kept ++ added) (m_board u))) u).

(** ** UpdateNetlist *)

(** The test in the loop over the board footprints. *)
Definition matches (u : UPDATER) (footprint : FOOTPRINT) (component : COMPONENT) : bool :=
  if m_lookupByTimestamp u then bool_decide (fp_path footprint = c_path component)
  else CmpNoCase_eq (fp_reference footprint) (c_reference component).

(** What the loop over the board footprints does with a footprint that
    matches: [i] is the position of the component in the netlist, [k] the
    position of the footprint on the board. *)
Definition updateMatched (i : nat) (component : COMPONENT) (k : nat)
    (footprint : FOOTPRINT) (u : UPDATER) : UPDATER :=
  let '(tmp, u) :=
    if m_replaceFootprints u && bool_decide (c_fpid component ≠ fp_fpid footprint)
    then replaceComponent (OnBoard k) footprint component u
    else (Some (OnBoard k), u) in
  match tmp with
  | Some t =>
      let u := with_footprintMap (<[i := t]> (footprintMap u)) u in
      let u := updateFootprintParameters t component u in
      updateComponentPadConnections t component u
  | None => u
  end.

(** The body of the loop over the board footprints. *)
Definition scanStep (i : nat) (component : COMPONENT) (k : nat)
    (s : UPDATER * Z) : UPDATER * Z :=
  let '(u, matchCount) := s in
  match b_footprints (m_board u) !! k with
  | None => s
  | Some footprint =>
      if matches u footprint component
      then (updateMatched i component k footprint u, matchCount + 1)
      else s
  end.

(** The loop over the board footprints: it ends after the footprint that is
    [lastPreexistingFootprint]. *)
Fixpoint scanFootprints (i : nat) (component : COMPONENT)
    (lastPreexistingFootprint : option nat) (ks : list nat)
    (s : UPDATER * Z) : UPDATER * Z :=
  match ks with
  | [] => s
  | k :: ks' =>
      let s' := scanStep i component k s in
      if bool_decide (Some k = lastPreexistingFootprint) then s'
      else scanFootprints i component lastPreexistingFootprint ks' s'
  end.

(** The body of the loop over the netlist. *)
Definition processComponent (lastPreexistingFootprint : option nat)
    (u : UPDATER) (ic : nat * COMPONENT) : UPDATER :=
  let '(i, component) := ic in
  if has_property (c_properties component) "exclude_from_board" then u
  else
    let u := report (MsgProcessingSymbol (c_reference component) (c_fpid component))
                    RPT_SEVERITY_INFO u in
    let '(u, matchCount) :=
      scanFootprints i component lastPreexistingFootprint
                     (seq 0 (length (b_footprints (m_board u)))) (u, 0) in
    if bool_decide (matchCount = 0) then
      let '(footprint, u) := addNewComponent component u in
      match footprint with
      | Some t =>
          let u := with_footprintMap (<[i := t]> (footprintMap u)) u in
          let u := updateFootprintParameters t component u in
          updateComponentPadConnections t component u
      | None => u
      end
    else if bool_decide (1 < matchCount) then
      report (MsgMultipleFootprints (c_reference component)) RPT_SEVERITY_ERROR u
    else u.

(** The component the sweep looks up for a board footprint. *)
Definition sweepComponent (aNetlist : NETLIST) (u : UPDATER) (footprint : FOOTPRINT)
    : option COMPONENT :=
  if m_lookupByTimestamp u then GetComponentByPath aNetlist (fp_path footprint)
  else GetComponentByReference aNetlist (fp_reference footprint).

(** The test of the sweep: is the footprint to be deleted? *)
Definition doDelete (aNetlist : NETLIST) (u : UPDATER) (footprint : FOOTPRINT) : bool :=
  let doDelete := m_deleteUnusedComponents u in
  let doDelete :=
    if Z.ltb 0 (Z.land (fp_attributes footprint) FP_BOARD_ONLY) then false else doDelete in
  if doDelete then
    match sweepComponent aNetlist u footprint with
    | Some c => if has_property (c_properties c) "exclude_from_board" then doDelete else false
    | None => doDelete
    end
  else doDelete.

(** The body of the loop over the board footprints that have no component. *)
Definition sweepFootprint (aNetlist : NETLIST) (u : UPDATER) (k : nat) : UPDATER :=
  match b_footprints (m_board u) !! k with
  | None => u
  | Some footprint =>
      let doDelete := doDelete aNetlist u footprint in
      let '(doDelete, u) :=
        if doDelete && fp_locked footprint then
          (false, report (MsgCannotRemoveLocked (fp_reference footprint))
                         RPT_SEVERITY_WARNING u)
        else (doDelete, u) in
      if doDelete then
        let u := report (MsgRemoveUnusedFootprint (fp_reference footprint))
                        RPT_SEVERITY_ACTION u in
        if negb (m_isDryRun u) then stage (ChRemove (OnBoard k)) u else u
      else if negb (m_isDryRun u) then
        with_board (foldl (fun b pad => markCurrent (pad_net pad) b) (m_board u)
                          (fp_pads footprint)) u
      else u
  end.

Definition removeStaleNet (u : UPDATER) (net : NETINFO_ITEM) : UPDATER :=
  if negb (net_isCurrent net) then
    stage (ChRemovedNet net)
          (report (MsgRemoveUnusedNet (net_name net)) RPT_SEVERITY_ACTION u)
  else u.

(** [m_board->Footprints().back()], or null on an empty board. *)
Definition lastPreexisting (b : BOARD) : option nat :=
  match b_footprints b with
  | [] => None
  | _ :: _ => Some (length (b_footprints b) - 1)%nat
  end.

Definition UpdateNetlist (aNetlist : NETLIST) (u : UPDATER) : UPDATER :=
  let u := with_footprintMap ∅ (with_counts 0 0 0 u) in
  let lastPreexistingFootprint := lastPreexisting (m_board u) in
  let u := cacheCopperZoneConnections u in
  (* mark all nets (except <no net>) as stale; m_board->SetStatus( 0 ) touches
     no item of the board *)
  let u :=
    if negb (m_isDryRun u) then
      with_board (with_nets (List.map (fun net => SetIsCurrent (bool_decide (net_code net = 0)) net)
                                      (b_nets (m_board u))) (m_board u)) u
    else u in
  let u := foldl (processComponent lastPreexistingFootprint) u
                 (imap (fun i c => (i, c)) aNetlist) in
  let u := updateCopperZoneNets aNetlist u in
  let u := foldl (sweepFootprint aNetlist) u (seq 0 (length (b_footprints (m_board u)))) in
  let u :=
    if negb (m_isDryRun u) then
      let u := testConnectivity aNetlist u in
      let u := if m_deleteSinglePadNets u then deleteSinglePadNets u else u in
      let u := foldl removeStaleNet u (b_nets (m_board u)) in
      Push (with_board (RemoveUnusedNets (m_board u)) u)
    else if m_deleteSinglePadNets u && bool_decide (m_newFootprintsCount u = 0) then
      deleteSinglePadNets u
    else u in
  let u := if m_isDryRun u then with_addedNets ∅ u else u in
  let u := reportTail MsgEmpty RPT_SEVERITY_ACTION u in
  let u := reportTail MsgEmpty RPT_SEVERITY_ACTION u in
  reportTail (MsgTotal (m_warningCount u) (m_errorCount u)) RPT_SEVERITY_INFO u.

(** * Statements

    Definitions used to state the properties of the pass, and the boards and
    netlists on which they are evaluated. *)


(** The reports of a given severity made through [Report]. *)
Definition reportsOf (sev : SEVERITY) (log : list REPORT) : list MSG :=
  omap (fun r => match r with
                 | Report msg sev' => if bool_decide (sev' = sev) then Some msg else None
                 | ReportTail _ _ => None
                 end) log.

(** ** Sample data *)

Definition ex_pad (name net : string) : PAD :=
  {| pad_name := name; pad_pinFunction := ""; pad_pinType := ""; pad_net := net;
     pad_onCopper := true; pad_locked := false |}.

Definition ex_footprint (ref value fpid : string) (pads : list PAD) : FOOTPRINT :=
  {| fp_reference := ref; fp_value := value; fp_path := "/" +:+ ref; fp_fpid := fpid;
     fp_properties := ∅; fp_attributes := 0; fp_locked := false; fp_pads := pads |}.

(** A library with one resistor footprint; an exchange that keeps the nets of
    the pads of the same name.  The net names of the sample data have no
    escape sequence: they are shown as they are. *)
Definition ex_frame : FRAME :=
  {| LoadFootprint := fun id =>
       if bool_decide (id = "Resistor_SMD:R_0603")
       then Some (ex_footprint "REF**" "R_0603" "Resistor_SMD:R_0603"
                               [ex_pad "1" "lib"; ex_pad "2" "lib"])
       else None;
     ExchangeFootprint := fun old new =>
       SetPads (List.map (fun pad =>
                            SetNet (from_option pad_net "" (FindPadByName (pad_name pad) old)) pad)
                         (fp_pads new)) new;
     m_AddUnlockedPads := true;
     UnescapeString := fun name => name |}.

Definition ex_pin (pin net : string) : COMPONENT_NET :=
  {| cn_pinName := pin; cn_netName := net; cn_pinFunction := ""; cn_pinType := "" |}.

Definition ex_component (ref value fpid : string) (props : gmap string string)
    (nets : list COMPONENT_NET) : COMPONENT :=
  {| c_reference := ref; c_value := value; c_path := "/" +:+ ref; c_fpid := fpid;
     c_properties := props; c_nets := nets |}.

Definition ex_net (name : string) (code : Z) : NETINFO_ITEM :=
  {| net_name := name; net_code := code; net_isCurrent := true |}.

Definition ex_board (fps : list FOOTPRINT) (nets : list NETINFO_ITEM)
    (zones : list ZONE) (tracks : list TRACK) : BOARD :=
  {| b_footprints := fps; b_nets := nets; b_zones := zones; b_tracks := tracks |}.

(** A board with one resistor, and a component with no footprint assigned. *)
Definition ex_R1 : FOOTPRINT :=
  ex_footprint "R1" "10k" "Resistor_SMD:R_0603" [ex_pad "1" "A"; ex_pad "2" "B"].

Definition ex_nets : list NETINFO_ITEM := [ex_net "" 0; ex_net "A" 1; ex_net "B" 2].

Definition ex_board_R1 : BOARD := ex_board [ex_R1] ex_nets [] [].



(** A locked footprint that no component of the netlist designates. *)
Definition ex_U1_locked : FOOTPRINT :=
  {| fp_reference := "U1"; fp_value := "LM358"; fp_path := "/U1";
     fp_fpid := "Package_SO:SOIC-8"; fp_properties := ∅; fp_attributes := 0;
     fp_locked := true; fp_pads := [ex_pad "1" "A"; ex_pad "2" "A"] |}.

Definition ex_board_U1 : BOARD := ex_board [ex_U1_locked] [ex_net "" 0; ex_net "A" 1] [] [].

(** A resistor between two nets it is alone on, each of them filled by a
    copper zone. *)
Definition ex_zone (net : string) (connected : list PAD_REF) : ZONE :=
  {| zone_net := net; zone_onCopper := true; zone_isRuleArea := false;
     zone_connectedPads := connected |}.

Definition ex_R1_AZ : FOOTPRINT :=
  ex_footprint "R1" "10k" "Resistor_SMD:R_0603" [ex_pad "1" "A"; ex_pad "2" "Z"].

Definition ex_board_zones : BOARD :=
  ex_board [ex_R1_AZ] [ex_net "" 0; ex_net "A" 1; ex_net "Z" 2]
           [ex_zone "A" []; ex_zone "Z" []] [].

Definition ex_R1_AZ_component : COMPONENT :=
  ex_component "R1" "10k" "Resistor_SMD:R_0603" ∅ [ex_pin "1" "A"; ex_pin "2" "Z"].

(** Two footprints with the reference of one component. *)
Definition ex_twin (value : string) : FOOTPRINT :=
  ex_footprint "R1" value "Resistor_SMD:R_0603" [ex_pad "1" "A"; ex_pad "2" "B"].

Definition ex_board_twins : BOARD := ex_board [ex_twin "1k"; ex_twin "2k"] ex_nets [] [].

Definition ex_R1_component : COMPONENT :=
  ex_component "R1" "10k" "Resistor_SMD:R_0603" ∅ [ex_pin "1" "A"; ex_pin "2" "B"].

(** ** The repair of zones and vias *)









(** ** What every step of the pass preserves *)

Record same_options (u u' : UPDATER) : Prop := {
  so_frame : m_frame u' = m_frame u;
  so_deleteSinglePadNets : m_deleteSinglePadNets u' = m_deleteSinglePadNets u;
  so_deleteUnusedComponents : m_deleteUnusedComponents u' = m_deleteUnusedComponents u;
  so_isDryRun : m_isDryRun u' = m_isDryRun u;
  so_replaceFootprints : m_replaceFootprints u' = m_replaceFootprints u;
  so_lookupByTimestamp : m_lookupByTimestamp u' = m_lookupByTimestamp u;
  so_warnForNoNetPads : m_warnForNoNetPads u' = m_warnForNoNetPads u
}.

(** A net of the registry keeps its name and its code, and stays current
    once it is. *)
Definition net_le (n n' : NETINFO_ITEM) : Prop :=
  net_name n' = net_name n /\ net_code n' = net_code n /\
  (net_isCurrent n = true -> net_isCurrent n' = true).

(** [steps u u']: the state [u'] is reached from [u] by steps of the pass
    before the transaction is applied.  The options are the same; in a dry
    run the board, the transaction and the store of new footprints are the
    same; in any run the board has as many footprints, the registry has the
    same nets, no net is made stale, the transaction only grows; in a
    committing run a net added to [m_addedNets] is staged under its name. *)
Record steps (u u' : UPDATER) : Prop := {
  st_options : same_options u u';
  st_dry : m_isDryRun u = true ->
           m_board u' = m_board u /\ m_commit u' = m_commit u /\
           m_newFootprints u' = m_newFootprints u;
  st_length : length (b_footprints (m_board u')) = length (b_footprints (m_board u));
  st_nets : Forall2 net_le (b_nets (m_board u)) (b_nets (m_board u'));
  st_commit : m_commit u `prefix_of` m_commit u';
  st_new : (length (m_newFootprints u) <= length (m_newFootprints u'))%nat;
  st_added : m_isDryRun u = false ->
             forall name n, m_addedNets u' !! name = Some (Some n) ->
                            m_addedNets u !! name = Some (Some n) \/
                            (net_name n = name /\ ChAddNet n ∈ m_commit u')
}.

(** The footprint objects, on the board and staged, are the same. *)
Definition fps_same (u u' : UPDATER) : Prop :=
  b_footprints (m_board u') = b_footprints (m_board u) /\
  m_newFootprints u' = m_newFootprints u.

(** A netlist that changes the value and a net of R1 and brings in R2. *)
Definition ex_netlist_changes : NETLIST :=
  [ex_component "R1" "22k" "Resistor_SMD:R_0603" ∅ [ex_pin "1" "C"; ex_pin "2" "B"];
   ex_component "R2" "1k" "Resistor_SMD:R_0603" ∅ [ex_pin "1" "C"; ex_pin "2" "B"]].

(** ** The scan of the board footprints *)

(** Does the footprint at position [k] match the component? *)
Definition matchesAt (u : UPDATER) (c : COMPONENT) (k : nat) : bool :=
  from_option (fun f => matches u f c) false (b_footprints (m_board u) !! k).

(** [updateMatched] on the footprint found at position [k]. *)
Definition updateMatchedAt (i : nat) (c : COMPONENT) (u : UPDATER) (k : nat) : UPDATER :=
  match b_footprints (m_board u) !! k with
  | Some f => updateMatched i c k f u
  | None => u
  end.

(** The board footprints other than the one behind [r] are the same. *)
Definition board_others (r : FP_REF) (u u' : UPDATER) : Prop :=
  forall k, r ≠ OnBoard k ->
            b_footprints (m_board u') !! k = b_footprints (m_board u) !! k.

(** The metadata of the footprint are those of the component. *)
Definition metadata_synced (f : FOOTPRINT) (c : COMPONENT) : Prop :=
  fp_reference f = c_reference c /\ fp_value f = c_value c /\
  fp_path f = c_path c /\ fp_properties f = c_properties c /\
  hasExcludeFromBOM (fp_attributes f) = has_property (c_properties c) "exclude_from_bom".

(** The footprint the metadata sync of a committing run leaves. *)
Definition syncedAttributes (c : COMPONENT) (a : Z) : Z :=
  if Bool.eqb (has_property (c_properties c) "exclude_from_bom") (hasExcludeFromBOM a) then a
  else if has_property (c_properties c) "exclude_from_bom"
       then Z.lor a FP_EXCLUDE_FROM_BOM
       else Z.land a (Z.lnot FP_EXCLUDE_FROM_BOM).

Definition syncedFootprint (c : COMPONENT) (f : FOOTPRINT) : FOOTPRINT :=
  {| fp_reference := c_reference c; fp_value := c_value c; fp_path := c_path c;
     fp_fpid := fp_fpid f; fp_properties := c_properties c;
     fp_attributes := syncedAttributes c (fp_attributes f);
     fp_locked := fp_locked f; fp_pads := fp_pads f |}.

Definition ex_updater_twins : UPDATER :=
  SetOptions true false false false false false
             (BOARD_NETLIST_UPDATER ex_frame ex_board_twins).

(** ** Nets and the pads bound to them *)

Definition registered (b : BOARD) (name : string) : Prop :=
  exists n, n ∈ b_nets b /\ net_name n = name.

Definition current (b : BOARD) (name : string) : Prop :=
  exists n, n ∈ b_nets b /\ net_name n = name /\ net_isCurrent n = true.

(** A net minted in this pass and staged for addition. *)
Definition staged_net (u : UPDATER) (name : string) : Prop :=
  exists n, ChAddNet n ∈ m_commit u /\ net_name n = name.

Definition known (u : UPDATER) (name : string) : Prop :=
  registered (m_board u) name \/ staged_net u name.

Definition live (u : UPDATER) (name : string) : Prop :=
  current (m_board u) name \/ staged_net u name.

Definition pads_known (u : UPDATER) (f : FOOTPRINT) : Prop :=
  Forall (fun p => known u (pad_net p)) (fp_pads f).

Definition pads_live (u : UPDATER) (f : FOOTPRINT) : Prop :=
  Forall (fun p => live u (pad_net p)) (fp_pads f).

(** The registry has the unconnected net, of code 0 and without name, and
    the nets of code 0 are current. *)
Definition has_sentinel (b : BOARD) : Prop :=
  exists n, n ∈ b_nets b /\ net_code n = 0 /\ net_name n = "".

Definition sentinel_current (b : BOARD) : Prop :=
  forall n, n ∈ b_nets b -> net_code n = 0 -> net_isCurrent n = true.

(** The invariant of a committing pass: the pads of the board are bound to
    nets the registry or the transaction knows, the pads of the footprints
    created in the pass to nets that are current or staged (but for the
    footprint [ex], which is being created), and the nets of [m_addedNets]
    are staged under their names. *)
Record net_inv (ex : option nat) (u : UPDATER) : Prop := {
  ni_dry : m_isDryRun u = false;
  ni_board : Forall (pads_known u) (b_footprints (m_board u));
  ni_new : forall j f, m_newFootprints u !! j = Some f ->
                       if bool_decide (ex = Some j) then pads_known u f else pads_live u f;
  ni_added : forall name n, m_addedNets u !! name = Some (Some n) ->
                            net_name n = name /\ ChAddNet n ∈ m_commit u;
  ni_sentinel : has_sentinel (m_board u) /\ sentinel_current (m_board u)
}.

(** The pads of an exchanged footprint are unconnected or on a net of the
    footprint it replaces. *)
Definition exchange_keeps_nets (fr : FRAME) : Prop :=
  forall old new p, p ∈ fp_pads (ExchangeFootprint fr old new) ->
                    pad_net p = "" \/ exists q, q ∈ fp_pads old /\ pad_net q = pad_net p.

(** Net liveness in the words of the specification: a net is in the registry
    if and only if it is bound to a pad or is the net of code 0. *)
Definition bound_to_pad (b : BOARD) (name : string) : Prop :=
  exists f p, f ∈ b_footprints b /\ p ∈ fp_pads f /\ pad_net p = name.

Definition spec_net_liveness (b : BOARD) : Prop :=
  (forall n, n ∈ b_nets b -> bound_to_pad b (net_name n) \/ net_code n = 0) /\
  (forall name, bound_to_pad b name -> registered b name).

(** After the sweep: a board footprint below position [K] is staged for
    removal or has its pads on nets that are current or staged. *)
Definition swept (K : nat) (u : UPDATER) : Prop :=
  forall k f, (k < K)%nat -> b_footprints (m_board u) !! k = Some f ->
              isRemoved (m_commit u) (OnBoard k) = true \/ pads_live u f.

(** ** Two passes in succession *)

(** The Actions reported so far. *)
Definition actions (u : UPDATER) : list MSG :=
  reportsOf RPT_SEVERITY_ACTION (m_reporter u).

Definition excluded (c : COMPONENT) : bool :=
  has_property (c_properties c) "exclude_from_board".

(** The pad the pad update of a committing run leaves, on a board whose
    unconnected net has no name. *)
Definition syncedPad (c : COMPONENT) (pad : PAD) : PAD :=
  let net := GetNet c (pad_name pad) in
  let pad :=
    SetPinType (if IsValid net then cn_pinType net else "")
               (SetPinFunction (if IsValid net then cn_pinFunction net else "") pad) in
  if negb (IsValid net) || negb (pad_onCopper pad)
  then SetPinFunction "" (SetNet "" pad)
  else SetNet (cn_netName net) pad.

(** The footprint the metadata sync and the pad update leave. *)
Definition synced (c : COMPONENT) (f : FOOTPRINT) : FOOTPRINT :=
  SetPads (syncedPad c <$> fp_pads f) (syncedFootprint c f).

(** What a footprint and a component are matched on. *)
Definition footprintKey (byTimestamp : bool) (f : FOOTPRINT) : string :=
  if byTimestamp then fp_path f else MakeLower (fp_reference f).

Definition componentKey (byTimestamp : bool) (c : COMPONENT) : string :=
  if byTimestamp then c_path c else MakeLower (c_reference c).

(** No footprint can be loaded for the component. *)
Definition cannot_add (fr : FRAME) (c : COMPONENT) : Prop :=
  IsEmpty (c_fpid c) = true \/ LoadFootprint fr (c_fpid c) = None.

(** The vias and the copper zones are on nets of the netlist: the repair of
    zones and vias has nothing to do. *)
Definition items_on_netlist (nl : NETLIST) (b : BOARD) : Prop :=
  (forall t, t ∈ b_tracks b -> track_type t = PCB_VIA_T ->
             track_net t ∈ netlistNetnames nl) /\
  (forall z, z ∈ b_zones b -> electrical z = true -> zone_net z ∈ netlistNetnames nl).

(** The board is what a pass with the options of [u] leaves for the netlist:
    a footprint a component matches is as the component has it, a component
    nothing matches cannot be added, no footprint is to be removed, and every
    net but the unconnected one is bound to a pad. *)
Record board_in_sync (nl : NETLIST) (u : UPDATER) (b : BOARD) : Prop := {
  bs_matched : forall c f, c ∈ nl -> excluded c = false -> f ∈ b_footprints b ->
                           matches u f c = true -> synced c f = f;
  bs_unmatched : forall c, c ∈ nl -> excluded c = false ->
                           (forall f, f ∈ b_footprints b -> matches u f c = false) ->
                           cannot_add (m_frame u) c;
  bs_kept : forall f, f ∈ b_footprints b -> doDelete nl u f && negb (fp_locked f) = false;
  bs_items : items_on_netlist nl b;
  bs_nets : forall n, n ∈ b_nets b -> net_code n = 0 \/ bound_to_pad b (net_name n);
  bs_unconnected : NetnameOfCode UNCONNECTED b = ""
}.

(** The footprints and the nets of the board are what a pass with the
    options of [u] leaves for the netlist: [board_in_sync] but for the vias
    and the zones. *)
Record footprints_in_sync (nl : NETLIST) (u : UPDATER) (b : BOARD) : Prop := {
  fs_matched : forall c f, c ∈ nl -> excluded c = false -> f ∈ b_footprints b ->
                           matches u f c = true -> synced c f = f;
  fs_unmatched : forall c, c ∈ nl -> excluded c = false ->
                           (forall f, f ∈ b_footprints b -> matches u f c = false) ->
                           cannot_add (m_frame u) c;
  fs_kept : forall f, f ∈ b_footprints b -> doDelete nl u f && negb (fp_locked f) = false;
  fs_nets : forall n, n ∈ b_nets b -> net_code n = 0 \/ bound_to_pad b (net_name n);
  fs_unconnected : NetnameOfCode UNCONNECTED b = ""
}.

(** The net name of the pad of the board behind a handle; a handle that
    designates no pad of the board reads as the empty name. *)
Definition netnameOn (b : BOARD) (pad : PAD_REF) : string :=
  match pad.1 with
  | OnBoard i => from_option pad_net "" (f ← b_footprints b !! i; fp_pads f !! pad.2)
  | Staged _ => ""
  end.

(** The repair of zones has nothing to adopt: for every copper zone that is
    not a rule area and whose net the netlist does not name, the first
    connected pad whose net name differs from the zone's, if there is one,
    has no net. *)
Definition zones_at_rest (nl : NETLIST) (b : BOARD) : Prop :=
  Forall (fun zone =>
            electrical zone = true -> zone_net zone ∉ netlistNetnames nl ->
            from_option (netnameOn b) ""
              (List.find (fun pad => bool_decide (netnameOn b pad ≠ zone_net zone))
                         (zone_connectedPads zone)) = "")
         (b_zones b).

(** The updater of a committing pass that neither prunes the single-pad nets
    nor replaces footprints. *)
Definition committingUpdater (fr : FRAME) (deleteUnused byTimestamp warn : bool)
    (b : BOARD) : UPDATER :=
  SetOptions false deleteUnused false false byTimestamp warn (BOARD_NETLIST_UPDATER fr b).

(** A net is marked in a step only if its name is in [S]. *)
Definition net_marked (S : string -> Prop) (n n' : NETINFO_ITEM) : Prop :=
  net_name n' = net_name n /\ net_code n' = net_code n /\
  (net_isCurrent n' = true -> net_isCurrent n = true \/ S (net_name n)).

(** A change a pad update stages: a snapshot, or a net of [S]. *)
Definition minor (S : string -> Prop) (ch : CHANGE) : Prop :=
  match ch with
  | ChModified _ _ => True
  | ChAddNet n => S (net_name n)
  | _ => False
  end.

(** [delta S u u']: steps of a committing pass that mark and mint nets of
    [S] only, and leave the zones and the tracks alone. *)
Record delta (S : string -> Prop) (u u' : UPDATER) : Prop := {
  d_steps : steps u u';
  d_marks : Forall2 (net_marked S) (b_nets (m_board u)) (b_nets (m_board u'));
  d_zones : b_zones (m_board u') = b_zones (m_board u);
  d_tracks : b_tracks (m_board u') = b_tracks (m_board u);
  d_commit : forall ch, ch ∈ m_commit u' -> ch ∈ m_commit u \/ minor S ch
}.

(** The footprint objects other than the one behind [r] are the same. *)
Definition others (r : FP_REF) (u u' : UPDATER) : Prop :=
  forall r', r' ≠ r -> deref u' r' = deref u r'.

(** What the pad update relies on: the unconnected net has no name, and a
    net of [m_addedNets] is filed under its name. *)
Definition pads_ready (u : UPDATER) : Prop :=
  m_isDryRun u = false /\
  NetnameOfCode UNCONNECTED (m_board u) = "" /\
  (forall name n, m_addedNets u !! name = Some (Some n) -> net_name n = name).

Definition padsOn (name : string) (pads : list PAD) : Prop :=
  exists p, p ∈ pads /\ pad_net p = name.

(** Every net of that name is marked current. *)
Definition all_current (b : BOARD) (name : string) : Prop :=
  forall n, n ∈ b_nets b -> net_name n = name -> net_isCurrent n = true.

(** [calm u u']: from [u] to [u'] the snapshot of the zone connections is
    the same and the Actions have only grown; the rename map and the number
    of new footprints are the same unless an Action has been reported. *)
Definition calm (u u' : UPDATER) : Prop :=
  m_zoneConnectionsCache u' = m_zoneConnectionsCache u /\
  (length (actions u) <= length (actions u'))%nat /\
  (m_oldToNewNets u' = m_oldToNewNets u /\
   length (m_newFootprints u') = length (m_newFootprints u) \/
   (length (actions u) < length (actions u'))%nat).



(** A footprint a component of [pre] has been synchronised with, a net bound
    to a pad of such a footprint, and a change of the transaction the pass has
    staged for them. *)
Definition owned (pre : list COMPONENT) (f : FOOTPRINT) : Prop :=
  exists c, c ∈ pre /\ excluded c = false /\ synced c f = f.

Definition bound (pre : list COMPONENT) (v : UPDATER) (name : string) : Prop :=
  exists r f, deref v r = Some f /\ owned pre f /\ padsOn name (fp_pads f).

Definition tracked (pre : list COMPONENT) (v : UPDATER) (ch : CHANGE) : Prop :=
  match ch with
  | ChAdd (Staged j) => (j < length (m_newFootprints v))%nat
  | ChModified _ _ => True
  | ChAddNet n => bound pre v (net_name n)
  | _ => False
  end.

(** The invariant of the loop over the netlist, in a committing pass that
    replaces no footprint, once the components [pre] have been processed: a
    footprint one of them matches is in sync with it, each of them has its
    footprint unless none can be loaded, the new footprints are theirs, and
    the nets marked or minted so far are bound to pads of their footprints. *)
Record pass_inv (u : UPDATER) (pre : list COMPONENT) (v : UPDATER) : Prop := {
  pi_ready : pads_ready v;
  pi_steps : steps u v;
  pi_zones : b_zones (m_board v) = b_zones (m_board u);
  pi_tracks : b_tracks (m_board v) = b_tracks (m_board u);
  pi_matched : forall r f c, deref v r = Some f -> c ∈ pre -> excluded c = false ->
                             matches u f c = true -> synced c f = f;
  pi_served : forall c, c ∈ pre -> excluded c = false ->
                        cannot_add (m_frame u) c \/
                        exists r f, deref v r = Some f /\ synced c f = f;
  pi_new : forall j f, m_newFootprints v !! j = Some f -> owned pre f;
  pi_marks : forall n, n ∈ b_nets (m_board v) -> net_isCurrent n = true ->
                       net_code n = 0 \/ bound pre v (net_name n);
  pi_commit : forall ch, ch ∈ m_commit v -> tracked pre v ch;
  pi_adds : forall j, (j < length (m_newFootprints v))%nat -> ChAdd (Staged j) ∈ m_commit v;
  pi_sentinel : sentinel_current (m_board v)
}.


(** The updater of a committing pass that replaces footprints and does not
    prune the single-pad nets. *)
Definition replacingUpdater (fr : FRAME) (b : BOARD) : UPDATER :=
  SetOptions false false false true false false (BOARD_NETLIST_UPDATER fr b).

(** The updater of a committing pass that prunes the single-pad nets and
    does not replace footprints. *)
Definition pruningUpdater (fr : FRAME) (b : BOARD) : UPDATER :=
  SetOptions true false false false false false (BOARD_NETLIST_UPDATER fr b).



(** An updater whose transaction holds the addition of a net Z before the
    pass starts. *)
Definition ex_updater_pending : UPDATER :=
  stage (ChAddNet (new_NETINFO_ITEM "Z"))
        (committingUpdater ex_frame false false false ex_board_R1).

(** A resistor on a three-pad footprint the netlist wants replaced by the
    two-pad footprint of the library. *)
Definition ex_board_old : BOARD :=
  ex_board [ex_footprint "R1" "10k" "Resistor_SMD:R_0402"
              [ex_pad "1" "A"; ex_pad "2" "B"; ex_pad "3" "C"]]
           (ex_nets ++ [ex_net "C" 3]) [] [].


Definition ex_netlist_both : NETLIST :=
  [ex_R1_component;
   ex_component "R1" "10k" "Resistor_SMD:R_0603" ∅ [ex_pin "1" "A"; ex_pin "2" "A"]].


(** A board with a resistor matched under another reference, a footprint no
    component designates, a via and a zone, and a netlist that renames the
    resistor, moves a pin to a new net and brings in a second resistor. *)
Definition ex_board_mixed : BOARD :=
  ex_board [ex_footprint "r1" "1k" "Resistor_SMD:R_0603" [ex_pad "1" "A"; ex_pad "2" "B"];
            ex_footprint "U8" "NE555" "Package_DIP:DIP-8" [ex_pad "1" "B"]]
           (ex_nets ++ [ex_net "OLD" 3])
           [ex_zone "B" [(OnBoard 0, 1%nat)]]
           [{| track_type := PCB_VIA_T; track_net := "A" |}].

Definition ex_netlist_mixed : NETLIST :=
  [ex_component "R1" "10k" "Resistor_SMD:R_0603" ∅ [ex_pin "1" "A"; ex_pin "2" "C"];
   ex_component "R2" "1k" "Resistor_SMD:R_0603" ∅ [ex_pin "1" "C"; ex_pin "2" "B"];
   ex_component "C5" "100n" "" ∅ [ex_pin "1" "A"]].

(** * Further statements *)

(** ** The pruning of single-pad nets *)

(** The pad is the only pad of the list on its net. *)
Definition alone (u : UPDATER) (L : list PAD_REF) (p : PAD_REF) : Prop :=
  getNetname u p ≠ "" /\ forall q, q ∈ L -> getNetname u q = getNetname u p -> q = p.

(** The order [std::sort] leaves the pad list in: no pad comes before a pad
    of a smaller net name. *)
Definition sorted_by_netname (u : UPDATER) (L : list PAD_REF) : Prop :=
  forall i j a b, (i < j)%nat -> L !! i = Some a -> L !! j = Some b ->
                  String.ltb (getNetname u b) (getNetname u a) = false.

(** The invariant of the scan of the sorted pad list [L], once the pads [done]
    have been examined: only pads alone on their net have been unbound, the
    pad kept in [previouspad] is the last examined pad that has a net and is
    still bound, and [count] is 1 only when no earlier pad is on its net. *)
Record scan_inv (u : UPDATER) (L done : list PAD_REF) (s : SCAN) : Prop := {
  sc_dry : m_isDryRun (scan_u s) = m_isDryRun u;
  sc_changed : forall p, getNetname (scan_u s) p ≠ getNetname u p ->
                         p ∈ done /\ previouspad s ≠ Some p /\ alone u L p;
  sc_prev : match previouspad s with
            | Some prev =>
                exists d1 d2, done = (d1 ++ prev :: d2)%list /\
                              Forall (fun q => getNetname u q = "") d2 /\
                              netname s = getNetname u prev /\
                              getNetname u prev ≠ "" /\ 1 <= count s /\
                              (count s = 1 ->
                               forall q, q ∈ d1 -> getNetname u q ≠ getNetname u prev)
            | None => Forall (fun q => getNetname u q = "") done /\
                      netname s = "" /\ count s = 0
            end
}.

(** ** The counters and the messages *)

(** The number of messages of severity [sev] reported through [Report] that
    satisfy [P]. *)
Definition counts (P : MSG -> bool) (sev : SEVERITY) (log : list REPORT) : Z :=
  Z.of_nat (length (List.filter P (reportsOf sev log))).

Definition isAmbiguity (msg : MSG) : bool :=
  match msg with MsgMultipleFootprints _ => true | _ => false end.

Definition isItemWarning (msg : MSG) : bool :=
  match msg with MsgViaUnknownNet _ | MsgZoneNoPads _ => true | _ => false end.

Definition isNewFootprint (msg : MSG) : bool :=
  match msg with MsgAdd _ _ | MsgChangeFootprint _ _ _ => true | _ => false end.

Definition isPruning (msg : MSG) : bool :=
  match msg with MsgRemoveSinglePadNet _ | MsgRemoveUnusedNet _ => true | _ => false end.

(** [logged P u u']: the reporter has only grown from [u] to [u'], by
    messages that satisfy [P], and the three counters have grown by the
    number of the new messages they count: the Errors but "Multiple footprints
    found", the Warnings about a via or a zone, the Actions that add or
    change a footprint. *)
Definition logged (P : MSG -> Prop) (u u' : UPDATER) : Prop :=
  exists new,
    m_reporter u' = (m_reporter u ++ new)%list /\
    m_errorCount u' = m_errorCount u + counts (fun m => negb (isAmbiguity m)) RPT_SEVERITY_ERROR new /\
    m_warningCount u' = m_warningCount u + counts isItemWarning RPT_SEVERITY_WARNING new /\
    m_newFootprintsCount u' = m_newFootprintsCount u + counts isNewFootprint RPT_SEVERITY_ACTION new /\
    forall msg sev, Report msg sev ∈ new -> P msg.

(** ** The pins the footprints lack *)

(** The Errors [testConnectivity] reports for a component: one for each pin
    of the component that the footprint mapped to it has no pad for. *)
Definition missingPads (u : UPDATER) (ic : nat * COMPONENT) : list REPORT :=
  match footprintMap u !! ic.1 with
  | None => []
  | Some r =>
      match deref u r with
      | None => []
      | Some footprint =>
          List.map (fun net => Report (MsgPadNotFound (c_reference ic.2) (cn_pinName net)
                                                      (fp_fpid footprint))
                                      RPT_SEVERITY_ERROR)
                   (List.filter (fun net => negb (bool_decide
                                                    (is_Some (FindPadByName (cn_pinName net) footprint))))
                                (c_nets ic.2))
      end
  end.

(** ** The preview of a dry run *)

(** The entry of the net-name cache for a pad after the pad update of a dry
    run, [cached] being the entry before: the pad is to be disconnected, or
    connected to another net than the one it is on, or left alone. *)
Definition previewedNet (c : COMPONENT) (pad : PAD) (cached : option string) : option string :=
  let net := GetNet c (pad_name pad) in
  if negb (IsValid net) || negb (pad_onCopper pad) then Some ""
  else if bool_decide (pad_net pad ≠ cn_netName net) then Some (cn_netName net)
  else cached.

(** ** The frame of the repair of zones and vias *)

(** From [u] to [u'] only vias and copper zones on nets outside [names] have
    changed, by their net, in a committing run, and each change is staged. *)
Record repaired (names : gset string) (u u' : UPDATER) : Prop := {
  rp_footprints : b_footprints (m_board u') = b_footprints (m_board u);
  rp_nets : b_nets (m_board u') = b_nets (m_board u);
  rp_dry : m_isDryRun u' = m_isDryRun u;
  rp_commit : m_commit u `prefix_of` m_commit u';
  rp_tracks : forall k t, b_tracks (m_board u) !! k = Some t ->
      exists t', b_tracks (m_board u') !! k = Some t' /\ track_type t' = track_type t /\
                 (t' = t \/ track_type t = PCB_VIA_T /\ (track_net t ∉ names) /\
                            m_isDryRun u = false /\ ChModifyTrack k ∈ m_commit u');
  rp_no_track : forall k, b_tracks (m_board u) !! k = None -> b_tracks (m_board u') !! k = None;
  rp_zones : forall k z, b_zones (m_board u) !! k = Some z ->
      exists z', b_zones (m_board u') !! k = Some z' /\
                 zone_onCopper z' = zone_onCopper z /\ zone_isRuleArea z' = zone_isRuleArea z /\
                 zone_connectedPads z' = zone_connectedPads z /\
                 (z' = z \/ electrical z = true /\ (zone_net z ∉ names) /\
                            m_isDryRun u = false /\ ChModifyZone k ∈ m_commit u');
  rp_no_zone : forall k, b_zones (m_board u) !! k = None -> b_zones (m_board u') !! k = None
}.

(** ** The nets announced during a pass *)

(** The names a log shows in its "Add net" messages. *)
Definition addedNetNames (log : list REPORT) : list string :=
  omap (fun r => match r with
                 | Report (MsgAddNet name) _ => Some name
                 | _ => None
                 end) log.

(** A frame whose [UnescapeString] shows the escaped slash of the net name
    "{slash}CLK" as a slash, and a resistor between that net and the net
    "/CLK". *)
Definition ex_frame_slash : FRAME :=
  {| LoadFootprint := LoadFootprint ex_frame;
     ExchangeFootprint := ExchangeFootprint ex_frame;
     m_AddUnlockedPads := m_AddUnlockedPads ex_frame;
     UnescapeString := fun name => if bool_decide (name = "{slash}CLK") then "/CLK" else name |}.

Definition ex_netlist_slash : NETLIST :=
  [ex_component "R1" "10k" "Resistor_SMD:R_0603" ∅ [ex_pin "1" "{slash}CLK"; ex_pin "2" "/CLK"]].

(** [minted u u']: the frame is the same and the reporter has only grown
    from [u] to [u']; the "Add net" messages it has gained show, in order,
    the names of [names], as [UnescapeString] shows them; these names are
    distinct; each was not among the added nets of [u] and is among those
    of [u']; the added nets are kept. *)
Definition minted (u u' : UPDATER) : Prop :=
  m_frame u' = m_frame u /\
  exists new names,
    m_reporter u' = (m_reporter u ++ new)%list /\
    addedNetNames new = List.map (UnescapeString (m_frame u)) names /\
    NoDup names /\
    (forall name, name ∈ names ->
                  lookupAddedNet name u = None /\ is_Some (lookupAddedNet name u')) /\
    (forall name, is_Some (lookupAddedNet name u) -> is_Some (lookupAddedNet name u')).

(** ** The pads the pruning unbinds *)

(** The net name read for a pad that has been unbound: nothing in a dry run,
    the name of the net of code 0 in a committing run. *)
Definition unboundName (u : UPDATER) : string :=
  if m_isDryRun u then "" else NetnameOfCode UNCONNECTED (m_board u).

(** What the scan has done once the pads of [done] are behind it: the zones,
    the nets and the pads of the board are in place; a pad counted with
    others shares its net name with one of them; and a pad alone on a net no
    copper zone is on has been unbound, unless it is the pad the scan still
    holds. *)
Record scan_done (u : UPDATER) (L done : list PAD_REF) (s : SCAN) : Prop := {
  sd_zones : b_zones (m_board (scan_u s)) = b_zones (m_board u);
  sd_nets : b_nets (m_board (scan_u s)) = b_nets (m_board u);
  sd_pads : forall q, is_Some (pad_at u q) -> is_Some (pad_at (scan_u s) q);
  sd_count : forall prev, previouspad s = Some prev -> count s ≠ 1 ->
                          exists q, q ∈ done /\ q ≠ prev /\ getNetname u q = getNetname u prev;
  sd_cleared : forall q, q ∈ done -> previouspad s ≠ Some q -> alone u L q ->
                         zoneOnNet u (getNetname u q) = false ->
                         getNetname (scan_u s) q = unboundName u
}.

(** ** The footprints a pass keeps *)

(** [p'] is the pad [p], updated: what the pass never writes, the name, the
    copper layers and the lock, is the same; the net, the pin function and
    the pin type may differ. *)
Definition same_pad (p p' : PAD) : Prop :=
  pad_name p' = pad_name p /\ pad_onCopper p' = pad_onCopper p /\
  pad_locked p' = pad_locked p.

(** [f'] is the footprint [f], updated: what the pass never writes is the
    same, that is the library footprint, the lock, the attributes other than
    "exclude from BOM", and the pads, one for one and in order, each as
    [same_pad] has it; the reference, the value, the path, the properties
    and the "exclude from BOM" attribute may differ. *)
Definition same_footprint (f f' : FOOTPRINT) : Prop :=
  fp_fpid f' = fp_fpid f /\ fp_locked f' = fp_locked f /\
  Z.land (fp_attributes f') (Z.lnot FP_EXCLUDE_FROM_BOM)
  = Z.land (fp_attributes f) (Z.lnot FP_EXCLUDE_FROM_BOM) /\
  Forall2 same_pad (fp_pads f) (fp_pads f').

(** [kept u u']: from [u] to [u'] the options are the same, no removal of a
    footprint has been staged, and the footprints behind the handles of the
    board are the same, updated. *)
Record kept (u u' : UPDATER) : Prop := {
  kp_options : same_options u u';
  kp_removes : forall r, ChRemove r ∈ m_commit u' -> ChRemove r ∈ m_commit u;
  kp_footprints : Forall2 same_footprint (b_footprints (m_board u)) (b_footprints (m_board u'))
}.

(** * Properties *)

(** ** Frame rules of the setters *)



(** ** A component that cannot be added *)



(** ** A component excluded from the board *)



(** ** A locked footprint without component *)

(** C7. On a board whose only footprint is locked and designated by no
    component, with [m_deleteUnusedComponents] set, the pass keeps the
    footprint and reports one Warning, but the warning counter it surfaces is
    still 0: the report is not followed by an increment. *)
Theorem locked_unused_footprint_warning_not_counted :
  let u := SetOptions true true false true false false
             (BOARD_NETLIST_UPDATER ex_frame ex_board_U1) in
  let u' := UpdateNetlist [] u in
  b_footprints (m_board u') = [ex_U1_locked] /\
  reportsOf RPT_SEVERITY_WARNING (m_reporter u') = [MsgCannotRemoveLocked "U1"] /\
  m_warningCount u' = 0 /\
  m_reporter u' !! 3%nat = Some (ReportTail (MsgTotal 0 0) RPT_SEVERITY_INFO).
Proof. vm_compute. done. Qed.

(** ** The last pad of the single-pad scan *)

(** C4. Pads 1 and 2 of R1 are alone on the nets A and Z, and a copper zone
    fills each net.  The scan keeps pad 1 on A, because the zone is looked up
    when the group of A ends inside the loop; it clears pad 2, the last pad
    of the sorted list, without looking at the zones and without a report. *)
Theorem single_pad_net_last_group_ignores_zones :
  let u := BOARD_NETLIST_UPDATER ex_frame ex_board_zones in
  zoneOnNet u "A" = true /\ zoneOnNet u "Z" = true /\
  (fp_pads <$> b_footprints (m_board (deleteSinglePadNets u)) !! 0%nat)
    = Some [ex_pad "1" "A"; ex_pad "2" ""] /\
  m_reporter (deleteSinglePadNets u) = [] /\
  (fp_pads <$> b_footprints (m_board (UpdateNetlist [ex_R1_AZ_component] u)) !! 0%nat)
    = Some [ex_pad "1" "A"; ex_pad "2" ""].
Proof. vm_compute. done. Qed.

(** ** Several footprints for one component *)

(** Two footprints carry the reference of one component: the Error is not
    counted, the second footprint is updated as well, and the footprint map
    keeps the second. *)
Lemma ambiguous_match_counterexample :
  let u' := UpdateNetlist [ex_R1_component] (BOARD_NETLIST_UPDATER ex_frame ex_board_twins) in
  ~ (0 < m_errorCount u') /\
  b_footprints (m_board u') !! 1%nat ≠ b_footprints ex_board_twins !! 1%nat /\
  footprintMap u' !! 0%nat = Some (OnBoard 1).
Proof. vm_compute. split; [|split]; [intros [=] | intros [=] | reflexivity]. Qed.

(** ** The repair of zones and vias *)



Lemma FindNet_name name b n : FindNet name b = Some n -> net_name n = name.
Proof.
  unfold FindNet. intros Hf. apply find_some in Hf as [_ Hf].
  by apply bool_decide_eq_true_1 in Hf.
Qed.

Lemma FindNet_In name b n : FindNet name b = Some n -> n ∈ b_nets b.
Proof.
  unfold FindNet. intros Hf. apply find_some in Hf as [Hf _].
  by apply list_elem_of_In.
Qed.

Lemma resolveNet_fields name u :
  m_reporter (resolveNet name u).2 = m_reporter u /\
  m_warningCount (resolveNet name u).2 = m_warningCount u /\
  m_errorCount (resolveNet name u).2 = m_errorCount u /\
  m_board (resolveNet name u).2 = m_board u /\
  m_isDryRun (resolveNet name u).2 = m_isDryRun u.
Proof.
  unfold resolveNet. destruct (FindNet name (m_board u)); [done|].
  destruct (m_addedNets u !! name); done.
Qed.

Lemma resolveNet_found name u n :
  FindNet name (m_board u) = Some n -> resolveNet name u = (Some n, u).
Proof. unfold resolveNet. by intros ->. Qed.

Lemma resolveNet_commit name u : m_commit (resolveNet name u).2 = m_commit u.
Proof. unfold resolveNet. by repeat case_match. Qed.








(** ** What every step of the pass preserves *)

Lemma same_options_refl u : same_options u u.
Proof. by split. Qed.

Lemma same_options_trans u1 u2 u3 :
  same_options u1 u2 -> same_options u2 u3 -> same_options u1 u3.
Proof. intros [] []. split; congruence. Qed.

Lemma net_le_refl n : net_le n n.
Proof. by repeat split. Qed.

Lemma net_le_trans n1 n2 n3 : net_le n1 n2 -> net_le n2 n3 -> net_le n1 n3.
Proof. intros (?&?&?) (?&?&?). repeat split; [congruence..|auto]. Qed.

Lemma Forall2_net_le_refl nets : Forall2 net_le nets nets.
Proof. induction nets; constructor; auto using net_le_refl. Qed.

Lemma Forall2_net_le_trans l1 l2 l3 :
  Forall2 net_le l1 l2 -> Forall2 net_le l2 l3 -> Forall2 net_le l1 l3.
Proof.
  intros H12. revert l3. induction H12; intros l3 H23; inversion H23; subst; constructor;
    eauto using net_le_trans.
Qed.

Lemma steps_refl u : steps u u.
Proof.
  split; auto using same_options_refl, Forall2_net_le_refl.
Qed.


Lemma steps_trans u1 u2 u3 : steps u1 u2 -> steps u2 u3 -> steps u1 u3.
Proof.
  intros [o1 d1 l1 n1 c1 w1 a1] [o2 d2 l2 n2 c2 w2 a2]. split.
  - by eapply same_options_trans.
  - intros Hd. destruct (d1 Hd) as (?&?&?).
    destruct d2 as (?&?&?); [by rewrite (so_isDryRun _ _ o1)|].
    repeat split; congruence.
  - congruence.
  - by eapply Forall2_net_le_trans.
  - by etrans.
  - lia.
  - intros Hd name n H3.
    destruct (a2 (eq_trans (so_isDryRun _ _ o1) Hd) name n H3) as [H2|H2]; [|by right].
    destruct (a1 Hd name n H2) as [H1|[H1 H1']]; [by left|].
    right. split; [done|]. by eapply elem_of_prefix.
Qed.

(** The steps that touch neither the board nor the transaction. *)
Lemma steps_quiet u u' :
  same_options u u' -> m_board u' = m_board u -> m_commit u' = m_commit u ->
  m_newFootprints u' = m_newFootprints u -> m_addedNets u' = m_addedNets u -> steps u u'.
Proof.
  intros Ho Hb Hc Hn Ha. split; try done.
  - by rewrite Hb.
  - rewrite Hb. apply Forall2_net_le_refl.
  - by rewrite Hc.
  - by rewrite Hn.
  - intros _ name n. rewrite Ha. by left.
Qed.

Lemma steps_report msg sev u : steps u (report msg sev u).
Proof. by apply steps_quiet. Qed.

Lemma steps_reportTail msg sev u : steps u (reportTail msg sev u).
Proof. by apply steps_quiet. Qed.

Lemma steps_with_counts w e n u : steps u (with_counts w e n u).
Proof. by apply steps_quiet. Qed.

Lemma steps_inc_errorCount u : steps u (inc_errorCount u).
Proof. by apply steps_quiet. Qed.

Lemma steps_inc_warningCount u : steps u (inc_warningCount u).
Proof. by apply steps_quiet. Qed.

Lemma steps_inc_newFootprintsCount u : steps u (inc_newFootprintsCount u).
Proof. by apply steps_quiet. Qed.

Lemma steps_cacheNetname p n u : steps u (cacheNetname p n u).
Proof. by apply steps_quiet. Qed.

Lemma steps_cachePinFunction p n u : steps u (cachePinFunction p n u).
Proof. by apply steps_quiet. Qed.

Lemma steps_with_footprintMap x u : steps u (with_footprintMap x u).
Proof. by apply steps_quiet. Qed.

Ltac steps_fields :=
  split; try done; try apply Forall2_net_le_refl; try (intros ?; congruence);
  try (intros _ ? ? ?; by left).

Lemma steps_addedNets_clear u : steps u (with_addedNets ∅ u).
Proof. steps_fields. Qed.

Lemma steps_addedNets_null name u :
  steps u (with_addedNets (<[name := None]> (m_addedNets u)) u).
Proof.
  steps_fields. intros _ name' n. cbn. rewrite lookup_insert. case_decide; [done|]. by left.
Qed.

Lemma steps_addedNets_new name n u :
  net_name n = name ->
  (m_isDryRun u = false -> ChAddNet n ∈ m_commit u) ->
  steps u (with_addedNets (<[name := Some n]> (m_addedNets u)) u).
Proof.
  intros Hn Hc. steps_fields.
  intros Hd name' n'. cbn. rewrite lookup_insert. case_decide.
  - intros [=]; subst. right. auto.
  - by left.
Qed.

Lemma steps_with_addedComponents x u : steps u (with_addedComponents x u).
Proof. by apply steps_quiet. Qed.

Lemma steps_with_oldToNewNets x u : steps u (with_oldToNewNets x u).
Proof. by apply steps_quiet. Qed.

Lemma steps_with_zoneConnectionsCache x u : steps u (with_zoneConnectionsCache x u).
Proof. by apply steps_quiet. Qed.

(** The steps of a committing run. *)
Lemma steps_stage c u : m_isDryRun u = false -> steps u (stage c u).
Proof. intros Hd. steps_fields. by apply prefix_app_r. Qed.

Lemma steps_new_footprint f u :
  m_isDryRun u = false -> steps u (with_newFootprints (m_newFootprints u ++ [f]) u).
Proof. intros Hd. steps_fields. cbn. rewrite length_app. lia. Qed.

Lemma markCurrent_net_le name b : Forall2 net_le (b_nets b) (b_nets (markCurrent name b)).
Proof.
  unfold markCurrent. cbn. induction (b_nets b) as [|n l IH]; constructor; [|done].
  case_bool_decide; [|apply net_le_refl]. by repeat split.
Qed.

Lemma steps_markCurrent name u :
  m_isDryRun u = false -> steps u (with_board (markCurrent name (m_board u)) u).
Proof. intros Hd. steps_fields. apply markCurrent_net_le. Qed.

Lemma steps_with_tracks ts u :
  m_isDryRun u = false -> steps u (with_board (with_tracks ts (m_board u)) u).
Proof. intros Hd. steps_fields. Qed.

Lemma steps_with_zones zs u :
  m_isDryRun u = false -> steps u (with_board (with_zones zs (m_board u)) u).
Proof. intros Hd. steps_fields. Qed.

(** Writing a footprint back through its handle: outside a dry run, or the
    object that was read. *)
Lemma steps_store r f f' u :
  deref u r = Some f -> (m_isDryRun u = true -> f' = f) -> steps u (store r f' u).
Proof.
  intros Hr Hd. destruct r as [i|j]; cbn in Hr.
  - split; try done; try (intros _ ? ? ?; by left).
    + intros Hdry. rewrite (Hd Hdry). cbn. rewrite list_insert_id by done.
      by destruct (m_board u).
    + cbn. by rewrite length_insert.
    + apply Forall2_net_le_refl.
  - split; try done; try (intros _ ? ? ?; by left).
    + intros Hdry. rewrite (Hd Hdry). cbn. by rewrite list_insert_id.
    + apply Forall2_net_le_refl.
    + cbn. by rewrite length_insert.
Qed.

(** *** Composite steps *)

Ltac norm_hyp :=
  match goal with
  | H : negb _ = true |- _ => apply negb_true_iff in H
  | H : negb _ = false |- _ => apply negb_false_iff in H
  | H : (_ && _)%bool = true |- _ => apply andb_true_iff in H as [? ?]
  end.

Ltac side := solve [ eassumption | repeat norm_hyp; cbn in *; congruence ].

Ltac side_false := solve [ intros ?; repeat norm_hyp; cbn in *; congruence ].

Ltac case_step :=
  match goal with
  | |- context [match ?x with _ => _ end] =>
      lazymatch x with
      | context [match _ with _ => _ end] => fail
      | _ => destruct x eqn:?
      end
  end; cbv beta iota zeta.

Ltac steps_prim :=
  lazymatch goal with
  | |- steps ?u ?u => apply steps_refl
  | H : steps ?u ?v |- steps ?u ?v => exact H
  | H : steps ?w ?v |- steps ?u ?v => apply (steps_trans u w v); [|exact H]
  | |- steps ?u (report _ _ ?v) => apply (steps_trans u v); [|apply steps_report]
  | |- steps ?u (reportTail _ _ ?v) => apply (steps_trans u v); [|apply steps_reportTail]
  | |- steps ?u (inc_errorCount ?v) => apply (steps_trans u v); [|apply steps_inc_errorCount]
  | |- steps ?u (inc_warningCount ?v) => apply (steps_trans u v); [|apply steps_inc_warningCount]
  | |- steps ?u (inc_newFootprintsCount ?v) =>
      apply (steps_trans u v); [|apply steps_inc_newFootprintsCount]
  | |- steps ?u (with_counts _ _ _ ?v) => apply (steps_trans u v); [|apply steps_with_counts]
  | |- steps ?u (cacheNetname _ _ ?v) => apply (steps_trans u v); [|apply steps_cacheNetname]
  | |- steps ?u (cachePinFunction _ _ ?v) =>
      apply (steps_trans u v); [|apply steps_cachePinFunction]
  | |- steps ?u (with_footprintMap _ ?v) =>
      apply (steps_trans u v); [|apply steps_with_footprintMap]
  | |- steps ?u (with_addedNets ∅ ?v) => apply (steps_trans u v); [|apply steps_addedNets_clear]
  | |- steps ?u (with_addedNets (<[_ := None]> (m_addedNets ?v)) ?v) =>
      apply (steps_trans u v); [|apply steps_addedNets_null]
  | |- steps ?u (with_addedNets (<[_ := Some _]> (m_addedNets ?v)) ?v) =>
      apply (steps_trans u v);
      [|apply steps_addedNets_new;
        [reflexivity | first [intros ?; apply elem_of_app; right; left | side_false]]]
  | |- steps ?u (with_addedComponents _ ?v) =>
      apply (steps_trans u v); [|apply steps_with_addedComponents]
  | |- steps ?u (with_oldToNewNets _ ?v) =>
      apply (steps_trans u v); [|apply steps_with_oldToNewNets]
  | |- steps ?u (with_zoneConnectionsCache _ ?v) =>
      apply (steps_trans u v); [|apply steps_with_zoneConnectionsCache]
  | |- steps ?u (stage _ ?v) => apply (steps_trans u v); [|apply steps_stage; side]
  | |- steps ?u (with_newFootprints (m_newFootprints ?v ++ [_]) ?v) =>
      apply (steps_trans u v); [|apply steps_new_footprint; side]
  | |- steps ?u (with_board (markCurrent _ (m_board ?v)) ?v) =>
      apply (steps_trans u v); [|apply steps_markCurrent; side]
  | |- steps ?u (with_board (with_tracks _ (m_board ?v)) ?v) =>
      apply (steps_trans u v); [|apply steps_with_tracks; side]
  | |- steps ?u (with_board (with_zones _ (m_board ?v)) ?v) =>
      apply (steps_trans u v); [|apply steps_with_zones; side]
  end.

Ltac solve_steps := repeat first [steps_prim | progress cbn [fst snd] | case_step].

Lemma steps_foldl {A} (f : UPDATER -> A -> UPDATER) l :
  (forall u x, steps u (f u x)) -> forall u, steps u (foldl f u l).
Proof.
  intros Hf. induction l as [|x l IH]; intros u; cbn; [apply steps_refl|].
  eapply steps_trans; [apply Hf | apply IH].
Qed.

Lemma addNewComponent_steps c u : steps u (addNewComponent c u).2.
Proof. unfold addNewComponent. solve_steps. Qed.

Lemma replaceComponent_steps r old c u : steps u (replaceComponent r old c u).2.
Proof. unfold replaceComponent. solve_steps. Qed.

Lemma syncField_steps msg set f u ch :
  steps u (syncField msg set (f, u, ch)).1.2 /\
  (m_isDryRun u = true ->
   (syncField msg set (f, u, ch)).1.1 = f /\ (syncField msg set (f, u, ch)).2 = ch).
Proof.
  unfold syncField. cbv zeta.
  change (m_isDryRun (report msg RPT_SEVERITY_ACTION u)) with (m_isDryRun u).
  destruct (m_isDryRun u); cbn; split; try done; solve_steps.
Qed.


Lemma syncParameters_steps c f u ch :
  steps u (syncParameters c (f, u, ch)).1.2 /\
  (m_isDryRun u = true ->
   (syncParameters c (f, u, ch)).1.1 = f /\ (syncParameters c (f, u, ch)).2 = ch).
Proof.
  set (P := fun s : FOOTPRINT * UPDATER * bool =>
              steps u s.1.2 /\ (m_isDryRun u = true -> s.1.1 = f /\ s.2 = ch)).
  assert (Hstep : forall s msg set, P s -> P (syncField msg set s)).
  { intros [[f1 u1] ch1] msg set [Hs Hf]. cbn in Hs, Hf.
    destruct (syncField_steps msg set f1 u1 ch1) as [Hs' Hf'].
    split; [by eapply steps_trans|].
    intros Hd. destruct Hf' as [-> ->]; [by rewrite (so_isDryRun _ _ (st_options _ _ Hs))|].
    auto. }
  change (P (syncParameters c (f, u, ch))). unfold syncParameters. cbv zeta.
  repeat match goal with
         | |- P (if ?b then _ else _) => destruct b
         | |- P (syncField _ _ _) => apply Hstep
         end.
  all: split; [apply steps_refl | done].
Qed.



Lemma fps_same_deref u u' r : fps_same u u' -> deref u' r = deref u r.
Proof. intros [Hb Hn]. destruct r; cbn; congruence. Qed.

Ltac case_cbn :=
  match goal with
  | |- context [match ?x with _ => _ end] =>
      lazymatch x with
      | context [match _ with _ => _ end] => fail
      | _ => destruct x eqn:?
      end
  end.

Ltac solve_frame := repeat (cbn; try done; try (by split); case_cbn).

Lemma syncParameters_fps c f u ch : fps_same u (syncParameters c (f, u, ch)).1.2.
Proof.
  set (P := fun s : FOOTPRINT * UPDATER * bool => fps_same u s.1.2).
  assert (Hstep : forall s msg set, P s -> P (syncField msg set s)).
  { intros [[f1 u1] ch1] msg set Hs. unfold P, syncField in *. cbn in *.
    by destruct (m_isDryRun u1). }
  change (P (syncParameters c (f, u, ch))). unfold syncParameters. cbv zeta.
  repeat match goal with
         | |- P (if ?b then _ else _) => destruct b
         | |- P (syncField _ _ _) => apply Hstep
         end.
  all: by split.
Qed.

Lemma updatePad_fps aPad fpRef c pad u ch :
  fps_same u (updatePad aPad fpRef c pad (u, ch)).2.1.
Proof.
  unfold updatePad, connectPad, findOrAddNet, disconnectPad, syncPin, fps_same. solve_frame.
Qed.

Lemma updatePads_fps r fpRef c pads : forall j u ch,
  fps_same u (updatePads r fpRef c j pads (u, ch)).2.1.
Proof.
  induction pads as [|pad pads IH]; intros j u ch; cbn [updatePads]; [by split|].
  pose proof (updatePad_fps (r, j) fpRef c pad u ch) as H1.
  destruct (updatePad (r, j) fpRef c pad (u, ch)) as [pad' [u1 ch1]]. cbn in H1.
  pose proof (IH (S j) u1 ch1) as H2.
  destruct (updatePads r fpRef c (S j) pads (u1, ch1)) as [rest' [u2 ch2]]. cbn in *.
  destruct H1, H2. split; congruence.
Qed.

Lemma updatePad_steps aPad fpRef c pad u ch :
  steps u (updatePad aPad fpRef c pad (u, ch)).2.1 /\
  (m_isDryRun u = true ->
   (updatePad aPad fpRef c pad (u, ch)).1 = pad /\
   (updatePad aPad fpRef c pad (u, ch)).2.2 = ch).
Proof.
  split.
  - unfold updatePad, connectPad, findOrAddNet, disconnectPad, syncPin. solve_steps.
  - intros Hd. unfold updatePad, connectPad, findOrAddNet, disconnectPad, syncPin.
    repeat (cbn; rewrite ?Hd; try done; case_cbn).
Qed.

Lemma updatePads_steps r fpRef c pads : forall j u ch,
  steps u (updatePads r fpRef c j pads (u, ch)).2.1 /\
  (m_isDryRun u = true ->
   (updatePads r fpRef c j pads (u, ch)).1 = pads /\
   (updatePads r fpRef c j pads (u, ch)).2.2 = ch).
Proof.
  induction pads as [|pad pads IH]; intros j u ch; cbn [updatePads].
  { split; [apply steps_refl|done]. }
  pose proof (updatePad_steps (r, j) fpRef c pad u ch) as [H1 H1'].
  destruct (updatePad (r, j) fpRef c pad (u, ch)) as [pad' [u1 ch1]]. cbn in H1, H1'.
  pose proof (IH (S j) u1 ch1) as [H2 H2'].
  destruct (updatePads r fpRef c (S j) pads (u1, ch1)) as [rest' [u2 ch2]]. cbn in *.
  split; [by eapply steps_trans|].
  intros Hd. destruct (H1' Hd) as [-> ->].
  destruct H2' as [-> ->]; [|done].
  by rewrite (so_isDryRun _ _ (st_options _ _ H1)).
Qed.


Lemma updateFootprintParameters_steps r c u : steps u (updateFootprintParameters r c u).
Proof.
  unfold updateFootprintParameters.
  destruct (deref u r) as [f|] eqn:Hr; [|apply steps_refl].
  destruct (syncParameters_steps c f u false) as [Hs Hf].
  pose proof (syncParameters_fps c f u false) as Hfp.
  destruct (syncParameters c (f, u, false)) as [[f' u'] ch'] eqn:Hsync. cbn in Hs, Hf, Hfp.
  cbv zeta.
  assert (steps u (store r f' u')) as Hst.
  { eapply steps_trans; [exact Hs|]. apply (steps_store r f).
    - by rewrite (fps_same_deref u u').
    - rewrite (so_isDryRun _ _ (st_options _ _ Hs)). intros Hd. by destruct (Hf Hd). }
  destruct (GetStatus (m_commit u) r); [done|].
  destruct ch'; [|done].
  eapply steps_trans; [exact Hst|].
  apply steps_stage. rewrite (so_isDryRun _ _ (st_options _ _ Hst)).
  destruct (m_isDryRun u); [|done]. by destruct Hf.
Qed.

Lemma updateComponentPadConnections_steps r c u :
  steps u (updateComponentPadConnections r c u).
Proof.
  unfold updateComponentPadConnections.
  destruct (deref u r) as [f|] eqn:Hr; [|apply steps_refl].
  destruct (updatePads_steps r (fp_reference f) c (fp_pads f) 0%nat u false) as [Hs Hf].
  pose proof (updatePads_fps r (fp_reference f) c (fp_pads f) 0%nat u false) as Hfp.
  destruct (updatePads r (fp_reference f) c 0%nat (fp_pads f) (u, false)) as [pads [u' ch']].
  cbn in Hs, Hf, Hfp. cbv zeta.
  assert (steps u (store r (SetPads pads f) u')) as Hst.
  { eapply steps_trans; [exact Hs|]. apply (steps_store r f).
    - by rewrite (fps_same_deref u u').
    - rewrite (so_isDryRun _ _ (st_options _ _ Hs)). intros Hd.
      destruct (Hf Hd) as [-> _]. by destruct f. }
  destruct (GetStatus (m_commit u) r); [done|].
  destruct ch'; [|done].
  eapply steps_trans; [exact Hst|].
  apply steps_stage. rewrite (so_isDryRun _ _ (st_options _ _ Hst)).
  destruct (m_isDryRun u); [|done]. by destruct Hf.
Qed.

Lemma cacheCopperZoneConnections_steps u : steps u (cacheCopperZoneConnections u).
Proof.
  unfold cacheCopperZoneConnections. apply steps_foldl.
  intros u' kz. solve_steps.
Qed.

Lemma resolveNet_steps name u : steps u (resolveNet name u).2.
Proof. unfold resolveNet. solve_steps. Qed.


Ltac steps_resolve :=
  match goal with
  | |- context [resolveNet ?n ?v] =>
      let H := fresh "Hres" in
      let Hd := fresh "Hresd" in
      pose proof (resolveNet_steps n v) as H;
      assert (m_isDryRun (resolveNet n v).2 = m_isDryRun v) as Hd
        by apply (so_isDryRun _ _ (st_options _ _ H));
      destruct (resolveNet n v) as [? ?]; cbn [fst snd] in H, Hd
  end.

Ltac solve_steps' := repeat first [steps_prim | progress cbn [fst snd] | steps_resolve | case_step].

Lemma updateVia_steps names k u : steps u (updateVia names k u).
Proof. unfold updateVia. solve_steps'. Qed.

Lemma updateZone_steps names k u : steps u (updateZone names k u).
Proof. unfold updateZone. solve_steps'. Qed.

Lemma updateCopperZoneNets_steps nl u : steps u (updateCopperZoneNets nl u).
Proof.
  unfold updateCopperZoneNets. cbv zeta.
  eapply steps_trans.
  - apply (steps_foldl (fun u k => updateVia (netlistNetnames nl) k u)).
    intros. apply updateVia_steps.
  - apply (steps_foldl (fun u k => updateZone (netlistNetnames nl) k u)).
    intros. apply updateZone_steps.
Qed.

Lemma SetNetCode_at_steps aPad code u :
  m_isDryRun u = false -> steps u (SetNetCode_at aPad code u).
Proof.
  intros Hd. unfold SetNetCode_at.
  destruct (deref u aPad.1) as [f|] eqn:Hf; [|apply steps_refl].
  destruct (fp_pads f !! aPad.2); [|apply steps_refl].
  apply (steps_store _ f); [done|congruence].
Qed.

Lemma clearPadNet_steps aPad u : steps u (clearPadNet aPad u).
Proof.
  unfold clearPadNet. destruct (m_isDryRun u) eqn:Hd; cbn [negb].
  - apply steps_cacheNetname.
  - by apply SetNetCode_at_steps.
Qed.

Lemma scanPad_steps s pad : steps (scan_u s) (scan_u (scanPad s pad)).
Proof.
  unfold scanPad. cbv zeta.
  repeat first [ steps_prim | progress cbn [scan_u]
               | match goal with
                 | |- steps ?u (clearPadNet _ ?v) =>
                     apply (steps_trans u v); [|apply clearPadNet_steps]
                 end
               | case_step ].
Qed.

Lemma deleteSinglePadNets_steps u : steps u (deleteSinglePadNets u).
Proof.
  unfold deleteSinglePadNets. cbv zeta.
  set (s0 := {| count := 0; netname := ""; previouspad := None; scan_u := u |}).
  assert (Hfold : forall l s, steps (scan_u s) (scan_u (foldl scanPad s l))).
  { induction l as [|p l IH]; intros s; cbn [foldl]; [apply steps_refl|].
    eapply steps_trans; [apply scanPad_steps | apply IH]. }
  pose proof (Hfold (sortPads u (GetPads (m_board u))) s0) as H. cbn [scan_u s0] in H.
  repeat case_step; try done.
  eapply steps_trans; [exact H | apply clearPadNet_steps].
Qed.

Lemma testComponent_steps u ic : steps u (testComponent u ic).
Proof.
  unfold testComponent.
  destruct (footprintMap u !! ic.1); [|apply steps_refl].
  destruct (deref u f); [|apply steps_refl].
  apply steps_foldl. intros. solve_steps.
Qed.

Lemma testConnectivity_steps nl u : steps u (testConnectivity nl u).
Proof. unfold testConnectivity. apply steps_foldl. intros. apply testComponent_steps. Qed.

Lemma updateMatched_steps i c k f u : steps u (updateMatched i c k f u).
Proof.
  unfold updateMatched.
  assert (Hupd : forall t v, steps u v ->
            steps u (updateComponentPadConnections t c
                       (updateFootprintParameters t c
                          (with_footprintMap (<[i:=t]> (footprintMap v)) v)))).
  { intros t v Hv.
    eapply steps_trans; [|apply updateComponentPadConnections_steps].
    eapply steps_trans; [|apply updateFootprintParameters_steps].
    eapply steps_trans; [exact Hv|apply steps_with_footprintMap]. }
  destruct (m_replaceFootprints u && bool_decide (c_fpid c ≠ fp_fpid f)).
  - pose proof (replaceComponent_steps (OnBoard k) f c u) as H.
    destruct (replaceComponent (OnBoard k) f c u) as [[t|] v]; cbn in H; [|done].
    by apply Hupd.
  - apply Hupd, steps_refl.
Qed.

Lemma scanStep_steps i c k u mc : steps u (scanStep i c k (u, mc)).1.
Proof.
  unfold scanStep. destruct (b_footprints (m_board u) !! k); [|apply steps_refl].
  destruct (matches u f c); [|apply steps_refl]. apply updateMatched_steps.
Qed.

Lemma scanFootprints_steps i c last ks : forall u mc,
  steps u (scanFootprints i c last ks (u, mc)).1.
Proof.
  induction ks as [|k ks IH]; intros u mc; cbn [scanFootprints]; [apply steps_refl|].
  pose proof (scanStep_steps i c k u mc) as H.
  destruct (scanStep i c k (u, mc)) as [u1 mc1]. cbn in H.
  case_bool_decide; [done|]. eapply steps_trans; [exact H | apply IH].
Qed.

Lemma processComponent_steps last u ic : steps u (processComponent last u ic).
Proof.
  unfold processComponent. destruct ic as [i c].
  destruct (has_property _ _); [apply steps_refl|].
  set (u1 := report _ _ u).
  pose proof (scanFootprints_steps i c last (seq 0 (length (b_footprints (m_board u1)))) u1 0) as H.
  destruct (scanFootprints _ _ _ _ _) as [u2 mc]. cbn in H.
  assert (steps u u2) as H2 by (eapply steps_trans; [apply steps_report|exact H]).
  case_bool_decide.
  - pose proof (addNewComponent_steps c u2) as H3.
    destruct (addNewComponent c u2) as [[t|] u3]; cbn in H3.
    + eapply steps_trans; [|apply updateComponentPadConnections_steps].
      eapply steps_trans; [|apply updateFootprintParameters_steps].
      eapply steps_trans; [|apply steps_with_footprintMap].
      by eapply steps_trans.
    + by eapply steps_trans.
  - case_bool_decide; [|done]. eapply steps_trans; [exact H2 | apply steps_report].
Qed.

Lemma foldl_markCurrent_net_le pads b :
  Forall2 net_le (b_nets b) (b_nets (foldl (fun b pad => markCurrent (pad_net pad) b) b pads)).
Proof.
  revert b. induction pads as [|p pads IH]; intros b; cbn [foldl].
  - apply Forall2_net_le_refl.
  - eapply Forall2_net_le_trans; [apply markCurrent_net_le | apply IH].
Qed.

Lemma foldl_markCurrent_footprints pads b :
  b_footprints (foldl (fun b pad => markCurrent (pad_net pad) b) b pads) = b_footprints b.
Proof.
  revert b. induction pads as [|p pads IH]; intros b; cbn [foldl]; [done|].
  by rewrite IH.
Qed.

Lemma sweepFootprint_steps nl u k : steps u (sweepFootprint nl u k).
Proof.
  unfold sweepFootprint.
  destruct (b_footprints (m_board u) !! k) as [f|]; [|apply steps_refl].
  cbv zeta.
  assert (Hmark : forall v, steps u v -> m_isDryRun v = false ->
            steps u (with_board (foldl (fun b pad => markCurrent (pad_net pad) b)
                                       (m_board v) (fp_pads f)) v)).
  { intros v Hv Hd. eapply steps_trans; [exact Hv|]. steps_fields.
    - cbn. by rewrite foldl_markCurrent_footprints.
    - apply foldl_markCurrent_net_le. }
  destruct (doDelete nl u f && fp_locked f).
  - cbn [negb]. destruct (negb _) eqn:Hd; [|apply steps_report].
    apply Hmark; [apply steps_report|]. by apply negb_true_iff in Hd.
  - destruct (doDelete nl u f); solve_steps.
    apply Hmark; [apply steps_refl|]. side.
Qed.

Lemma removeStaleNet_steps u net : m_isDryRun u = false -> steps u (removeStaleNet u net).
Proof. intros Hd. unfold removeStaleNet. solve_steps. Qed.

(** ** The dry run *)

Lemma UpdateNetlist_dry_steps nl u :
  m_isDryRun u = true -> steps u (UpdateNetlist nl u).
Proof.
  intros Hd. unfold UpdateNetlist. cbv zeta.
  set (u0 := with_footprintMap ∅ (with_counts 0 0 0 u)).
  set (last := lastPreexisting (m_board u0)).
  assert (steps u u0) as H0.
  { eapply steps_trans; [apply steps_with_counts | apply steps_with_footprintMap]. }
  set (u1 := cacheCopperZoneConnections u0).
  assert (steps u u1) as H1 by (eapply steps_trans; [exact H0 | apply cacheCopperZoneConnections_steps]).
  assert (m_isDryRun u1 = true) as Hd1 by (by rewrite (so_isDryRun _ _ (st_options _ _ H1))).
  rewrite Hd1. cbn [negb].
  set (u2 := foldl (processComponent last) u1 _).
  assert (steps u u2) as H2.
  { eapply steps_trans; [exact H1 | apply steps_foldl; intros; apply processComponent_steps]. }
  set (u3 := updateCopperZoneNets nl u2).
  assert (steps u u3) as H3 by (eapply steps_trans; [exact H2 | apply updateCopperZoneNets_steps]).
  set (u4 := foldl (sweepFootprint nl) u3 _).
  assert (steps u u4) as H4.
  { eapply steps_trans; [exact H3 | apply steps_foldl; intros; apply sweepFootprint_steps]. }
  assert (m_isDryRun u4 = true) as Hd4 by (by rewrite (so_isDryRun _ _ (st_options _ _ H4))).
  rewrite Hd4. cbn [negb].
  set (u5 := if m_deleteSinglePadNets u4 && bool_decide (m_newFootprintsCount u4 = 0)
             then deleteSinglePadNets u4 else u4).
  assert (steps u u5) as H5.
  { unfold u5. destruct (_ && _); [|done].
    eapply steps_trans; [exact H4 | apply deleteSinglePadNets_steps]. }
  assert (m_isDryRun u5 = true) as Hd5 by (by rewrite (so_isDryRun _ _ (st_options _ _ H5))).
  rewrite Hd5.
  repeat (eapply steps_trans; [|apply steps_reportTail]).
  eapply steps_trans; [exact H5 | apply steps_addedNets_clear].
Qed.

(** C1. With [m_isDryRun] set, the pass returns with the board it was given:
    every footprint with its pads, every net of the registry, every zone and
    track is as before the call, and nothing is left in the transaction.
    Only the reporter, the counters and the updater's own caches differ. *)
Theorem dry_run_leaves_board_untouched nl u :
  m_isDryRun u = true ->
  m_board (UpdateNetlist nl u) = m_board u /\
  m_commit (UpdateNetlist nl u) = m_commit u /\
  m_newFootprints (UpdateNetlist nl u) = m_newFootprints u.
Proof.
  intros Hd. exact (st_dry _ _ (UpdateNetlist_dry_steps nl u Hd) Hd).
Qed.

Lemma dry_run_leaves_board_untouched_witness :
  let u := SetOptions true true true true false true
             (BOARD_NETLIST_UPDATER ex_frame ex_board_R1) in
  m_board (UpdateNetlist ex_netlist_changes u) = ex_board_R1 /\
  reportsOf RPT_SEVERITY_ACTION (m_reporter (UpdateNetlist ex_netlist_changes u))
    = [MsgChangeValue "R1" "10k" "22k"; MsgAddNet "C"; MsgReconnect "R1" "1" "A" "C";
       MsgAdd "R2" "Resistor_SMD:R_0603"].
Proof.
  split.
  - apply (dry_run_leaves_board_untouched ex_netlist_changes
             (SetOptions true true true true false true
                (BOARD_NETLIST_UPDATER ex_frame ex_board_R1))).
    reflexivity.
  - vm_compute. reflexivity.
Defined.

(** ** The scan ends at the boundary marker *)

Lemma scanFootprints_to_marker i c m extra : forall len a s,
  (a + S len = S m)%nat ->
  scanFootprints i c (Some m) (seq a (S len + extra)) s
    = foldl (fun s k => scanStep i c k s) s (seq a (S len)).
Proof.
  induction len as [|len IH]; intros a s Ha.
  - cbn. rewrite bool_decide_eq_true_2; [done|]. f_equal. lia.
  - change (seq a (S (S len) + extra)) with (a :: seq (S a) (S len + extra)).
    change (seq a (S (S len))) with (a :: seq (S a) (S len)).
    cbn [scanFootprints foldl].
    rewrite bool_decide_eq_false_2 by (intros [=]; lia).
    apply IH. lia.
Qed.

Lemma scanFootprints_no_marker i c ks : forall s,
  scanFootprints i c None ks s = foldl (fun s k => scanStep i c k s) s ks.
Proof. induction ks as [|k ks IH]; intros s; cbn; [done|]. apply IH. Qed.

Lemma scanFootprints_preexisting i c b extra s :
  (b_footprints b = [] -> extra = 0%nat) ->
  scanFootprints i c (lastPreexisting b) (seq 0 (length (b_footprints b) + extra)) s
    = foldl (fun s k => scanStep i c k s) s (seq 0 (length (b_footprints b))).
Proof.
  unfold lastPreexisting. destruct (b_footprints b) as [|f fps] eqn:Hb.
  - intros ->; [|done]. cbn. done.
  - intros _. cbn [length]. rewrite Nat.sub_succ, Nat.sub_0_r.
    apply scanFootprints_to_marker. lia.
Qed.

(** New footprints are objects of the store, not positions of the board. *)
Lemma addNewComponent_Staged c u r :
  (addNewComponent c u).1 = Some r -> exists j, r = Staged j.
Proof.
  unfold addNewComponent. repeat case_match; cbn; intros [=]; subst; eauto.
Qed.

Lemma replaceComponent_Staged r0 old c u r :
  (replaceComponent r0 old c u).1 = Some r -> exists j, r = Staged j.
Proof.
  unfold replaceComponent. repeat case_match; cbn; intros [=]; subst; eauto.
Qed.

(** C9. Whatever components the loop over the netlist has processed, the
    board still has the footprints it had before the pass, at the same
    positions, and the scan for the next component examines exactly those
    positions: the footprints created for earlier components are objects of
    the transaction, designated by [Staged] handles, and are on no position
    of the board.  On a board that was not empty the scan moreover ends at
    the boundary marker, however long the list behind it. *)
Theorem matching_scans_preexisting_only u0 ics :
  let n0 := length (b_footprints (m_board u0)) in
  let last := lastPreexisting (m_board u0) in
  let u := foldl (processComponent last) u0 ics in
  length (b_footprints (m_board u)) = n0 /\
  (forall i c s,
     scanFootprints i c last (seq 0 (length (b_footprints (m_board u)))) s
       = foldl (fun s k => scanStep i c k s) s (seq 0 n0)) /\
  (forall i c s extra, (0 < n0)%nat ->
     scanFootprints i c last (seq 0 (n0 + extra)) s
       = foldl (fun s k => scanStep i c k s) s (seq 0 n0)) /\
  (forall c v r, (addNewComponent c v).1 = Some r -> exists j, r = Staged j) /\
  (forall r0 old c v r, (replaceComponent r0 old c v).1 = Some r -> exists j, r = Staged j).
Proof.
  intros n0 last u.
  assert (length (b_footprints (m_board u)) = n0) as Hlen.
  { apply (st_length u0 u). apply steps_foldl. intros. apply processComponent_steps. }
  split; [exact Hlen|]. split; [|split; [|split]].
  - intros i c s. rewrite Hlen. unfold last, n0.
    rewrite <- (Nat.add_0_r (length (b_footprints (m_board u0)))) at 1.
    by apply scanFootprints_preexisting.
  - intros i c s extra Hn. unfold last, n0. apply scanFootprints_preexisting.
    intros Hnil. unfold n0 in Hn. rewrite Hnil in Hn. cbn in Hn. lia.
  - apply addNewComponent_Staged.
  - apply replaceComponent_Staged.
Qed.

(** ** Every matching footprint is updated *)

Lemma board_others_refl r u : board_others r u u.
Proof. by intros k _. Qed.

Lemma board_others_trans r u1 u2 u3 :
  board_others r u1 u2 -> board_others r u2 u3 -> board_others r u1 u3.
Proof. intros H1 H2 k Hk. by rewrite H2, H1. Qed.

Lemma board_others_same r u u' :
  b_footprints (m_board u') = b_footprints (m_board u) -> board_others r u u'.
Proof. intros H k _. by rewrite H. Qed.

Lemma store_others r f u : board_others r u (store r f u).
Proof.
  intros k Hk. destruct r as [k0|j]; cbn; [|done].
  apply list_lookup_insert_ne. congruence.
Qed.

Lemma updateFootprintParameters_others r c u :
  board_others r u (updateFootprintParameters r c u).
Proof.
  unfold updateFootprintParameters.
  destruct (deref u r) as [f|]; [|apply board_others_refl].
  pose proof (syncParameters_fps c f u false) as [Hb _].
  destruct (syncParameters c (f, u, false)) as [[f' u'] ch']. cbn in Hb. cbv zeta.
  assert (board_others r u (store r f' u')) as H.
  { eapply board_others_trans; [by apply board_others_same | apply store_others]. }
  destruct (GetStatus _ _); [done|]. by destruct ch'.
Qed.

Lemma updateComponentPadConnections_others r c u :
  board_others r u (updateComponentPadConnections r c u).
Proof.
  unfold updateComponentPadConnections.
  destruct (deref u r) as [f|]; [|apply board_others_refl].
  pose proof (updatePads_fps r (fp_reference f) c (fp_pads f) 0%nat u false) as [Hb _].
  destruct (updatePads _ _ _ _ _ _) as [pads [u' ch']]. cbn in Hb. cbv zeta.
  assert (board_others r u (store r (SetPads pads f) u')) as H.
  { eapply board_others_trans; [by apply board_others_same | apply store_others]. }
  destruct (GetStatus _ _); [done|]. by destruct ch'.
Qed.

Lemma replaceComponent_board r old c u :
  b_footprints (m_board (replaceComponent r old c u).2) = b_footprints (m_board u).
Proof. unfold replaceComponent. repeat case_match; done. Qed.

Lemma board_others_Staged j k u u' :
  board_others (Staged j) u u' -> board_others (OnBoard k) u u'.
Proof. intros H k' _. by apply H. Qed.

Lemma updateMatched_others i c k f u :
  board_others (OnBoard k) u (updateMatched i c k f u).
Proof.
  unfold updateMatched.
  assert (Hupd : forall t v,
            (t = OnBoard k \/ exists j, t = Staged j) ->
            board_others (OnBoard k) u v ->
            board_others (OnBoard k) u
              (updateComponentPadConnections t c
                 (updateFootprintParameters t c
                    (with_footprintMap (<[i:=t]> (footprintMap v)) v)))).
  { intros t v Ht Hv.
    eapply board_others_trans; [exact Hv|].
    destruct Ht as [->|[j ->]].
    - eapply board_others_trans; [|apply updateComponentPadConnections_others].
      eapply board_others_trans; [|apply updateFootprintParameters_others].
      by apply board_others_same.
    - apply (board_others_Staged j).
      eapply board_others_trans; [|apply updateComponentPadConnections_others].
      eapply board_others_trans; [|apply updateFootprintParameters_others].
      by apply board_others_same. }
  destruct (m_replaceFootprints u && bool_decide (c_fpid c ≠ fp_fpid f)).
  - pose proof (replaceComponent_board (OnBoard k) f c u) as Hb.
    pose proof (replaceComponent_Staged (OnBoard k) f c u) as Hs.
    destruct (replaceComponent (OnBoard k) f c u) as [[t|] v]; cbn in Hb, Hs.
    + apply Hupd; [right; by apply Hs | by apply board_others_same].
    + by apply board_others_same.
  - apply Hupd; [by left | apply board_others_refl].
Qed.

Lemma scan_matching i c u0 : forall ks u mc,
  NoDup ks ->
  m_lookupByTimestamp u = m_lookupByTimestamp u0 ->
  (forall k, k ∈ ks -> b_footprints (m_board u) !! k = b_footprints (m_board u0) !! k) ->
  foldl (fun s k => scanStep i c k s) (u, mc) ks
    = (foldl (updateMatchedAt i c) u (List.filter (matchesAt u0 c) ks),
       mc + Z.of_nat (length (List.filter (matchesAt u0 c) ks))).
Proof.
  induction ks as [|k ks IH]; intros u mc Hnd Hts Hfp.
  { cbn. f_equal. lia. }
  apply NoDup_cons in Hnd as [Hk Hnd].
  cbn [foldl List.filter].
  assert (Hm : matchesAt u0 c k
               = from_option (fun f => matches u f c) false (b_footprints (m_board u) !! k)).
  { unfold matchesAt. rewrite <- (Hfp k) by left.
    destruct (b_footprints (m_board u) !! k); cbn; [|done].
    unfold matches. by rewrite Hts. }
  rewrite Hm. unfold scanStep at 2.
  destruct (b_footprints (m_board u) !! k) as [f|] eqn:Hf; cbn [from_option].
  - destruct (matches u f c).
    + rewrite IH; [| done | | ].
      * cbn [foldl length].
        assert (updateMatchedAt i c u k = updateMatched i c k f u) as ->
          by (unfold updateMatchedAt; by rewrite Hf).
        f_equal. lia.
      * rewrite <- Hts. apply (so_lookupByTimestamp u), st_options, updateMatched_steps.
      * intros k' Hk'. rewrite <- Hfp by by right.
        apply updateMatched_others. intros [=]; subst. done.
    + apply IH; [done..|]. intros k' Hk'. apply Hfp. by right.
  - apply IH; [done..|]. intros k' Hk'. apply Hfp. by right.
Qed.

(** *** What the update leaves behind the handle *)

Lemma deref_store r f0 f u : deref u r = Some f0 -> deref (store r f u) r = Some f.
Proof.
  destruct r as [k|j]; cbn; intros H; apply list_lookup_insert_eq; by eapply lookup_lt_Some.
Qed.

Lemma deref_stage ch u r : deref (stage ch u) r = deref u r.
Proof. by destruct r. Qed.

Lemma updateFootprintParameters_at r c u f :
  deref u r = Some f ->
  deref (updateFootprintParameters r c u) r = Some (syncParameters c (f, u, false)).1.1.
Proof.
  intros Hr. unfold updateFootprintParameters. rewrite Hr.
  pose proof (syncParameters_fps c f u false) as Hfp.
  destruct (syncParameters c (f, u, false)) as [[f' u'] ch']. cbn in *.
  assert (deref (store r f' u') r = Some f') as H.
  { apply (deref_store r f). by rewrite (fps_same_deref u u'). }
  destruct (GetStatus _ _); [done|]. destruct ch'; [|done]. by rewrite deref_stage.
Qed.

Lemma updateComponentPadConnections_at r c u f :
  deref u r = Some f ->
  deref (updateComponentPadConnections r c u) r
    = Some (SetPads (updatePads r (fp_reference f) c 0%nat (fp_pads f) (u, false)).1 f).
Proof.
  intros Hr. unfold updateComponentPadConnections. rewrite Hr.
  pose proof (updatePads_fps r (fp_reference f) c (fp_pads f) 0%nat u false) as Hfp.
  destruct (updatePads _ _ _ _ _ _) as [pads [u' ch']]. cbn in *.
  assert (deref (store r (SetPads pads f) u') r = Some (SetPads pads f)) as H.
  { apply (deref_store r f). by rewrite (fps_same_deref u u'). }
  destruct (GetStatus _ _); [done|]. destruct ch'; [|done]. by rewrite deref_stage.
Qed.

Lemma hasExcludeFromBOM_set a : hasExcludeFromBOM (Z.lor a FP_EXCLUDE_FROM_BOM) = true.
Proof.
  unfold hasExcludeFromBOM.
  assert (Z.land (Z.lor a FP_EXCLUDE_FROM_BOM) FP_EXCLUDE_FROM_BOM = FP_EXCLUDE_FROM_BOM) as ->.
  { apply Z.bits_inj'. intros n Hn. rewrite Z.land_spec, Z.lor_spec.
    destruct (Z.testbit a n), (Z.testbit FP_EXCLUDE_FROM_BOM n); done. }
  done.
Qed.

Lemma hasExcludeFromBOM_clear a :
  hasExcludeFromBOM (Z.land a (Z.lnot FP_EXCLUDE_FROM_BOM)) = false.
Proof.
  unfold hasExcludeFromBOM.
  by rewrite <- Z.land_assoc, (Z.land_comm (Z.lnot _)), Z.land_lnot_diag, Z.land_0_r.
Qed.


Lemma syncField_commit msg set f u ch :
  m_isDryRun u = false ->
  syncField msg set (f, u, ch) = (set f, report msg RPT_SEVERITY_ACTION u, true).
Proof. intros Hd. unfold syncField. cbn. by rewrite Hd. Qed.

Lemma syncStage_commit (b : bool) msg set (s : FOOTPRINT * UPDATER * bool) :
  m_isDryRun s.1.2 = false ->
  let s' := if b then syncField msg set s else s in
  m_isDryRun s'.1.2 = false /\ s'.1.1 = (if b then set s.1.1 else s.1.1).
Proof.
  destruct s as [[f u] ch]. intros Hd. destruct b; [|done].
  cbv zeta. rewrite syncField_commit by done. done.
Qed.

(** Outside a dry run the metadata sync leaves the component's metadata. *)
Lemma syncParameters_commit c f u ch :
  m_isDryRun u = false ->
  (syncParameters c (f, u, ch)).1.1 = syncedFootprint c f.
Proof.
  intros Hd. unfold syncParameters. cbv zeta.
  set (s0 := (f, u, ch)).
  assert (m_isDryRun s0.1.2 = false /\ s0.1.1 = f) as [Hd0 Hf0] by done.
  clearbody s0.
  match goal with |- context [if ?b then syncField ?m ?st s0 else s0] =>
    destruct (syncStage_commit b m st s0 Hd0) as [Hd1 Hf1];
    set (s1 := if b then syncField m st s0 else s0) in * end.
  clearbody s1.
  match goal with |- context [if ?b then syncField ?m ?st s1 else s1] =>
    destruct (syncStage_commit b m st s1 Hd1) as [Hd2 Hf2];
    set (s2 := if b then syncField m st s1 else s1) in * end.
  clearbody s2.
  match goal with |- context [if ?b then syncField ?m ?st s2 else s2] =>
    destruct (syncStage_commit b m st s2 Hd2) as [Hd3 Hf3];
    set (s3 := if b then syncField m st s2 else s2) in * end.
  clearbody s3.
  match goal with |- context [if ?b then syncField ?m ?st s3 else s3] =>
    destruct (syncStage_commit b m st s3 Hd3) as [Hd4 Hf4];
    set (s4 := if b then syncField m st s3 else s3) in * end.
  clearbody s4.
  assert (s4.1.1 = SetProperties (c_properties c) (SetPath (c_path c)
            (SetValue (c_value c) (SetReference (c_reference c) f))) ) as Hs4.
  { rewrite Hf4, Hf3, Hf2, Hf1, Hf0. clear.
    destruct f. cbn.
    repeat (case_bool_decide; cbn in *; simplify_eq); try done.
    all: unfold SetProperties, SetPath, SetValue, SetReference; cbn; f_equal; try done.
    all: try (by apply dec_stable). }
  destruct s4 as [[f4 u4] ch4]. cbn in Hs4, Hd4. subst f4.
  unfold syncedFootprint, syncedAttributes. cbn [fst snd fp_attributes SetProperties SetPath SetValue SetReference fp_properties fp_reference fp_value fp_path fp_fpid fp_locked fp_pads].
  destruct (Bool.eqb _ _) eqn:He; cbn [negb].
  - done.
  - destruct (has_property _ _); by rewrite syncField_commit.
Qed.

Lemma syncedFootprint_synced c f : metadata_synced (syncedFootprint c f) c.
Proof.
  unfold metadata_synced, syncedFootprint, syncedAttributes. cbn.
  repeat split.
  destruct (has_property (c_properties c) "exclude_from_bom") eqn:Hp,
           (hasExcludeFromBOM (fp_attributes f)) eqn:Ha; cbn;
    rewrite ?hasExcludeFromBOM_set, ?hasExcludeFromBOM_clear; done.
Qed.

Lemma updateMatched_commit_at i c k f u :
  m_isDryRun u = false -> m_replaceFootprints u = false ->
  b_footprints (m_board u) !! k = Some f ->
  exists pads,
    b_footprints (m_board (updateMatched i c k f u)) !! k
      = Some (SetPads pads (syncedFootprint c f)).
Proof.
  intros Hd Hr Hk. unfold updateMatched. rewrite Hr. cbn [andb].
  set (u1 := with_footprintMap _ u).
  assert (deref u1 (OnBoard k) = Some f) as H1 by done.
  pose proof (updateFootprintParameters_at (OnBoard k) c u1 f H1) as H2.
  rewrite syncParameters_commit in H2 by done.
  pose proof (updateComponentPadConnections_at (OnBoard k) c _ _ H2) as H3.
  eexists. exact H3.
Qed.

Lemma foldl_updateMatchedAt_steps i c ks : forall u,
  steps u (foldl (updateMatchedAt i c) u ks).
Proof.
  apply steps_foldl. intros u k. unfold updateMatchedAt.
  destruct (b_footprints (m_board u) !! k); [apply updateMatched_steps | apply steps_refl].
Qed.

Lemma foldl_updateMatchedAt_others i c k ks : forall u,
  k ∉ ks ->
  b_footprints (m_board (foldl (updateMatchedAt i c) u ks)) !! k
    = b_footprints (m_board u) !! k.
Proof.
  induction ks as [|k' ks IH]; intros u Hk; cbn [foldl]; [done|].
  apply not_elem_of_cons in Hk as [Hne Hk]. rewrite IH by done.
  unfold updateMatchedAt. destruct (b_footprints (m_board u) !! k') as [f|]; [|done].
  apply updateMatched_others. congruence.
Qed.

Lemma foldl_updateMatchedAt_synced i c : forall ks u,
  NoDup ks ->
  m_isDryRun u = false -> m_replaceFootprints u = false ->
  (forall k, k ∈ ks -> is_Some (b_footprints (m_board u) !! k)) ->
  forall k, k ∈ ks ->
    exists f', b_footprints (m_board (foldl (updateMatchedAt i c) u ks)) !! k = Some f' /\
               metadata_synced f' c.
Proof.
  induction ks as [|k0 ks IH]; intros u Hnd Hd Hr Hin k Hk; [by apply elem_of_nil in Hk|].
  apply NoDup_cons in Hnd as [Hk0 Hnd]. cbn [foldl].
  destruct (Hin k0) as [f0 Hf0]; [by left|].
  assert (updateMatchedAt i c u k0 = updateMatched i c k0 f0 u) as Hu
    by (unfold updateMatchedAt; by rewrite Hf0).
  pose proof (updateMatched_steps i c k0 f0 u) as Hst.
  apply elem_of_cons in Hk as [->|Hk].
  - rewrite foldl_updateMatchedAt_others by done. rewrite Hu.
    destruct (updateMatched_commit_at i c k0 f0 u Hd Hr Hf0) as [pads Hp].
    eexists. split; [exact Hp|]. apply syncedFootprint_synced.
  - rewrite Hu. apply IH; try done.
    + by rewrite (so_isDryRun _ _ (st_options _ _ Hst)).
    + by rewrite (so_replaceFootprints _ _ (st_options _ _ Hst)).
    + intros k' Hk'. rewrite updateMatched_others by (intros [=]; subst; done).
      apply Hin. by right.
Qed.

Lemma syncParameters_map c f u ch :
  footprintMap (syncParameters c (f, u, ch)).1.2 = footprintMap u.
Proof.
  set (P := fun s : FOOTPRINT * UPDATER * bool => footprintMap s.1.2 = footprintMap u).
  assert (Hstep : forall s msg set, P s -> P (syncField msg set s)).
  { intros [[f1 u1] ch1] msg set Hs. unfold P, syncField in *. cbn in *.
    by destruct (m_isDryRun u1). }
  change (P (syncParameters c (f, u, ch))). unfold syncParameters. cbv zeta.
  repeat match goal with
         | |- P (if ?b then _ else _) => destruct b
         | |- P (syncField _ _ _) => apply Hstep
         end.
  all: done.
Qed.

Lemma store_map r f u : footprintMap (store r f u) = footprintMap u.
Proof. by destruct r. Qed.

Lemma updateFootprintParameters_map r c u :
  footprintMap (updateFootprintParameters r c u) = footprintMap u.
Proof.
  unfold updateFootprintParameters. destruct (deref u r) as [f|]; [|done].
  pose proof (syncParameters_map c f u false) as H.
  destruct (syncParameters c (f, u, false)) as [[f' u'] ch']. cbn in H.
  repeat case_match; cbn; by rewrite ?store_map.
Qed.

Lemma updatePad_map p fpRef c pad u ch :
  footprintMap (updatePad p fpRef c pad (u, ch)).2.1 = footprintMap u.
Proof.
  unfold updatePad, connectPad, findOrAddNet, disconnectPad, syncPin. solve_frame.
Qed.

Lemma updatePads_map r fpRef c pads : forall j u ch,
  footprintMap (updatePads r fpRef c j pads (u, ch)).2.1 = footprintMap u.
Proof.
  induction pads as [|pad pads IH]; intros j u ch; cbn [updatePads]; [done|].
  pose proof (updatePad_map (r, j) fpRef c pad u ch) as H1.
  destruct (updatePad (r, j) fpRef c pad (u, ch)) as [pad' [u1 ch1]]. cbn in H1.
  pose proof (IH (S j) u1 ch1) as H2.
  destruct (updatePads r fpRef c (S j) pads (u1, ch1)) as [rest' [u2 ch2]]. cbn in *.
  congruence.
Qed.

Lemma updateComponentPadConnections_map r c u :
  footprintMap (updateComponentPadConnections r c u) = footprintMap u.
Proof.
  unfold updateComponentPadConnections. destruct (deref u r) as [f|]; [|done].
  pose proof (updatePads_map r (fp_reference f) c (fp_pads f) 0%nat u false) as H.
  destruct (updatePads _ _ _ _ _ _) as [pads [u' ch']]. cbn in H.
  repeat case_match; cbn; by rewrite ?store_map.
Qed.

Lemma updateMatched_map i c k f u :
  m_replaceFootprints u = false ->
  footprintMap (updateMatched i c k f u) !! i = Some (OnBoard k).
Proof.
  intros Hr. unfold updateMatched. rewrite Hr. cbn [andb].
  rewrite updateComponentPadConnections_map, updateFootprintParameters_map.
  cbn. apply lookup_insert_eq.
Qed.

Lemma foldl_updateMatchedAt_map i c ks k : forall u,
  m_replaceFootprints u = false ->
  k ∉ ks -> is_Some (b_footprints (m_board u) !! k) ->
  footprintMap (foldl (updateMatchedAt i c) u (ks ++ [k])) !! i = Some (OnBoard k).
Proof.
  intros u Hr Hk [f Hf]. rewrite foldl_app. cbn [foldl].
  pose proof (foldl_updateMatchedAt_steps i c ks u) as Hst.
  pose proof (foldl_updateMatchedAt_others i c k ks u Hk) as Ho.
  set (u' := foldl (updateMatchedAt i c) u ks) in *. clearbody u'.
  unfold updateMatchedAt. rewrite Ho, Hf.
  apply updateMatched_map. by rewrite (so_replaceFootprints _ _ (st_options _ _ Hst)).
Qed.

(** C5, as the code has it.  When two or more board footprints match a
    component, the step of the component is: the Info report, then the update
    of every matching footprint in board order (replacement, metadata, pad
    connections), then one Error report "Multiple footprints found".  In a
    committing run without replacement every matching footprint ends with the
    metadata of the component.  In a run without replacement, dry or
    committing, the footprint map has the last matching footprint for the
    component. *)
Theorem ambiguous_match_updates_every_match u i c :
  has_property (c_properties c) "exclude_from_board" = false ->
  let u1 := report (MsgProcessingSymbol (c_reference c) (c_fpid c)) RPT_SEVERITY_INFO u in
  let ms := List.filter (matchesAt u c) (seq 0 (length (b_footprints (m_board u)))) in
  (1 < length ms)%nat ->
  let u2 := foldl (updateMatchedAt i c) u1 ms in
  processComponent (lastPreexisting (m_board u)) u (i, c)
    = report (MsgMultipleFootprints (c_reference c)) RPT_SEVERITY_ERROR u2 /\
  (m_isDryRun u = false -> m_replaceFootprints u = false ->
   forall k, k ∈ ms ->
     exists f', b_footprints (m_board u2) !! k = Some f' /\ metadata_synced f' c) /\
  (m_replaceFootprints u = false ->
   exists k, last ms = Some k /\ footprintMap u2 !! i = Some (OnBoard k)).
Proof.
  intros Hex u1 ms Hms u2.
  assert (NoDup ms) as Hnd
    by (unfold ms; apply NoDup_ListNoDup, List.NoDup_filter, NoDup_ListNoDup, NoDup_seq).
  assert (forall k, k ∈ ms -> is_Some (b_footprints (m_board u1) !! k)) as Hon.
  { intros k' Hk'. unfold ms in Hk'. apply list_elem_of_In, filter_In in Hk' as [_ Hk'].
    unfold matchesAt in Hk'. change (m_board u1) with (m_board u).
    by destruct (b_footprints (m_board u) !! k'). }
  split; [|split].
  - unfold processComponent. rewrite Hex. fold u1.
    change (m_board u) with (m_board u1).
    rewrite <- (Nat.add_0_r (length (b_footprints (m_board u1)))).
    rewrite scanFootprints_preexisting by done.
    rewrite (scan_matching i c u1) by (done || apply NoDup_seq).
    change (matchesAt u1 c) with (matchesAt u c).
    change (m_board u1) with (m_board u). fold ms. fold u2.
    rewrite bool_decide_eq_false_2 by lia.
    by rewrite bool_decide_eq_true_2 by lia.
  - intros Hd Hr k Hk. unfold u2.
    by apply foldl_updateMatchedAt_synced.
  - intros Hr. unfold u2. clearbody ms.
    destruct ms as [|k ks _] using rev_ind; [cbn in Hms; lia|].
    exists k. split; [apply last_snoc|].
    apply NoDup_app in Hnd as (_ & Hnot & _).
    apply foldl_updateMatchedAt_map; [done| |].
    + intros Hin. apply (Hnot k Hin). left.
    + apply Hon, elem_of_app. right. left.
Qed.

Lemma ambiguous_match_updates_every_match_witness :
  let u := ex_updater_twins in
  let u1 := report (MsgProcessingSymbol (c_reference ex_R1_component)
                                        (c_fpid ex_R1_component)) RPT_SEVERITY_INFO u in
  let ms := List.filter (matchesAt u ex_R1_component)
                        (seq 0 (length (b_footprints (m_board u)))) in
  let u2 := foldl (updateMatchedAt 0 ex_R1_component) u1 ms in
  processComponent (lastPreexisting (m_board u)) u (0%nat, ex_R1_component)
    = report (MsgMultipleFootprints (c_reference ex_R1_component)) RPT_SEVERITY_ERROR u2 /\
  (m_isDryRun u = false -> m_replaceFootprints u = false ->
   forall k, k ∈ ms ->
     exists f', b_footprints (m_board u2) !! k = Some f' /\
                metadata_synced f' ex_R1_component) /\
  (m_replaceFootprints u = false ->
   exists k, last ms = Some k /\ footprintMap u2 !! 0%nat = Some (OnBoard k)).
Proof.
  apply (ambiguous_match_updates_every_match ex_updater_twins 0%nat ex_R1_component).
  - vm_compute. reflexivity.
  - vm_compute. lia.
Defined.

Lemma matching_scans_preexisting_only_witness :
  let u0 := BOARD_NETLIST_UPDATER ex_frame ex_board_R1 in
  scanFootprints 0 ex_R1_component (lastPreexisting (m_board u0)) (seq 0 (1 + 3)) (u0, 0)
    = foldl (fun s k => scanStep 0 ex_R1_component k s) (u0, 0) (seq 0 1).
Proof.
  intros u0.
  destruct (matching_scans_preexisting_only u0 []) as (_ & _ & H & _).
  apply (H 0%nat ex_R1_component (u0, 0) 3%nat).
  vm_compute. lia.
Defined.

(** ** Nets and the pads bound to them *)

Lemma net_le_In_l l l' n :
  Forall2 net_le l l' -> n ∈ l -> exists n', n' ∈ l' /\ net_le n n'.
Proof.
  intros HF Hn. apply list_elem_of_lookup in Hn as [i Hi].
  destruct (Forall2_lookup_l _ _ _ _ _ HF Hi) as (n' & Hi' & Hle).
  exists n'. split; [by eapply list_elem_of_lookup_2 | done].
Qed.

Lemma net_le_In_r l l' n' :
  Forall2 net_le l l' -> n' ∈ l' -> exists n, n ∈ l /\ net_le n n'.
Proof.
  intros HF Hn. apply list_elem_of_lookup in Hn as [i Hi].
  destruct (Forall2_lookup_r _ _ _ _ _ HF Hi) as (n & Hi' & Hle).
  exists n. split; [by eapply list_elem_of_lookup_2 | done].
Qed.

Lemma registered_le b b' name :
  Forall2 net_le (b_nets b) (b_nets b') -> registered b name -> registered b' name.
Proof.
  intros HF (n & Hn & Hname).
  destruct (net_le_In_l _ _ _ HF Hn) as (n' & Hn' & Hle & _).
  exists n'. split; [done | congruence].
Qed.

Lemma current_le b b' name :
  Forall2 net_le (b_nets b) (b_nets b') -> current b name -> current b' name.
Proof.
  intros HF (n & Hn & Hname & Hcur).
  destruct (net_le_In_l _ _ _ HF Hn) as (n' & Hn' & Hle & _ & Hc).
  exists n'. split; [done | split; [congruence | auto]].
Qed.

Lemma sentinel_le b b' :
  Forall2 net_le (b_nets b) (b_nets b') ->
  has_sentinel b /\ sentinel_current b -> has_sentinel b' /\ sentinel_current b'.
Proof.
  intros HF [(n & Hn & Hcode & Hname) Hall]. split.
  - destruct (net_le_In_l _ _ _ HF Hn) as (n' & Hn' & Hle & Hc & _).
    exists n'. split; [done | split; congruence].
  - intros n' Hn' Hcode'.
    destruct (net_le_In_r _ _ _ HF Hn') as (m & Hm & Hle & Hc & Hcur).
    apply Hcur, Hall; [done | congruence].
Qed.

Lemma staged_net_steps u u' name : steps u u' -> staged_net u name -> staged_net u' name.
Proof.
  intros Hs (n & Hn & Hname). exists n. split; [|done].
  eapply elem_of_prefix; [exact Hn | apply (st_commit _ _ Hs)].
Qed.

Lemma known_steps u u' name : steps u u' -> known u name -> known u' name.
Proof.
  intros Hs [H|H]; [left | right; by eapply staged_net_steps].
  eapply registered_le; [apply (st_nets _ _ Hs) | exact H].
Qed.

Lemma live_steps u u' name : steps u u' -> live u name -> live u' name.
Proof.
  intros Hs [H|H]; [left | right; by eapply staged_net_steps].
  eapply current_le; [apply (st_nets _ _ Hs) | exact H].
Qed.

Lemma live_known u name : live u name -> known u name.
Proof. intros [(n & ? & ? & _)|H]; [left; by exists n | by right]. Qed.

Lemma pads_known_steps u u' f : steps u u' -> pads_known u f -> pads_known u' f.
Proof. intros Hs H. eapply Forall_impl; [exact H|]. intros p. by apply known_steps. Qed.

Lemma pads_live_steps u u' f : steps u u' -> pads_live u f -> pads_live u' f.
Proof. intros Hs H. eapply Forall_impl; [exact H|]. intros p. by apply live_steps. Qed.

Lemma pads_live_known u f : pads_live u f -> pads_known u f.
Proof. intros H. eapply Forall_impl; [exact H|]. intros p. apply live_known. Qed.

(** A step that leaves the footprint objects alone keeps the invariant. *)
Lemma net_inv_steps ex u u' :
  steps u u' -> fps_same u u' -> net_inv ex u -> net_inv ex u'.
Proof.
  intros Hs [Hb Hn] [Hd HB HN HA HS]. split.
  - by rewrite (so_isDryRun _ _ (st_options _ _ Hs)).
  - rewrite Hb. eapply Forall_impl; [exact HB|]. intros f. by apply pads_known_steps.
  - intros j f. rewrite Hn. intros Hj. specialize (HN j f Hj).
    case_bool_decide; [by eapply pads_known_steps | by eapply pads_live_steps].
  - intros name n Hname. destruct (st_added _ _ Hs Hd name n Hname) as [H|H]; [|done].
    destruct (HA name n H) as [? Hc]. split; [done|].
    eapply elem_of_prefix; [exact Hc | apply (st_commit _ _ Hs)].
  - eapply sentinel_le; [apply (st_nets _ _ Hs) | done].
Qed.

Lemma live_sentinel u :
  has_sentinel (m_board u) /\ sentinel_current (m_board u) ->
  live u (NetnameOfCode UNCONNECTED (m_board u)) /\ live u "".
Proof.
  intros [(n & Hn & Hcode & Hname) Hall]. split.
  - left. unfold NetnameOfCode, FindNetByCode.
    destruct (List.find _ _) as [m|] eqn:Hf.
    + apply find_some in Hf as [Hm Hc]. apply bool_decide_eq_true_1 in Hc.
      apply list_elem_of_In in Hm. exists m. repeat split; [done|]. by apply Hall.
    + exfalso. pose proof (find_none _ _ Hf n (proj1 (list_elem_of_In _ _) Hn)) as Hno.
      cbn in Hno. by rewrite bool_decide_eq_true_2 in Hno.
  - left. exists n. repeat split; try done. by apply Hall.
Qed.

Lemma current_markCurrent name b n :
  FindNet name b = Some n -> current (markCurrent name b) name.
Proof.
  intros Hf. pose proof (FindNet_name _ _ _ Hf) as Hname.
  apply FindNet_In in Hf. exists (SetIsCurrent true n). split; [|done].
  unfold markCurrent. cbn. apply list_elem_of_fmap. exists n.
  by rewrite bool_decide_eq_true_2.
Qed.

Lemma FindNet_None_registered name b : FindNet name b = None -> ~ registered b name.
Proof.
  intros Hf (n & Hn & Hname). pose proof (find_none _ _ Hf n (proj1 (list_elem_of_In _ _) Hn)) as Hno.
  cbn in Hno. by rewrite bool_decide_eq_true_2 in Hno.
Qed.


Lemma syncPin_commit aPad pinFunction pinType pad u ch :
  m_isDryRun u = false ->
  (syncPin aPad pinFunction pinType pad (u, ch)).2.1 = u /\
  pad_net (syncPin aPad pinFunction pinType pad (u, ch)).1 = pad_net pad /\
  pad_name (syncPin aPad pinFunction pinType pad (u, ch)).1 = pad_name pad /\
  pad_onCopper (syncPin aPad pinFunction pinType pad (u, ch)).1 = pad_onCopper pad.
Proof.
  intros Hd. unfold syncPin. rewrite Hd. cbn [negb].
  repeat case_bool_decide; done.
Qed.

Lemma disconnectPad_live aPad fpRef pad u ch :
  m_isDryRun u = false ->
  has_sentinel (m_board u) /\ sentinel_current (m_board u) ->
  live (disconnectPad aPad fpRef pad (u, ch)).2.1
       (pad_net (disconnectPad aPad fpRef pad (u, ch)).1).
Proof.
  intros Hd Hs. destruct (live_sentinel u Hs) as [Hs0 _].
  unfold disconnectPad. cbv zeta.
  set (u1 := if negb (IsEmpty (pad_net pad)) then _ else _).
  assert (m_isDryRun u1 = false /\ m_board u1 = m_board u /\ m_commit u1 = m_commit u)
    as (Hd1 & Hb1 & Hc1).
  { unfold u1. repeat case_match; done. }
  rewrite Hd1. cbn [negb fst snd]. rewrite Hb1.
  assert (live u1 (NetnameOfCode UNCONNECTED (m_board u))) as Hl.
  { destruct Hs0 as [H|H]; [left | right]; unfold current, staged_net in *;
      by rewrite ?Hb1, ?Hc1. }
  by case_match.
Qed.

Lemma connectPad_live ex aPad fpRef netName pad u ch :
  net_inv ex u -> known u (pad_net pad) ->
  live (connectPad aPad fpRef netName pad (u, ch)).2.1
       (pad_net (connectPad aPad fpRef netName pad (u, ch)).1).
Proof.
  intros Hinv Hk. pose proof (ni_dry _ _ Hinv) as Hd.
  unfold connectPad. cbv zeta. rewrite Hd. cbn [negb]. rewrite andb_true_r.
  destruct (FindNet netName (m_board u)) as [n0|] eqn:Hf.
  - rewrite (bool_decide_eq_true_2 (is_Some (Some n0))) by (by eexists).
    pose proof (current_markCurrent _ _ _ Hf) as Hcur.
    pose proof (FindNet_name _ _ _ Hf) as Hname.
    case_bool_decide as Hne.
    + unfold findOrAddNet. cbn [fst snd].
      destruct (IsEmpty (pad_net pad)); cbn; rewrite Hd; cbn; rewrite Hname; by left.
    + cbn. rewrite Hne. by left.
  - rewrite (bool_decide_eq_false_2 (is_Some None)) by (by intros [? ?]).
    case_bool_decide as Hne.
    + unfold findOrAddNet, lookupAddedNet.
      destruct (m_addedNets u !! netName) as [[n|]|] eqn:Ha; cbn [mjoin option_join mbind option_bind].
      * destruct (ni_added _ _ Hinv _ _ Ha) as [Hn Hc].
        destruct (IsEmpty (pad_net pad)); cbn; rewrite Hd; cbn; right; by exists n.
      * rewrite Hd. cbn.
        destruct (IsEmpty (pad_net pad)); cbn; rewrite Hd; cbn; right;
          exists (new_NETINFO_ITEM netName); (split; [|done]);
          apply elem_of_app; right; left.
      * rewrite Hd. cbn.
        destruct (IsEmpty (pad_net pad)); cbn; rewrite Hd; cbn; right;
          exists (new_NETINFO_ITEM netName); (split; [|done]);
          apply elem_of_app; right; left.
    + cbn. destruct Hk as [Hk|Hk]; [|by right].
      exfalso. rewrite Hne in Hk. by apply (FindNet_None_registered _ _ Hf).
Qed.

Lemma updatePad_live ex aPad fpRef c pad u ch :
  net_inv ex u -> known u (pad_net pad) ->
  live (updatePad aPad fpRef c pad (u, ch)).2.1 (pad_net (updatePad aPad fpRef c pad (u, ch)).1).
Proof.
  intros Hinv Hk. pose proof (ni_dry _ _ Hinv) as Hd.
  unfold updatePad. cbv zeta.
  match goal with |- context [syncPin ?a ?pf ?pt pad (u, ch)] =>
    destruct (syncPin_commit a pf pt pad u ch Hd) as (Hu & Hn & _ & _);
    destruct (syncPin a pf pt pad (u, ch)) as [pad1 [u1 ch1]] end.
  cbn in Hu, Hn. subst u1.
  destruct (_ || _).
  - apply disconnectPad_live; [done | apply (ni_sentinel _ _ Hinv)].
  - eapply connectPad_live; [done | by rewrite Hn].
Qed.

Lemma updatePad_net_inv ex aPad fpRef c pad u ch :
  net_inv ex u -> net_inv ex (updatePad aPad fpRef c pad (u, ch)).2.1.
Proof.
  intros Hinv. eapply net_inv_steps; [| |exact Hinv].
  - apply updatePad_steps.
  - apply updatePad_fps.
Qed.

Lemma updatePads_net_inv ex r fpRef c pads : forall j u ch,
  net_inv ex u -> Forall (fun p => known u (pad_net p)) pads ->
  net_inv ex (updatePads r fpRef c j pads (u, ch)).2.1 /\
  Forall (fun p => live (updatePads r fpRef c j pads (u, ch)).2.1 (pad_net p))
         (updatePads r fpRef c j pads (u, ch)).1.
Proof.
  induction pads as [|pad pads IH]; intros j u ch Hinv Hk; cbn [updatePads].
  { split; [done | constructor]. }
  apply Forall_cons in Hk as [Hk Hks].
  pose proof (updatePad_net_inv ex (r, j) fpRef c pad u ch Hinv) as H1.
  pose proof (updatePad_live ex (r, j) fpRef c pad u ch Hinv Hk) as H2.
  pose proof (updatePad_steps (r, j) fpRef c pad u ch) as [H3 _].
  destruct (updatePad (r, j) fpRef c pad (u, ch)) as [pad' [u1 ch1]]. cbn in H1, H2, H3.
  destruct (IH (S j) u1 ch1 H1) as [H4 H5].
  { eapply Forall_impl; [exact Hks|]. intros p. by apply known_steps. }
  pose proof (updatePads_steps r fpRef c pads (S j) u1 ch1) as [H6 _].
  destruct (updatePads r fpRef c (S j) pads (u1, ch1)) as [rest' [u2 ch2]]. cbn in *.
  split; [done|]. constructor; [by eapply live_steps | done].
Qed.

Lemma known_store r f u name : known (store r f u) name <-> known u name.
Proof. by destruct r. Qed.

Lemma live_store r f u name : live (store r f u) name <-> live u name.
Proof. by destruct r. Qed.

Lemma pads_known_store r f u g : pads_known (store r f u) g <-> pads_known u g.
Proof. unfold pads_known. apply Forall_proper; [|done]. intros p. apply known_store. Qed.

Lemma pads_live_store r f u g : pads_live (store r f u) g <-> pads_live u g.
Proof. unfold pads_live. apply Forall_proper; [|done]. intros p. apply live_store. Qed.

Lemma net_inv_store_board ex k f' u :
  net_inv ex u -> pads_known u f' -> net_inv ex (store (OnBoard k) f' u).
Proof.
  intros [Hd HB HN HA HS] Hf. split; try done.
  - change (b_footprints (m_board (store (OnBoard k) f' u)))
      with (<[k:=f']> (b_footprints (m_board u))).
    apply Forall_insert; [exact HB | exact Hf].
Qed.

Lemma net_inv_store_staged ex j f' u :
  net_inv ex u -> ex = None \/ ex = Some j -> pads_live u f' ->
  net_inv None (store (Staged j) f' u).
Proof.
  intros [Hd HB HN HA HS] Hex Hf. split; try done.
  - intros j' f Hj'. rewrite bool_decide_eq_false_2 by done.
    apply pads_live_store.
    change (m_newFootprints (store (Staged j) f' u)) with (<[j:=f']> (m_newFootprints u)) in Hj'.
    destruct (decide (j' = j)) as [->|Hne].
    + apply list_lookup_insert_Some in Hj' as [(_ & <- & _)|[? _]]; done.
    + rewrite list_lookup_insert_ne in Hj' by done. specialize (HN j' f Hj').
      rewrite bool_decide_eq_false_2 in HN; [done|].
      destruct Hex as [->| ->]; [done | congruence].
Qed.

(** The same pads behind the handle: the invariant does not see the change. *)
Lemma net_inv_store_same ex r f f' u :
  net_inv ex u -> deref u r = Some f -> fp_pads f' = fp_pads f -> net_inv ex (store r f' u).
Proof.
  intros Hinv Hr Hp. pose proof Hinv as [Hd HB HN HA HS].
  destruct r as [k|j]; cbn in Hr.
  - apply net_inv_store_board; [done|].
    unfold pads_known. rewrite Hp.
    by apply (proj1 (Forall_lookup _ _) HB k f).
  - split; try done.
    + intros j' g Hj'.
      change (m_newFootprints (store (Staged j) f' u)) with (<[j:=f']> (m_newFootprints u)) in Hj'.
      destruct (decide (j' = j)) as [->|Hne].
      * apply list_lookup_insert_Some in Hj' as [(_ & <- & _)|[? _]]; [|done].
        specialize (HN j f Hr). unfold pads_known, pads_live in *. rewrite Hp.
        case_bool_decide.
        -- eapply Forall_impl; [exact HN|]. intros p Hk. by apply known_store.
        -- eapply Forall_impl; [exact HN|]. intros p Hk. by apply live_store.
      * rewrite list_lookup_insert_ne in Hj' by done. specialize (HN j' g Hj').
        case_bool_decide; [by apply pads_known_store | by apply pads_live_store].
Qed.

Lemma net_inv_stage ex ch u : net_inv ex u -> net_inv ex (stage ch u).
Proof.
  intros Hinv. eapply net_inv_steps; [| |exact Hinv].
  - apply steps_stage, (ni_dry _ _ Hinv).
  - done.
Qed.

Lemma updateFootprintParameters_net_inv ex r c u :
  net_inv ex u -> net_inv ex (updateFootprintParameters r c u).
Proof.
  intros Hinv. pose proof (ni_dry _ _ Hinv) as Hd.
  unfold updateFootprintParameters.
  destruct (deref u r) as [f|] eqn:Hr; [|done].
  pose proof (syncParameters_commit c f u false Hd) as Hf.
  pose proof (syncParameters_steps c f u false) as [Hs _].
  pose proof (syncParameters_fps c f u false) as Hfp.
  destruct (syncParameters c (f, u, false)) as [[f' u'] ch']. cbn in Hf, Hs, Hfp. subst f'.
  cbv zeta.
  assert (net_inv ex (store r (syncedFootprint c f) u')) as H.
  { apply (net_inv_store_same ex r f); [|by rewrite (fps_same_deref u u')|done].
    by eapply net_inv_steps. }
  destruct (GetStatus _ _); [done|]. destruct ch'; [|done]. by apply net_inv_stage.
Qed.

Lemma net_inv_weaken j u : net_inv None u -> net_inv (Some j) u.
Proof.
  intros [Hd HB HN HA HS]. split; try done.
  intros j' f Hj'. specialize (HN j' f Hj'). rewrite bool_decide_eq_false_2 in HN by done.
  case_bool_decide; [by apply pads_live_known | done].
Qed.

Lemma updateComponentPadConnections_net_inv_board ex k c u :
  net_inv ex u -> net_inv ex (updateComponentPadConnections (OnBoard k) c u).
Proof.
  intros Hinv. unfold updateComponentPadConnections.
  destruct (deref u (OnBoard k)) as [f|] eqn:Hr; [|done].
  assert (pads_known u f) as Hk.
  { by apply (proj1 (Forall_lookup _ _) (ni_board _ _ Hinv) k f). }
  destruct (updatePads_net_inv ex (OnBoard k) (fp_reference f) c (fp_pads f) 0%nat u false Hinv Hk)
    as [H1 H2].
  destruct (updatePads _ _ _ _ _ _) as [pads [u' ch']]. cbn in H1, H2. cbv zeta.
  assert (net_inv ex (store (OnBoard k) (SetPads pads f) u')) as H.
  { apply net_inv_store_board; [done|]. apply pads_live_known. exact H2. }
  destruct (GetStatus _ _); [done|]. destruct ch'; [|done]. by apply net_inv_stage.
Qed.

Lemma updateComponentPadConnections_net_inv_staged ex j c u :
  net_inv ex u -> ex = None \/ ex = Some j ->
  net_inv None (updateComponentPadConnections (Staged j) c u).
Proof.
  intros Hinv Hex. unfold updateComponentPadConnections.
  destruct (deref u (Staged j)) as [f|] eqn:Hr.
  - assert (pads_known u f) as Hk.
    { pose proof (ni_new _ _ Hinv j f Hr) as H.
      case_bool_decide; [done | by apply pads_live_known]. }
    destruct (updatePads_net_inv ex (Staged j) (fp_reference f) c (fp_pads f) 0%nat u false
                Hinv Hk) as [H1 H2].
    destruct (updatePads _ _ _ _ _ _) as [pads [u' ch']]. cbn in H1, H2. cbv zeta.
    assert (net_inv None (store (Staged j) (SetPads pads f) u')) as H.
    { by apply (net_inv_store_staged ex). }
    destruct (GetStatus _ _); [done|]. destruct ch'; [|done]. by apply net_inv_stage.
  - destruct Hex as [->| ->]; [done|].
    destruct Hinv as [Hd HB HN HA HS]. split; try done.
    intros j' f Hj'. specialize (HN j' f Hj').
    rewrite bool_decide_eq_false_2 by done.
    rewrite bool_decide_eq_false_2 in HN; [done|]. cbn in Hr. congruence.
Qed.

(** *** The steps that leave the footprint objects alone *)

Lemma fps_same_refl u : fps_same u u.
Proof. by split. Qed.

Lemma fps_same_trans u1 u2 u3 : fps_same u1 u2 -> fps_same u2 u3 -> fps_same u1 u3.
Proof. intros [] []. split; congruence. Qed.

Lemma fps_same_foldl {A} (f : UPDATER -> A -> UPDATER) l :
  (forall u x, fps_same u (f u x)) -> forall u, fps_same u (foldl f u l).
Proof.
  intros Hf. induction l as [|x l IH]; intros u; cbn; [apply fps_same_refl|].
  eapply fps_same_trans; [apply Hf | apply IH].
Qed.

Lemma resolveNet_fps name u : fps_same u (resolveNet name u).2.
Proof. unfold resolveNet. repeat case_match; by split. Qed.

Lemma updateVia_fps names k u : fps_same u (updateVia names k u).
Proof.
  unfold updateVia. repeat case_match; try (by split).
  all: match goal with Hres : resolveNet ?nm ?v = (_, ?w) |- _ =>
         let Hr := fresh in
         pose proof (resolveNet_fps nm v) as Hr; rewrite Hres in Hr; destruct Hr end.
  all: by split.
Qed.

Lemma updateZone_fps names k u : fps_same u (updateZone names k u).
Proof.
  unfold updateZone. repeat case_match; simplify_eq; try (by split).
  all: match goal with Hres : resolveNet ?nm ?v = (_, ?w) |- _ =>
         let Hr := fresh in
         pose proof (resolveNet_fps nm v) as Hr; rewrite Hres in Hr; destruct Hr end.
  all: by split.
Qed.

Lemma updateCopperZoneNets_fps nl u : fps_same u (updateCopperZoneNets nl u).
Proof.
  unfold updateCopperZoneNets. cbv zeta.
  eapply fps_same_trans.
  - apply (fps_same_foldl (fun u k => updateVia (netlistNetnames nl) k u)).
    intros. apply updateVia_fps.
  - apply (fps_same_foldl (fun u k => updateZone (netlistNetnames nl) k u)).
    intros. apply updateZone_fps.
Qed.

Lemma cacheCopperZoneConnections_fps u : fps_same u (cacheCopperZoneConnections u).
Proof.
  unfold cacheCopperZoneConnections. apply fps_same_foldl.
  intros u' kz. case_match; by split.
Qed.

Lemma testComponent_fps u ic : fps_same u (testComponent u ic).
Proof.
  unfold testComponent. repeat case_match; try (by split).
  apply fps_same_foldl. intros. case_match; by split.
Qed.

Lemma testConnectivity_fps nl u : fps_same u (testConnectivity nl u).
Proof. unfold testConnectivity. apply fps_same_foldl. intros. apply testComponent_fps. Qed.

Lemma sweepFootprint_fps nl u k : fps_same u (sweepFootprint nl u k).
Proof.
  unfold sweepFootprint. repeat case_match; simplify_eq; try (by split).
  all: split; [|done]; cbn; by rewrite foldl_markCurrent_footprints.
Qed.

Lemma removeStaleNet_fps u net : fps_same u (removeStaleNet u net).
Proof. unfold removeStaleNet. case_match; by split. Qed.

(** *** The loop over the netlist keeps the invariant *)

Lemma net_inv_new_footprint ex f u :
  net_inv None u ->
  (if bool_decide (ex = Some (length (m_newFootprints u))) then pads_known u f
   else pads_live u f) ->
  (ex = None \/ ex = Some (length (m_newFootprints u))) ->
  net_inv ex (with_newFootprints (m_newFootprints u ++ [f]) u).
Proof.
  intros [Hd HB HN HA HS] Hf Hex. split; try done.
  intros j g Hj. cbn in Hj.
  apply lookup_app_Some in Hj as [Hj|[Hlen Hj]].
  - specialize (HN j g Hj). rewrite bool_decide_eq_false_2 in HN by done.
    apply lookup_lt_Some in Hj.
    rewrite bool_decide_eq_false_2; [done|].
    destruct Hex as [->| ->]; [done|]. intros [=]. lia.
  - apply list_lookup_singleton_Some in Hj as [Hj <-].
    assert (j = length (m_newFootprints u)) as -> by lia. done.
Qed.

Lemma net_inv_quiet ex u u' :
  steps u u' -> fps_same u u' -> net_inv ex u -> net_inv ex u'.
Proof. apply net_inv_steps. Qed.

Lemma addNewComponent_net_inv c u :
  net_inv None u -> net_inv None (addNewComponent c u).2.
Proof.
  intros Hinv. pose proof (ni_dry _ _ Hinv) as Hd.
  unfold addNewComponent.
  destruct (IsEmpty (c_fpid c)).
  { cbn [snd]. eapply net_inv_steps; [| |exact Hinv]; [|done].
    eapply steps_trans; [apply steps_report | apply steps_inc_errorCount]. }
  destruct (LoadFootprint (m_frame u) (c_fpid c)) as [footprint|].
  2:{ cbn [snd]. eapply net_inv_steps; [| |exact Hinv]; [|done].
      eapply steps_trans; [apply steps_report | apply steps_inc_errorCount]. }
  cbv zeta.
  set (u1 := inc_newFootprintsCount (report _ _ u)).
  assert (net_inv None u1) as H1.
  { eapply net_inv_steps; [| |exact Hinv]; [|done].
    eapply steps_trans; [apply steps_report | apply steps_inc_newFootprintsCount]. }
  change (m_isDryRun u1) with (m_isDryRun u). rewrite Hd. cbn [negb snd].
  apply net_inv_stage.
  eapply net_inv_steps; [apply steps_with_addedComponents | done |].
  apply net_inv_new_footprint; [done | | by left].
  rewrite bool_decide_eq_false_2 by done.
  unfold pads_live. cbn [fp_pads SetPads]. apply Forall_fmap, Forall_true.
  intros p. cbn. apply (live_sentinel u1), (ni_sentinel _ _ H1).
Qed.

Lemma replaceComponent_net_inv r old c u :
  net_inv None u -> pads_known u old -> exchange_keeps_nets (m_frame u) ->
  match (replaceComponent r old c u).1 with
  | Some (Staged j) => net_inv (Some j) (replaceComponent r old c u).2
  | Some (OnBoard _) => False
  | None => net_inv None (replaceComponent r old c u).2
  end.
Proof.
  intros Hinv Hold Hfr. pose proof (ni_dry _ _ Hinv) as Hd.
  unfold replaceComponent.
  destruct (IsEmpty (c_fpid c)).
  { cbn [fst snd]. eapply net_inv_steps; [| |exact Hinv]; [|done].
    eapply steps_trans; [apply steps_report | apply steps_inc_errorCount]. }
  destruct (LoadFootprint (m_frame u) (c_fpid c)) as [newFootprint|].
  2:{ cbn [fst snd]. eapply net_inv_steps; [| |exact Hinv]; [|done].
      eapply steps_trans; [apply steps_report | apply steps_inc_errorCount]. }
  cbv zeta.
  set (u1 := inc_newFootprintsCount (report _ _ u)).
  assert (steps u u1) as Hs1.
  { eapply steps_trans; [apply steps_report | apply steps_inc_newFootprintsCount]. }
  assert (net_inv None u1) as H1 by (eapply net_inv_steps; [exact Hs1 | done | exact Hinv]).
  change (m_isDryRun u1) with (m_isDryRun u). rewrite Hd. cbn [negb fst snd].
  do 2 apply net_inv_stage.
  apply net_inv_new_footprint; [done | | by right].
  rewrite bool_decide_eq_true_2 by done.
  unfold pads_known. apply Forall_forall. intros p Hp.
  change (m_frame u1) with (m_frame u) in Hp.
  destruct (Hfr old newFootprint p Hp) as [->|(q & Hq & <-)].
  - apply live_known, (live_sentinel u1), (ni_sentinel _ _ H1).
  - apply (known_steps u u1 _ Hs1).
    by apply (proj1 (Forall_forall _ _) Hold q).
Qed.

Lemma updateMatched_net_inv i c k f u :
  net_inv None u -> exchange_keeps_nets (m_frame u) ->
  b_footprints (m_board u) !! k = Some f ->
  net_inv None (updateMatched i c k f u).
Proof.
  intros Hinv Hfr Hk. unfold updateMatched.
  destruct (m_replaceFootprints u && bool_decide (c_fpid c ≠ fp_fpid f)).
  - assert (pads_known u f) as Hf
      by (by apply (proj1 (Forall_lookup _ _) (ni_board _ _ Hinv) k f)).
    pose proof (replaceComponent_net_inv (OnBoard k) f c u Hinv Hf Hfr) as H.
    destruct (replaceComponent (OnBoard k) f c u) as [[[k'|j]|] u1]; cbn [fst snd] in H;
      [done| |done].
    apply (updateComponentPadConnections_net_inv_staged (Some j)); [|by right].
    apply updateFootprintParameters_net_inv.
    eapply net_inv_steps; [apply steps_with_footprintMap | done | exact H].
  - apply updateComponentPadConnections_net_inv_board.
    apply updateFootprintParameters_net_inv.
    eapply net_inv_steps; [apply steps_with_footprintMap | done | exact Hinv].
Qed.

Lemma scanFootprints_net_inv i c last ks : forall u mc,
  net_inv None u -> exchange_keeps_nets (m_frame u) ->
  net_inv None (scanFootprints i c last ks (u, mc)).1.
Proof.
  induction ks as [|k ks IH]; intros u mc Hinv Hfr; cbn [scanFootprints]; [done|].
  assert (net_inv None (scanStep i c k (u, mc)).1) as H1.
  { unfold scanStep. destruct (b_footprints (m_board u) !! k) as [f|] eqn:Hk; [|done].
    destruct (matches u f c); [|done]. by apply updateMatched_net_inv. }
  pose proof (scanStep_steps i c k u mc) as Hs.
  destruct (scanStep i c k (u, mc)) as [u1 mc1]. cbn in H1, Hs.
  case_bool_decide; [done|]. apply IH; [done|].
  by rewrite (so_frame _ _ (st_options _ _ Hs)).
Qed.

Lemma processComponent_net_inv last u ic :
  net_inv None u -> exchange_keeps_nets (m_frame u) ->
  net_inv None (processComponent last u ic).
Proof.
  intros Hinv Hfr. unfold processComponent. destruct ic as [i c].
  destruct (has_property _ _); [done|].
  set (u1 := report _ _ u).
  assert (net_inv None u1) as H1
    by (eapply net_inv_steps; [apply steps_report | done | exact Hinv]).
  pose proof (scanFootprints_net_inv i c last (seq 0 (length (b_footprints (m_board u1))))
                u1 0 H1 Hfr) as H2.
  destruct (scanFootprints _ _ _ _ _) as [u2 mc]. cbn in H2.
  case_bool_decide.
  - pose proof (addNewComponent_net_inv c u2 H2) as H3.
    pose proof (addNewComponent_Staged c u2) as H4.
    destruct (addNewComponent c u2) as [[t|] u3]; cbn in H3, H4; [|done].
    destruct (H4 t eq_refl) as [j ->].
    apply (updateComponentPadConnections_net_inv_staged None); [|by left].
    apply updateFootprintParameters_net_inv.
    eapply net_inv_steps; [apply steps_with_footprintMap | done | exact H3].
  - case_bool_decide; [|done].
    eapply net_inv_steps; [apply steps_report | done | exact H2].
Qed.

Lemma foldl_processComponent_net_inv last ics : forall u,
  net_inv None u -> exchange_keeps_nets (m_frame u) ->
  net_inv None (foldl (processComponent last) u ics).
Proof.
  induction ics as [|ic ics IH]; intros u Hinv Hfr; cbn [foldl]; [done|].
  apply IH; [by apply processComponent_net_inv|].
  by rewrite (so_frame _ _ (st_options _ _ (processComponent_steps last u ic))).
Qed.

(** *** The sweep and the end of the pass *)

Lemma isRemoved_prefix l l' r :
  l `prefix_of` l' -> isRemoved l r = true -> isRemoved l' r = true.
Proof.
  intros [k ->] H. unfold isRemoved in *. rewrite existsb_app, H. done.
Qed.

Lemma isRemoved_stage r u : isRemoved (m_commit (stage (ChRemove r) u)) r = true.
Proof.
  unfold isRemoved. cbn. rewrite existsb_app. cbn.
  rewrite bool_decide_eq_true_2 by done. by rewrite orb_true_r.
Qed.

Lemma swept_steps K u u' :
  steps u u' -> fps_same u u' -> swept K u -> swept K u'.
Proof.
  intros Hs [Hb _] HS k f Hk Hf. rewrite Hb in Hf.
  destruct (HS k f Hk Hf) as [H|H].
  - left. eapply isRemoved_prefix; [apply (st_commit _ _ Hs) | done].
  - right. by eapply pads_live_steps.
Qed.

Lemma current_foldl_markCurrent pads b name :
  current b name ->
  current (foldl (fun b pad => markCurrent (pad_net pad) b) b pads) name.
Proof. apply current_le, foldl_markCurrent_net_le. Qed.

Lemma registered_markCurrent name b : registered b name -> current (markCurrent name b) name.
Proof.
  intros (n & Hn & Hname). exists (SetIsCurrent true n). split; [|done].
  unfold markCurrent. cbn. apply list_elem_of_fmap. exists n.
  by rewrite bool_decide_eq_true_2.
Qed.

Lemma foldl_markCurrent_live pads : forall b name,
  name ∈ List.map pad_net pads -> registered b name ->
  current (foldl (fun b pad => markCurrent (pad_net pad) b) b pads) name.
Proof.
  induction pads as [|p pads IH]; intros b name Hin Hreg; cbn in *.
  { by apply elem_of_nil in Hin. }
  apply elem_of_cons in Hin as [->|Hin].
  - apply current_foldl_markCurrent. by apply registered_markCurrent.
  - apply IH; [done|]. eapply registered_le; [apply markCurrent_net_le | done].
Qed.

Lemma sweepFootprint_swept nl K u :
  net_inv None u -> swept K u -> swept (S K) (sweepFootprint nl u K).
Proof.
  intros Hinv HS k f Hk Hf.
  pose proof (sweepFootprint_steps nl u K) as Hs.
  pose proof (sweepFootprint_fps nl u K) as Hfp.
  destruct (decide (k = K)) as [->|Hne].
  2:{ apply (swept_steps K u); [done..|lia|done]. }
  destruct Hfp as [Hb _]. rewrite Hb in Hf. clear Hs Hb.
  pose proof (ni_dry _ _ Hinv) as Hd.
  unfold sweepFootprint. rewrite Hf. cbv zeta.
  destruct (doDelete nl u f && fp_locked f) eqn:Hlock.
  - (* locked: kept, its nets are marked *)
    cbn [negb]. change (m_isDryRun (report _ _ u)) with (m_isDryRun u). rewrite Hd. cbn [negb].
    right. apply Forall_forall. intros p Hp.
    assert (known u (pad_net p)) as [Hreg|Hst].
    { apply (proj1 (Forall_forall _ _) (proj1 (Forall_lookup _ _) (ni_board _ _ Hinv) K f Hf)).
      done. }
    + left. cbn. apply foldl_markCurrent_live; [|done].
      apply list_elem_of_fmap. by exists p.
    + by right.
  - destruct (doDelete nl u f).
    + (* deleted *)
      change (m_isDryRun (report _ _ u)) with (m_isDryRun u). rewrite Hd. cbn [negb].
      left. apply isRemoved_stage.
    + rewrite Hd. cbn [negb].
      right. apply Forall_forall. intros p Hp.
      assert (known u (pad_net p)) as [Hreg|Hst].
      { apply (proj1 (Forall_forall _ _) (proj1 (Forall_lookup _ _) (ni_board _ _ Hinv) K f Hf)).
        done. }
      * left. cbn. apply foldl_markCurrent_live; [|done].
        apply list_elem_of_fmap. by exists p.
      * by right.
Qed.

Lemma foldl_sweepFootprint_swept nl n : forall K u,
  net_inv None u -> swept K u ->
  net_inv None (foldl (sweepFootprint nl) u (seq K n)) /\
  swept (K + n) (foldl (sweepFootprint nl) u (seq K n)).
Proof.
  induction n as [|n IH]; intros K u Hinv HS; cbn [seq foldl].
  { by rewrite Nat.add_0_r. }
  rewrite <- Nat.add_succ_comm. apply IH.
  - eapply net_inv_steps; [apply sweepFootprint_steps | apply sweepFootprint_fps | done].
  - by apply sweepFootprint_swept.
Qed.

Lemma SetNetCode_at_inv K aPad u :
  net_inv None u -> swept K u ->
  net_inv None (SetNetCode_at aPad UNCONNECTED u) /\
  swept K (SetNetCode_at aPad UNCONNECTED u).
Proof.
  intros Hinv HS. unfold SetNetCode_at.
  destruct (deref u aPad.1) as [f|] eqn:Hf; [|done].
  destruct (fp_pads f !! aPad.2) as [pad|] eqn:Hp; [|done].
  destruct (live_sentinel u (ni_sentinel _ _ Hinv)) as [Hs0 _].
  set (f' := SetPads _ f).
  assert (forall P : PAD -> Prop, P (SetNet (NetnameOfCode UNCONNECTED (m_board u)) pad) ->
            Forall P (fp_pads f) -> Forall P (fp_pads f')) as Hins.
  { intros P HP HF. unfold f'. cbn. by apply Forall_insert. }
  destruct aPad as [[k|j] jp]; cbn [fst snd] in *.
  - split.
    + apply net_inv_store_board; [done|]. apply Hins; [by apply live_known|].
      by apply (proj1 (Forall_lookup _ _) (ni_board _ _ Hinv) k f).
    + intros k' g Hk' Hg.
      change (b_footprints (m_board (store (OnBoard k) f' u)))
        with (<[k:=f']> (b_footprints (m_board u))) in Hg.
      destruct (decide (k' = k)) as [->|Hne].
      * apply list_lookup_insert_Some in Hg as [(_ & <- & _)|[? _]]; [|done].
        destruct (HS k f Hk' Hf) as [H|H]; [by left|right].
        apply pads_live_store. by apply Hins.
      * rewrite list_lookup_insert_ne in Hg by done.
        destruct (HS k' g Hk' Hg) as [H|H]; [by left|right]. by apply pads_live_store.
  - split.
    + apply (net_inv_store_staged None); [done | by left |].
      apply Hins; [done|].
      pose proof (ni_new _ _ Hinv j f Hf) as H. by rewrite bool_decide_eq_false_2 in H.
    + intros k' g Hk' Hg. destruct (HS k' g Hk' Hg) as [H|H]; [by left|right].
      by apply pads_live_store.
Qed.

Lemma clearPadNet_inv K aPad u :
  net_inv None u -> swept K u ->
  net_inv None (clearPadNet aPad u) /\ swept K (clearPadNet aPad u).
Proof.
  intros Hinv HS. unfold clearPadNet. rewrite (ni_dry _ _ Hinv). cbn [negb].
  by apply SetNetCode_at_inv.
Qed.

Lemma scanPad_inv K s pad :
  net_inv None (scan_u s) -> swept K (scan_u s) ->
  net_inv None (scan_u (scanPad s pad)) /\ swept K (scan_u (scanPad s pad)).
Proof.
  intros Hinv HS. unfold scanPad. cbv zeta.
  repeat case_match; cbn [scan_u]; try done.
  all: apply clearPadNet_inv;
    [ eapply net_inv_steps; [apply steps_report | done | done]
    | eapply swept_steps; [apply steps_report | done | done] ].
Qed.

Lemma deleteSinglePadNets_inv K u :
  net_inv None u -> swept K u ->
  net_inv None (deleteSinglePadNets u) /\ swept K (deleteSinglePadNets u).
Proof.
  intros Hinv HS. unfold deleteSinglePadNets. cbv zeta.
  set (s0 := {| count := 0; netname := ""; previouspad := None; scan_u := u |}).
  assert (Hfold : forall l s, net_inv None (scan_u s) -> swept K (scan_u s) ->
            net_inv None (scan_u (foldl scanPad s l)) /\ swept K (scan_u (foldl scanPad s l))).
  { induction l as [|p l IH]; intros s H1 H2; cbn [foldl]; [done|].
    destruct (scanPad_inv K s p H1 H2). by apply IH. }
  destruct (Hfold (sortPads u (GetPads (m_board u))) s0) as [H1 H2]; [done..|].
  repeat case_match; try done. by apply clearPadNet_inv.
Qed.

Lemma foldl_removeStaleNet_inv K nets : forall u,
  net_inv None u -> swept K u ->
  net_inv None (foldl removeStaleNet u nets) /\ swept K (foldl removeStaleNet u nets).
Proof.
  induction nets as [|n nets IH]; intros u Hinv HS; cbn [foldl]; [done|].
  apply IH.
  - eapply net_inv_steps; [|apply removeStaleNet_fps|done].
    apply removeStaleNet_steps, (ni_dry _ _ Hinv).
  - eapply swept_steps; [|apply removeStaleNet_fps|done].
    apply removeStaleNet_steps, (ni_dry _ _ Hinv).
Qed.

(** *** Applying the transaction *)

Lemma AppendNet_keeps n nets m : m ∈ nets -> m ∈ AppendNet n nets.
Proof. unfold AppendNet. case_match; [done|]. intros. apply elem_of_app. by left. Qed.

Lemma AppendNet_adds n nets : exists m, m ∈ AppendNet n nets /\ net_name m = net_name n.
Proof.
  unfold AppendNet. destruct (existsb _ nets) eqn:He.
  - apply existsb_exists in He as (m & Hm & Hname).
    apply bool_decide_eq_true_1 in Hname. exists m. split; [by apply list_elem_of_In | done].
  - eexists. split; [apply elem_of_app; right; left | done].
Qed.

Lemma pushNets_keeps changes : forall nets m, m ∈ nets -> m ∈ pushNets nets changes.
Proof.
  induction changes as [|c changes IH]; intros nets m Hm; cbn; [done|].
  apply IH. destruct c; try done. by apply AppendNet_keeps.
Qed.

Lemma pushNets_adds changes : forall nets n,
  ChAddNet n ∈ changes -> exists m, m ∈ pushNets nets changes /\ net_name m = net_name n.
Proof.
  induction changes as [|c changes IH]; intros nets n Hn; [by apply elem_of_nil in Hn|].
  apply elem_of_cons in Hn as [<-|Hn]; cbn.
  - destruct (AppendNet_adds n nets) as (m & Hm & Hname).
    exists m. split; [by apply pushNets_keeps | done].
  - by apply IH.
Qed.

Lemma Push_footprints u :
  b_footprints (m_board (Push u))
  = (omap (fun kf : nat * FOOTPRINT =>
             if isRemoved (m_commit u) (OnBoard kf.1) then None else Some kf.2)
          (imap (fun k f => (k, f)) (b_footprints (m_board u)))
     ++ omap (fun c => match c with
                       | ChAdd r => if isRemoved (m_commit u) r then None else deref u r
                       | _ => None
                       end) (m_commit u))%list.
Proof. reflexivity. Qed.

Lemma Push_nets u : b_nets (m_board (Push u)) = pushNets (b_nets (m_board u)) (m_commit u).
Proof. reflexivity. Qed.

Lemma Push_bound u :
  net_inv None u -> swept (length (b_footprints (m_board u))) u ->
  let b' := m_board (Push (with_board (RemoveUnusedNets (m_board u)) u)) in
  (forall name, bound_to_pad b' name -> registered b' name) /\
  (exists n, n ∈ b_nets b' /\ net_code n = 0 /\ net_isCurrent n = true).
Proof.
  intros Hinv HS b'.
  set (u' := with_board (RemoveUnusedNets (m_board u)) u) in *.
  assert (b_nets b' = pushNets (List.filter net_isCurrent (b_nets (m_board u))) (m_commit u))
    as Hnets by apply (Push_nets u').
  assert (Hlive : forall name, live u name -> registered b' name).
  { intros name [(n & Hn & Hname & Hcur)|(n & Hn & Hname)]; unfold registered; rewrite Hnets.
    - exists n. split; [|done].
      apply pushNets_keeps. apply list_elem_of_In, filter_In.
      split; [by apply list_elem_of_In | done].
    - destruct (pushNets_adds (m_commit u) (List.filter net_isCurrent (b_nets (m_board u))) n Hn)
        as (m & Hm & Hmn).
      exists m. split; [done | congruence]. }
  split.
  - intros name (f & p & Hf & Hp & Hname). apply Hlive. subst name.
    assert (pads_live u f) as Hpl; [|by apply (proj1 (Forall_forall _ _) Hpl p)].
    unfold b' in Hf. rewrite Push_footprints in Hf.
    change (m_commit u') with (m_commit u) in Hf.
    change (b_footprints (m_board u')) with (b_footprints (m_board u)) in Hf.
    apply elem_of_app in Hf as [Hf|Hf].
    + apply list_elem_of_omap in Hf as ([k f0] & Hkf & Hrem).
      apply elem_of_lookup_imap in Hkf as (k' & f1 & [= -> ->] & Hk).
      cbn [fst snd] in Hrem.
      destruct (isRemoved (m_commit u) (OnBoard k')) eqn:Hr; [done|].
      injection Hrem as <-.
      destruct (HS k' f1) as [H|H]; [by eapply lookup_lt_Some | done | congruence | done].
    + apply list_elem_of_omap in Hf as (c & Hc & Hadd).
      destruct c as [r| | | | | |]; try done.
      destruct (isRemoved (m_commit u) r) eqn:Hr; [done|].
      destruct r as [k|j].
      * change (deref u' (OnBoard k)) with (b_footprints (m_board u) !! k) in Hadd.
        destruct (HS k f) as [H|H]; [by eapply lookup_lt_Some | done | congruence | done].
      * change (deref u' (Staged j)) with (m_newFootprints u !! j) in Hadd.
        pose proof (ni_new _ _ Hinv j f Hadd) as H.
        by rewrite bool_decide_eq_false_2 in H.
  - destruct (ni_sentinel _ _ Hinv) as [(n & Hn & Hcode & _) Hall].
    exists n. split; [|by auto].
    rewrite Hnets. apply pushNets_keeps, list_elem_of_In, filter_In.
    split; [by apply list_elem_of_In | by apply Hall].
Qed.

Lemma net_inv_initial u :
  m_isDryRun u = false ->
  m_newFootprints u = [] -> m_addedNets u = ∅ ->
  has_sentinel (m_board u) ->
  Forall (fun f => Forall (fun p => registered (m_board u) (pad_net p)) (fp_pads f))
         (b_footprints (m_board u)) ->
  net_inv None
    (with_board
       (with_nets (List.map (fun net => SetIsCurrent (bool_decide (net_code net = 0)) net)
                            (b_nets (m_board u))) (m_board u)) u).
Proof.
  intros Hd Hnew Hadd (n & Hn & Hcode & Hname) Hpads. split; cbn.
  - done.
  - eapply Forall_impl; [exact Hpads|]. intros f Hf.
    eapply Forall_impl; [exact Hf|]. intros p (m & Hm & Hmn). left.
    exists (SetIsCurrent (bool_decide (net_code m = 0)) m). split; [|done].
    cbn. apply list_elem_of_fmap. by exists m.
  - intros j f. by rewrite Hnew.
  - intros name m. by rewrite Hadd.
  - split.
    + exists (SetIsCurrent (bool_decide (net_code n = 0)) n). split; [|done].
      apply list_elem_of_fmap. by exists n.
    + intros m Hm Hc. apply list_elem_of_fmap in Hm as (m0 & -> & Hm0). cbn in *.
      by rewrite bool_decide_eq_true_2.
Qed.

Lemma cacheCopperZoneConnections_only u :
  exists x, cacheCopperZoneConnections u = with_zoneConnectionsCache x u.
Proof.
  unfold cacheCopperZoneConnections.
  generalize (imap (fun k z => (k, z)) (b_zones (m_board u))). intros l.
  revert u. induction l as [|kz l IH]; intros u; cbn [foldl].
  - exists (m_zoneConnectionsCache u). by destruct u.
  - destruct (negb (zone_onCopper kz.2) || zone_isRuleArea kz.2); [apply IH|].
    destruct (IH (with_zoneConnectionsCache
                    (<[kz.1:=zone_connectedPads kz.2]> (m_zoneConnectionsCache u)) u))
      as [x Hx].
    exists x. by rewrite Hx.
Qed.

Lemma foldl_removeStaleNet_steps nets : forall u,
  m_isDryRun u = false -> steps u (foldl removeStaleNet u nets).
Proof.
  induction nets as [|n l IH]; intros u Hd; cbn [foldl]; [apply steps_refl|].
  pose proof (removeStaleNet_steps u n Hd) as Hs.
  eapply steps_trans; [exact Hs|]. apply IH.
  by rewrite (so_isDryRun _ _ (st_options _ _ Hs)).
Qed.

(** After a committing pass started by a fresh updater on a board whose
    pads are bound to nets of the registry, every net bound to a pad of a
    footprint of the board is in the registry, and the net of code 0 is in
    the registry and current. *)
Lemma UpdateNetlist_registers nl u :
  m_isDryRun u = false ->
  m_newFootprints u = [] -> m_addedNets u = ∅ ->
  has_sentinel (m_board u) ->
  Forall (fun f => Forall (fun p => registered (m_board u) (pad_net p)) (fp_pads f))
         (b_footprints (m_board u)) ->
  exchange_keeps_nets (m_frame u) ->
  let b' := m_board (UpdateNetlist nl u) in
  (forall name, bound_to_pad b' name -> registered b' name) /\
  (exists n, n ∈ b_nets b' /\ net_code n = 0 /\ net_isCurrent n = true).
Proof.
  intros Hd Hnew Hadd Hsent Hpads Hfr. unfold UpdateNetlist. cbv zeta.
  set (u0 := with_footprintMap ∅ (with_counts 0 0 0 u)).
  set (last := lastPreexisting (m_board u0)).
  destruct (cacheCopperZoneConnections_only u0) as [x ->].
  set (u1 := with_zoneConnectionsCache x u0).
  change (m_isDryRun u1) with (m_isDryRun u). rewrite Hd. cbn [negb].
  set (u1' := with_board _ u1).
  assert (net_inv None u1') as H1 by (by apply (net_inv_initial u1)).
  set (u2 := foldl (processComponent last) u1' _).
  assert (net_inv None u2) as H2 by (by apply foldl_processComponent_net_inv).
  set (u3 := updateCopperZoneNets nl u2).
  assert (net_inv None u3) as H3.
  { eapply net_inv_steps;
      [apply updateCopperZoneNets_steps | apply updateCopperZoneNets_fps | done]. }
  set (n3 := length (b_footprints (m_board u3))).
  destruct (foldl_sweepFootprint_swept nl n3 0%nat u3 H3) as [H4 S4].
  { intros k f Hk. lia. }
  set (u4 := foldl (sweepFootprint nl) u3 (seq 0 n3)) in *.
  assert (length (b_footprints (m_board u4)) = n3) as Hlen4.
  { apply (st_length u3 u4). apply steps_foldl. intros. apply sweepFootprint_steps. }
  rewrite (ni_dry _ _ H4). cbn [negb].
  set (u5 := testConnectivity nl u4).
  assert (net_inv None u5 /\ swept n3 u5) as [H5 S5].
  { split.
    - eapply net_inv_steps; [apply testConnectivity_steps | apply testConnectivity_fps | done].
    - eapply swept_steps; [apply testConnectivity_steps | apply testConnectivity_fps | done]. }
  set (u6 := if m_deleteSinglePadNets u5 then deleteSinglePadNets u5 else u5).
  assert (net_inv None u6 /\ swept n3 u6) as [H6 S6].
  { unfold u6. destruct (m_deleteSinglePadNets u5); [|done]. by apply deleteSinglePadNets_inv. }
  destruct (foldl_removeStaleNet_inv n3 (b_nets (m_board u6)) u6 H6 S6) as [H7 S7].
  set (u7 := foldl removeStaleNet u6 (b_nets (m_board u6))) in *.
  assert (length (b_footprints (m_board u7)) = n3) as Hlen7.
  { rewrite <- Hlen4. apply (st_length u4 u7).
    eapply steps_trans; [apply testConnectivity_steps|]. fold u5.
    eapply steps_trans.
    - instantiate (1 := u6). unfold u6.
      destruct (m_deleteSinglePadNets u5); [apply deleteSinglePadNets_steps | apply steps_refl].
    - apply foldl_removeStaleNet_steps, (ni_dry _ _ H6). }
  rewrite <- Hlen7 in S7.
  pose proof (Push_bound u7 H7 S7) as HP. cbv zeta in HP.
  set (u8 := Push _) in *.
  assert (m_isDryRun u8 = false) as Hd8 by apply (ni_dry _ _ H7).
  rewrite Hd8. exact HP.
Qed.

Lemma ex_frame_keeps_nets : exchange_keeps_nets ex_frame.
Proof.
  intros old new p Hp. cbn in Hp. apply list_elem_of_fmap in Hp as (q & -> & Hq). cbn.
  unfold FindPadByName. destruct (List.find _ (fp_pads old)) as [o|] eqn:Hf; cbn; [|by left].
  right. exists o. split; [|done]. apply find_some in Hf as [Hf _]. by apply list_elem_of_In.
Qed.

(** ** Two passes in succession *)

Lemma actions_report msg sev u :
  actions (report msg sev u)
  = (actions u ++ if bool_decide (sev = RPT_SEVERITY_ACTION) then [msg] else [])%list.
Proof.
  unfold actions, report, reportsOf. cbn. rewrite omap_app. cbn.
  by case_bool_decide.
Qed.

Lemma net_marked_refl S n : net_marked S n n.
Proof. repeat split. auto. Qed.

Lemma net_marked_trans S n1 n2 n3 :
  net_marked S n1 n2 -> net_marked S n2 n3 -> net_marked S n1 n3.
Proof.
  intros (Hn1 & Hc1 & Hm1) (Hn2 & Hc2 & Hm2). repeat split; [congruence..|].
  intros H3. destruct (Hm2 H3) as [H2|H2]; [auto|]. right. congruence.
Qed.

Lemma Forall2_net_marked_refl S l : Forall2 (net_marked S) l l.
Proof. induction l; constructor; auto using net_marked_refl. Qed.

Lemma Forall2_net_marked_trans S l1 l2 l3 :
  Forall2 (net_marked S) l1 l2 -> Forall2 (net_marked S) l2 l3 ->
  Forall2 (net_marked S) l1 l3.
Proof.
  intros H12. revert l3. induction H12; intros l3 H23; inversion H23; subst; constructor.
  - by eapply net_marked_trans.
  - auto.
Qed.

Lemma Forall2_net_marked_weaken (S S' : string -> Prop) l1 l2 :
  (forall name, S name -> S' name) ->
  Forall2 (net_marked S) l1 l2 -> Forall2 (net_marked S') l1 l2.
Proof.
  intros HS H. eapply Forall2_impl; [exact H|].
  intros n n' (Hn & Hc & Hm). repeat split; [done..|].
  intros Hc'. destruct (Hm Hc'); auto.
Qed.

Lemma markCurrent_marked (S : string -> Prop) name b :
  S name -> Forall2 (net_marked S) (b_nets b) (b_nets (markCurrent name b)).
Proof.
  intros HS. unfold markCurrent. cbn. induction (b_nets b) as [|n l IH]; cbn; constructor; [|done].
  case_bool_decide; [|apply net_marked_refl]. repeat split. intros _. right. congruence.
Qed.

Lemma minor_weaken (S S' : string -> Prop) ch :
  (forall name, S name -> S' name) -> minor S ch -> minor S' ch.
Proof. intros HS. destruct ch; cbn; auto. Qed.

Lemma delta_refl S u : delta S u u.
Proof.
  split; try done; [apply steps_refl | apply Forall2_net_marked_refl | auto].
Qed.

Lemma delta_trans S u1 u2 u3 : delta S u1 u2 -> delta S u2 u3 -> delta S u1 u3.
Proof.
  intros [Hs1 Hm1 Hz1 Ht1 Hc1] [Hs2 Hm2 Hz2 Ht2 Hc2]. split.
  - by eapply steps_trans.
  - by eapply Forall2_net_marked_trans.
  - congruence.
  - congruence.
  - intros ch Hch. destruct (Hc2 ch Hch) as [H|H]; auto.
Qed.

Lemma delta_weaken (S S' : string -> Prop) u u' :
  (forall name, S name -> S' name) -> delta S u u' -> delta S' u u'.
Proof.
  intros HS [Hs Hm Hz Ht Hc]. split; try done.
  - by eapply Forall2_net_marked_weaken.
  - intros ch Hch. destruct (Hc ch Hch); eauto using minor_weaken.
Qed.

(** A step that leaves the board's nets, zones and tracks and the
    transaction alone. *)
Lemma delta_quiet S u u' :
  steps u u' -> b_nets (m_board u') = b_nets (m_board u) ->
  b_zones (m_board u') = b_zones (m_board u) ->
  b_tracks (m_board u') = b_tracks (m_board u) ->
  m_commit u' = m_commit u -> delta S u u'.
Proof.
  intros Hs Hn Hz Ht Hc. split; try done.
  - rewrite Hn. apply Forall2_net_marked_refl.
  - rewrite Hc. auto.
Qed.

Lemma lookupAddedNet_name u name n :
  pads_ready u -> lookupAddedNet name u = Some n -> net_name n = name.
Proof.
  intros (_ & _ & Ha). unfold lookupAddedNet.
  destruct (m_addedNets u !! name) as [[n'|]|] eqn:Hl; cbn; [|done..].
  intros [= ->]. eauto.
Qed.

Lemma syncPin_pad aPad pinFunction pinType pad u ch :
  m_isDryRun u = false ->
  (syncPin aPad pinFunction pinType pad (u, ch)).1
  = SetPinType pinType (SetPinFunction pinFunction pad).
Proof.
  intros Hd. unfold syncPin. rewrite Hd. cbn [negb].
  destruct pad. unfold SetPinType, SetPinFunction. repeat case_bool_decide; cbn in *; congruence.
Qed.

Lemma disconnectPad_pad aPad fpRef pad u ch :
  pads_ready u -> (disconnectPad aPad fpRef pad (u, ch)).1 = SetPinFunction "" (SetNet "" pad).
Proof.
  intros (Hd & H0 & _). unfold disconnectPad.
  destruct (negb (IsEmpty (pad_net pad)));
    [|destruct (m_warnForNoNetPads u && pad_onCopper pad && negb (IsEmpty (pad_name pad)))];
    cbn; rewrite Hd; cbn; rewrite H0; done.
Qed.

Lemma updatePad_pad aPad fpRef c pad u ch :
  pads_ready u -> (updatePad aPad fpRef c pad (u, ch)).1 = syncedPad c pad.
Proof.
  intros Hr. pose proof Hr as (Hd & H0 & Ha). unfold updatePad, syncedPad. cbv zeta.
  pose proof (syncPin_pad aPad (if IsValid (GetNet c (pad_name pad)) then cn_pinFunction (GetNet c (pad_name pad)) else "")
     (if IsValid (GetNet c (pad_name pad)) then cn_pinType (GetNet c (pad_name pad)) else "") pad u ch Hd) as Hp.
  destruct (syncPin_commit aPad (if IsValid (GetNet c (pad_name pad)) then cn_pinFunction (GetNet c (pad_name pad)) else "")
     (if IsValid (GetNet c (pad_name pad)) then cn_pinType (GetNet c (pad_name pad)) else "") pad u ch Hd) as (Hu & _).
  destruct (syncPin _ _ _ _ _) as [pad1 [u1 ch1]]. cbn in Hp, Hu. subst pad1 u1.
  set (pad1 := SetPinType _ _).
  destruct (negb (IsValid (GetNet c (pad_name pad))) || negb (pad_onCopper pad1)) eqn:Hb.
  - by apply disconnectPad_pad.
  - unfold connectPad. cbv zeta.
    set (netName := cn_netName _).
    case_bool_decide as Hne; cbn [fst].
    2:{ destruct pad1. cbn in *. unfold SetNet. cbn. congruence. }
    unfold findOrAddNet.
    destruct (FindNet netName (m_board u)) as [n|] eqn:Hf.
    + cbn. rewrite Hd. cbn. apply FindNet_name in Hf.
      destruct (negb (IsEmpty (pad_net pad))); cbn; rewrite Hd; cbn; by rewrite Hf.
    + cbn [bool_decide andb]. cbn.
      destruct (lookupAddedNet netName u) as [n|] eqn:Hl.
      * apply (lookupAddedNet_name u) in Hl; [|done].
        destruct (negb (IsEmpty (pad_net pad))); cbn; rewrite Hd; cbn; by rewrite Hl.
      * rewrite Hd. cbn.
        destruct (negb (IsEmpty (pad_net pad))); cbn; rewrite Hd; cbn; done.
Qed.

Lemma disconnectPad_delta S aPad fpRef pad u ch :
  pads_ready u -> delta S u (disconnectPad aPad fpRef pad (u, ch)).2.1.
Proof.
  intros (Hd & _). apply delta_quiet.
  - unfold disconnectPad. solve_steps.
  - unfold disconnectPad. repeat case_match; cbn; rewrite ?Hd; done.
  - unfold disconnectPad. repeat case_match; cbn; rewrite ?Hd; done.
  - unfold disconnectPad. repeat case_match; cbn; rewrite ?Hd; done.
  - unfold disconnectPad. repeat case_match; cbn; rewrite ?Hd; done.
Qed.

Lemma disconnectPad_quiet aPad fpRef pad u ch :
  pad_net pad = "" -> actions (disconnectPad aPad fpRef pad (u, ch)).2.1 = actions u.
Proof.
  intros Hn. unfold disconnectPad. rewrite Hn.
  change (negb (IsEmpty "")) with false. cbv iota.
  destruct (m_warnForNoNetPads u && pad_onCopper pad && negb (IsEmpty (pad_name pad)));
    cbn; destruct (m_isDryRun u); cbn; try done;
    unfold actions, reportsOf; cbn; rewrite omap_app; cbn; by rewrite app_nil_r.
Qed.

Lemma connectPad_delta aPad fpRef netName pad u ch :
  pads_ready u ->
  delta (fun name => name = netName) u (connectPad aPad fpRef netName pad (u, ch)).2.1.
Proof.
  intros (Hd & _).
  assert (Hmark : delta (fun name => name = netName) u
                    (if bool_decide (is_Some (FindNet netName (m_board u))) && negb (m_isDryRun u)
                     then with_board (markCurrent netName (m_board u)) u else u)).
  { destruct (_ && _); [|apply delta_refl]. split; try done.
    - solve_steps.
    - by apply markCurrent_marked.
    - auto. }
  unfold connectPad. cbv zeta.
  set (u1 := if _ && _ then _ else _) in *.
  assert (m_isDryRun u1 = false) as Hd1 by (subst u1; by destruct (_ && _)).
  clearbody u1.
  case_bool_decide as Hne; [|done].
  eapply delta_trans; [exact Hmark|]. clear Hmark.
  unfold findOrAddNet.
  set (found := match FindNet netName (m_board u) with Some n => Some n | None => lookupAddedNet netName u1 end).
  clearbody found. destruct found as [n|].
  - destruct (negb (IsEmpty (pad_net pad))); cbn; rewrite Hd1; cbn; by apply delta_quiet; [solve_steps|..].
  - rewrite Hd1. cbn [negb].
    assert (forall msg,
              delta (fun name => name = netName)
                u1 (report msg RPT_SEVERITY_ACTION
                      (with_addedNets (<[netName:=Some (new_NETINFO_ITEM netName)]> (m_addedNets (stage (ChAddNet (new_NETINFO_ITEM netName)) u1)))
                         (stage (ChAddNet (new_NETINFO_ITEM netName)) u1)))) as Hnew.
    { intros msg. split; try done.
      - solve_steps.
      - apply Forall2_net_marked_refl.
      - cbn. intros ch' [H|H]%elem_of_app; [by left|]. right.
        apply list_elem_of_singleton in H as ->. done. }
    set (u2 := report (MsgAddNet _) _ _).
    assert (m_isDryRun u2 = false) as Hd2 by done.
    apply (delta_trans _ _ u2); [apply Hnew|]. clear Hnew.
    clearbody u2.
    destruct (negb (IsEmpty (pad_net pad))); cbn; rewrite Hd2; cbn; by apply delta_quiet; [solve_steps|..].
Qed.

Lemma connectPad_quiet aPad fpRef netName pad u ch :
  pad_net pad = netName -> actions (connectPad aPad fpRef netName pad (u, ch)).2.1 = actions u.
Proof.
  intros Hn. unfold connectPad. cbv zeta.
  rewrite (bool_decide_eq_false_2 (pad_net pad ≠ netName)) by auto.
  by destruct (_ && _).
Qed.

Lemma updatePad_delta aPad fpRef c pad u ch :
  pads_ready u ->
  delta (fun name => name = pad_net (syncedPad c pad)) u (updatePad aPad fpRef c pad (u, ch)).2.1.
Proof.
  intros Hr. pose proof Hr as (Hd & _). unfold updatePad. cbv zeta.
  pose proof (syncPin_pad aPad (if IsValid (GetNet c (pad_name pad)) then cn_pinFunction (GetNet c (pad_name pad)) else "")
     (if IsValid (GetNet c (pad_name pad)) then cn_pinType (GetNet c (pad_name pad)) else "") pad u ch Hd) as Hp.
  destruct (syncPin_commit aPad (if IsValid (GetNet c (pad_name pad)) then cn_pinFunction (GetNet c (pad_name pad)) else "")
     (if IsValid (GetNet c (pad_name pad)) then cn_pinType (GetNet c (pad_name pad)) else "") pad u ch Hd) as (Hu & _).
  destruct (syncPin _ _ _ _ _) as [pad1 [u1 ch1]]. cbn in Hp, Hu. subst pad1 u1.
  unfold syncedPad. cbv zeta.
  set (pad1 := SetPinType _ _).
  destruct (negb (IsValid (GetNet c (pad_name pad))) || negb (pad_onCopper pad1)) eqn:Hb.
  - by apply disconnectPad_delta.
  - by apply connectPad_delta.
Qed.

Lemma updatePad_quiet aPad fpRef c pad u ch :
  m_isDryRun u = false ->
  pad_net (syncedPad c pad) = pad_net pad ->
  actions (updatePad aPad fpRef c pad (u, ch)).2.1 = actions u.
Proof.
  intros Hd. unfold updatePad. cbv zeta.
  pose proof (syncPin_pad aPad (if IsValid (GetNet c (pad_name pad)) then cn_pinFunction (GetNet c (pad_name pad)) else "")
     (if IsValid (GetNet c (pad_name pad)) then cn_pinType (GetNet c (pad_name pad)) else "") pad u ch Hd) as Hp.
  destruct (syncPin_commit aPad (if IsValid (GetNet c (pad_name pad)) then cn_pinFunction (GetNet c (pad_name pad)) else "")
     (if IsValid (GetNet c (pad_name pad)) then cn_pinType (GetNet c (pad_name pad)) else "") pad u ch Hd) as (Hu & _).
  destruct (syncPin _ _ _ _ _) as [pad1 [u1 ch1]]. cbn in Hp, Hu. subst pad1 u1.
  unfold syncedPad. cbv zeta.
  set (pad1 := SetPinType _ _).
  destruct (negb (IsValid (GetNet c (pad_name pad))) || negb (pad_onCopper pad1)) eqn:Hb.
  - intros Hn. apply (disconnectPad_quiet aPad fpRef pad1). cbn in *. done.
  - intros Hn. apply (connectPad_quiet aPad fpRef _ pad1). cbn in *. done.

Qed.

Lemma NetnameOfCode_le code b b' :
  Forall2 net_le (b_nets b) (b_nets b') -> NetnameOfCode code b' = NetnameOfCode code b.
Proof.
  unfold NetnameOfCode, FindNetByCode.
  induction 1 as [|n n' l l' (Hn & Hc & _) _ IH]; [done|].
  cbn. rewrite Hc. case_bool_decide; [done|]. exact IH.
Qed.

Lemma pads_ready_steps u u' : steps u u' -> pads_ready u -> pads_ready u'.
Proof.
  intros Hs (Hd & H0 & Ha). split; [|split].
  - by rewrite (so_isDryRun _ _ (st_options _ _ Hs)).
  - rewrite <- H0. apply NetnameOfCode_le, Hs.
  - intros name n Hl. destruct (st_added _ _ Hs Hd name n Hl) as [H|[H _]]; eauto.
Qed.

Lemma updatePads_commit r fpRef c pads : forall j u ch,
  pads_ready u ->
  let res := updatePads r fpRef c j pads (u, ch) in
  res.1 = syncedPad c <$> pads /\
  delta (fun name => padsOn name (syncedPad c <$> pads)) u res.2.1 /\
  (Forall (fun p => pad_net (syncedPad c p) = pad_net p) pads -> actions res.2.1 = actions u).
Proof.
  induction pads as [|pad pads IH]; intros j u ch Hr; cbn [updatePads].
  { cbn. split; [done|]. split; [apply delta_refl|done]. }
  pose proof (updatePad_pad (r, j) fpRef c pad u ch Hr) as Hp.
  pose proof (updatePad_delta (r, j) fpRef c pad u ch Hr) as Hdl.
  pose proof (updatePad_quiet (r, j) fpRef c pad u ch (proj1 Hr)) as Hq.
  destruct (updatePad (r, j) fpRef c pad (u, ch)) as [pad' [u1 ch1]]. cbn in Hp, Hdl, Hq.
  assert (pads_ready u1) as Hr1 by (eapply pads_ready_steps; [apply Hdl | done]).
  destruct (IH (S j) u1 ch1 Hr1) as (Hps & Hdl' & Hq').
  destruct (updatePads r fpRef c (S j) pads (u1, ch1)) as [rest' [u2 ch2]]. cbn in *.
  split; [congruence|]. split.
  - eapply delta_trans; (eapply delta_weaken; [|eassumption]); cbn.
    + intros name ->. exists (syncedPad c pad). split; [left|done].
    + intros name (p & Hp' & Hn). exists p. split; [by right|done].
  - intros [H1 H2]%Forall_cons. rewrite Hq', Hq; auto.
Qed.

Lemma others_refl r u : others r u u.
Proof. by intros r'. Qed.

Lemma others_trans r u1 u2 u3 : others r u1 u2 -> others r u2 u3 -> others r u1 u3.
Proof. intros H1 H2 r' Hr. by rewrite H2, H1. Qed.

Lemma others_fps_same r u u' : fps_same u u' -> others r u u'.
Proof. intros H r' _. by apply fps_same_deref. Qed.

Lemma others_store r f u : others r u (store r f u).
Proof.
  intros r' Hr. destruct r as [k|j], r' as [k'|j']; cbn; try done;
    apply list_lookup_insert_ne; congruence.
Qed.

Lemma others_stage r ch u : others r u (stage ch u).
Proof. intros r' _. apply deref_stage. Qed.

Lemma delta_store S r f f' u :
  deref u r = Some f -> m_isDryRun u = false -> delta S u (store r f' u).
Proof.
  intros Hr Hd. apply delta_quiet; try by destruct r.
  apply (steps_store r f); [done|congruence].
Qed.

Lemma delta_stage_modified S r cp u :
  m_isDryRun u = false -> delta S u (stage (ChModified r cp) u).
Proof.
  intros Hd. split; try done.
  - by apply steps_stage.
  - apply Forall2_net_marked_refl.
  - cbn. intros ch [H|H]%elem_of_app; [by left|]. right.
    by apply list_elem_of_singleton in H as ->.
Qed.

Lemma updateComponentPadConnections_commit r c u f :
  pads_ready u -> deref u r = Some f ->
  let u' := updateComponentPadConnections r c u in
  deref u' r = Some (SetPads (syncedPad c <$> fp_pads f) f) /\
  others r u u' /\
  delta (fun name => padsOn name (syncedPad c <$> fp_pads f)) u u' /\
  (Forall (fun p => pad_net (syncedPad c p) = pad_net p) (fp_pads f) -> actions u' = actions u).
Proof.
  intros Hr Hf. cbv zeta.
  pose proof (updateComponentPadConnections_at r c u f Hf) as Hat.
  unfold updateComponentPadConnections in *. rewrite Hf in *.
  destruct (updatePads_commit r (fp_reference f) c (fp_pads f) 0%nat u false Hr) as (Hp & Hdl & Hq).
  pose proof (updatePads_fps r (fp_reference f) c (fp_pads f) 0%nat u false) as Hfp.
  destruct (updatePads _ _ _ _ _ _) as [pads [u1 ch1]]. cbn in Hp, Hdl, Hq, Hfp, Hat. subst pads.
  assert (m_isDryRun u1 = false) as Hd1
    by (rewrite (so_isDryRun _ _ (st_options _ _ (d_steps _ _ _ Hdl))); apply Hr).
  assert (deref u1 r = Some f) as Hf1 by (by rewrite (fps_same_deref u u1)).
  set (f' := SetPads _ f) in *.
  assert (others r u (store r f' u1)) as Ho.
  { eapply others_trans; [by apply others_fps_same | apply others_store]. }
  assert (delta (fun name => padsOn name (syncedPad c <$> fp_pads f)) u (store r f' u1)) as Hds.
  { eapply delta_trans; [exact Hdl|]. by apply (delta_store _ r f). }
  assert (forall v, actions (store r f' v) = actions v) as Hst by (intros v; by destruct r).
  split; [exact Hat|].
  destruct (GetStatus (m_commit u) r); [|destruct ch1].
  - split; [done|]. split; [done|]. intros H. rewrite Hst. auto.
  - split; [eapply others_trans; [exact Ho | apply others_stage]|].
    split; [eapply delta_trans; [exact Hds|]; apply delta_stage_modified; by destruct r|].
    intros H. change (actions (store r f' u1) = actions u). rewrite Hst. auto.
  - split; [done|]. split; [done|]. intros H. rewrite Hst. auto.
Qed.

Lemma syncParameters_board c f u ch :
  m_board (syncParameters c (f, u, ch)).1.2 = m_board u /\
  m_commit (syncParameters c (f, u, ch)).1.2 = m_commit u.
Proof.
  set (P := fun s : FOOTPRINT * UPDATER * bool =>
              m_board s.1.2 = m_board u /\ m_commit s.1.2 = m_commit u).
  assert (Hstep : forall s msg set, P s -> P (syncField msg set s)).
  { intros [[f1 u1] ch1] msg set Hs. unfold P, syncField in *. cbn in *.
    by destruct (m_isDryRun u1). }
  change (P (syncParameters c (f, u, ch))). unfold syncParameters. cbv zeta.
  repeat match goal with
         | |- P (if ?b then _ else _) => destruct b
         | |- P (syncField _ _ _) => apply Hstep
         end.
  all: by split.
Qed.

Lemma syncParameters_synced c f u ch :
  metadata_synced f c -> syncParameters c (f, u, ch) = (f, u, ch).
Proof.
  intros (H1 & H2 & H3 & H4 & H5). unfold syncParameters. cbv zeta.
  cbn [fst snd].
  rewrite (bool_decide_eq_false_2 (fp_reference f ≠ c_reference c)) by (intros H; by apply H).
  cbn [fst snd].
  rewrite (bool_decide_eq_false_2 (fp_value f ≠ c_value c)) by (intros H; by apply H).
  cbn [fst snd].
  rewrite (bool_decide_eq_false_2 (fp_path f ≠ c_path c)) by (intros H; by apply H).
  cbn [fst snd].
  rewrite (bool_decide_eq_false_2 (fp_properties f ≠ c_properties c)) by (intros H; by apply H).
  cbn [fst snd].
  rewrite H5, Bool.eqb_reflx. done.
Qed.

Lemma updateFootprintParameters_commit S r c u f :
  m_isDryRun u = false -> deref u r = Some f ->
  let u' := updateFootprintParameters r c u in
  deref u' r = Some (syncedFootprint c f) /\
  others r u u' /\
  delta S u u' /\
  (metadata_synced f c -> actions u' = actions u).
Proof.
  intros Hd Hf. cbv zeta.
  pose proof (updateFootprintParameters_at r c u f Hf) as Hat.
  rewrite syncParameters_commit in Hat by done.
  pose proof (updateFootprintParameters_steps r c u) as Hsteps.
  unfold updateFootprintParameters in *. rewrite Hf in *.
  destruct (syncParameters_board c f u false) as (Hb & Hc).
  pose proof (syncParameters_fps c f u false) as Hfp.
  destruct (syncParameters_steps c f u false) as (Hs & _).
  pose proof (syncParameters_synced c f u false) as Hq.
  destruct (syncParameters c (f, u, false)) as [[f' u1] ch1]. cbn in Hb, Hc, Hfp, Hs, Hq.
  assert (m_isDryRun u1 = false) as Hd1
    by (by rewrite (so_isDryRun _ _ (st_options _ _ Hs))).
  assert (deref u1 r = Some f) as Hf1 by (by rewrite (fps_same_deref u u1)).
  assert (others r u (store r f' u1)) as Ho.
  { eapply others_trans; [by apply others_fps_same | apply others_store]. }
  assert (delta S u (store r f' u1)) as Hds.
  { eapply delta_trans; [|by apply (delta_store _ r f)].
    apply delta_quiet; [done|by rewrite Hb..|done]. }
  assert (forall v, actions (store r f' v) = actions v) as Hst by (intros v; by destruct r).
  split; [exact Hat|].
  assert (metadata_synced f c -> actions (store r f' u1) = actions u) as Hq'.
  { intros H. rewrite Hst. by injection (Hq H) as _ -> _. }
  destruct (GetStatus (m_commit u) r); [|destruct ch1]; try done.
  split; [eapply others_trans; [exact Ho | apply others_stage]|].
  split; [eapply delta_trans; [exact Hds|]; apply delta_stage_modified; by destruct r|].
  exact Hq'.
Qed.

Lemma synced_fields c f :
  synced c f = f ->
  metadata_synced f c /\ Forall (fun p => pad_net (syncedPad c p) = pad_net p) (fp_pads f).
Proof.
  intros H. split.
  - rewrite <- H. apply syncedFootprint_synced.
  - assert (syncedPad c <$> fp_pads f = fp_pads f) as Hp by (by rewrite <- H at 2).
    revert Hp. generalize (fp_pads f). intros l. induction l as [|p l IH]; [done|].
    rewrite fmap_cons. intros [= H1 H2]. apply Forall_cons. split; [congruence | auto].
Qed.

Lemma syncedPad_idem c p : syncedPad c (syncedPad c p) = syncedPad c p.
Proof.
  unfold syncedPad. cbv zeta.
  destruct (IsValid (GetNet c (pad_name p))) eqn:Hv, (pad_onCopper p) eqn:Hc;
    repeat (cbn; rewrite ?Hv, ?Hc); done.
Qed.

Lemma synced_idem c f : synced c (synced c f) = synced c f.
Proof.
  unfold synced, syncedFootprint, SetPads. cbn. f_equal.
  - unfold syncedAttributes.
    destruct (has_property (c_properties c) "exclude_from_bom") eqn:Hp,
             (hasExcludeFromBOM (fp_attributes f)) eqn:Ha; cbn;
      rewrite ?Ha, ?hasExcludeFromBOM_set, ?hasExcludeFromBOM_clear; done.
  - rewrite <- list_fmap_compose. apply list_fmap_ext. intros _ p _. apply syncedPad_idem.
Qed.

(** The metadata sync and the pad update of a footprint, through its
    handle. *)
Lemma sync_commit i t c u f :
  pads_ready u -> deref u t = Some f ->
  let u' := updateComponentPadConnections t c
              (updateFootprintParameters t c
                 (with_footprintMap (<[i := t]> (footprintMap u)) u)) in
  deref u' t = Some (synced c f) /\
  others t u u' /\
  delta (fun name => padsOn name (fp_pads (synced c f))) u u' /\
  (synced c f = f -> actions u' = actions u).
Proof.
  intros Hr Hf. cbv zeta.
  set (u1 := with_footprintMap _ u).
  assert (pads_ready u1) as Hr1 by done.
  assert (deref u1 t = Some f) as Hf1 by (by destruct t).
  destruct (updateFootprintParameters_commit
              (fun name => padsOn name (fp_pads (synced c f))) t c u1 f (proj1 Hr1) Hf1)
    as (Hat & Ho & Hdl & Hq).
  set (u2 := updateFootprintParameters t c u1) in *.
  assert (pads_ready u2) as Hr2 by (eapply pads_ready_steps; [apply Hdl|done]).
  destruct (updateComponentPadConnections_commit t c u2 _ Hr2 Hat) as (Hat' & Ho' & Hdl' & Hq').
  split; [exact Hat'|]. split; [|split].
  - intros r' Hne. rewrite Ho', Ho by done. by destruct r'.
  - eapply delta_trans; [|exact Hdl']. eapply delta_trans; [|exact Hdl].
    apply delta_quiet; try done. apply steps_with_footprintMap.
  - intros Hs. destruct (synced_fields c f Hs) as [Hm Hp]. rewrite Hq', Hq; done.
Qed.

Lemma updateMatchedAt_commit i c u k :
  pads_ready u -> m_replaceFootprints u = false ->
  let u' := updateMatchedAt i c u k in
  b_footprints (m_board u') !! k = synced c <$> b_footprints (m_board u) !! k /\
  others (OnBoard k) u u' /\
  delta (fun name => exists f, b_footprints (m_board u) !! k = Some f /\
                               padsOn name (fp_pads (synced c f))) u u' /\
  ((forall f, b_footprints (m_board u) !! k = Some f -> synced c f = f) ->
   actions u' = actions u).
Proof.
  intros Hr Hrep. cbv zeta. unfold updateMatchedAt.
  destruct (b_footprints (m_board u) !! k) as [f|] eqn:Hk.
  2:{ rewrite Hk. split; [done|]. split; [apply others_refl|]. split; [apply delta_refl|done]. }
  unfold updateMatched. rewrite Hrep. cbn [andb].
  destruct (sync_commit i (OnBoard k) c u f Hr Hk) as (Hat & Ho & Hdl & Hq).
  split; [exact Hat|]. split; [exact Ho|]. split.
  - eapply delta_weaken; [|exact Hdl]. intros name H. by exists f.
  - intros H. apply Hq. by apply H.
Qed.

Lemma foldl_updateMatchedAt_commit i c : forall ks u,
  NoDup ks -> pads_ready u -> m_replaceFootprints u = false ->
  let u' := foldl (updateMatchedAt i c) u ks in
  (forall k, b_footprints (m_board u') !! k
             = if bool_decide (k ∈ ks) then synced c <$> b_footprints (m_board u) !! k
               else b_footprints (m_board u) !! k) /\
  m_newFootprints u' = m_newFootprints u /\
  delta (fun name => exists k f, k ∈ ks /\ b_footprints (m_board u) !! k = Some f /\
                                 padsOn name (fp_pads (synced c f))) u u' /\
  ((forall k f, k ∈ ks -> b_footprints (m_board u) !! k = Some f -> synced c f = f) ->
   actions u' = actions u).
Proof.
  induction ks as [|k0 ks IH]; intros u Hnd Hr Hrep; cbn [foldl].
  { split; [done|]. split; [done|]. split; [apply delta_refl|done]. }
  apply NoDup_cons in Hnd as [Hk0 Hnd].
  destruct (updateMatchedAt_commit i c u k0 Hr Hrep) as (Hat & Ho & Hdl & Hq).
  set (u1 := updateMatchedAt i c u k0) in *.
  assert (pads_ready u1) as Hr1 by (eapply pads_ready_steps; [apply Hdl|done]).
  assert (m_replaceFootprints u1 = false) as Hrep1
    by (by rewrite (so_replaceFootprints _ _ (st_options _ _ (d_steps _ _ _ Hdl)))).
  destruct (IH u1 Hnd Hr1 Hrep1) as (Hfp & Hnew & Hdl' & Hq').
  assert (forall k, k ≠ k0 -> b_footprints (m_board u1) !! k = b_footprints (m_board u) !! k) as Hoth.
  { intros k Hk. apply (Ho (OnBoard k)). congruence. }
  split; [|split; [|split]].
  - intros k. rewrite Hfp. destruct (decide (k = k0)) as [->|Hne].
    + rewrite (bool_decide_eq_false_2 (k0 ∈ ks)) by done.
      rewrite bool_decide_eq_true_2 by left. done.
    + rewrite Hoth by done.
      destruct (decide (k ∈ ks)) as [Hin|Hin].
      * rewrite !bool_decide_eq_true_2; [done| by right | done].
      * rewrite !bool_decide_eq_false_2; [done| | done].
        intros [?|?]%elem_of_cons; done.
  - rewrite Hnew. apply list_eq. intros j. apply (Ho (Staged j)). done.
  - eapply delta_trans; (eapply delta_weaken; [|eassumption]); cbn.
    + intros name (f & Hf & Hp). exists k0, f. split; [left|done].
    + intros name (k & f & Hk & Hf & Hp). exists k, f. split; [by right|].
      split; [|done]. rewrite <- Hoth; [done|]. intros ->. done.
  - intros H. rewrite Hq', Hq.
    + done.
    + intros f Hf. apply (H k0); [left|done].
    + intros k f Hk Hf. apply (H k); [by right|]. rewrite <- Hoth; [done|]. intros ->. done.
Qed.

Lemma lastPreexisting_length b b' :
  length (b_footprints b') = length (b_footprints b) -> lastPreexisting b' = lastPreexisting b.
Proof.
  unfold lastPreexisting. destruct (b_footprints b), (b_footprints b'); cbn; try done.
  intros [= ->]. done.
Qed.

Lemma elem_of_matching u c n k :
  k ∈ List.filter (matchesAt u c) (seq 0 n) <->
  exists f, b_footprints (m_board u) !! k = Some f /\ matches u f c = true /\ (k < n)%nat.
Proof.
  rewrite list_elem_of_In, filter_In, <- list_elem_of_In, elem_of_seq. unfold matchesAt.
  destruct (b_footprints (m_board u) !! k) as [f|]; cbn.
  - split; [intros [? ?]; exists f; split; [done|split; [done|lia]]|].
    intros (f' & [= <-] & ? & ?). split; [lia|done].
  - split; [intros [? ?]; done | intros (f' & ? & _); done].
Qed.

(** The loop over the board footprints, in a committing run that does not
    replace footprints: every footprint that matches is synchronised. *)
Lemma scanFootprints_commit i c u :
  pads_ready u -> m_replaceFootprints u = false ->
  let res := scanFootprints i c (lastPreexisting (m_board u))
               (seq 0 (length (b_footprints (m_board u)))) (u, 0) in
  b_footprints (m_board res.1)
    = (fun f => if matches u f c then synced c f else f) <$> b_footprints (m_board u) /\
  m_newFootprints res.1 = m_newFootprints u /\
  delta (fun name => exists f, f ∈ b_footprints (m_board u) /\ matches u f c = true /\
                               padsOn name (fp_pads (synced c f))) u res.1 /\
  ((forall f, f ∈ b_footprints (m_board u) -> matches u f c = true -> synced c f = f) ->
   actions res.1 = actions u) /\
  (res.2 = 0 <-> forall f, f ∈ b_footprints (m_board u) -> matches u f c = false) /\
  (res.2 = 0 -> res.1 = u).
Proof.
  intros Hr Hrep. cbv zeta.
  pose proof (scanFootprints_preexisting i c (m_board u) 0 (u, 0) (fun _ => eq_refl)) as Hscan.
  rewrite Nat.add_0_r in Hscan. rewrite Hscan. clear Hscan.
  rewrite (scan_matching i c u) by (try done; apply NoDup_seq).
  set (n := length (b_footprints (m_board u))).
  set (ks := List.filter (matchesAt u c) (seq 0 n)).
  assert (NoDup ks) as Hnd
    by (unfold ks; apply NoDup_ListNoDup, List.NoDup_filter, NoDup_ListNoDup, NoDup_seq).
  destruct (foldl_updateMatchedAt_commit i c ks u Hnd Hr Hrep) as (Hfp & Hnew & Hdl & Hq).
  cbn [fst snd].
  assert (Hin : forall k, k ∈ ks <-> exists f, b_footprints (m_board u) !! k = Some f /\
                                             matches u f c = true).
  { intros k. unfold ks. rewrite elem_of_matching. split.
    - intros (f & ? & ? & ?). eauto.
    - intros (f & Hf & ?). exists f. split; [done|]. split; [done|].
      by apply lookup_lt_Some in Hf. }
  split; [|split; [exact Hnew|split; [|split; [|split]]]].
  - apply list_eq. intros k. rewrite Hfp, list_lookup_fmap.
    destruct (b_footprints (m_board u) !! k) as [f|] eqn:Hk; [|by case_bool_decide].
    cbn. destruct (matches u f c) eqn:Hm.
    + rewrite bool_decide_eq_true_2; [done|]. apply Hin. eauto.
    + rewrite bool_decide_eq_false_2; [done|]. rewrite Hin. intros (f1 & Hf1 & ?). congruence.
  - eapply delta_weaken; [|exact Hdl]. cbn.
    intros name (k & f & Hk & Hf & Hp). exists f. split; [by eapply list_elem_of_lookup_2|].
    split; [|done]. apply Hin in Hk as (f' & Hf' & Hm). congruence.
  - intros H. apply Hq. intros k f Hk Hf. apply H; [by eapply list_elem_of_lookup_2|].
    apply Hin in Hk as (f' & Hf' & Hm). congruence.
  - split.
    + intros Hz f Hf. destruct (matches u f c) eqn:Hm; [|done].
      apply list_elem_of_lookup in Hf as [k Hk].
      assert (k ∈ ks) as Hks by (apply Hin; eauto).
      destruct ks; [by apply elem_of_nil in Hks | cbn in Hz; lia].
    + intros Hno. destruct ks as [|k ks']; [done|].
      destruct (proj1 (Hin k)) as (f & Hf & Hm); [left|]. rewrite Hno in Hm; [done|].
      by eapply list_elem_of_lookup_2.
  - intros Hz. destruct ks; [done | cbn in Hz; lia].
Qed.

Lemma addNewComponent_commit c u :
  pads_ready u ->
  let res := addNewComponent c u in
  (cannot_add (m_frame u) c /\ res.1 = None /\ m_board res.2 = m_board u /\
   m_commit res.2 = m_commit u /\ m_newFootprints res.2 = m_newFootprints u /\
   actions res.2 = actions u) \/
  (exists N, ~ cannot_add (m_frame u) c /\
             res.1 = Some (Staged (length (m_newFootprints u))) /\
             m_board res.2 = m_board u /\
             m_commit res.2 = (m_commit u ++ [ChAdd (Staged (length (m_newFootprints u)))])%list /\
             m_newFootprints res.2 = (m_newFootprints u ++ [N])%list).
Proof.
  intros (Hd & _). cbv zeta. unfold addNewComponent, cannot_add.
  destruct (IsEmpty (c_fpid c)) eqn:He.
  { left. cbn. repeat split; auto. unfold actions, reportsOf. cbn. rewrite omap_app. cbn.
    by rewrite app_nil_r. }
  destruct (LoadFootprint (m_frame u) (c_fpid c)) as [L|] eqn:HL.
  2:{ left. cbn. repeat split; auto. unfold actions, reportsOf. cbn. rewrite omap_app. cbn.
      by rewrite app_nil_r. }
  right. cbn. rewrite Hd. cbn. eexists. split; [|repeat split].
  intros [H|H]; congruence.
Qed.

Lemma processComponent_commit i c u :
  pads_ready u -> m_replaceFootprints u = false -> excluded c = false ->
  let u' := processComponent (lastPreexisting (m_board u)) u (i, c) in
  let S := fun name => exists r f, deref u' r = Some f /\ synced c f = f /\
                                   padsOn name (fp_pads f) in
  b_footprints (m_board u')
    = (fun f => if matches u f c then synced c f else f) <$> b_footprints (m_board u) /\
  ((m_newFootprints u' = m_newFootprints u /\
    ((forall f, f ∈ b_footprints (m_board u) -> matches u f c = false) ->
     cannot_add (m_frame u) c) /\
    (forall ch, ch ∈ m_commit u' -> ch ∈ m_commit u \/ minor S ch)) \/
   (exists N, m_newFootprints u' = (m_newFootprints u ++ [N])%list /\ synced c N = N /\
              (forall ch, ch ∈ m_commit u' ->
                          ch ∈ m_commit u \/ minor S ch \/
                          ch = ChAdd (Staged (length (m_newFootprints u)))) /\
              ChAdd (Staged (length (m_newFootprints u))) ∈ m_commit u')) /\
  steps u u' /\
  Forall2 (net_marked S) (b_nets (m_board u)) (b_nets (m_board u')) /\
  b_zones (m_board u') = b_zones (m_board u) /\
  b_tracks (m_board u') = b_tracks (m_board u) /\
  ((forall f, f ∈ b_footprints (m_board u) -> matches u f c = true -> synced c f = f) ->
   ((forall f, f ∈ b_footprints (m_board u) -> matches u f c = false) ->
    cannot_add (m_frame u) c) ->
   actions u' = actions u).
Proof.
  intros Hr Hrep Hex. cbv zeta. unfold processComponent.
  unfold excluded in Hex. rewrite Hex.
  set (u0 := report _ RPT_SEVERITY_INFO u).
  assert (pads_ready u0) as Hr0 by done.
  assert (actions u0 = actions u) as Ha0.
  { unfold u0. rewrite actions_report. cbn. apply app_nil_r. }
  destruct (scanFootprints_commit i c u0 Hr0 Hrep) as (Hfp & Hnew & Hdl & Hq & Hz & Hsame).
  change (lastPreexisting (m_board u0)) with (lastPreexisting (m_board u)) in *.
  change (b_footprints (m_board u0)) with (b_footprints (m_board u)) in *.
  change (m_newFootprints u0) with (m_newFootprints u) in *.
  assert (forall f, matches u0 f c = matches u f c) as Hm0 by done.
  destruct (scanFootprints i c _ _ _) as [u1 mc]. cbn [fst snd] in *.
  assert (steps u u0) as Hs0 by apply steps_report.
  case_bool_decide as Hmc.
  - (* no footprint matches *)
    specialize (Hsame Hmc). subst u1. pose proof (proj1 Hz Hmc) as Hno. clear Hz Hdl Hq Hmc.
    rename Hno into Hmc.
    assert (b_footprints (m_board u) =
            (fun f => if matches u f c then synced c f else f) <$> b_footprints (m_board u)) as Hid.
    { rewrite <- (list_fmap_id (b_footprints (m_board u))) at 1.
      apply list_fmap_ext. intros k f Hf. rewrite <- Hm0, Hmc; [done|].
      by eapply list_elem_of_lookup_2. }
    destruct (addNewComponent_commit c u0 Hr0) as [(Hc & Hn & Hb & Hco & Hnf & Hac)|(N & Hnc & Hn & Hb & Hco & Hnf)];
      change (m_board u0) with (m_board u) in *;
      change (m_commit u0) with (m_commit u) in *;
      change (m_newFootprints u0) with (m_newFootprints u) in *;
      change (m_frame u0) with (m_frame u) in *.
    + pose proof (addNewComponent_steps c u0) as Hst.
      destruct (addNewComponent c u0) as [fp u2]. cbn [fst snd] in Hn, Hb, Hco, Hnf, Hac, Hst. subst fp.
      split; [by rewrite Hb|]. split.
      { left. split; [done|]. split; [done|]. intros ch. rewrite Hco. by left. }
      split; [by eapply steps_trans|]. rewrite Hb.
      split; [apply Forall2_net_marked_refl|]. split; [done|]. split; [done|].
      intros _ _. etrans; [exact Hac | exact Ha0].
    + pose proof (addNewComponent_steps c u0) as Hst.
      destruct (addNewComponent c u0) as [fp u2]. cbn [fst snd] in Hn, Hb, Hco, Hnf, Hst. subst fp.
      set (j := length (m_newFootprints u)) in *.
      assert (pads_ready u2) as Hr2 by (by eapply pads_ready_steps).
      assert (deref u2 (Staged j) = Some N) as Hj.
      { cbn. rewrite Hnf. by apply list_lookup_middle. }
      destruct (sync_commit i (Staged j) c u2 N Hr2 Hj) as (Hat & Ho & Hdl & Hq).
      set (u' := updateComponentPadConnections _ _ _) in *.
      assert (b_footprints (m_board u') = b_footprints (m_board u)) as Hfp'.
      { rewrite <- Hb. apply list_eq. intros k. apply (Ho (OnBoard k)). done. }
      assert (m_newFootprints u' = (m_newFootprints u ++ [synced c N])%list) as Hnew'.
      { apply list_eq. intros j'. destruct (decide (j' = j)) as [->|Hne].
        - rewrite list_lookup_middle by done. exact Hat.
        - pose proof (Ho (Staged j')) as Ho'. cbn in Ho'. rewrite Ho' by congruence.
          rewrite Hnf. destruct (decide (j' < j)%nat).
          + by rewrite !lookup_app_l by done.
          + rewrite !lookup_ge_None_2; [done|rewrite length_app; cbn; unfold j in *; lia..]. }
      assert (forall name, padsOn name (fp_pads (synced c N)) ->
                exists r f, deref u' r = Some f /\ synced c f = f /\ padsOn name (fp_pads f)) as HS.
      { intros name Hp. exists (Staged j), (synced c N). split; [done|]. split; [apply synced_idem|done]. }
      split; [by rewrite Hfp', <- Hid|]. split.
      { right. exists (synced c N). split; [done|]. split; [apply synced_idem|]. split.
        - intros ch Hch. destruct (d_commit _ _ _ Hdl ch Hch) as [H|H].
          + rewrite Hco in H. apply elem_of_app in H as [H|H]; [by left|].
            apply list_elem_of_singleton in H. auto.
          + right. left. eapply minor_weaken; [exact HS|done].
        - eapply elem_of_prefix; [|apply (st_commit _ _ (d_steps _ _ _ Hdl))].
          rewrite Hco. apply elem_of_app. right. left. }
      split; [eapply steps_trans; [exact Hs0|]; eapply steps_trans; [exact Hst|apply Hdl]|].
      split.
      { replace (b_nets (m_board u)) with (b_nets (m_board u2)) by (by rewrite Hb).
        eapply Forall2_net_marked_weaken; [exact HS | apply Hdl]. }
      split; [rewrite (d_zones _ _ _ Hdl); by rewrite Hb|].
      split; [rewrite (d_tracks _ _ _ Hdl); by rewrite Hb|].
      intros _ Hcan. by destruct (Hnc (Hcan Hmc)).
  - (* some footprint matches *)
    assert (exists u', (if bool_decide (1 < mc)
                        then report (MsgMultipleFootprints (c_reference c)) RPT_SEVERITY_ERROR u1
                        else u1) = u' /\
                       m_board u' = m_board u1 /\ m_commit u' = m_commit u1 /\
                       m_newFootprints u' = m_newFootprints u1 /\ actions u' = actions u1 /\
                       steps u1 u') as (u' & -> & Hb & Hco & Hnf & Hac & Hst).
    { eexists. split; [done|]. case_bool_decide.
      - split; [done|]. split; [done|]. split; [done|].
        split; [rewrite actions_report; cbn; apply app_nil_r | apply steps_report].
      - split; [done|]. split; [done|]. split; [done|]. split; [done | apply steps_refl]. }
    assert (forall name,
              (exists f, f ∈ b_footprints (m_board u) /\ matches u0 f c = true /\
                         padsOn name (fp_pads (synced c f))) ->
              exists r f, deref u' r = Some f /\ synced c f = f /\ padsOn name (fp_pads f)) as HS.
    { intros name (f & Hf & Hm & Hp). apply list_elem_of_lookup in Hf as [k Hk].
      exists (OnBoard k), (synced c f). split; [|split; [apply synced_idem|done]].
      cbn. rewrite Hb, Hfp, list_lookup_fmap, Hk. cbn. by rewrite Hm. }
    rewrite Hb, Hnf, Hco, Hac.
    split; [rewrite Hfp; by apply list_fmap_ext|]. split.
    { left. split; [done|]. split.
      - intros Hno. exfalso. apply Hmc, Hz. intros f Hf. rewrite Hm0. auto.
      - intros ch Hch. destruct (d_commit _ _ _ Hdl ch Hch) as [H|H]; [by left|].
        right. eapply minor_weaken; [exact HS|done]. }
    split; [eapply steps_trans; [exact Hs0|]; eapply steps_trans; [apply Hdl|exact Hst]|].
    split; [eapply Forall2_net_marked_weaken; [exact HS | apply Hdl]|].
    split; [apply Hdl|]. split; [apply Hdl|].
    intros Hsy _. rewrite Hq; [done|]. intros f Hf Hm. apply Hsy; [done|]. by rewrite <- Hm0.
Qed.
(** *** A pass over a board that is in sync *)

Lemma matches_options u v f c :
  m_lookupByTimestamp v = m_lookupByTimestamp u -> matches v f c = matches u f c.
Proof. intros H. unfold matches. by rewrite H. Qed.

Lemma doDelete_options nl u v f :
  same_options u v -> doDelete nl v f = doDelete nl u f.
Proof.
  intros H. unfold doDelete, sweepComponent.
  by rewrite (so_deleteUnusedComponents _ _ H), (so_lookupByTimestamp _ _ H).
Qed.

(** *** What is done without an Action *)

Lemma calm_refl u : calm u u.
Proof. split; [done|]. split; [lia|]. by left. Qed.

Lemma calm_trans u1 u2 u3 : calm u1 u2 -> calm u2 u3 -> calm u1 u3.
Proof.
  intros (C1 & L1 & [[M1 N1]|G1]) (C2 & L2 & [[M2 N2]|G2]);
    (split; [congruence|]); (split; [lia|]);
    first [left; split; congruence | right; lia].
Qed.

Lemma calm_foldl {A} (f : UPDATER -> A -> UPDATER) l :
  (forall u x, calm u (f u x)) -> forall u, calm u (foldl f u l).
Proof.
  intros Hf. induction l as [|x l IH]; intros u; cbn; [apply calm_refl|].
  eapply calm_trans; [apply Hf | apply IH].
Qed.




















Lemma foldl_cache_other (zs : list ZONE) : forall (h : nat -> nat) key u,
  (forall i, h i ≠ key) ->
  m_zoneConnectionsCache
    (foldl (fun u (kz : nat * ZONE) =>
              if negb (zone_onCopper kz.2) || zone_isRuleArea kz.2 then u
              else with_zoneConnectionsCache
                     (<[kz.1 := zone_connectedPads kz.2]> (m_zoneConnectionsCache u)) u)
           u (imap (fun i z => (h i, z)) zs)) !! key
  = m_zoneConnectionsCache u !! key.
Proof.
  induction zs as [|z zs IH]; intros h key u Hh; [done|].
  cbn [imap foldl fst snd].
  rewrite (imap_ext _ (fun i z => ((h ∘ S) i, z)) zs) by done.
  rewrite (IH (h ∘ S)) by (intros i; apply Hh).
  destruct (negb (zone_onCopper z) || zone_isRuleArea z); [done|].
  cbn. by rewrite lookup_insert_ne.
Qed.

Lemma foldl_cache_lookup (zs : list ZONE) : forall (g : nat -> nat) u k,
  (forall i j, g i = g j -> i = j) ->
  m_zoneConnectionsCache
    (foldl (fun u (kz : nat * ZONE) =>
              if negb (zone_onCopper kz.2) || zone_isRuleArea kz.2 then u
              else with_zoneConnectionsCache
                     (<[kz.1 := zone_connectedPads kz.2]> (m_zoneConnectionsCache u)) u)
           u (imap (fun i z => (g i, z)) zs)) !! g k
  = match zs !! k with
    | Some z => if electrical z then Some (zone_connectedPads z)
                else m_zoneConnectionsCache u !! g k
    | None => m_zoneConnectionsCache u !! g k
    end.
Proof.
  induction zs as [|z zs IH]; intros g u k Hg; [done|].
  cbn [imap foldl fst snd].
  rewrite (imap_ext _ (fun i z => ((g ∘ S) i, z)) zs) by done.
  destruct k as [|k]; cbn [lookup list_lookup].
  - (* the entry of this zone is not written again *)
    rewrite foldl_cache_other by (intros i H; by apply Hg in H).
    unfold electrical.
    destruct (zone_onCopper z), (zone_isRuleArea z); cbn; try done.
    by rewrite lookup_insert_eq.
  - change (g (S k)) with ((g ∘ S) k). rewrite IH.
    2:{ intros i j H. apply Hg in H. lia. }
    destruct (zs !! k) as [z'|]; [destruct (electrical z'); [done|]|].
    all: destruct (negb (zone_onCopper z) || zone_isRuleArea z); [done|].
    all: cbn; rewrite lookup_insert_ne; [done|]; intros H; apply Hg in H; lia.
Qed.

(** *** A pass over a board in sync *)

Lemma board_in_sync_footprints nl u b : board_in_sync nl u b -> footprints_in_sync nl u b.
Proof. intros [H1 H2 H3 _ H5 H6]. by split. Qed.





(** The repair of zones and vias has nothing to do. *)
Lemma updateCopperZoneNets_on_netlist nl u :
  items_on_netlist nl (m_board u) -> updateCopperZoneNets nl u = u.
Proof.
  intros [Hv Hz]. unfold updateCopperZoneNets. cbv zeta.
  assert (forall l, foldl (fun u k => updateVia (netlistNetnames nl) k u) u l = u) as ->.
  { induction l as [|k l IH]; [done|]. cbn [foldl].
    replace (updateVia (netlistNetnames nl) k u) with u; [done|].
    unfold updateVia. destruct (b_tracks (m_board u) !! k) as [via|] eqn:Hk; [|done].
    case_bool_decide as Ht; [|done]. cbn [negb].
    rewrite bool_decide_eq_true_2; [done|]. apply Hv; [|done]. by eapply list_elem_of_lookup_2. }
  induction (seq 0 _) as [|k l IH]; [done|]. cbn [foldl].
  replace (updateZone (netlistNetnames nl) k u) with u; [done|].
  unfold updateZone. destruct (b_zones (m_board u) !! k) as [zone|] eqn:Hk; [|done].
  destruct (negb (zone_onCopper zone) || zone_isRuleArea zone) eqn:He; [done|].
  rewrite bool_decide_eq_true_2; [done|]. apply Hz; [by eapply list_elem_of_lookup_2|].
  unfold electrical. apply orb_false_iff in He as [H1 H2].
  apply negb_false_iff in H1. by rewrite H1, H2.
Qed.







Lemma all_current_le b b' name :
  Forall2 net_le (b_nets b) (b_nets b') -> all_current b name -> all_current b' name.
Proof.
  intros Hle Hall n' Hn' Hname.
  apply list_elem_of_lookup in Hn' as [i Hi].
  destruct (Forall2_lookup_r _ _ _ _ _ Hle Hi) as (n & Hn & Hnn' & Hcode & Hcur).
  apply Hcur, Hall; [by eapply list_elem_of_lookup_2 | congruence].
Qed.

Lemma all_current_markCurrent name b : all_current (markCurrent name b) name.
Proof.
  intros n' Hn' Hname. unfold markCurrent in Hn'. cbn in Hn'.
  apply list_elem_of_fmap in Hn' as (n & -> & Hn).
  case_bool_decide; [done|]. done.
Qed.

Lemma foldl_markCurrent_marks pads : forall b,
  let b' := foldl (fun b pad => markCurrent (pad_net pad) b) b pads in
  Forall2 (net_marked (fun name => padsOn name pads)) (b_nets b) (b_nets b') /\
  (forall p, p ∈ pads -> all_current b' (pad_net p)) /\
  b_zones b' = b_zones b /\ b_tracks b' = b_tracks b.
Proof.
  induction pads as [|p pads IH]; intros b; cbn [foldl].
  { split; [apply Forall2_net_marked_refl|]. split; [|done]. intros p Hp. by apply elem_of_nil in Hp. }
  destruct (IH (markCurrent (pad_net p) b)) as (Hm & Hall & Hz & Ht).
  split; [|split; [|by rewrite Hz, Ht]].
  - eapply Forall2_net_marked_trans; (eapply Forall2_net_marked_weaken; [|first [eassumption|apply markCurrent_marked]]).
    + intros name H. exact H.
    + exists p. split; [left|done].
    + intros name (q & Hq & Hn). exists q. split; [by right|done].
  - intros q [->|Hq]%elem_of_cons; [|by apply Hall].
    eapply all_current_le; [apply foldl_markCurrent_net_le | apply all_current_markCurrent].
Qed.

(** The body of the sweep, in a committing run. *)
Lemma sweepFootprint_commit nl v k f :
  m_isDryRun v = false -> b_footprints (m_board v) !! k = Some f ->
  let v' := sweepFootprint nl v k in
  (doDelete nl v f && negb (fp_locked f) = true /\
   v' = stage (ChRemove (OnBoard k))
          (report (MsgRemoveUnusedFootprint (fp_reference f)) RPT_SEVERITY_ACTION v)) \/
  (doDelete nl v f && negb (fp_locked f) = false /\
   m_board v' = foldl (fun b pad => markCurrent (pad_net pad) b) (m_board v) (fp_pads f) /\
   m_commit v' = m_commit v /\ m_newFootprints v' = m_newFootprints v /\
   actions v' = actions v).
Proof.
  intros Hd Hk. cbv zeta. unfold sweepFootprint. rewrite Hk. cbv zeta.
  destruct (doDelete nl v f) eqn:Hdel, (fp_locked f) eqn:Hl; cbn; rewrite Hd; cbn.
  - right. repeat split. unfold actions, reportsOf. cbn. rewrite omap_app. cbn. apply app_nil_r.
  - by left.
  - right. by repeat split.
  - right. by repeat split.
Qed.




(** [testConnectivity] only reports errors. *)
Lemma testConnectivity_only nl v :
  m_board (testConnectivity nl v) = m_board v /\
  m_commit (testConnectivity nl v) = m_commit v /\
  m_newFootprints (testConnectivity nl v) = m_newFootprints v /\
  actions (testConnectivity nl v) = actions v.
Proof.
  set (P := fun w : UPDATER => m_board w = m_board v /\ m_commit w = m_commit v /\
                               m_newFootprints w = m_newFootprints v /\ actions w = actions v).
  assert (Hfold : forall {A} (f : UPDATER -> A -> UPDATER) l,
             (forall w x, P w -> P (f w x)) -> forall w, P w -> P (foldl f w l)).
  { intros A f l Hf. induction l as [|x l IH]; intros w Hw; cbn [foldl]; auto. }
  change (P (testConnectivity nl v)). unfold testConnectivity.
  apply Hfold; [|by repeat split].
  intros w ic Hw. unfold testComponent.
  destruct (footprintMap w !! ic.1) as [r|]; [|done].
  destruct (deref w r) as [fp|]; [|done].
  apply Hfold; [|done].
  intros w' net (H1 & H2 & H3 & H4). case_bool_decide; [done|].
  repeat split; try done. rewrite <- H4. unfold actions, reportsOf. cbn.
  rewrite omap_app. cbn. apply app_nil_r.
Qed.


Lemma NetnameOfCode_same code b b' :
  Forall2 (fun n n' => net_name n' = net_name n /\ net_code n' = net_code n)
          (b_nets b) (b_nets b') ->
  NetnameOfCode code b' = NetnameOfCode code b.
Proof.
  unfold NetnameOfCode, FindNetByCode.
  induction 1 as [|n n' l l' (Hn & Hc) _ IH]; [done|].
  cbn. rewrite Hc. case_bool_decide; [done|]. exact IH.
Qed.

Lemma Forall2_remark (nets : list NETINFO_ITEM) :
  Forall2 (fun n n' => net_name n' = net_name n /\ net_code n' = net_code n)
          nets
          (List.map (fun net => SetIsCurrent (bool_decide (net_code net = 0)) net) nets).
Proof. induction nets; constructor; auto. Qed.


(** *** What a first pass leaves *)

Lemma matches_key u f c :
  matches u f c = bool_decide (footprintKey (m_lookupByTimestamp u) f
                               = componentKey (m_lookupByTimestamp u) c).
Proof. unfold matches, footprintKey, componentKey, CmpNoCase_eq. by destruct (m_lookupByTimestamp u). Qed.

Lemma synced_key byTimestamp c f :
  synced c f = f -> footprintKey byTimestamp f = componentKey byTimestamp c.
Proof. intros <-. by destruct byTimestamp. Qed.

Lemma synced_matches u c f : synced c f = f -> matches u f c = true.
Proof. intros H. rewrite matches_key. apply bool_decide_eq_true_2. by apply synced_key. Qed.

Lemma owned_mono pre l f : owned pre f -> owned (pre ++ l)%list f.
Proof. intros (c & Hc & H). exists c. split; [apply elem_of_app; by left | done]. Qed.

Lemma bound_mono pre l v name : bound pre v name -> bound (pre ++ l)%list v name.
Proof. intros (r & f & Hr & Ho & Hp). exists r, f. eauto using owned_mono. Qed.

Lemma owned_fresh u pre c f :
  (forall c0, c0 ∈ pre -> componentKey (m_lookupByTimestamp u) c0
                          ≠ componentKey (m_lookupByTimestamp u) c) ->
  owned pre f -> matches u f c = false.
Proof.
  intros Hfresh (c0 & Hc0 & _ & Hs). rewrite matches_key. apply bool_decide_eq_false_2.
  rewrite (synced_key _ c0 f Hs). by apply Hfresh.
Qed.

Lemma matching_cases u c (l : list FOOTPRINT) :
  (exists k f, l !! k = Some f /\ matches u f c = true) \/
  (forall f, f ∈ l -> matches u f c = false).
Proof.
  induction l as [|g l [(k & f & Hk & Hm)|IH]].
  - right. intros f Hf. by apply elem_of_nil in Hf.
  - left. by exists (S k), f.
  - destruct (matches u g c) eqn:Hg.
    + left. by exists 0%nat, g.
    + right. intros f [->|Hf]%elem_of_cons; auto.
Qed.

Lemma processComponent_pass u pre v i c :
  m_replaceFootprints u = false ->
  (forall c0, c0 ∈ pre -> componentKey (m_lookupByTimestamp u) c0
                          ≠ componentKey (m_lookupByTimestamp u) c) ->
  pass_inv u pre v ->
  pass_inv u (pre ++ [c])%list (processComponent (lastPreexisting (m_board u)) v (i, c)).
Proof.
  intros Hrep Hfresh [Hr Hs Hz Ht Hmat Hserv Hnew Hmarks Hcom Hadds Hsent].
  pose proof (st_options _ _ Hs) as Ho.
  destruct (excluded c) eqn:Hex.
  { unfold processComponent. unfold excluded in Hex. rewrite Hex.
    assert (forall c', c' ∈ (pre ++ [c])%list -> excluded c' = false -> c' ∈ pre) as Hin.
    { intros c' [H|H]%elem_of_app Hex'; [done|]. apply list_elem_of_singleton in H as ->.
      unfold excluded in Hex'. congruence. }
    split; try done.
    - intros r f c' Hf Hc' Hex'. apply (Hmat r f c'); auto.
    - intros c' Hc' Hex'. apply Hserv; auto.
    - intros j f Hj. eapply owned_mono, Hnew, Hj.
    - intros n Hn Hcur. destruct (Hmarks n Hn Hcur); [by left|right]. by apply bound_mono.
    - intros ch Hch. specialize (Hcom ch Hch). destruct ch as [[]| | | | | |]; try done.
      by apply bound_mono. }
  assert (lastPreexisting (m_board u) = lastPreexisting (m_board v)) as ->.
  { symmetry. apply lastPreexisting_length, (st_length _ _ Hs). }
  assert (m_replaceFootprints v = false) as Hrepv by (by rewrite (so_replaceFootprints _ _ Ho)).
  destruct (processComponent_commit i c v Hr Hrepv Hex) as (HF & HN & Hst & HM & Hz' & Ht' & _).
  set (v' := processComponent _ v (i, c)) in *.
  assert (forall f, matches v f c = matches u f c) as Hm
    by (intros f; apply matches_options, Ho).
  assert (length (m_newFootprints v) <= length (m_newFootprints v'))%nat as Hlen
    by apply (st_new _ _ Hst).
  assert (Hpersist : forall r f, deref v r = Some f -> matches u f c = false ->
                                 deref v' r = Some f).
  { intros [k|j] f Hf Hmf; cbn in *.
    - by rewrite HF, list_lookup_fmap, Hf; cbn; rewrite Hm, Hmf.
    - destruct HN as [(-> & _)|(N & -> & _)]; [done|].
      rewrite lookup_app_l; [done|]. by eapply lookup_lt_Some. }
  assert (Hderef : forall r f', deref v' r = Some f' ->
                     (deref v r = Some f' /\ matches u f' c = false) \/ synced c f' = f').
  { intros [k|j] f' Hf'; cbn in *.
    - rewrite HF, list_lookup_fmap in Hf'.
      destruct (b_footprints (m_board v) !! k) as [f|] eqn:Hk; [|done]. cbn in Hf'.
      rewrite Hm in Hf'. destruct (matches u f c) eqn:Hmf; injection Hf' as <-.
      + right. apply synced_idem.
      + by left.
    - destruct HN as [(Heq & _)|(N & Heq & HsN & _)]; rewrite Heq in Hf'.
      + left. split; [done|]. eapply owned_fresh; [exact Hfresh|]. eapply Hnew, Hf'.
      + apply lookup_app_Some in Hf' as [Hf'|[_ Hf']].
        * left. split; [done|]. eapply owned_fresh; [exact Hfresh|]. eapply Hnew, Hf'.
        * apply list_lookup_singleton_Some in Hf' as [_ <-]. by right. }
  assert (Hbound : forall name, bound pre v name -> bound (pre ++ [c])%list v' name).
  { intros name (r & f & Hf & Hown & Hp). exists r, f. split; [|split; [by apply owned_mono|done]].
    apply Hpersist; [done|]. by eapply owned_fresh. }
  assert (Hmine : forall f, synced c f = f -> owned (pre ++ [c])%list f).
  { intros f Hf. exists c. split; [apply elem_of_app; right; left | done]. }
  assert (HS : forall name,
             (exists r f, deref v' r = Some f /\ synced c f = f /\ padsOn name (fp_pads f)) ->
             bound (pre ++ [c])%list v' name).
  { intros name (r & f & Hf & Hsy & Hp). exists r, f. auto. }
  split.
  - eapply pads_ready_steps; [exact Hst|done].
  - by eapply steps_trans.
  - congruence.
  - congruence.
  - intros r f' c' Hf' Hc' Hex' Hm'.
    destruct (Hderef r f' Hf') as [[Hf Hmf]|Hsy].
    + apply elem_of_app in Hc' as [Hc'|Hc'].
      * by apply (Hmat r f' c').
      * apply list_elem_of_singleton in Hc' as ->. congruence.
    + apply elem_of_app in Hc' as [Hc'|Hc'].
      * exfalso. apply (Hfresh c' Hc'). rewrite <- (synced_key _ c f' Hsy).
        rewrite matches_key in Hm'. by apply bool_decide_eq_true_1 in Hm'.
      * by apply list_elem_of_singleton in Hc' as ->.
  - intros c' [Hc'|Hc']%elem_of_app Hex'.
    + destruct (Hserv c' Hc' Hex') as [?|(r & f & Hf & Hsy)]; [by left|right].
      exists r, f. split; [|done]. apply Hpersist; [done|].
      eapply owned_fresh; [exact Hfresh|]. by exists c'.
    + apply list_elem_of_singleton in Hc' as ->.
      destruct (matching_cases v c (b_footprints (m_board v))) as [(k & f & Hk & Hmf)|Hno].
      * right. exists (OnBoard k), (synced c f). split; [|apply synced_idem].
        unfold deref. rewrite HF, list_lookup_fmap, Hk. cbn. by rewrite Hmf.
      * destruct HN as [(_ & Hcan & _)|(N & Heq & HsN & _)].
        -- left. rewrite <- (so_frame _ _ Ho). by apply Hcan.
        -- right. exists (Staged (length (m_newFootprints v))), N. split; [|done].
           unfold deref. rewrite Heq. by apply list_lookup_middle.
  - intros j f Hj. destruct (Hderef (Staged j) f Hj) as [[Hf _]|Hsy]; [|by apply Hmine].
    by eapply owned_mono, Hnew, Hf.
  - intros n' Hn' Hcur.
    apply list_elem_of_lookup in Hn' as [q Hq].
    destruct (Forall2_lookup_r _ _ _ _ _ HM Hq) as (n & Hn & Hname & Hcode & Hc).
    destruct (Hc Hcur) as [Hcn|HSn].
    + destruct (Hmarks n) as [?|Hb]; [by eapply list_elem_of_lookup_2|done| |].
      * left. congruence.
      * right. rewrite Hname. by apply Hbound.
    + right. rewrite Hname. by apply HS.
  - intros ch Hch.
    assert (forall ch, ch ∈ m_commit v -> tracked (pre ++ [c])%list v' ch) as Hold.
    { intros ch' Hch'. specialize (Hcom ch' Hch'). destruct ch' as [[]| | | | | |]; try done.
      - cbn in *. lia.
      - by apply Hbound. }
    assert (forall ch, minor (fun name => exists r f, deref v' r = Some f /\ synced c f = f /\
                                                      padsOn name (fp_pads f)) ch ->
                       tracked (pre ++ [c])%list v' ch) as Hminor.
    { intros [[]| | | | | |]; try done. cbn. apply HS. }
    destruct HN as [(_ & _ & Hc)|(N & Heq & _ & Hc & _)].
    + destruct (Hc ch Hch) as [?|?]; auto.
    + destruct (Hc ch Hch) as [?|[?| ->]]; auto.
      unfold tracked. rewrite Heq, length_app. cbn. lia.
  - intros j Hj.
    destruct HN as [(Heq & _)|(N & Heq & _ & _ & Hin)].
    + rewrite Heq in Hj. eapply elem_of_prefix; [by apply Hadds | apply (st_commit _ _ Hst)].
    + rewrite Heq, length_app in Hj. cbn in Hj.
      destruct (decide (j = length (m_newFootprints v))) as [->|Hne]; [done|].
      eapply elem_of_prefix; [apply Hadds; lia | apply (st_commit _ _ Hst)].
  - intros n' Hn' Hcode'.
    destruct (net_le_In_r _ _ _ (st_nets _ _ Hst) Hn') as (n & Hn & Hname & Hcode & Hcur).
    apply Hcur, Hsent; [done | congruence].
Qed.

Lemma foldl_processComponent_pass u : forall post pre v (g : nat -> nat),
  m_replaceFootprints u = false ->
  NoDup (componentKey (m_lookupByTimestamp u) <$> (pre ++ post)%list) ->
  pass_inv u pre v ->
  pass_inv u (pre ++ post)%list
    (foldl (processComponent (lastPreexisting (m_board u))) v
           (imap (fun i c => (g i, c)) post)).
Proof.
  induction post as [|c post IH]; intros pre v g Hrep Hnd Hv.
  { by rewrite app_nil_r. }
  cbn [imap foldl].
  assert ((pre ++ c :: post)%list = ((pre ++ [c]) ++ post)%list) as Heq
    by (by rewrite <- app_assoc).
  rewrite Heq in *.
  apply (IH (pre ++ [c])%list _ (g ∘ S)); [done..|].
  apply processComponent_pass; [done| |done].
  intros c0 Hc0 Hkey.
  rewrite !fmap_app in Hnd. apply NoDup_app in Hnd as (Hnd & _ & _).
  apply NoDup_app in Hnd as (_ & Hnd & _).
  apply (Hnd (componentKey (m_lookupByTimestamp u) c0)).
  - apply list_elem_of_fmap. by exists c0.
  - rewrite Hkey. left.
Qed.

Lemma isRemoved_elem changes r : isRemoved changes r = true <-> ChRemove r ∈ changes.
Proof.
  unfold isRemoved. rewrite existsb_exists. split.
  - intros (ch & Hch & H). destruct ch; try done. apply bool_decide_eq_true_1 in H as ->.
    by apply list_elem_of_In.
  - intros H. exists (ChRemove r). split; [by apply list_elem_of_In|].
    by apply bool_decide_eq_true_2.
Qed.

Lemma sweepFootprint_effect nl v K :
  m_isDryRun v = false ->
  let v' := sweepFootprint nl v K in
  fps_same v v' /\ steps v v' /\
  b_zones (m_board v') = b_zones (m_board v) /\
  b_tracks (m_board v') = b_tracks (m_board v) /\
  Forall2 (net_marked (fun name =>
                         exists f, b_footprints (m_board v) !! K = Some f /\
                                   (doDelete nl v f && negb (fp_locked f)) = false /\
                                   padsOn name (fp_pads f)))
          (b_nets (m_board v)) (b_nets (m_board v')) /\
  (forall ch, ch ∈ m_commit v' ->
              ch ∈ m_commit v \/
              exists f, ch = ChRemove (OnBoard K) /\ b_footprints (m_board v) !! K = Some f /\
                        (doDelete nl v f && negb (fp_locked f)) = true) /\
  (forall f, b_footprints (m_board v) !! K = Some f ->
             (doDelete nl v f && negb (fp_locked f)) = true ->
             ChRemove (OnBoard K) ∈ m_commit v').
Proof.
  intros Hd. cbv zeta.
  pose proof (sweepFootprint_steps nl v K) as Hst.
  pose proof (sweepFootprint_fps nl v K) as Hfp.
  split; [done|]. split; [done|].
  destruct (b_footprints (m_board v) !! K) as [f|] eqn:HK.
  2:{ assert (sweepFootprint nl v K = v) as -> by (unfold sweepFootprint; by rewrite HK).
      split; [done|]. split; [done|]. split; [apply Forall2_net_marked_refl|].
      split; [by left|done]. }
  destruct (sweepFootprint_commit nl v K f Hd HK) as [[Hdel ->]|(Hdel & Hb & Hc & Hn & Hac)].
  - split; [done|]. split; [done|]. split; [apply Forall2_net_marked_refl|]. split.
    + cbn. intros ch [H|H]%elem_of_app; [by left|]. apply list_elem_of_singleton in H as ->.
      right. by exists f.
    + intros _ _ _. cbn. apply elem_of_app. right. left.
  - destruct (foldl_markCurrent_marks (fp_pads f) (m_board v)) as (Hm & _ & Hz & Ht).
    rewrite <- Hb in Hm, Hz, Ht.
    split; [done|]. split; [done|]. split.
    + eapply Forall2_net_marked_weaken; [|exact Hm]. intros name Hp. by exists f.
    + split.
      * intros ch. rewrite Hc. by left.
      * intros g [= <-] Hg. congruence.
Qed.

(** The sweep of a committing run: the footprints to be removed are staged
    for removal, the nets of the pads of the others are marked. *)
Lemma foldl_sweepFootprint_commit nl n : forall K v,
  m_isDryRun v = false ->
  let v' := foldl (sweepFootprint nl) v (seq K n) in
  fps_same v v' /\ steps v v' /\
  b_zones (m_board v') = b_zones (m_board v) /\
  b_tracks (m_board v') = b_tracks (m_board v) /\
  Forall2 (net_marked (fun name =>
                         exists k f, b_footprints (m_board v) !! k = Some f /\
                                     (doDelete nl v f && negb (fp_locked f)) = false /\
                                     padsOn name (fp_pads f)))
          (b_nets (m_board v)) (b_nets (m_board v')) /\
  (forall ch, ch ∈ m_commit v' ->
              ch ∈ m_commit v \/
              exists k f, ch = ChRemove (OnBoard k) /\ b_footprints (m_board v) !! k = Some f /\
                          (doDelete nl v f && negb (fp_locked f)) = true) /\
  (forall k f, (K <= k < K + n)%nat -> b_footprints (m_board v) !! k = Some f ->
               (doDelete nl v f && negb (fp_locked f)) = true ->
               ChRemove (OnBoard k) ∈ m_commit v').
Proof.
  induction n as [|n IH]; intros K v Hd; cbn [seq foldl].
  { cbv zeta. split; [apply fps_same_refl|]. split; [apply steps_refl|].
    split; [done|]. split; [done|]. split; [apply Forall2_net_marked_refl|].
    split; [by left|]. intros k f Hk. lia. }
  destruct (sweepFootprint_effect nl v K Hd) as (Hfp & Hst & Hz & Ht & Hm & Hc & Hr).
  set (v1 := sweepFootprint nl v K) in *.
  assert (m_isDryRun v1 = false) as Hd1 by (by rewrite (so_isDryRun _ _ (st_options _ _ Hst))).
  destruct (IH (S K) v1 Hd1) as (Hfp' & Hst' & Hz' & Ht' & Hm' & Hc' & Hr').
  set (v' := foldl _ v1 _) in *.
  assert (forall f, doDelete nl v1 f = doDelete nl v f) as Hdo
    by (intros f; apply doDelete_options, Hst).
  destruct Hfp as [Hfp _].
  cbv zeta. split; [|split; [by eapply steps_trans|split; [congruence|split; [congruence|]]]].
  { eapply fps_same_trans; [|exact Hfp']. by split; [|apply (sweepFootprint_fps nl v K)]. }
  split; [|split].
  - eapply Forall2_net_marked_trans;
      (eapply Forall2_net_marked_weaken; [|eassumption]); cbn.
    + intros name (f & ? & ? & ?). by exists K, f.
    + intros name (k & f & Hk & Hdel & Hp). exists k, f. rewrite <- Hfp, <- Hdo. done.
  - intros ch Hch. destruct (Hc' ch Hch) as [H|(k & f & -> & Hk & Hdel)].
    + destruct (Hc ch H) as [?|(f & -> & ? & ?)]; [by left|right]. by exists K, f.
    + right. exists k, f. rewrite <- Hfp, <- Hdo. done.
  - intros k f Hk Hf Hdel. destruct (decide (k = K)) as [->|Hne].
    + eapply elem_of_prefix; [by eapply Hr | apply (st_commit _ _ Hst')].
    + apply (Hr' k f); [lia|by rewrite Hfp|by rewrite Hdo].
Qed.

Lemma foldl_removeStaleNet_effect nets : forall v,
  let v' := foldl removeStaleNet v nets in
  m_board v' = m_board v /\ m_newFootprints v' = m_newFootprints v /\
  (forall ch, ch ∈ m_commit v' -> ch ∈ m_commit v \/ exists net, ch = ChRemovedNet net).
Proof.
  induction nets as [|n nets IH]; intros v; cbn [foldl]; [by auto|].
  assert (removeStaleNet v n = v \/
          removeStaleNet v n
          = stage (ChRemovedNet n)
              (report (MsgRemoveUnusedNet (net_name n)) RPT_SEVERITY_ACTION v)) as [-> | ->]
    by (unfold removeStaleNet; destruct (negb _); auto).
  { apply IH. }
  destruct (IH (stage (ChRemovedNet n)
                  (report (MsgRemoveUnusedNet (net_name n)) RPT_SEVERITY_ACTION v)))
    as (Hb & Hn & Hc).
  cbv zeta. split; [done|]. split; [done|]. intros ch Hch.
  destruct (Hc ch Hch) as [H|H]; [|by right]. cbn in H.
  apply elem_of_app in H as [H|H]; [by left|]. apply list_elem_of_singleton in H as ->. eauto.
Qed.

Lemma elem_of_Push_footprints w f :
  f ∈ b_footprints (m_board (Push w)) <->
  (exists k, b_footprints (m_board w) !! k = Some f /\
             isRemoved (m_commit w) (OnBoard k) = false) \/
  (exists r, ChAdd r ∈ m_commit w /\ isRemoved (m_commit w) r = false /\ deref w r = Some f).
Proof.
  rewrite Push_footprints, elem_of_app, !list_elem_of_omap. split.
  - intros [([k g] & Hin & Hg)|(ch & Hin & Hch)].
    + left. apply elem_of_lookup_imap in Hin as (k' & g' & [= -> ->] & Hk). cbn in Hg.
      exists k'. destruct (isRemoved _ _); [done|]. by injection Hg as <-.
    + right. destruct ch as [r| | | | | |]; try done. exists r.
      destruct (isRemoved _ _); [done|]. done.
  - intros [(k & Hk & Hrem)|(r & Hin & Hrem & Hr)].
    + left. exists (k, f). split; [|cbn; by rewrite Hrem].
      apply elem_of_lookup_imap. by exists k, f.
    + right. exists (ChAdd r). split; [done|]. by rewrite Hrem.
Qed.

Lemma pushNets_inv changes : forall nets m,
  m ∈ pushNets nets changes ->
  m ∈ nets \/ exists n, ChAddNet n ∈ changes /\ net_name m = net_name n.
Proof.
  induction changes as [|ch changes IH]; intros nets m Hm; cbn in Hm; [by left|].
  destruct (IH _ m Hm) as [H|(n & Hn & Hname)].
  - destruct ch as [| | |n| | |]; try by left.
    unfold AppendNet in H. destruct (existsb _ nets); [by left|].
    apply elem_of_app in H as [H|H]; [by left|].
    apply list_elem_of_singleton in H as ->. right. exists n. split; [left|done].
  - right. exists n. split; [by right|done].
Qed.

Lemma freeNetCode_pos nets : 0 < freeNetCode nets.
Proof.
  unfold freeNetCode. assert (0 <= foldr (fun n m => Z.max (net_code n) m) 0 nets); [|lia].
  induction nets; cbn; lia.
Qed.

Lemma find_code_app (nets extra : list NETINFO_ITEM) :
  Forall (fun n => net_code n ≠ 0) extra ->
  from_option net_name "" (List.find (fun n => bool_decide (net_code n = 0)) (nets ++ extra))
  = from_option net_name "" (List.find (fun n => bool_decide (net_code n = 0)) nets).
Proof.
  intros He. induction nets as [|n nets IH]; cbn.
  - induction He as [|e extra He _ IH]; [done|]. cbn. by rewrite bool_decide_eq_false_2.
  - by case_bool_decide.
Qed.

Lemma NetnameOfCode_pushNets changes : forall nets b,
  NetnameOfCode UNCONNECTED (with_nets (pushNets nets changes) b)
  = NetnameOfCode UNCONNECTED (with_nets nets b).
Proof.
  induction changes as [|ch changes IH]; intros nets b; [done|]. cbn [pushNets foldl].
  change (foldl _ ?x changes) with (pushNets x changes). rewrite IH.
  destruct ch as [| | |n| | |]; try done.
  unfold AppendNet. destruct (existsb _ nets); [done|].
  unfold NetnameOfCode, FindNetByCode, UNCONNECTED. cbn [b_nets with_nets].
  pose proof (find_code_app nets
                [{| net_name := net_name n; net_code := freeNetCode nets;
                    net_isCurrent := net_isCurrent n |}]) as H.
  unfold from_option in H. apply H. constructor; [|done]. cbn.
  pose proof (freeNetCode_pos nets). lia.
Qed.

Lemma NetnameOfCode_RemoveUnusedNets b :
  sentinel_current b ->
  NetnameOfCode UNCONNECTED (RemoveUnusedNets b) = NetnameOfCode UNCONNECTED b.
Proof.
  unfold sentinel_current, NetnameOfCode, FindNetByCode, RemoveUnusedNets, UNCONNECTED.
  cbn [b_nets with_nets]. induction (b_nets b) as [|n nets IH]; intros Hs; [done|].
  assert (forall n0, n0 ∈ nets -> net_code n0 = 0 -> net_isCurrent n0 = true) as Hs'
    by (intros n0 Hn0; apply Hs; by right).
  cbn. destruct (net_isCurrent n) eqn:Hcur; cbn.
  - case_bool_decide; [done|]. by apply IH.
  - rewrite bool_decide_eq_false_2; [by apply IH|].
    intros Hc. rewrite Hs in Hcur; [done|left|done].
Qed.

Lemma NoDup_fmap_elem_inj {A B} (f : A -> B) (l : list A) x y :
  NoDup (f <$> l) -> x ∈ l -> y ∈ l -> f x = f y -> x = y.
Proof.
  induction l as [|a l IH]; intros Hnd Hx Hy Hxy; [by apply elem_of_nil in Hx|].
  rewrite fmap_cons in Hnd. apply NoDup_cons in Hnd as [Ha Hnd].
  apply elem_of_cons in Hx as [->|Hx], Hy as [->|Hy]; auto.
  - destruct Ha. rewrite Hxy. apply list_elem_of_fmap. by exists y.
  - destruct Ha. rewrite <- Hxy. apply list_elem_of_fmap. by exists x.
Qed.

(** The sweep finds the component a footprint is in sync with. *)
Lemma sweepComponent_owner nl u c f :
  NoDup (componentKey (m_lookupByTimestamp u) <$> nl) -> c ∈ nl -> synced c f = f ->
  sweepComponent nl u f = Some c.
Proof.
  intros Hnd Hc Hs. unfold sweepComponent, GetComponentByPath, GetComponentByReference.
  assert (fp_path f = c_path c /\ fp_reference f = c_reference c) as [Hp Hr]
    by (by rewrite <- Hs).
  unfold componentKey in Hnd.
  destruct (m_lookupByTimestamp u).
  - destruct (List.find _ nl) as [c'|] eqn:Hfind.
    + apply find_some in Hfind as [Hin Heq]. apply bool_decide_eq_true_1 in Heq.
      f_equal. apply (NoDup_fmap_elem_inj _ _ _ _ Hnd); [by apply list_elem_of_In|done|congruence].
    + pose proof (find_none _ _ Hfind c (proj1 (list_elem_of_In _ _) Hc)) as Hn. cbn in Hn.
      by rewrite bool_decide_eq_true_2 in Hn.
  - destruct (List.find _ nl) as [c'|] eqn:Hfind.
    + apply find_some in Hfind as [Hin Heq]. apply bool_decide_eq_true_1 in Heq.
      f_equal. apply (NoDup_fmap_elem_inj _ _ _ _ Hnd); [by apply list_elem_of_In|done|congruence].
    + pose proof (find_none _ _ Hfind c (proj1 (list_elem_of_In _ _) Hc)) as Hn. cbn in Hn.
      by rewrite bool_decide_eq_true_2 in Hn.
Qed.

Lemma owned_not_deleted nl u f :
  NoDup (componentKey (m_lookupByTimestamp u) <$> nl) -> owned nl f -> doDelete nl u f = false.
Proof.
  intros Hnd (c & Hc & Hex & Hs). unfold doDelete. cbv zeta.
  rewrite (sweepComponent_owner nl u c f) by done.
  unfold excluded in Hex. rewrite Hex. by repeat case_match.
Qed.

Lemma pass_inv_initial u :
  pads_ready u -> m_newFootprints u = [] -> m_commit u = [] ->
  (forall n, n ∈ b_nets (m_board u) -> net_isCurrent n = true <-> net_code n = 0) ->
  pass_inv u [] u.
Proof.
  intros Hr Hnew Hcom Hnets. split; try done.
  - apply steps_refl.
  - intros r f c _ Hc. by apply elem_of_nil in Hc.
  - intros c Hc. by apply elem_of_nil in Hc.
  - intros j f. by rewrite Hnew.
  - intros n Hn Hcur. left. by apply Hnets.
  - intros ch. by rewrite Hcom, elem_of_nil.
  - intros j. rewrite Hnew. cbn. lia.
  - intros n Hn Hcode. by apply Hnets.
Qed.

(** The repair of zones and vias leaves the registry alone and stages
    nothing but the vias and the zones it binds. *)
Lemma updateCopperZoneNets_changes nl u :
  let u' := updateCopperZoneNets nl u in
  b_nets (m_board u') = b_nets (m_board u) /\
  (forall ch, ch ∈ m_commit u' ->
              ch ∈ m_commit u \/ exists k, ch = ChModifyTrack k \/ ch = ChModifyZone k).
Proof.
  set (P := fun v w : UPDATER =>
              b_nets (m_board w) = b_nets (m_board v) /\
              (forall ch, ch ∈ m_commit w ->
                          ch ∈ m_commit v \/ exists k, ch = ChModifyTrack k \/ ch = ChModifyZone k)).
  assert (Hrefl : forall v, P v v) by (intros v; split; auto).
  assert (Htrans : forall v1 v2 v3, P v1 v2 -> P v2 v3 -> P v1 v3).
  { intros v1 v2 v3 [N1 C1] [N2 C2]. split; [congruence|].
    intros ch Hch. destruct (C2 ch Hch) as [H|H]; auto. }
  assert (Hfold : forall {A} (g : UPDATER -> A -> UPDATER) l,
             (forall v x, P v (g v x)) -> forall v, P v (foldl g v l)).
  { intros A g l Hg. induction l as [|x l IH]; intros v; cbn [foldl]; [apply Hrefl|].
    eapply Htrans; [apply Hg | apply IH]. }
  assert (Hquiet : forall v w, m_board w = m_board v -> m_commit w = m_commit v -> P v w).
  { intros v w Hb Hc. split; [by rewrite Hb|]. intros ch. rewrite Hc. auto. }
  assert (Hresolve : forall name v, P v (resolveNet name v).2).
  { intros name v. apply Hquiet; [apply resolveNet_fields | apply resolveNet_commit]. }
  assert (Hvia : forall names v k, P v (updateVia names k v)).
  { intros names v k. unfold updateVia.
    destruct (b_tracks (m_board v) !! k) as [via|]; [|apply Hrefl].
    destruct (negb _); [apply Hrefl|]. case_bool_decide; [apply Hrefl|]. cbv zeta.
    destruct (negb (IsEmpty _)); [|by apply Hquiet].
    destruct (negb (m_isDryRun _)); [|by apply Hquiet].
    set (v1 := report _ _ v).
    eapply (Htrans _ v1); [by apply Hquiet|].
    pose proof (Hresolve (default "" (m_oldToNewNets v !! track_net via)) v1) as [Hn Hc].
    destruct (resolveNet _ v1) as [[n|] v2]; cbn [fst snd] in *; [|by split].
    split; [done|]. cbn. intros ch [Hch|Hch]%elem_of_app; [auto|].
    apply list_elem_of_singleton in Hch as ->. right. exists k. by left. }
  assert (Hzone : forall names v k, P v (updateZone names k v)).
  { intros names v k. unfold updateZone.
    destruct (b_zones (m_board v) !! k) as [zone|]; [|apply Hrefl].
    destruct (negb (zone_onCopper zone) || zone_isRuleArea zone); [apply Hrefl|].
    case_bool_decide; [apply Hrefl|].
    remember (match m_zoneConnectionsCache v !! k with
              | Some pads => (pads, v)
              | None => ([], with_zoneConnectionsCache (<[k := []]> (m_zoneConnectionsCache v)) v)
              end) as cu eqn:Hcu.
    assert (P v cu.2) as H0 by (subst cu; case_match; by apply Hquiet).
    clear Hcu. destruct cu as [cached v0]. cbn [snd] in H0. cbv zeta.
    eapply (Htrans _ v0); [exact H0|].
    set (name := if IsEmpty _ then _ else _). clearbody name.
    destruct (negb (IsEmpty name)); [|by apply Hquiet].
    destruct (negb (m_isDryRun _)); [|by apply Hquiet].
    set (v1 := report _ _ v0).
    eapply (Htrans _ v1); [by apply Hquiet|].
    pose proof (Hresolve name v1) as [Hn Hc].
    destruct (resolveNet _ v1) as [[n|] v2]; cbn [fst snd] in *; [|by split].
    split; [done|]. cbn. intros ch [Hch|Hch]%elem_of_app; [auto|].
    apply list_elem_of_singleton in Hch as ->. right. exists k. by right. }
  cbv zeta. change (P u (updateCopperZoneNets nl u)).
  unfold updateCopperZoneNets. cbv zeta.
  eapply Htrans.
  - apply (Hfold _ (fun u k => updateVia (netlistNetnames nl) k u)). intros. apply Hvia.
  - apply (Hfold _ (fun u k => updateZone (netlistNetnames nl) k u)). intros. apply Hzone.
Qed.

(** A committing pass that neither prunes nor replaces leaves the
    footprints and the nets of the board in sync with the netlist, when the
    components are matched on distinct keys; vias and zones that are on nets
    of the netlist stay as they are. *)
Lemma UpdateNetlist_settles nl u u2 :
  m_isDryRun u = false -> m_deleteSinglePadNets u = false -> m_replaceFootprints u = false ->
  m_newFootprints u = [] -> m_commit u = [] ->
  (forall name n, m_addedNets u !! name = Some (Some n) -> net_name n = name) ->
  NoDup (componentKey (m_lookupByTimestamp u) <$> nl) ->
  NetnameOfCode UNCONNECTED (m_board u) = "" ->
  same_options u u2 ->
  footprints_in_sync nl u2 (m_board (UpdateNetlist nl u)) /\
  (items_on_netlist nl (m_board u) -> items_on_netlist nl (m_board (UpdateNetlist nl u))).
Proof.
  intros Hd Hdsp Hrep Hnew Hcom Hadd Hnd Hunc Hopt. unfold UpdateNetlist. cbv zeta.
  set (u0 := with_footprintMap ∅ (with_counts 0 0 0 u)).
  set (last := lastPreexisting (m_board u0)).
  destruct (cacheCopperZoneConnections_only u0) as [x ->].
  set (u1 := with_zoneConnectionsCache x u0).
  change (m_isDryRun u1) with (m_isDryRun u). rewrite Hd. cbn [negb].
  set (u1' := with_board _ u1).
  assert (pads_ready u1') as Hr1.
  { split; [done|]. split; [|done]. rewrite <- Hunc. apply NetnameOfCode_same. cbn.
    apply Forall2_remark. }
  assert (pass_inv u1' [] u1') as H1.
  { apply pass_inv_initial; try done. intros n Hn. cbn in Hn.
    apply list_elem_of_fmap in Hn as (n0 & -> & _). cbn.
    split; [apply bool_decide_eq_true_1 | apply bool_decide_eq_true_2]. }
  assert (last = lastPreexisting (m_board u1')) as -> by done.
  pose proof (foldl_processComponent_pass u1' nl [] u1' id Hrep Hnd H1) as H2. cbn [app] in H2.
  change (imap (fun i c => (id i, c)) nl) with (imap (fun (i : nat) (c : COMPONENT) => (i, c)) nl) in H2.
  set (v2 := foldl _ u1' _) in *.
  destruct H2 as [Hr2 Hs2 Hz2 Ht2 Hmat Hserv Hnew2 Hmarks Hcom2 Hadds Hsent].
  (* the repair of zones and vias *)
  pose proof (updateCopperZoneNets_steps nl v2) as Hsz.
  destruct (updateCopperZoneNets_fps nl v2) as [Hfz Hnz].
  destruct (updateCopperZoneNets_changes nl v2) as (Hnetz & Hcomz).
  assert (items_on_netlist nl (m_board u) -> updateCopperZoneNets nl v2 = v2) as Hitz.
  { intros [Hv Hz]. apply updateCopperZoneNets_on_netlist.
    split; [rewrite Ht2; exact Hv | rewrite Hz2; exact Hz]. }
  set (v2z := updateCopperZoneNets nl v2) in *.
  assert (pads_ready v2z) as Hr2z by (eapply pads_ready_steps; [exact Hsz|done]).
  assert (forall f, doDelete nl v2z f = doDelete nl v2 f) as Hdoz
    by (intros f; apply doDelete_options, Hsz).
  set (n2 := length (b_footprints (m_board v2z))).
  destruct (foldl_sweepFootprint_commit nl n2 0%nat v2z (proj1 Hr2z))
    as ([Hfp3z Hnew3z] & Hs3z & Hz3 & Ht3 & Hm3z & Hc3z & Hrem3z).
  set (v3 := foldl (sweepFootprint nl) v2z (seq 0 n2)) in *.
  assert (Hfp3 : b_footprints (m_board v3) = b_footprints (m_board v2)) by congruence.
  assert (Hnew3 : m_newFootprints v3 = m_newFootprints v2) by congruence.
  assert (Hs3 : steps v2 v3) by (by eapply steps_trans).
  assert (Hm3 : Forall2 (net_marked (fun name =>
                           exists k f, b_footprints (m_board v2) !! k = Some f /\
                                       (doDelete nl v2 f && negb (fp_locked f)) = false /\
                                       padsOn name (fp_pads f)))
                        (b_nets (m_board v2)) (b_nets (m_board v3))).
  { rewrite <- Hnetz. eapply Forall2_net_marked_weaken; [|exact Hm3z].
    intros name (k & f & Hk & Hdel & Hp). exists k, f. by rewrite <- Hfz, <- Hdoz. }
  assert (Hc3 : forall ch, ch ∈ m_commit v3 ->
            ch ∈ m_commit v2 \/
            (exists k f, ch = ChRemove (OnBoard k) /\ b_footprints (m_board v2) !! k = Some f /\
                         (doDelete nl v2 f && negb (fp_locked f)) = true) \/
            exists k, ch = ChModifyTrack k \/ ch = ChModifyZone k).
  { intros ch Hch. destruct (Hc3z ch Hch) as [H|(k & f & -> & Hk & Hdel)].
    - destruct (Hcomz ch H) as [?|?]; auto.
    - right. left. exists k, f. by rewrite <- Hfz, <- Hdoz. }
  assert (Hrem3 : forall k f, (0 <= k < 0 + n2)%nat -> b_footprints (m_board v2) !! k = Some f ->
            (doDelete nl v2 f && negb (fp_locked f)) = true ->
            ChRemove (OnBoard k) ∈ m_commit v3).
  { intros k f Hk Hf Hdel. apply (Hrem3z k f Hk); [by rewrite Hfz | by rewrite Hdoz]. }
  assert (n2 = length (b_footprints (m_board v2))) as Hn2 by (unfold n2; by rewrite Hfz).
  clearbody n2.
  assert (m_isDryRun v3 = false) as Hd3
    by (rewrite (so_isDryRun _ _ (st_options _ _ Hs3)); apply Hr2).
  rewrite Hd3. cbn [negb].
  destruct (testConnectivity_only nl v3) as (Hb4 & Hc4 & Hn4 & _).
  pose proof (testConnectivity_steps nl v3) as Hs4.
  set (v4 := testConnectivity nl v3) in *.
  assert (same_options u v4) as Ho4.
  { eapply same_options_trans; [|apply (st_options _ _ Hs4)].
    eapply same_options_trans; [|apply (st_options _ _ Hs3)].
    eapply same_options_trans; [|apply (st_options _ _ Hs2)]. done. }
  rewrite (so_deleteSinglePadNets _ _ Ho4), Hdsp.
  destruct (foldl_removeStaleNet_effect (b_nets (m_board v4)) v4) as (Hb5 & Hn5 & Hc5).
  assert (m_isDryRun v4 = false) as Hd4 by (by rewrite (so_isDryRun _ _ Ho4)).
  pose proof (foldl_removeStaleNet_steps (b_nets (m_board v4)) v4 Hd4) as Hs5.
  set (v5 := foldl removeStaleNet v4 _) in *.
  set (w := with_board (RemoveUnusedNets (m_board v5)) v5).
  assert (m_isDryRun (Push w) = false) as ->
    by (change (m_isDryRun v5 = false); by rewrite (so_isDryRun _ _ (st_options _ _ Hs5))).
  change (footprints_in_sync nl u2 (m_board (Push w)) /\
          (items_on_netlist nl (m_board u) -> items_on_netlist nl (m_board (Push w)))).
  (* the footprints and the transaction at the end of the pass *)
  assert (Hderef : forall r, deref w r = deref v2 r).
  { intros [k|j]; cbn; congruence. }
  assert (Hfps : b_footprints (m_board w) = b_footprints (m_board v2)).
  { cbn. congruence. }
  assert (Hcommit : forall ch, ch ∈ m_commit w ->
            ch ∈ m_commit v2 \/ (exists net, ch = ChRemovedNet net) \/
            (exists k f, ch = ChRemove (OnBoard k) /\ b_footprints (m_board v2) !! k = Some f /\
                         (doDelete nl v2 f && negb (fp_locked f)) = true) \/
            exists k, ch = ChModifyTrack k \/ ch = ChModifyZone k).
  { intros ch Hch. destruct (Hc5 ch Hch) as [H|H]; [|auto]. rewrite Hc4 in H.
    destruct (Hc3 ch H) as [?|[?|?]]; auto. }
  assert (Hprefix : m_commit v3 `prefix_of` m_commit w).
  { rewrite <- Hc4. apply (st_commit _ _ Hs5). }
  assert (Hdo : forall f, doDelete nl u2 f = doDelete nl v2 f).
  { intros f. rewrite (doDelete_options nl u u2) by done.
    symmetry. apply doDelete_options.
    eapply same_options_trans; [|apply (st_options _ _ Hs2)]. done. }
  assert (Hlbt : m_lookupByTimestamp v2 = m_lookupByTimestamp u)
    by apply (so_lookupByTimestamp _ _ (st_options _ _ Hs2)).
  assert (Hkeep : forall f, owned nl f -> doDelete nl v2 f = false).
  { intros f Hf. apply owned_not_deleted; [|done]. by rewrite Hlbt. }
  assert (HremOn : forall r, ChRemove r ∈ m_commit w ->
            exists k f, r = OnBoard k /\ b_footprints (m_board v2) !! k = Some f /\
                        (doDelete nl v2 f && negb (fp_locked f)) = true).
  { intros r Hr.
    destruct (Hcommit _ Hr) as [H|[(net & ?)|[(k & f & [= ->] & ?)|(k & [?|?])]]];
      [|done|eauto|done..].
    by apply Hcom2 in H. }
  assert (HinKept : forall k f, b_footprints (m_board v2) !! k = Some f ->
            (doDelete nl v2 f && negb (fp_locked f)) = false ->
            f ∈ b_footprints (m_board (Push w))).
  { intros k f Hk Hkp. apply elem_of_Push_footprints. left. exists k. rewrite Hfps.
    split; [done|]. destruct (isRemoved (m_commit w) (OnBoard k)) eqn:Hrem; [|done].
    apply isRemoved_elem, HremOn in Hrem as (k' & f' & [= <-] & Hk' & Hdel). congruence. }
  assert (HinNew : forall j f, m_newFootprints v2 !! j = Some f ->
            f ∈ b_footprints (m_board (Push w))).
  { intros j f Hj. apply elem_of_Push_footprints. right. exists (Staged j).
    split; [|split].
    - eapply elem_of_prefix; [|exact Hprefix].
      eapply elem_of_prefix; [|apply (st_commit _ _ Hs3)].
      apply Hadds. by eapply lookup_lt_Some.
    - destruct (isRemoved (m_commit w) (Staged j)) eqn:Hrem; [|done].
      by apply isRemoved_elem, HremOn in Hrem as (k' & f' & [=] & _).
    - by rewrite Hderef. }
  assert (HinOwned : forall r f, deref v2 r = Some f -> owned nl f ->
            f ∈ b_footprints (m_board (Push w))).
  { intros [k|j] f Hf Hown; [|by eapply HinNew].
    apply (HinKept k f Hf). by rewrite (Hkeep f Hown). }
  assert (Hfrom : forall f, f ∈ b_footprints (m_board (Push w)) ->
            exists r, deref v2 r = Some f /\
                      (doDelete nl v2 f && negb (fp_locked f)) = false).
  { intros f [(k & Hk & Hrem)|(r & Hr & Hrem & Hf)]%elem_of_Push_footprints.
    - rewrite Hfps in Hk. exists (OnBoard k). split; [done|].
      destruct (doDelete nl v2 f && negb (fp_locked f)) eqn:Hdel; [|done].
      assert (ChRemove (OnBoard k) ∈ m_commit w) as Hin.
      { eapply elem_of_prefix; [|exact Hprefix]. apply (Hrem3 k f); [|done..].
        apply lookup_lt_Some in Hk. rewrite Hn2. lia. }
      apply isRemoved_elem in Hin. congruence.
    - rewrite Hderef in Hf. exists r. split; [done|].
      destruct (Hcommit _ Hr) as [H|[(net & ?)|[(k & f' & ? & _)|(k & [?|?])]]]; [|done..].
      apply Hcom2 in H. destruct r as [k|j]; [done|].
      rewrite Hkeep; [done|]. by eapply Hnew2. }
  assert (Hbound : forall name, bound nl v2 name -> bound_to_pad (m_board (Push w)) name).
  { intros name (r & f & Hf & Hown & p & Hp & Hname). exists f, p.
    split; [by eapply HinOwned|done]. }
  assert (Hm2 : forall f c, matches u2 f c = matches u1' f c).
  { intros f c. apply matches_options. by rewrite (so_lookupByTimestamp _ _ Hopt). }
  split; [split|].
  - intros c f Hc Hex Hf Hmf. destruct (Hfrom f Hf) as (r & Hr & _).
    apply (Hmat r f c); try done. by rewrite <- Hm2.
  - intros c Hc Hex Hno. rewrite (so_frame _ _ Hopt).
    destruct (Hserv c Hc Hex) as [?|(r & f & Hf & Hsy)]; [done|].
    exfalso. assert (f ∈ b_footprints (m_board (Push w))) as Hin
      by (apply (HinOwned r f Hf); by exists c).
    specialize (Hno f Hin). rewrite Hm2, (synced_matches u1' c f Hsy) in Hno. done.
  - intros f Hf. destruct (Hfrom f Hf) as (r & _ & Hkp). by rewrite Hdo.
  - intros n Hn. rewrite Push_nets in Hn.
    apply pushNets_inv in Hn as [Hn|(n0 & Hn0 & Hname)].
    + cbn in Hn. rewrite Hb5, Hb4 in Hn.
      apply list_elem_of_In, filter_In in Hn as [Hn Hcur]. apply list_elem_of_In in Hn.
      apply list_elem_of_lookup in Hn as [q Hq].
      destruct (Forall2_lookup_r _ _ _ _ _ Hm3 Hq) as (n' & Hn' & Hname & Hcode & Hc).
      destruct (Hc Hcur) as [Hcur'|(k & f & Hk & Hkp & p & Hp & Hpn)].
      * destruct (Hmarks n') as [?|Hb]; [by eapply list_elem_of_lookup_2|done| |].
        -- left. congruence.
        -- right. rewrite Hname. by apply Hbound.
      * right. rewrite Hname. exists f, p. split; [by eapply HinKept|done].
    + right. rewrite Hname.
      destruct (Hcommit _ Hn0) as [H|[(net & ?)|[(k & f' & ? & _)|(k & [?|?])]]]; [|done..].
      apply Hcom2 in H. by apply Hbound.
  - unfold Push. cbn [m_board with_commit with_board].
    rewrite NetnameOfCode_pushNets.
    change (NetnameOfCode UNCONNECTED (RemoveUnusedNets (m_board v5)) = "").
    rewrite NetnameOfCode_RemoveUnusedNets.
    + rewrite Hb5, Hb4. eapply pads_ready_steps; [exact Hs3|done].
    + rewrite Hb5, Hb4. intros n Hn Hcode.
      destruct (net_le_In_r _ _ _ (st_nets _ _ Hs3) Hn) as (n' & Hn' & Hname & Hc & Hcur).
      apply Hcur, Hsent; [done|congruence].
  - intros Hitems. pose proof (Hitz Hitems) as Heq.
    destruct Hitems as [Hv Hz]. split.
    + intros t Ht. apply Hv. revert Ht.
      change (b_tracks (m_board (Push w))) with (b_tracks (m_board v5)).
      by rewrite Hb5, Hb4, Ht3, Heq, Ht2.
    + intros z Hz'. apply Hz. revert Hz'.
      change (b_zones (m_board (Push w))) with (b_zones (m_board v5)).
      by rewrite Hb5, Hb4, Hz3, Heq, Hz2.
Qed.

(** With the zones and the vias on nets of the netlist, the board is in
    sync with the netlist. *)
Lemma UpdateNetlist_syncs nl u u2 :
  m_isDryRun u = false -> m_deleteSinglePadNets u = false -> m_replaceFootprints u = false ->
  m_newFootprints u = [] -> m_commit u = [] ->
  (forall name n, m_addedNets u !! name = Some (Some n) -> net_name n = name) ->
  NoDup (componentKey (m_lookupByTimestamp u) <$> nl) ->
  NetnameOfCode UNCONNECTED (m_board u) = "" ->
  items_on_netlist nl (m_board u) ->
  same_options u u2 ->
  board_in_sync nl u2 (m_board (UpdateNetlist nl u)).
Proof.
  intros Hd Hdsp Hrep Hnew Hcom Hadd Hnd Hunc Hitems Hopt.
  destruct (UpdateNetlist_settles nl u u2) as [[H1 H2 H3 H5 H6] H4]; try done.
  split; auto.
Qed.

(** *** Two passes *)

Lemma committingUpdater_fields fr deleteUnused byTimestamp warn b :
  let u := committingUpdater fr deleteUnused byTimestamp warn b in
  m_isDryRun u = false /\ m_deleteSinglePadNets u = false /\ m_replaceFootprints u = false /\
  m_newFootprints u = [] /\ m_commit u = [] /\ m_addedNets u = ∅ /\ m_board u = b /\
  m_lookupByTimestamp u = byTimestamp /\ actions u = [].
Proof. cbv zeta. repeat split. Qed.


(** C2, as the code has it.  After a committing pass started by a fresh
    updater on a board whose pads are bound to nets of the registry, every
    net bound to a pad of a footprint of the board is in the registry, and
    the net of code 0 is in the registry and current.  When the pass neither
    prunes the single-pad nets nor replaces footprints, the transaction is
    empty at the start, the components of the netlist are matched on pairwise
    distinct keys and the net of code 0 has no name, the converse holds too:
    a net is in the registry if and only if it is bound to a pad or is the
    net of code 0. *)
Theorem net_liveness_of_committing_pass nl u :
  m_isDryRun u = false ->
  m_newFootprints u = [] -> m_addedNets u = ∅ ->
  has_sentinel (m_board u) ->
  Forall (fun f => Forall (fun p => registered (m_board u) (pad_net p)) (fp_pads f))
         (b_footprints (m_board u)) ->
  exchange_keeps_nets (m_frame u) ->
  let b' := m_board (UpdateNetlist nl u) in
  (forall name, bound_to_pad b' name -> registered b' name) /\
  (exists n, n ∈ b_nets b' /\ net_code n = 0 /\ net_isCurrent n = true) /\
  (m_deleteSinglePadNets u = false -> m_replaceFootprints u = false -> m_commit u = [] ->
   NoDup (componentKey (m_lookupByTimestamp u) <$> nl) ->
   NetnameOfCode UNCONNECTED (m_board u) = "" ->
   spec_net_liveness b').
Proof.
  intros Hd Hnew Hadd Hsent Hpads Hfr b'.
  destruct (UpdateNetlist_registers nl u Hd Hnew Hadd Hsent Hpads Hfr) as [Hreg H0].
  fold b' in Hreg, H0.
  split; [exact Hreg|]. split; [exact H0|].
  intros Hdsp Hrep Hcom Hnd Hunc.
  destruct (UpdateNetlist_settles nl u u) as [Hsync _]; try done.
  { intros name n. by rewrite Hadd. }
  fold b' in Hsync.
  split; [|exact Hreg].
  intros n Hn. destruct (fs_nets _ _ _ Hsync n Hn); auto.
Qed.

Lemma net_liveness_of_committing_pass_witness :
  let b' := m_board (UpdateNetlist ex_netlist_changes
                       (committingUpdater ex_frame false false false ex_board_R1)) in
  (forall name, bound_to_pad b' name -> registered b' name) /\
  (exists n, n ∈ b_nets b' /\ net_code n = 0 /\ net_isCurrent n = true) /\
  spec_net_liveness b'.
Proof.
  destruct (net_liveness_of_committing_pass ex_netlist_changes
              (committingUpdater ex_frame false false false ex_board_R1))
    as (H1 & H2 & H3).
  - reflexivity.
  - reflexivity.
  - reflexivity.
  - exists (ex_net "" 0). split; [left | split; reflexivity].
  - repeat constructor.
    + exists (ex_net "A" 1). split; [right; left | reflexivity].
    + exists (ex_net "B" 2). split; [right; right; left | reflexivity].
  - exact ex_frame_keeps_nets.
  - split; [exact H1|]. split; [exact H2|]. apply H3.
    + reflexivity.
    + reflexivity.
    + reflexivity.
    + refine (bool_decide_unpack (NoDup _) _). vm_compute. exact I.
    + reflexivity.
Defined.

(** A net in the registry that no pad is bound to. *)
Lemma registered_unbound b (n : NETINFO_ITEM) :
  n ∈ b_nets b -> net_code n ≠ 0 ->
  Forall (fun f => Forall (fun p => pad_net p ≠ net_name n) (fp_pads f)) (b_footprints b) ->
  ~ spec_net_liveness b.
Proof.
  intros Hn Hc Hpads [H _]. destruct (H n Hn) as [(f & p & Hf & Hp & Hname)|?]; [|done].
  rewrite Forall_forall in Hpads. specialize (Hpads f Hf).
  rewrite Forall_forall in Hpads. by apply (Hpads p Hp).
Qed.

(** Four passes after which a net is in the registry with no pad bound to
    it.  With the pruning of single-pad nets, the pads of R1 are alone on
    their nets: the pass marks A and B current, then unbinds the two pads,
    and keeps both nets.  With the replacement of footprints, the sweep marks
    the nets of the three pads of the old footprint, which is still on the
    board, and the new footprint has two pads: the net C stays.  With two
    components under one reference, the first one marks the net B, the
    second one moves the pad to the net A: the net B stays.  With a
    transaction that holds the addition of the net Z before the pass starts,
    the net joins the registry when the transaction is applied. *)
Lemma net_liveness_counterexample :
  ~ spec_net_liveness (m_board (UpdateNetlist [ex_R1_component]
                                  (pruningUpdater ex_frame ex_board_R1))) /\
  ~ spec_net_liveness (m_board (UpdateNetlist [ex_R1_component]
                                  (replacingUpdater ex_frame ex_board_old))) /\
  ~ spec_net_liveness (m_board (UpdateNetlist ex_netlist_both
                                  (committingUpdater ex_frame false false false ex_board_R1))) /\
  ~ spec_net_liveness (m_board (UpdateNetlist [ex_R1_component] ex_updater_pending)).
Proof.
  split; [|split; [|split]].
  4:{ apply (registered_unbound _ (ex_net "Z" 3)).
      - refine (bool_decide_unpack (_ ∈ _) _). vm_compute. exact I.
      - done.
      - refine (bool_decide_unpack (Forall _ _) _). vm_compute. exact I. }
  - apply (registered_unbound _ (ex_net "A" 1)).
    + refine (bool_decide_unpack (_ ∈ _) _). vm_compute. exact I.
    + done.
    + refine (bool_decide_unpack (Forall _ _) _). vm_compute. exact I.
  - apply (registered_unbound _ (ex_net "C" 3)).
    + refine (bool_decide_unpack (_ ∈ _) _). vm_compute. exact I.
    + done.
    + refine (bool_decide_unpack (Forall _ _) _). vm_compute. exact I.
  - apply (registered_unbound _ (ex_net "B" 2)).
    + refine (bool_decide_unpack (_ ∈ _) _). vm_compute. exact I.
    + done.
    + refine (bool_decide_unpack (Forall _ _) _). vm_compute. exact I.
Qed.


(** Zones that are on nets of the netlist before the first pass, on a board
    whose vias are too, have nothing to adopt after it. *)
Lemma zones_on_netlist_at_rest fr deleteUnused byTimestamp warn nl b :
  NoDup (componentKey byTimestamp <$> nl) ->
  NetnameOfCode UNCONNECTED b = "" ->
  items_on_netlist nl b ->
  zones_at_rest nl (m_board (UpdateNetlist nl
                               (committingUpdater fr deleteUnused byTimestamp warn b))).
Proof.
  intros Hnd Hunc Hitems.
  destruct (committingUpdater_fields fr deleteUnused byTimestamp warn b)
    as (Hd & Hdsp & Hrep & Hnew & Hcom & Hadd & Hb & Hlbt & _).
  set (u := committingUpdater fr deleteUnused byTimestamp warn b) in *.
  assert (items_on_netlist nl (m_board u) ->
          items_on_netlist nl (m_board (UpdateNetlist nl u))) as Hon.
  { apply (UpdateNetlist_settles nl u u); try done;
      first [ by (intros name n; rewrite Hadd) | by rewrite Hlbt | by rewrite Hb
            | apply same_options_refl ]. }
  rewrite Hb in Hon. destruct (Hon Hitems) as [_ Hz].
  apply Forall_forall. intros zone Hin Hel Hn. destruct Hn. by apply Hz.
Qed.


(** * Further properties *)

(** ** The pruning of single-pad nets *)

Lemma ltb_lt a b : String.ltb a b = true <-> OrderedTypeEx.String_as_OT.lt a b.
Proof.
  unfold String.ltb. rewrite <- OrderedTypeEx.String_as_OT.cmp_lt.
  unfold OrderedTypeEx.String_as_OT.cmp. destruct (String.compare a b); split; congruence.
Qed.

Lemma ltb_antisym a b : String.ltb a b = false -> String.ltb b a = false -> a = b.
Proof.
  unfold String.ltb. pose proof (String.compare_antisym a b) as Hanti.
  destruct (String.compare b a) eqn:Hc; cbn in Hanti; rewrite Hanti; try done.
  intros _ _. symmetry. by apply String.compare_eq_iff.
Qed.

Lemma ltb_irrefl a : String.ltb a a = false.
Proof.
  destruct (String.ltb a a) eqn:H; [|done].
  apply ltb_lt in H. by apply OrderedTypeEx.String_as_OT.lt_not_eq in H.
Qed.

Lemma ltb_le_trans a b c :
  String.ltb b a = false -> String.ltb c b = false -> String.ltb c a = false.
Proof.
  intros Hab Hbc. destruct (String.ltb c a) eqn:Hca; [|done].
  destruct (String.ltb a b) eqn:Hlt.
  - apply ltb_lt in Hca, Hlt.
    pose proof (OrderedTypeEx.String_as_OT.lt_trans _ _ _ Hca Hlt) as H.
    apply ltb_lt in H. congruence.
  - pose proof (ltb_antisym a b Hlt Hab) as ->. congruence.
Qed.

Lemma insertPad_perm u p l : insertPad u p l ≡ₚ p :: l.
Proof.
  induction l as [|q l IH]; cbn; [done|].
  destruct (String.ltb _ _); [|done]. rewrite IH. apply Permutation_swap.
Qed.

Lemma sortPads_perm u l : sortPads u l ≡ₚ l.
Proof.
  unfold sortPads. induction l as [|p l IH]; cbn; [done|].
  by rewrite insertPad_perm, IH.
Qed.

Lemma sorted_by_netname_cons u a l :
  sorted_by_netname u (a :: l) <->
  Forall (fun b => String.ltb (getNetname u b) (getNetname u a) = false) l /\
  sorted_by_netname u l.
Proof.
  split.
  - intros H. split.
    + apply Forall_forall. intros b Hb. apply list_elem_of_lookup in Hb as [j Hj].
      apply (H 0%nat (S j) a b); [lia|done..].
    + intros i j x y Hij Hx Hy. apply (H (S i) (S j) x y); [lia|done..].
  - intros [Hall Hs] i j x y Hij Hx Hy. destruct j as [|j]; [lia|]. cbn in Hy.
    destruct i as [|i]; cbn in Hx.
    + injection Hx as <-. rewrite Forall_forall in Hall. apply Hall.
      by eapply list_elem_of_lookup_2.
    + apply (Hs i j x y); [lia|done..].
Qed.

Lemma insertPad_sorted u p l :
  sorted_by_netname u l -> sorted_by_netname u (insertPad u p l).
Proof.
  induction l as [|q l IH]; intros Hs; cbn.
  - apply sorted_by_netname_cons. split; [done|]. intros i j a b _ Ha. done.
  - apply sorted_by_netname_cons in Hs as [Hall Hs].
    destruct (String.ltb (getNetname u q) (getNetname u p)) eqn:Hlt.
    + apply sorted_by_netname_cons. split; [|by apply IH].
      rewrite insertPad_perm. constructor; [|done].
      destruct (String.ltb (getNetname u p) (getNetname u q)) eqn:Hpq; [|done].
      apply ltb_lt in Hlt, Hpq.
      pose proof (OrderedTypeEx.String_as_OT.lt_trans _ _ _ Hlt Hpq) as H.
      apply ltb_lt in H. by rewrite ltb_irrefl in H.
    + apply sorted_by_netname_cons. split.
      * constructor; [done|]. eapply Forall_impl; [exact Hall|]. cbn.
        intros b Hb. by eapply ltb_le_trans.
      * apply sorted_by_netname_cons. done.
Qed.

Lemma sortPads_sorted u l : sorted_by_netname u (sortPads u l).
Proof.
  unfold sortPads. induction l as [|p l IH]; cbn.
  - intros i j a b _ Ha. done.
  - by apply insertPad_sorted.
Qed.

Lemma NoDup_GetPads b : NoDup (GetPads b).
Proof.
  unfold GetPads. apply NoDup_alt. intros i j [r k] Hi Hj.
  assert (Hpos : forall (l : list FOOTPRINT) (n : nat) (x : PAD_REF) (m : nat),
             List.concat (imap (fun i f => imap (fun j (_ : PAD) => (OnBoard (m + i), j)) (fp_pads f)) l) !! n = Some x ->
             exists i j f, x = (OnBoard (m + i), j) /\ l !! i = Some f /\ (j < length (fp_pads f))%nat /\
                           n = (length (List.concat (imap (fun i f => imap (fun j (_ : PAD) => (OnBoard (m + i), j)) (fp_pads f)) (take i l))) + j)%nat).
  { induction l as [|f l IH]; intros n x m Hn; [done|].
    cbn [imap List.concat] in Hn.
    apply lookup_app_Some in Hn as [Hn|[Hlen Hn]].
    - apply list_lookup_imap_Some in Hn as (p & Hp & ->).
      exists 0%nat, n, f. rewrite Nat.add_0_r. split; [done|]. split; [done|].
      split; [by eapply lookup_lt_Some|]. done.
    - rewrite length_imap in Hlen, Hn.
      assert (imap ((fun i f => imap (fun j (_ : PAD) => (OnBoard (m + i), j)) (fp_pads f)) ∘ S) l
              = imap (fun i f => imap (fun j (_ : PAD) => (OnBoard (S m + i), j)) (fp_pads f)) l) as Heq.
      { apply imap_ext. intros i' f' _. cbn. apply imap_ext. intros j' _ _. cbn. do 2 f_equal. lia. }
      rewrite Heq in Hn.
      destruct (IH _ _ _ Hn) as (i' & j' & f' & -> & Hf' & Hj' & Hpos).
      exists (S i'), j', f'. split; [do 2 f_equal; lia|]. split; [done|]. split; [done|].
      cbn [take imap List.concat]. rewrite length_app, length_imap.
      assert (imap ((fun i f => imap (fun j (_ : PAD) => (OnBoard (m + i), j)) (fp_pads f)) ∘ S) (take i' l)
              = imap (fun i f => imap (fun j (_ : PAD) => (OnBoard (S m + i), j)) (fp_pads f)) (take i' l)) as Heq'.
      { apply imap_ext. intros i'' f'' _. cbn. apply imap_ext. intros j'' _ _. cbn. do 2 f_equal. lia. }
      rewrite Heq'. lia. }
  destruct (Hpos _ _ _ 0%nat Hi) as (i1 & j1 & f1 & [= -> ->] & Hf1 & _ & ->).
  destruct (Hpos _ _ _ 0%nat Hj) as (i2 & j2 & f2 & [= Hi12 ->] & Hf2 & _ & ->).
  cbn in Hi12. by subst i2.
Qed.

Lemma getNetname_clearPadNet prev v p :
  p ≠ prev -> getNetname (clearPadNet prev v) p = getNetname v p.
Proof.
  intros Hne. unfold clearPadNet. destruct (m_isDryRun v) eqn:Hd; cbn [negb].
  - unfold getNetname, cacheNetname. cbn. rewrite Hd. by rewrite lookup_insert_ne.
  - unfold SetNetCode_at.
    destruct (deref v prev.1) as [f|] eqn:Hf; [|done].
    destruct (fp_pads f !! prev.2) as [pad|] eqn:Hpad; [|done].
    set (f' := SetPads _ f).
    assert (m_isDryRun (store prev.1 f' v) = false) as Hd' by (by destruct (prev.1)).
    unfold getNetname. rewrite Hd, Hd'. unfold GetNetname, pad_at. f_equal.
    destruct (decide (p.1 = prev.1)) as [Heq|Hne1].
    + rewrite Heq, (deref_store _ f) by done. rewrite Hf. cbn.
      apply list_lookup_insert_ne. intros H. apply Hne. destruct p, prev. cbn in *. congruence.
    + by rewrite (others_store prev.1 f' v p.1).
Qed.

Lemma clearPadNet_dry prev v : m_isDryRun (clearPadNet prev v) = m_isDryRun v.
Proof.
  unfold clearPadNet, SetNetCode_at. destruct (m_isDryRun v) eqn:Hd; cbn; [done|].
  repeat case_match; try done. by destruct (prev.1).
Qed.

Lemma sorted_split u (L l1 l2 : list PAD_REF) a b :
  sorted_by_netname u L -> L = (l1 ++ a :: l2)%list -> b ∈ l2 ->
  String.ltb (getNetname u b) (getNetname u a) = false.
Proof.
  intros Hs -> Hb. apply list_elem_of_lookup in Hb as [j Hj].
  apply (Hs (length l1) (length l1 + S j)%nat a b); [lia| |].
  - by apply list_lookup_middle.
  - rewrite lookup_app_r by lia. by replace (length l1 + S j - length l1)%nat with (S j) by lia.
Qed.

Lemma sorted_before u (L l1 l2 : list PAD_REF) a b :
  sorted_by_netname u L -> L = (l1 ++ l2)%list -> a ∈ l1 -> b ∈ l2 ->
  String.ltb (getNetname u b) (getNetname u a) = false.
Proof.
  intros Hs HL Ha Hb. apply list_elem_of_split in Ha as (x & y & ->).
  apply (sorted_split u L x (y ++ l2) a b); [done| |].
  - by rewrite HL, <- app_assoc.
  - apply elem_of_app. by right.
Qed.

(** The body of the scan keeps the invariant. *)
Lemma scanPad_scan_inv u L done p rest s :
  NoDup L -> sorted_by_netname u L -> L = (done ++ p :: rest)%list ->
  scan_inv u L done s -> scan_inv u L (done ++ [p]) (scanPad s p).
Proof.
  intros Hnd Hsort HL [Hdry Hch Hprev].
  assert (p ∉ done) as Hp.
  { rewrite HL in Hnd. apply NoDup_app in Hnd as (_ & Hnd & _). intros H.
    apply (Hnd p H). left. }
  assert (getNetname (scan_u s) p = getNetname u p) as Hname.
  { destruct (decide (getNetname (scan_u s) p = getNetname u p)) as [|Hne]; [done|].
    by destruct (Hch p Hne) as (? & _). }
  assert (Hle : forall q, q ∈ done -> String.ltb (getNetname u p) (getNetname u q) = false).
  { intros q Hq. apply (sorted_before u L done (p :: rest)); [done..|left]. }
  unfold scanPad. cbv zeta. rewrite Hname.
  destruct (IsEmpty (getNetname u p)) eqn:Hempty.
  { apply bool_decide_eq_true_1 in Hempty. split; [done| |].
    - intros q Hq. destruct (Hch q Hq) as (? & ? & ?). split; [|done].
      apply elem_of_app. by left.
    - destruct (previouspad s) as [prev|].
      + destruct Hprev as (d1 & d2 & -> & Hd2 & ?). exists d1, (d2 ++ [p])%list.
        split; [by rewrite <- app_assoc|]. split; [|done].
        apply Forall_app. split; [done|]. by constructor.
      + destruct Hprev as (Hall & ?). split; [|done]. apply Forall_app. split; [done|].
        by constructor. }
  apply bool_decide_eq_false_1 in Hempty.
  case_bool_decide as Hgroup.
  - (* end of net *)
    set (u' := match previouspad s with Some _ => _ | None => _ end).
    assert (Hu' : m_isDryRun u' = m_isDryRun (scan_u s) /\
                  forall q, getNetname u' q ≠ getNetname (scan_u s) q ->
                            previouspad s = Some q /\ count s = 1).
    { unfold u'. destruct (previouspad s) as [prev|]; [|done].
      case_bool_decide as Hc; [|done]. destruct (zoneOnNet _ _).
      - rewrite bool_decide_eq_false_2 by lia. done.
      - rewrite bool_decide_eq_true_2 by done. split; [by rewrite clearPadNet_dry|].
        intros q Hq. split; [|done]. f_equal.
        destruct (decide (q = prev)) as [->|Hne]; [done|].
        by rewrite getNetname_clearPadNet in Hq. }
    destruct Hu' as [Hdry' Hu']. clearbody u'.
    assert (getNetname u' p = getNetname u p) as Hname'.
    { rewrite <- Hname. destruct (decide (getNetname u' p = getNetname (scan_u s) p)) as [|Hne];
        [done|]. destruct (Hu' p Hne) as [Hq _]. rewrite Hq in Hprev.
      destruct Hprev as (d1 & d2 & -> & _). destruct Hp. apply elem_of_app. right. left. }
    split; cbn [scan_u previouspad netname count]; rewrite ?Hname'.
    + congruence.
    + intros q Hq.
      destruct (decide (getNetname u' q = getNetname (scan_u s) q)) as [Heq|Hne].
      * rewrite Heq in Hq. destruct (Hch q Hq) as (Hin & _ & Hal).
        split; [apply elem_of_app; by left|]. split; [|done]. intros [= ->]. done.
      * destruct (Hu' q Hne) as [Hq' Hc]. rewrite Hq' in Hprev.
        destruct Hprev as (d1 & d2 & -> & Hd2 & Hnet & Hne' & _ & Hcount).
        split; [apply elem_of_app; left; apply elem_of_app; right; left|].
        split; [intros [= ->]; apply Hp, elem_of_app; right; left|].
        split; [done|]. intros q' Hq'L Hsame. rewrite HL in Hq'L.
        rewrite <- app_assoc in Hq'L. cbn in Hq'L.
        apply elem_of_app in Hq'L as [Hin|Hin].
        { by destruct (Hcount Hc q' Hin). }
        apply elem_of_cons in Hin as [->|Hin]; [done|].
        apply elem_of_app in Hin as [Hin|Hin].
        { rewrite Forall_forall in Hd2. rewrite (Hd2 q' Hin) in Hsame. congruence. }
        exfalso. apply Hgroup. rewrite Hnet.
        assert (String.ltb (getNetname u p) (getNetname u q) = false) as H1.
        { apply Hle, elem_of_app. right. left. }
        apply elem_of_cons in Hin as [->|Hin]; [done|].
        assert (String.ltb (getNetname u q') (getNetname u p) = false) as H2.
        { by apply (sorted_split u L (d1 ++ q :: d2) rest p q'). }
        rewrite Hsame in H2. by apply ltb_antisym.
    + exists done, []. split; [done|]. split; [done|]. split; [done|]. split; [done|].
      split; [lia|]. intros _ q Hq Hsame.
      destruct (previouspad s) as [prev|].
      * destruct Hprev as (d1 & d2 & -> & Hd2 & Hnet & Hne' & _).
        apply elem_of_app in Hq as [Hq|Hq].
        -- apply Hgroup. rewrite Hnet.
           assert (String.ltb (getNetname u prev) (getNetname u q) = false) as H1.
           { apply (sorted_before u L d1 (prev :: d2 ++ p :: rest)); [done| |done|left].
             by rewrite HL, <- app_assoc. }
           assert (String.ltb (getNetname u p) (getNetname u prev) = false) as H2.
           { apply Hle, elem_of_app. right. left. }
           rewrite <- Hsame in H2 |- *. by apply ltb_antisym.
        -- apply elem_of_cons in Hq as [->|Hq]; [congruence|].
           rewrite Forall_forall in Hd2. rewrite (Hd2 q Hq) in Hsame. congruence.
      * destruct Hprev as (Hall & _). rewrite Forall_forall in Hall.
        rewrite (Hall q Hq) in Hsame. congruence.
  - (* same net *)
    assert (netname s = getNetname u p) as Hsame by (by destruct (decide (netname s = getNetname u p))).
    split; cbn [scan_u previouspad netname count].
    + done.
    + intros q Hq. destruct (Hch q Hq) as (Hin & _ & Hal).
      split; [apply elem_of_app; by left|]. split; [|done]. intros [= ->]. done.
    + exists done, []. split; [done|]. split; [done|]. split; [done|]. split; [done|].
      destruct (previouspad s) as [prev|].
      * destruct Hprev as (_ & _ & _ & _ & _ & _ & Hc & _). split; lia.
      * destruct Hprev as (_ & Hn & _). congruence.
Qed.

Lemma foldl_scanPad_scan_inv u L : forall rest done s,
  NoDup L -> sorted_by_netname u L -> L = (done ++ rest)%list ->
  scan_inv u L done s -> scan_inv u L L (foldl scanPad s rest).
Proof.
  induction rest as [|p rest IH]; intros done s Hnd Hsort HL Hs; cbn [foldl].
  { by rewrite HL, app_nil_r in *. }
  apply (IH (done ++ [p])%list); [done..|by rewrite <- app_assoc|].
  by apply (scanPad_scan_inv u L done p rest).
Qed.

(** The pruning unbinds only pads that are alone on their net. *)
Lemma deleteSinglePadNets_changed u p :
  getNetname (deleteSinglePadNets u) p ≠ getNetname u p ->
  alone u (GetPads (m_board u)) p.
Proof.
  intros Hne. unfold deleteSinglePadNets in Hne. cbv zeta in Hne.
  set (L := sortPads u (GetPads (m_board u))) in *.
  assert (NoDup L) as Hnd by (unfold L; rewrite sortPads_perm; apply NoDup_GetPads).
  pose proof (sortPads_sorted u (GetPads (m_board u))) as Hsort. fold L in Hsort.
  assert (scan_inv u L L
            (foldl scanPad {| count := 0; netname := ""; previouspad := None; scan_u := u |} L))
    as [Hdry Hch Hprev].
  { by apply (foldl_scanPad_scan_inv u L L []). }
  set (s := foldl scanPad _ L) in *.
  assert (alone u L p) as [Hp Hal].
  { destruct (decide (getNetname (scan_u s) p = getNetname u p)) as [Heq|Hne'].
    2:{ by destruct (Hch p Hne') as (_ & _ & ?). }
    case_bool_decide as Hc; [|congruence].
    destruct (previouspad s) as [prev|]; [|congruence].
    destruct (decide (p = prev)) as [->|Hpp].
    2:{ rewrite getNetname_clearPadNet in Hne by done. congruence. }
    destruct Hprev as (d1 & d2 & HL & Hd2 & Hnet & Hne' & _ & Hcount).
    split; [done|]. intros q Hq Hsame. rewrite HL in Hq.
    apply elem_of_app in Hq as [Hq|Hq]; [by destruct (Hcount Hc q Hq)|].
    apply elem_of_cons in Hq as [->|Hq]; [done|].
    rewrite Forall_forall in Hd2. rewrite (Hd2 q Hq) in Hsame. congruence. }
  split; [done|]. intros q Hq. apply Hal. unfold L. by rewrite sortPads_perm.
Qed.

(** X1. The pruning of single-pad nets leaves alone a pad that has no net,
    and a pad that shares its net name with another pad of the board: the
    net name the updater reads for it is the same after the pruning, in a
    dry run (where the names are cached) as in a committing run (where they
    are those of the pads). *)
Theorem pruning_keeps_shared_nets u p :
  getNetname u p = "" \/
  (exists q, q ∈ GetPads (m_board u) /\ q ≠ p /\ getNetname u q = getNetname u p) ->
  getNetname (deleteSinglePadNets u) p = getNetname u p.
Proof.
  intros H.
  destruct (decide (getNetname (deleteSinglePadNets u) p = getNetname u p)) as [|Hne]; [done|].
  destruct (deleteSinglePadNets_changed u p Hne) as [Hp Hal].
  destruct H as [H|(q & Hq & Hqp & Hsame)]; [done|].
  by destruct Hqp; apply Hal.
Qed.

Lemma pruning_keeps_shared_nets_witness :
  getNetname (deleteSinglePadNets (BOARD_NETLIST_UPDATER ex_frame ex_board_twins)) (OnBoard 0, 0%nat)
  = getNetname (BOARD_NETLIST_UPDATER ex_frame ex_board_twins) (OnBoard 0, 0%nat).
Proof.
  apply pruning_keeps_shared_nets. right. exists (OnBoard 1, 0%nat).
  split; [|split; [discriminate | reflexivity]].
  vm_compute. repeat constructor.
Defined.


(** ** The pads the pruning unbinds *)

Lemma elem_of_concat {A} (x : A) (ls : list (list A)) :
  x ∈ List.concat ls -> exists l, x ∈ l /\ l ∈ ls.
Proof.
  induction ls as [|l ls IH]; cbn; [by intros ?%elem_of_nil|].
  intros [H|H]%elem_of_app.
  - exists l. split; [done|left].
  - destruct (IH H) as (l' & ? & ?). exists l'. split; [done|by right].
Qed.

Lemma GetPads_pad_at u q : q ∈ GetPads (m_board u) -> is_Some (pad_at u q).
Proof.
  unfold GetPads. intros Hq. apply elem_of_concat in Hq as (l & Hq & Hl).
  apply elem_of_lookup_imap in Hl as (i & f & -> & Hf).
  apply elem_of_lookup_imap in Hq as (j & pad & -> & Hpad).
  unfold pad_at. cbn. rewrite Hf. cbn. by rewrite Hpad.
Qed.

Lemma getNetname_clearPadNet_self prev v :
  is_Some (pad_at v prev) -> getNetname (clearPadNet prev v) prev = unboundName v.
Proof.
  intros Hpad. unfold clearPadNet, unboundName. destruct (m_isDryRun v) eqn:Hd; cbn [negb].
  - unfold getNetname, cacheNetname. cbn. rewrite Hd. by rewrite lookup_insert_eq.
  - unfold SetNetCode_at. unfold pad_at in Hpad.
    destruct (deref v prev.1) as [f|] eqn:Hf; [|by destruct Hpad]. cbn in Hpad.
    destruct (fp_pads f !! prev.2) as [pad|] eqn:Hp; [|by destruct Hpad].
    set (f' := SetPads _ f).
    assert (m_isDryRun (store prev.1 f' v) = false) as Hd' by (by destruct (prev.1)).
    unfold getNetname. rewrite Hd'. unfold GetNetname, pad_at.
    rewrite (deref_store _ f) by done. cbn.
    rewrite list_lookup_insert_eq by (by eapply lookup_lt_Some). done.
Qed.

Lemma clearPadNet_frame prev v :
  b_zones (m_board (clearPadNet prev v)) = b_zones (m_board v) /\
  b_nets (m_board (clearPadNet prev v)) = b_nets (m_board v) /\
  forall q, is_Some (pad_at v q) -> is_Some (pad_at (clearPadNet prev v) q).
Proof.
  unfold clearPadNet. destruct (negb (m_isDryRun v)); [|by repeat split].
  unfold SetNetCode_at.
  destruct (deref v prev.1) as [f|] eqn:Hf; [|by repeat split].
  destruct (fp_pads f !! prev.2) as [pad|] eqn:Hp; [|by repeat split].
  set (f' := SetPads _ f).
  split; [by destruct (prev.1)|]. split; [by destruct (prev.1)|].
  intros q. unfold pad_at.
  destruct (decide (q.1 = prev.1)) as [Heq|Hne].
  - rewrite Heq, (deref_store _ f), Hf by done. cbn.
    rewrite !lookup_lt_is_Some. by rewrite length_insert.
  - by rewrite (others_store prev.1 f' v q.1).
Qed.

Lemma zoneOnNet_zones v u name :
  b_zones (m_board v) = b_zones (m_board u) -> zoneOnNet v name = zoneOnNet u name.
Proof. unfold zoneOnNet. by intros ->. Qed.

Lemma unboundName_same v u :
  m_isDryRun v = m_isDryRun u -> b_nets (m_board v) = b_nets (m_board u) ->
  unboundName v = unboundName u.
Proof.
  intros Hd Hn. unfold unboundName, NetnameOfCode, FindNetByCode. by rewrite Hd, Hn.
Qed.

(** The body of the scan unbinds the pad it leaves behind when that pad is
    alone on a net without copper zone. *)
Lemma scanPad_scan_done u L done p rest s :
  NoDup L -> sorted_by_netname u L -> L = (done ++ p :: rest)%list ->
  (forall q, q ∈ L -> is_Some (pad_at u q)) ->
  scan_inv u L done s -> scan_done u L done s -> scan_done u L (done ++ [p]) (scanPad s p).
Proof.
  intros Hnd Hsort HL Hpads [Hdry Hch Hprev] [Hz Hn Hpa Hcount Hcl].
  assert (p ∉ done) as Hp.
  { rewrite HL in Hnd. apply NoDup_app in Hnd as (_ & Hnd & _). intros H.
    apply (Hnd p H). left. }
  assert (p ∈ L) as HpL by (rewrite HL; apply elem_of_app; right; left).
  assert (forall q, q ∈ done -> q ∈ L) as HdL by (intros q Hq; rewrite HL; apply elem_of_app; by left).
  assert (getNetname (scan_u s) p = getNetname u p) as Hname.
  { destruct (decide (getNetname (scan_u s) p = getNetname u p)) as [|Hne]; [done|].
    by destruct (Hch p Hne) as (? & _). }
  unfold scanPad. cbv zeta. rewrite Hname.
  destruct (IsEmpty (getNetname u p)) eqn:Hempty.
  { apply bool_decide_eq_true_1 in Hempty. split; try done.
    - intros prev Hpr Hc. destruct (Hcount prev Hpr Hc) as (q & Hq & ?).
      exists q. split; [apply elem_of_app; by left|done].
    - intros q [Hq|Hq]%elem_of_app Hnp Hal Hzone; [by apply Hcl|].
      apply list_elem_of_singleton in Hq as ->. by destruct Hal. }
  apply bool_decide_eq_false_1 in Hempty.
  case_bool_decide as Hgroup.
  - (* end of net *)
    set (u' := match previouspad s with Some _ => _ | None => _ end).
    assert (b_zones (m_board u') = b_zones (m_board u) /\
            b_nets (m_board u') = b_nets (m_board u) /\
            (forall q, is_Some (pad_at u q) -> is_Some (pad_at u' q))) as (Hz' & Hn' & Hpa').
    { subst u'. destruct (previouspad s) as [prev|]; [|done].
      case_bool_decide as Hc; [|done]. destruct (zoneOnNet _ _).
      { rewrite bool_decide_eq_false_2 by lia. done. }
      rewrite bool_decide_eq_true_2 by done.
      destruct (clearPadNet_frame prev
                  (report (MsgRemoveSinglePadNet (UnescapeString (m_frame (scan_u s)) (getNetname (scan_u s) prev)))
                          RPT_SEVERITY_ACTION (scan_u s))) as (Hf1 & Hf2 & Hf3).
      split; [by rewrite Hf1|]. split; [by rewrite Hf2|]. intros q Hq. by apply Hf3, Hpa. }
    split; cbn [scan_u previouspad netname count]; try done.
    intros q [Hq|Hq]%elem_of_app Hnp Hal Hzone.
    2:{ apply list_elem_of_singleton in Hq as ->. done. }
    subst u'. destruct (previouspad s) as [prev|] eqn:Hpr; [|by apply Hcl].
    destruct (decide (prev = q)) as [->|Hne].
    + (* the pad the scan held is alone on its net *)
      assert (getNetname (scan_u s) q = getNetname u q) as Hnq.
      { destruct (decide (getNetname (scan_u s) q = getNetname u q)) as [|Hne]; [done|].
        by destruct (Hch q Hne) as (_ & ? & _). }
      assert (count s = 1) as Hc.
      { destruct (decide (count s = 1)) as [|Hc]; [done|].
        destruct (Hcount q eq_refl Hc) as (q' & Hq' & Hne & Hsame).
        destruct Hne. apply Hal; auto. }
      rewrite bool_decide_eq_true_2 by done.
      rewrite Hnq, (zoneOnNet_zones _ u) by done. rewrite Hzone.
      rewrite bool_decide_eq_true_2 by done.
      rewrite getNetname_clearPadNet_self by (by apply Hpa, Hpads, HdL).
      by apply unboundName_same.
    + assert (getNetname (scan_u s) q = unboundName u) as Hq' by (apply Hcl; congruence).
      case_bool_decide as Hc; [|done]. destruct (zoneOnNet _ _).
      { rewrite bool_decide_eq_false_2 by lia. done. }
      rewrite bool_decide_eq_true_2 by done.
      rewrite getNetname_clearPadNet by done. done.
  - (* same net *)
    assert (netname s = getNetname u p) as Hsame by (by destruct (decide (netname s = getNetname u p))).
    split; cbn [scan_u previouspad netname count]; try done.
    + intros prev [= <-] _.
      destruct (previouspad s) as [prev|].
      * destruct Hprev as (d1 & d2 & -> & _ & Hnet & _).
        exists prev. split; [apply elem_of_app; left; apply elem_of_app; right; left|].
        split; [|congruence]. intros ->. apply Hp, elem_of_app. right. left.
      * destruct Hprev as (_ & Hn0 & _). congruence.
    + intros q [Hq|Hq]%elem_of_app Hnp Hal Hzone.
      2:{ apply list_elem_of_singleton in Hq as ->. done. }
      apply Hcl; try done. intros Hpr. rewrite Hpr in Hprev.
      destruct Hprev as (d1 & d2 & -> & _ & Hnet & _).
      apply Hp. rewrite (proj2 Hal p HpL); [apply elem_of_app; right; left|]. congruence.
Qed.

Lemma foldl_scanPad_scan_done u L : forall rest done s,
  NoDup L -> sorted_by_netname u L -> L = (done ++ rest)%list ->
  (forall q, q ∈ L -> is_Some (pad_at u q)) ->
  scan_inv u L done s -> scan_done u L done s ->
  scan_inv u L L (foldl scanPad s rest) /\ scan_done u L L (foldl scanPad s rest).
Proof.
  induction rest as [|p rest IH]; intros done s Hnd Hsort HL Hpads Hs Hs'; cbn [foldl].
  { by rewrite HL, app_nil_r in *. }
  apply (IH (done ++ [p])%list); [done..|by rewrite <- app_assoc|done| |].
  - by apply (scanPad_scan_inv u L done p rest).
  - by apply (scanPad_scan_done u L done p rest).
Qed.

(** X2. The pruning unbinds a pad that is alone on its net when no copper
    zone is on the net, and also, whatever the zones, when no pad of the
    board has a greater net name: the last net of the scan is not checked for
    zones.  The pad then reads as unbound: no net name in a dry run, the name
    of the net of code 0 in a committing run. *)
Theorem pruning_unbinds_lone_pads u p :
  p ∈ GetPads (m_board u) -> alone u (GetPads (m_board u)) p ->
  zoneOnNet u (getNetname u p) = false \/
  (forall q, q ∈ GetPads (m_board u) ->
             String.ltb (getNetname u p) (getNetname u q) = false) ->
  getNetname (deleteSinglePadNets u) p = unboundName u.
Proof.
  intros Hp Hal Hcase. unfold deleteSinglePadNets. cbv zeta.
  set (L := sortPads u (GetPads (m_board u))).
  assert (NoDup L) as Hnd by (unfold L; rewrite sortPads_perm; apply NoDup_GetPads).
  pose proof (sortPads_sorted u (GetPads (m_board u))) as Hsort. fold L in Hsort.
  assert (forall q, q ∈ L <-> q ∈ GetPads (m_board u)) as HL
    by (intros q; unfold L; by rewrite sortPads_perm).
  assert (forall q, q ∈ L -> is_Some (pad_at u q)) as Hpads
    by (intros q Hq; by apply GetPads_pad_at, HL).
  assert (alone u L p) as Hal'.
  { destruct Hal as [H1 H2]. split; [done|]. intros q Hq. apply H2. by apply HL. }
  destruct (foldl_scanPad_scan_done u L L []
              {| count := 0; netname := ""; previouspad := None; scan_u := u |})
    as [[Hdry Hch Hprev] [Hz Hn Hpa Hcount Hcl]]; try done.
  { split; try done. intros q Hq. by apply elem_of_nil in Hq. }
  set (s := foldl scanPad _ L) in *.
  assert (unboundName (scan_u s) = unboundName u) as Hun by (by apply unboundName_same).
  destruct (previouspad s) as [prev|] eqn:Hpr.
  - destruct Hprev as (d1 & d2 & HL' & Hd2 & Hnet & Hne & _ & _).
    destruct (decide (prev = p)) as [->|Hne'].
    + assert (count s = 1) as Hc.
      { destruct (decide (count s = 1)) as [|Hc]; [done|].
        destruct (Hcount p eq_refl Hc) as (q' & Hq' & Hneq & Hsame).
        destruct Hneq. by apply (proj2 Hal'). }
      rewrite bool_decide_eq_true_2 by done.
      rewrite getNetname_clearPadNet_self by (by apply Hpa, Hpads, HL). done.
    + assert (zoneOnNet u (getNetname u p) = false) as Hzone.
      { destruct Hcase as [|Hmax]; [done|]. exfalso.
        assert (p ∈ L) as HpL by (by apply HL). rewrite HL' in HpL.
        apply elem_of_app in HpL as [Hin|Hin].
        - apply Hne'. apply (proj2 Hal'); [rewrite HL'; apply elem_of_app; right; left|].
          apply ltb_antisym.
          + apply (sorted_before u L d1 (prev :: d2)); [done..|left].
          + apply Hmax, HL. rewrite HL'. apply elem_of_app. right. left.
        - apply elem_of_cons in Hin as [->|Hin]; [done|].
          rewrite Forall_forall in Hd2. by destruct Hal as [Hnon _], (Hd2 p Hin). }
      assert (getNetname (scan_u s) p = unboundName u) as Hq.
      { apply Hcl; try done; [by apply HL | congruence]. }
      case_bool_decide; [|done]. by rewrite getNetname_clearPadNet by done.
  - destruct Hprev as (Hall & _). rewrite Forall_forall in Hall.
    destruct Hal as [Hnon _]. destruct Hnon. apply Hall. by apply HL.
Qed.

Lemma pruning_unbinds_lone_pads_witness :
  getNetname (deleteSinglePadNets (BOARD_NETLIST_UPDATER ex_frame ex_board_zones))
             (OnBoard 0, 1%nat)
  = unboundName (BOARD_NETLIST_UPDATER ex_frame ex_board_zones).
Proof.
  apply pruning_unbinds_lone_pads.
  - vm_compute. repeat constructor.
  - split; [done|]. intros q Hq.
    assert (q = (OnBoard 0, 0%nat) \/ q = (OnBoard 0, 1%nat)) as [->| ->].
    { vm_compute in Hq. apply elem_of_cons in Hq as [->|Hq]; [by left|].
      apply list_elem_of_singleton in Hq as ->. by right. }
    + vm_compute. discriminate.
    + done.
  - right. intros q Hq.
    assert (q = (OnBoard 0, 0%nat) \/ q = (OnBoard 0, 1%nat)) as [->| ->].
    { vm_compute in Hq. apply elem_of_cons in Hq as [->|Hq]; [by left|].
      apply list_elem_of_singleton in Hq as ->. by right. }
    + vm_compute. reflexivity.
    + vm_compute. reflexivity.
Defined.

(** ** The counters and the messages *)

Lemma counts_app P sev l1 l2 : counts P sev (l1 ++ l2) = counts P sev l1 + counts P sev l2.
Proof.
  unfold counts, reportsOf. rewrite omap_app, List.filter_app, length_app. lia.
Qed.

Lemma counts_none (P : MSG -> Prop) f sev new :
  (forall msg sev', Report msg sev' ∈ new -> P msg) ->
  (forall msg, P msg -> f msg = false) ->
  counts f sev new = 0.
Proof.
  intros Hnew Hf. unfold counts, reportsOf.
  induction new as [|r new IH]; [done|]. cbn.
  assert (forall msg sev', Report msg sev' ∈ new -> P msg) as Hnew'
    by (intros; eapply Hnew; by right).
  specialize (IH Hnew').
  destruct r as [msg sev'|]; [|exact IH].
  case_bool_decide; [|exact IH]. cbn.
  rewrite (Hf msg); [exact IH|]. eapply Hnew. left.
Qed.

Lemma logged_refl P u : logged P u u.
Proof.
  exists []. rewrite app_nil_r. unfold counts. cbn.
  repeat split; try lia. intros msg sev H. by apply elem_of_nil in H.
Qed.

Lemma logged_trans P u1 u2 u3 : logged P u1 u2 -> logged P u2 u3 -> logged P u1 u3.
Proof.
  intros (n1 & H1 & E1 & W1 & F1 & P1) (n2 & H2 & E2 & W2 & F2 & P2). exists (n1 ++ n2)%list.
  rewrite !counts_app. split; [by rewrite H2, H1, app_assoc|]. repeat split; try lia.
  intros msg sev [H|H]%elem_of_app; eauto.
Qed.

Lemma logged_weaken (P Q : MSG -> Prop) u u' :
  (forall msg, P msg -> Q msg) -> logged P u u' -> logged Q u u'.
Proof. intros HPQ (new & H & E & W & F & HP). exists new. repeat split; eauto. Qed.

Lemma logged_foldl {A} P (f : UPDATER -> A -> UPDATER) l :
  (forall u x, logged P u (f u x)) -> forall u, logged P u (foldl f u l).
Proof.
  intros Hf. induction l as [|x l IH]; intros u; cbn; [apply logged_refl|].
  eapply logged_trans; [apply Hf | apply IH].
Qed.

Lemma report_logged (P : MSG -> Prop) msg sev u :
  P msg ->
  (sev = RPT_SEVERITY_ERROR -> isAmbiguity msg = true) ->
  (sev = RPT_SEVERITY_WARNING -> isItemWarning msg = false) ->
  (sev = RPT_SEVERITY_ACTION -> isNewFootprint msg = false) ->
  logged P u (report msg sev u).
Proof.
  intros Hp He Hw Hf. exists [Report msg sev]. unfold counts. cbn.
  split; [done|]. repeat split; try (case_bool_decide; cbn; try lia).
  - rewrite (He H). cbn. lia.
  - rewrite (Hw H). cbn. lia.
  - rewrite (Hf H). cbn. lia.
  - intros msg' sev' H. apply list_elem_of_singleton in H. by simplify_eq.
Qed.

(** A message of the step is one the predicate holds for. *)
Ltac logged_msg :=
  first [ done
        | match goal with H : forall msg, isPruning msg = false -> _ |- _ => apply H; reflexivity end
        | eexists; reflexivity ].

(** A state built from [u] by the setters, [report] and the increments. *)
Ltac logged_count :=
  unfold counts; cbn; repeat (case_bool_decide; try done); cbn; lia.

Ltac logged_leaf :=
  unfold logged;
  eexists; split;
  [ cbn; rewrite <- ?app_assoc; first [reflexivity | symmetry; apply app_nil_r]
  | split; [logged_count|]; split; [logged_count|]; split; [logged_count|];
    let Hin := fresh "Hin" in
    intros ? ? Hin;
    repeat (apply elem_of_cons in Hin as [Hin|Hin]; [simplify_eq; logged_msg|]);
    by apply elem_of_nil in Hin ].

Ltac logged_report := apply report_logged; [logged_msg | intros; done ..].

Section logged.
Variable P : MSG -> Prop.
Hypothesis HP : forall msg, isPruning msg = false -> P msg.

Lemma addNewComponent_logged c u : logged P u (addNewComponent c u).2.
Proof. unfold addNewComponent. repeat case_match; logged_leaf. Qed.

Lemma replaceComponent_logged r old c u : logged P u (replaceComponent r old c u).2.
Proof. unfold replaceComponent. repeat case_match; logged_leaf. Qed.

Lemma store_logged r f u : logged P u (store r f u).
Proof. destruct r; logged_leaf. Qed.

Lemma syncField_logged msg set s u0 :
  isNewFootprint msg = false -> isPruning msg = false ->
  logged P u0 s.1.2 -> logged P u0 (syncField msg set s).1.2.
Proof.
  intros Hmsg Hp H0. destruct s as [[f u] ch]. unfold syncField. cbn [fst snd] in *.
  cbv zeta. eapply logged_trans; [exact H0|].
  assert (logged P u (report msg RPT_SEVERITY_ACTION u)) as H
    by (apply report_logged; [by apply HP | intros; done ..]).
  by destruct (negb _).
Qed.

Lemma syncParameters_logged c s u0 :
  logged P u0 s.1.2 -> logged P u0 (syncParameters c s).1.2.
Proof.
  intros H. unfold syncParameters. cbv zeta.
  repeat case_match; repeat (apply syncField_logged; [done..|]); exact H.
Qed.

Lemma updateFootprintParameters_logged r c u :
  logged P u (updateFootprintParameters r c u).
Proof.
  unfold updateFootprintParameters. destruct (deref u r) as [f|]; [|apply logged_refl].
  pose proof (syncParameters_logged c (f, u, false) u (logged_refl P u)) as H.
  destruct (syncParameters c (f, u, false)) as [[f' u'] ch]. cbn [fst snd] in H.
  assert (logged P u (store r f' u')) as H'.
  { eapply logged_trans; [exact H | apply store_logged]. }
  repeat case_match; exact H'.
Qed.

Lemma cachePinFunction_logged p n u : logged P u (cachePinFunction p n u).
Proof. unfold cachePinFunction. logged_leaf. Qed.

Lemma cacheNetname_logged p n u : logged P u (cacheNetname p n u).
Proof. unfold cacheNetname. logged_leaf. Qed.

Lemma syncPin_logged p pf pt pad s :
  logged P s.1 (syncPin p pf pt pad s).2.1.
Proof.
  destruct s as [u ch]. unfold syncPin. cbn [fst snd].
  repeat case_match; simplify_eq; cbn [fst snd];
    first [apply logged_refl | apply cachePinFunction_logged].
Qed.

Lemma disconnectPad_logged p r pad s :
  logged P s.1 (disconnectPad p r pad s).2.1.
Proof.
  destruct s as [u ch]. unfold disconnectPad. cbn [fst snd]. cbv zeta.
  repeat case_match; cbn [fst snd];
    try (eapply logged_trans; [|apply cacheNetname_logged]);
    first [apply logged_refl | logged_report].
Qed.

Lemma findOrAddNet_logged n ni s :
  logged P s.1 (findOrAddNet n ni s).2.1.
Proof.
  destruct s as [u ch]. unfold findOrAddNet. cbn [fst snd]. cbv zeta.
  repeat case_match; simplify_eq; cbn [fst snd]; logged_leaf.
Qed.

Lemma connectPad_logged p r n pad s :
  logged P s.1 (connectPad p r n pad s).2.1.
Proof.
  destruct s as [u ch]. unfold connectPad. cbn [fst snd]. cbv zeta.
  set (u1 := if _ && _ then _ else u).
  assert (logged P u u1) as H1.
  { subst u1. case_match; logged_leaf. }
  clearbody u1.
  case_bool_decide; [|exact H1].
  pose proof (findOrAddNet_logged n (FindNet n (m_board u)) (u1, ch)) as H2.
  destruct (findOrAddNet _ _ _) as [ni [u2 ch2]]. cbn [fst snd] in H2.
  eapply logged_trans; [exact H1|]. eapply logged_trans; [exact H2|].
  repeat case_match; cbn [fst snd];
    try (eapply logged_trans; [|apply cacheNetname_logged]);
    logged_leaf.
Qed.

Lemma updatePad_logged p r c pad s :
  logged P s.1 (updatePad p r c pad s).2.1.
Proof.
  unfold updatePad. cbv zeta.
  pose proof (syncPin_logged p (if IsValid (GetNet c (pad_name pad))
                                then cn_pinFunction (GetNet c (pad_name pad)) else "")
                (if IsValid (GetNet c (pad_name pad))
                 then cn_pinType (GetNet c (pad_name pad)) else "") pad s) as H.
  destruct (syncPin _ _ _ _ _) as [pad' s']. cbn [fst snd] in H.
  eapply logged_trans; [exact H|].
  case_match; [apply disconnectPad_logged | apply connectPad_logged].
Qed.

Lemma updatePads_logged fr r c pads : forall j s,
  logged P s.1 (updatePads fr r c j pads s).2.1.
Proof.
  induction pads as [|pad pads IH]; intros j s; cbn; [apply logged_refl|].
  pose proof (updatePad_logged (fr, j) r c pad s) as H.
  destruct (updatePad _ _ _ _ _) as [pad' s']. cbn [fst snd] in H.
  specialize (IH (S j) s').
  destruct (updatePads _ _ _ _ _ _) as [rest s'']. cbn [fst snd] in *.
  eapply logged_trans; eauto.
Qed.

Lemma updateComponentPadConnections_logged r c u :
  logged P u (updateComponentPadConnections r c u).
Proof.
  unfold updateComponentPadConnections. destruct (deref u r) as [f|]; [|apply logged_refl].
  pose proof (updatePads_logged r (fp_reference f) c (fp_pads f) 0%nat (u, false)) as H.
  destruct (updatePads _ _ _ _ _ _) as [pads [u' ch]]. cbn [fst snd] in H.
  assert (logged P u (store r (SetPads pads f) u')) as H'.
  { eapply logged_trans; [exact H | apply store_logged]. }
  repeat case_match; exact H'.
Qed.

Lemma bind_logged t i c u :
  logged P u (updateComponentPadConnections t c
                (updateFootprintParameters t c (with_footprintMap (<[i := t]> (footprintMap u)) u))).
Proof.
  eapply logged_trans; [|apply updateComponentPadConnections_logged].
  eapply logged_trans; [|apply updateFootprintParameters_logged].
  logged_leaf.
Qed.

Lemma updateMatched_logged i c k f u : logged P u (updateMatched i c k f u).
Proof.
  unfold updateMatched.
  destruct (m_replaceFootprints u && _).
  - pose proof (replaceComponent_logged (OnBoard k) f c u) as H.
    destruct (replaceComponent _ _ _ _) as [[t|] u']; cbn [snd] in H; [|exact H].
    eapply logged_trans; [exact H | apply bind_logged].
  - apply bind_logged.
Qed.

Lemma scanStep_logged i c k s : logged P s.1 (scanStep i c k s).1.
Proof.
  destruct s as [u n]. unfold scanStep. cbn [fst].
  repeat case_match; cbn [fst]; first [apply logged_refl | apply updateMatched_logged].
Qed.

Lemma scanFootprints_logged i c l ks : forall s,
  logged P s.1 (scanFootprints i c l ks s).1.
Proof.
  induction ks as [|k ks IH]; intros s; cbn; [apply logged_refl|].
  case_bool_decide; [apply scanStep_logged|].
  eapply logged_trans; [apply scanStep_logged | apply IH].
Qed.

Lemma processComponent_logged l u ic : logged P u (processComponent l u ic).
Proof.
  destruct ic as [i c]. unfold processComponent.
  destruct (has_property _ _); [apply logged_refl|]. cbv zeta.
  set (u1 := report _ _ u).
  assert (logged P u u1) as H1 by (subst u1; logged_report). clearbody u1.
  pose proof (scanFootprints_logged i c l (seq 0 (length (b_footprints (m_board u1)))) (u1, 0)) as H2.
  destruct (scanFootprints _ _ _ _ _) as [u2 n]. cbn [fst] in H2.
  eapply logged_trans; [exact H1|]. eapply logged_trans; [exact H2|].
  case_bool_decide.
  - pose proof (addNewComponent_logged c u2) as H3.
    destruct (addNewComponent c u2) as [[t|] u3]; cbn [snd] in H3; [|exact H3].
    eapply logged_trans; [exact H3 | apply bind_logged].
  - case_bool_decide; [logged_report | apply logged_refl].
Qed.

Lemma resolveNet_logged n u : logged P u (resolveNet n u).2.
Proof. unfold resolveNet. repeat case_match; logged_leaf. Qed.

Lemma updateVia_logged names k u : logged P u (updateVia names k u).
Proof.
  unfold updateVia. cbv zeta.
  repeat (case_match; try apply logged_refl); try logged_leaf.
  all: match goal with H : resolveNet ?n ?v = _ |- _ =>
         pose proof (resolveNet_logged n v) as Hr; rewrite H in Hr; cbn [snd] in Hr end.
  all: eapply logged_trans; [|first [exact Hr | eapply logged_trans; [exact Hr | logged_leaf]]].
  all: logged_report.
Qed.

Lemma updateZone_logged names k u : logged P u (updateZone names k u).
Proof.
  unfold updateZone. cbv zeta.
  destruct (b_zones (m_board u) !! k) as [zone|]; [|apply logged_refl].
  destruct (negb (zone_onCopper zone) || zone_isRuleArea zone); [apply logged_refl|].
  case_bool_decide; [apply logged_refl|].
  remember (match m_zoneConnectionsCache u !! k with
            | Some pads => (pads, u)
            | None => ([], with_zoneConnectionsCache (<[k := []]> (m_zoneConnectionsCache u)) u)
            end) as cu eqn:Hcu.
  assert (logged P u cu.2) as H1.
  { subst cu. case_match; cbn [snd]; logged_leaf. }
  clear Hcu. destruct cu as [cached u1]. cbn [snd] in H1.
  eapply logged_trans; [exact H1|].
  repeat (case_match; try apply logged_refl); try logged_leaf.
  all: match goal with H : resolveNet ?n ?v = _ |- _ =>
         pose proof (resolveNet_logged n v) as Hr; rewrite H in Hr; cbn [snd] in Hr end.
  all: eapply logged_trans; [|first [exact Hr | eapply logged_trans; [exact Hr | logged_leaf]]].
  all: logged_report.
Qed.

Lemma updateCopperZoneNets_logged nl u : logged P u (updateCopperZoneNets nl u).
Proof.
  unfold updateCopperZoneNets. cbv zeta.
  set (names := netlistNetnames nl).
  set (u1 := foldl (fun u k => updateVia names k u) u _).
  assert (logged P u u1) as H1.
  { apply (logged_foldl P (fun u k => updateVia names k u)). intros. apply updateVia_logged. }
  eapply logged_trans; [exact H1|].
  apply (logged_foldl P (fun u k => updateZone names k u)). intros. apply updateZone_logged.
Qed.

Lemma sweepFootprint_logged nl u k : logged P u (sweepFootprint nl u k).
Proof.
  unfold sweepFootprint. cbv zeta.
  repeat case_match; simplify_eq; logged_leaf.
Qed.

Lemma testComponent_logged u ic : logged P u (testComponent u ic).
Proof.
  unfold testComponent. repeat (case_match; try apply logged_refl).
  apply logged_foldl. intros v net. case_bool_decide; logged_leaf.
Qed.

Lemma testConnectivity_logged nl u : logged P u (testConnectivity nl u).
Proof. apply logged_foldl, testComponent_logged. Qed.

Lemma SetNetCode_at_logged p code u : logged P u (SetNetCode_at p code u).
Proof.
  unfold SetNetCode_at. repeat (case_match; try apply logged_refl). apply store_logged.
Qed.

Lemma clearPadNet_logged p u : logged P u (clearPadNet p u).
Proof.
  unfold clearPadNet. case_match; [apply SetNetCode_at_logged | apply cacheNetname_logged].
Qed.

(** The pass up to the sweep of the board footprints. *)
Lemma reconcile_logged nl u :
  let u0 := with_footprintMap ∅ (with_counts 0 0 0 u) in
  let u1 := cacheCopperZoneConnections u0 in
  let u2 := if negb (m_isDryRun u1)
            then with_board (with_nets (List.map (fun net => SetIsCurrent (bool_decide (net_code net = 0)) net)
                                                 (b_nets (m_board u1))) (m_board u1)) u1
            else u1 in
  let u3 := foldl (processComponent (lastPreexisting (m_board u0))) u2
                  (imap (fun i c => (i, c)) nl) in
  let u4 := updateCopperZoneNets nl u3 in
  let u5 := foldl (sweepFootprint nl) u4 (seq 0 (length (b_footprints (m_board u4)))) in
  logged P (with_counts 0 0 0 u) u5.
Proof.
  intros u0 u1 u2 u3 u4 u5.
  assert (logged P (with_counts 0 0 0 u) u0) as H0 by (subst u0; logged_leaf).
  assert (logged P u0 u1) as H1.
  { subst u1. unfold cacheCopperZoneConnections. apply logged_foldl.
    intros v kz. case_match; logged_leaf. }
  assert (logged P u1 u2) as H2 by (subst u2; case_match; logged_leaf).
  assert (logged P u2 u3) as H3 by apply logged_foldl, processComponent_logged.
  assert (logged P u3 u4) as H4 by apply updateCopperZoneNets_logged.
  assert (logged P u4 u5) as H5 by apply logged_foldl, sweepFootprint_logged.
  eauto using logged_trans.
Qed.

End logged.

Lemma scanPad_logged s p :
  logged (fun msg => exists name, msg = MsgRemoveSinglePadNet name)
         (scan_u s) (scan_u (scanPad s p)).
Proof.
  unfold scanPad. cbv zeta.
  repeat (case_match; cbn [scan_u]; try apply logged_refl).
  all: eapply logged_trans; [|apply clearPadNet_logged; intros; by eexists]; logged_report.
Qed.

Lemma foldl_scanPad_logged l : forall s,
  logged (fun msg => exists name, msg = MsgRemoveSinglePadNet name)
         (scan_u s) (scan_u (foldl scanPad s l)).
Proof.
  induction l as [|p l IH]; intros s; cbn; [apply logged_refl|].
  eapply logged_trans; [apply scanPad_logged | apply IH].
Qed.

Lemma deleteSinglePadNets_logged u :
  logged (fun msg => exists name, msg = MsgRemoveSinglePadNet name) u (deleteSinglePadNets u).
Proof.
  unfold deleteSinglePadNets. cbv zeta.
  set (s := foldl scanPad _ _).
  assert (logged (fun msg => exists name, msg = MsgRemoveSinglePadNet name) u (scan_u s)) as H
    by apply (foldl_scanPad_logged _ (Build_SCAN 0 "" None u)).
  clearbody s.
  repeat case_match; try exact H.
  eapply logged_trans; [exact H | apply clearPadNet_logged].
Qed.

Lemma removeStaleNet_logged u n :
  logged (fun msg => exists name, msg = MsgRemoveUnusedNet name) u (removeStaleNet u n).
Proof. unfold removeStaleNet. case_match; [|apply logged_refl]. logged_leaf. Qed.

Lemma reconcile_options nl u :
  let u0 := with_footprintMap ∅ (with_counts 0 0 0 u) in
  let u1 := cacheCopperZoneConnections u0 in
  let u2 := if negb (m_isDryRun u1)
            then with_board (with_nets (List.map (fun net => SetIsCurrent (bool_decide (net_code net = 0)) net)
                                                 (b_nets (m_board u1))) (m_board u1)) u1
            else u1 in
  let u3 := foldl (processComponent (lastPreexisting (m_board u0))) u2
                  (imap (fun i c => (i, c)) nl) in
  let u4 := updateCopperZoneNets nl u3 in
  let u5 := foldl (sweepFootprint nl) u4 (seq 0 (length (b_footprints (m_board u4)))) in
  same_options u u5.
Proof.
  intros u0 u1 u2 u3 u4 u5.
  assert (same_options u u1) as H1.
  { apply (same_options_trans _ u0); [by split|].
    apply st_options, cacheCopperZoneConnections_steps. }
  assert (same_options u1 u2) as H2 by (subst u2; case_match; by split).
  assert (steps u2 u5) as H5.
  { apply (steps_trans _ u3); [apply steps_foldl, processComponent_steps|].
    apply (steps_trans _ u4); [apply updateCopperZoneNets_steps|].
    apply steps_foldl, sweepFootprint_steps. }
  eauto using same_options_trans, st_options.
Qed.

(** The messages and the counters of a whole pass. *)
Lemma UpdateNetlist_logged nl u N :
  N = m_newFootprintsCount (UpdateNetlist nl u) ->
  logged (fun msg =>
            (forall name, msg = MsgRemoveUnusedNet name -> m_isDryRun u = false) /\
            (forall name, msg = MsgRemoveSinglePadNet name ->
                          m_deleteSinglePadNets u = true /\ (m_isDryRun u = true -> N = 0)))
         (with_counts 0 0 0 u) (UpdateNetlist nl u).
Proof.
  intros HN. revert HN. unfold UpdateNetlist. cbv zeta.
  pose proof (reconcile_logged (fun msg => isPruning msg = false) (fun msg H => H) nl u) as H.
  pose proof (reconcile_options nl u) as [_ Hdsp _ Hdry _ _ _].
  cbv zeta in H, Hdsp, Hdry.
  set (u5 := foldl (sweepFootprint nl) _ _) in *. clearbody u5.
  rewrite Hdry, Hdsp.
  set (Q := fun msg : MSG => _ /\ _).
  assert (logged Q (with_counts 0 0 0 u) u5) as H'.
  { eapply logged_weaken; [|exact H]. intros msg Hm. split; intros name ->; discriminate. }
  clear H.
  destruct (m_isDryRun u) eqn:Hd; cbn [negb].
  - (* a dry run *)
    set (u6 := if m_deleteSinglePadNets u && _ then _ else _).
    assert (m_isDryRun u6 = true) as Hd6.
    { subst u6. rewrite <- Hdry. case_match; [|done].
      apply (so_isDryRun _ _ (st_options _ _ (deleteSinglePadNets_steps u5))). }
    rewrite Hd6. intros HN. change (N = m_newFootprintsCount u6) in HN.
    eapply logged_trans; [exact H'|].
    eapply logged_trans; [|logged_leaf].
    subst u6. destruct (m_deleteSinglePadNets u) eqn:Hs; cbn [andb] in *; [|apply logged_refl].
    case_bool_decide as Hz; [|apply logged_refl].
    pose proof (deleteSinglePadNets_logged u5) as (new & Hr & He & Hw & Hf & Hp).
    exists new. repeat split; try done.
    + intros name ->. by destruct (Hp _ _ H) as [name' ?].
    + intros _. rewrite HN, Hf, Hz.
      rewrite (counts_none (fun msg => exists name, msg = MsgRemoveSinglePadNet name)); [done|done|].
      by intros msg' [name' ->].
  - (* a committing run *)
    intros _.
    set (v1 := testConnectivity nl u5).
    assert (logged Q u5 v1) as G1.
    { apply testConnectivity_logged. intros msg Hm. split; intros name ->; discriminate. }
    assert (m_isDryRun v1 = false /\ m_deleteSinglePadNets v1 = m_deleteSinglePadNets u) as [Hd1 Hs1].
    { destruct (st_options _ _ (testConnectivity_steps nl u5)) as [_ Hs _ Hd' _ _ _].
      fold v1 in Hs, Hd'. by rewrite Hs, Hd', Hdry, Hdsp. }
    rewrite Hs1.
    set (v2 := if m_deleteSinglePadNets u then _ else v1).
    assert (logged Q v1 v2) as G2.
    { subst v2. destruct (m_deleteSinglePadNets u); [|apply logged_refl].
      eapply logged_weaken; [|apply deleteSinglePadNets_logged].
      intros msg [name ->]. split; [done|]. intros name' _. split; [done|]. done. }
    set (v3 := foldl removeStaleNet v2 _).
    assert (logged Q v2 v3) as G3.
    { apply logged_foldl. intros v n. eapply logged_weaken; [|apply removeStaleNet_logged].
      intros msg [name ->]. split; [done|]. done. }
    assert (logged Q (with_counts 0 0 0 u) v3) as G by eauto using logged_trans.
    clearbody v3. clear - G.
    eapply logged_trans; [exact G|].
    set (v4 := Push _).
    assert (logged Q v3 v4) as G4 by (subst v4; logged_leaf).
    eapply logged_trans; [exact G4|]. clearbody v4.
    destruct (m_isDryRun v4); logged_leaf.
Qed.

(** X3. The error count a pass returns is the number of Error messages the
    pass has reported, those of "Multiple footprints found" left out: the
    counter starts from zero, every other Error is counted once, and the
    messages reported before the pass are kept. *)
Theorem error_count_counts_the_errors nl u :
  exists new,
    m_reporter (UpdateNetlist nl u) = (m_reporter u ++ new)%list /\
    m_errorCount (UpdateNetlist nl u)
    = counts (fun m => negb (isAmbiguity m)) RPT_SEVERITY_ERROR new.
Proof.
  destruct (UpdateNetlist_logged nl u _ eq_refl) as (new & Hr & He & Hw & Hf & _).
  exists new. split; [exact Hr|]. rewrite He. cbn. lia.
Qed.

(** X4. The warning count a pass returns is the number of Warnings about a
    via or a zone left on a net the netlist does not have: the Warnings about
    a pad without net and about a locked footprint are reported and not
    counted. *)
Theorem warning_count_counts_the_item_warnings nl u :
  exists new,
    m_reporter (UpdateNetlist nl u) = (m_reporter u ++ new)%list /\
    m_warningCount (UpdateNetlist nl u) = counts isItemWarning RPT_SEVERITY_WARNING new.
Proof.
  destruct (UpdateNetlist_logged nl u _ eq_refl) as (new & Hr & He & Hw & Hf & _).
  exists new. split; [exact Hr|]. rewrite Hw. cbn. lia.
Qed.

(** X5. The count of new footprints a pass returns is the number of "Add"
    and "Change footprint" Actions the pass has reported, in a dry run as in
    a committing run. *)
Theorem new_footprints_count_counts_the_additions nl u :
  exists new,
    m_reporter (UpdateNetlist nl u) = (m_reporter u ++ new)%list /\
    m_newFootprintsCount (UpdateNetlist nl u) = counts isNewFootprint RPT_SEVERITY_ACTION new.
Proof.
  destruct (UpdateNetlist_logged nl u _ eq_refl) as (new & Hr & He & Hw & Hf & _).
  exists new. split; [exact Hr|]. rewrite Hf. cbn. lia.
Qed.

(** X6. A dry run that adds or changes a footprint does not look for
    single-pad nets: the pass reports no "Remove single pad net", whatever
    the option says, since the pads of the new footprints are not on the
    board. *)
Theorem dry_run_with_new_footprints_skips_pruning nl u :
  m_isDryRun u = true -> m_newFootprintsCount (UpdateNetlist nl u) ≠ 0 ->
  exists new,
    m_reporter (UpdateNetlist nl u) = (m_reporter u ++ new)%list /\
    forall name sev, Report (MsgRemoveSinglePadNet name) sev ∉ new.
Proof.
  intros Hd Hn.
  destruct (UpdateNetlist_logged nl u _ eq_refl) as (new & Hr & _ & _ & _ & Hp).
  exists new. split; [exact Hr|]. intros name sev Hin.
  destruct (Hp _ _ Hin) as [_ H]. destruct (H name eq_refl) as [_ H']. auto.
Qed.

(** X7. A dry run reports no "Remove unused net": the nets nothing is bound
    to any more are looked for in a committing run only. *)
Theorem dry_run_reports_no_unused_net nl u :
  m_isDryRun u = true ->
  exists new,
    m_reporter (UpdateNetlist nl u) = (m_reporter u ++ new)%list /\
    forall name sev, Report (MsgRemoveUnusedNet name) sev ∉ new.
Proof.
  intros Hd.
  destruct (UpdateNetlist_logged nl u _ eq_refl) as (new & Hr & _ & _ & _ & Hp).
  exists new. split; [exact Hr|]. intros name sev Hin.
  destruct (Hp _ _ Hin) as [H _]. specialize (H name eq_refl). congruence.
Qed.

Lemma dry_run_with_new_footprints_skips_pruning_witness :
  let u := SetOptions true true true true false true
             (BOARD_NETLIST_UPDATER ex_frame ex_board_R1) in
  exists new,
    m_reporter (UpdateNetlist ex_netlist_changes u) = (m_reporter u ++ new)%list /\
    forall name sev, Report (MsgRemoveSinglePadNet name) sev ∉ new.
Proof.
  intros u. apply dry_run_with_new_footprints_skips_pruning; [reflexivity|].
  vm_compute. discriminate.
Defined.

Lemma dry_run_reports_no_unused_net_witness :
  let u := SetOptions true true true true false true
             (BOARD_NETLIST_UPDATER ex_frame ex_board_R1) in
  exists new,
    m_reporter (UpdateNetlist ex_netlist_changes u) = (m_reporter u ++ new)%list /\
    forall name sev, Report (MsgRemoveUnusedNet name) sev ∉ new.
Proof. intros u. apply dry_run_reports_no_unused_net. reflexivity. Defined.

(** ** The nets announced during a pass *)

Lemma addedNetNames_app l1 l2 :
  addedNetNames (l1 ++ l2) = (addedNetNames l1 ++ addedNetNames l2)%list.
Proof. apply omap_app. Qed.

Lemma minted_refl u : minted u u.
Proof.
  split; [done|]. exists [], []. rewrite app_nil_r. cbn.
  split; [done|]. split; [done|]. split; [constructor|].
  split; [|done]. intros name H. by apply elem_of_nil in H.
Qed.

Lemma minted_trans u1 u2 u3 : minted u1 u2 -> minted u2 u3 -> minted u1 u3.
Proof.
  intros (F1 & n1 & m1 & H1 & E1 & D1 & A1 & K1) (F2 & n2 & m2 & H2 & E2 & D2 & A2 & K2).
  split; [by rewrite F2|]. exists (n1 ++ n2)%list, (m1 ++ m2)%list.
  split; [by rewrite H2, H1, app_assoc|].
  split; [by rewrite addedNetNames_app, E1, E2, F1, List.map_app|].
  split; [|split].
  - apply NoDup_app. split; [done|]. split; [|done].
    intros name Hin1 Hin2. destruct (A1 name Hin1) as [_ Hs]. destruct (A2 name Hin2) as [Hn _].
    rewrite Hn in Hs. by destruct Hs.
  - intros name [Hin|Hin]%elem_of_app.
    + destruct (A1 name Hin) as [Hn Hs]. auto.
    + destruct (A2 name Hin) as [Hn Hs]. split; [|done].
      destruct (lookupAddedNet name u1) eqn:Hl; [|done].
      destruct (K1 name) as [x Hx]; [by rewrite Hl|]. congruence.
  - auto.
Qed.

Lemma minted_foldl {A} (f : UPDATER -> A -> UPDATER) l :
  (forall u x, minted u (f u x)) -> forall u, minted u (foldl f u l).
Proof.
  intros Hf. induction l as [|x l IH]; intros u; cbn; [apply minted_refl|].
  eapply minted_trans; [apply Hf | apply IH].
Qed.

Lemma report_minted msg sev u :
  (forall name, msg ≠ MsgAddNet name) -> minted u (report msg sev u).
Proof.
  intros Hmsg. split; [done|]. exists [Report msg sev], []. split; [done|].
  assert (addedNetNames [Report msg sev] = []) as ->
    by (destruct msg; try done; by destruct (Hmsg net)).
  split; [done|]. split; [constructor|]. split; [|done].
  intros name H. by apply elem_of_nil in H.
Qed.

(** A state built from [u] by the setters but that of the added nets, by
    [report] without "Add net", and by the increments. *)
Ltac minted_leaf :=
  unfold minted;
  split; [done|];
  eexists _, []; split;
  [ cbn; rewrite <- ?app_assoc; first [reflexivity | symmetry; apply app_nil_r]
  | split; [done|];
    split; [cbn; constructor|];
    split; [cbn; let H := fresh in intros ? H; by apply elem_of_nil in H | done] ].

Ltac minted_report := apply report_minted; done.


Lemma addNewComponent_minted c u : minted u (addNewComponent c u).2.
Proof. unfold addNewComponent. repeat case_match; minted_leaf. Qed.

Lemma replaceComponent_minted r old c u : minted u (replaceComponent r old c u).2.
Proof. unfold replaceComponent. repeat case_match; minted_leaf. Qed.

Lemma store_minted r f u : minted u (store r f u).
Proof. destruct r; minted_leaf. Qed.

Lemma syncField_minted msg set s u0 :
  (forall name, msg ≠ MsgAddNet name) ->
  minted u0 s.1.2 -> minted u0 (syncField msg set s).1.2.
Proof.
  intros Hmsg H0. destruct s as [[f u] ch]. unfold syncField. cbn [fst snd] in *.
  cbv zeta. eapply minted_trans; [exact H0|].
  assert (minted u (report msg RPT_SEVERITY_ACTION u)) as H
    by (by apply report_minted).
  by destruct (negb _).
Qed.

Lemma syncParameters_minted c s u0 :
  minted u0 s.1.2 -> minted u0 (syncParameters c s).1.2.
Proof.
  intros H. unfold syncParameters. cbv zeta.
  repeat case_match; repeat (apply syncField_minted; [done|]); exact H.
Qed.

Lemma updateFootprintParameters_minted r c u :
  minted u (updateFootprintParameters r c u).
Proof.
  unfold updateFootprintParameters. destruct (deref u r) as [f|]; [|apply minted_refl].
  pose proof (syncParameters_minted c (f, u, false) u (minted_refl u)) as H.
  destruct (syncParameters c (f, u, false)) as [[f' u'] ch]. cbn [fst snd] in H.
  assert (minted u (store r f' u')) as H'.
  { eapply minted_trans; [exact H | apply store_minted]. }
  repeat case_match; exact H'.
Qed.

Lemma cachePinFunction_minted p n u : minted u (cachePinFunction p n u).
Proof. unfold cachePinFunction. minted_leaf. Qed.

Lemma cacheNetname_minted p n u : minted u (cacheNetname p n u).
Proof. unfold cacheNetname. minted_leaf. Qed.

Lemma syncPin_minted p pf pt pad s :
  minted s.1 (syncPin p pf pt pad s).2.1.
Proof.
  destruct s as [u ch]. unfold syncPin. cbn [fst snd].
  repeat case_match; simplify_eq; cbn [fst snd];
    first [apply minted_refl | apply cachePinFunction_minted].
Qed.

Lemma disconnectPad_minted p r pad s :
  minted s.1 (disconnectPad p r pad s).2.1.
Proof.
  destruct s as [u ch]. unfold disconnectPad. cbn [fst snd]. cbv zeta.
  repeat case_match; cbn [fst snd];
    try (eapply minted_trans; [|apply cacheNetname_minted]);
    first [apply minted_refl | minted_report].
Qed.

Lemma findOrAddNet_minted n ni s :
  minted s.1 (findOrAddNet n ni s).2.1.
Proof.
  destruct s as [u ch]. unfold findOrAddNet. cbn [fst snd]. cbv zeta.
  destruct ni as [ni|]; [apply minted_refl|].
  destruct (lookupAddedNet n u) as [ni|] eqn:Hl; [apply minted_refl|].
  assert (forall v fr, fr = m_frame u -> m_frame v = m_frame u ->
            m_reporter v = m_reporter u -> m_addedNets v = m_addedNets u ->
            minted u (report (MsgAddNet (UnescapeString fr n)) RPT_SEVERITY_ACTION
                        (with_addedNets (<[n := Some (new_NETINFO_ITEM n)]> (m_addedNets v)) v))) as H.
  { intros v fr -> Hf Hr Ha. split; [done|].
    exists [Report (MsgAddNet (UnescapeString (m_frame u) n)) RPT_SEVERITY_ACTION], [n].
    cbn. rewrite Hr, Ha.
    split; [done|]. split; [done|]. split; [apply NoDup_singleton|]. split.
    - intros name ->%list_elem_of_singleton. split; [done|].
      unfold lookupAddedNet. cbn. rewrite lookup_insert_eq. by eexists.
    - intros name Hs. unfold lookupAddedNet in *. cbn.
      destruct (decide (name = n)) as [->|Hne].
      + rewrite lookup_insert_eq. by eexists.
      + by rewrite lookup_insert_ne. }
  destruct (negb (m_isDryRun u)); cbn [fst snd]; by apply H.
Qed.

Lemma connectPad_minted p r n pad s :
  minted s.1 (connectPad p r n pad s).2.1.
Proof.
  destruct s as [u ch]. unfold connectPad. cbn [fst snd]. cbv zeta.
  set (u1 := if _ && _ then _ else u).
  assert (minted u u1) as H1.
  { subst u1. case_match; minted_leaf. }
  clearbody u1.
  case_bool_decide; [|exact H1].
  pose proof (findOrAddNet_minted n (FindNet n (m_board u)) (u1, ch)) as H2.
  destruct (findOrAddNet _ _ _) as [ni [u2 ch2]]. cbn [fst snd] in H2.
  eapply minted_trans; [exact H1|]. eapply minted_trans; [exact H2|].
  repeat case_match; cbn [fst snd];
    try (eapply minted_trans; [|apply cacheNetname_minted]);
    minted_leaf.
Qed.

Lemma updatePad_minted p r c pad s :
  minted s.1 (updatePad p r c pad s).2.1.
Proof.
  unfold updatePad. cbv zeta.
  pose proof (syncPin_minted p (if IsValid (GetNet c (pad_name pad))
                                then cn_pinFunction (GetNet c (pad_name pad)) else "")
                (if IsValid (GetNet c (pad_name pad))
                 then cn_pinType (GetNet c (pad_name pad)) else "") pad s) as H.
  destruct (syncPin _ _ _ _ _) as [pad' s']. cbn [fst snd] in H.
  eapply minted_trans; [exact H|].
  case_match; [apply disconnectPad_minted | apply connectPad_minted].
Qed.

Lemma updatePads_minted fr r c pads : forall j s,
  minted s.1 (updatePads fr r c j pads s).2.1.
Proof.
  induction pads as [|pad pads IH]; intros j s; cbn; [apply minted_refl|].
  pose proof (updatePad_minted (fr, j) r c pad s) as H.
  destruct (updatePad _ _ _ _ _) as [pad' s']. cbn [fst snd] in H.
  specialize (IH (S j) s').
  destruct (updatePads _ _ _ _ _ _) as [rest s'']. cbn [fst snd] in *.
  eapply minted_trans; eauto.
Qed.

Lemma updateComponentPadConnections_minted r c u :
  minted u (updateComponentPadConnections r c u).
Proof.
  unfold updateComponentPadConnections. destruct (deref u r) as [f|]; [|apply minted_refl].
  pose proof (updatePads_minted r (fp_reference f) c (fp_pads f) 0%nat (u, false)) as H.
  destruct (updatePads _ _ _ _ _ _) as [pads [u' ch]]. cbn [fst snd] in H.
  assert (minted u (store r (SetPads pads f) u')) as H'.
  { eapply minted_trans; [exact H | apply store_minted]. }
  repeat case_match; exact H'.
Qed.

Lemma bind_minted t i c u :
  minted u (updateComponentPadConnections t c
                (updateFootprintParameters t c (with_footprintMap (<[i := t]> (footprintMap u)) u))).
Proof.
  eapply minted_trans; [|apply updateComponentPadConnections_minted].
  eapply minted_trans; [|apply updateFootprintParameters_minted].
  minted_leaf.
Qed.

Lemma updateMatched_minted i c k f u : minted u (updateMatched i c k f u).
Proof.
  unfold updateMatched.
  destruct (m_replaceFootprints u && _).
  - pose proof (replaceComponent_minted (OnBoard k) f c u) as H.
    destruct (replaceComponent _ _ _ _) as [[t|] u']; cbn [snd] in H; [|exact H].
    eapply minted_trans; [exact H | apply bind_minted].
  - apply bind_minted.
Qed.

Lemma scanStep_minted i c k s : minted s.1 (scanStep i c k s).1.
Proof.
  destruct s as [u n]. unfold scanStep. cbn [fst].
  repeat case_match; cbn [fst]; first [apply minted_refl | apply updateMatched_minted].
Qed.

Lemma scanFootprints_minted i c l ks : forall s,
  minted s.1 (scanFootprints i c l ks s).1.
Proof.
  induction ks as [|k ks IH]; intros s; cbn; [apply minted_refl|].
  case_bool_decide; [apply scanStep_minted|].
  eapply minted_trans; [apply scanStep_minted | apply IH].
Qed.

Lemma processComponent_minted l u ic : minted u (processComponent l u ic).
Proof.
  destruct ic as [i c]. unfold processComponent.
  destruct (has_property _ _); [apply minted_refl|]. cbv zeta.
  set (u1 := report _ _ u).
  assert (minted u u1) as H1 by (subst u1; minted_report). clearbody u1.
  pose proof (scanFootprints_minted i c l (seq 0 (length (b_footprints (m_board u1)))) (u1, 0)) as H2.
  destruct (scanFootprints _ _ _ _ _) as [u2 n]. cbn [fst] in H2.
  eapply minted_trans; [exact H1|]. eapply minted_trans; [exact H2|].
  case_bool_decide.
  - pose proof (addNewComponent_minted c u2) as H3.
    destruct (addNewComponent c u2) as [[t|] u3]; cbn [snd] in H3; [|exact H3].
    eapply minted_trans; [exact H3 | apply bind_minted].
  - case_bool_decide; [minted_report | apply minted_refl].
Qed.

Lemma resolveNet_minted n u : minted u (resolveNet n u).2.
Proof.
  unfold resolveNet. destruct (FindNet n (m_board u)); [apply minted_refl|].
  destruct (m_addedNets u !! n) eqn:Hl; [apply minted_refl|]. cbn [snd].
  split; [done|].
  exists [], []. cbn. rewrite app_nil_r. split; [done|]. split; [done|].
  split; [constructor|]. split.
  - intros name H. by apply elem_of_nil in H.
  - intros name. unfold lookupAddedNet. cbn.
    destruct (decide (name = n)) as [->|Hne].
    + rewrite Hl. cbn. by intros [? ?].
    + by rewrite lookup_insert_ne.
Qed.

Lemma updateVia_minted names k u : minted u (updateVia names k u).
Proof.
  unfold updateVia. cbv zeta.
  repeat (case_match; try apply minted_refl); try minted_leaf.
  all: match goal with H : resolveNet ?n ?v = _ |- _ =>
         pose proof (resolveNet_minted n v) as Hr; rewrite H in Hr; cbn [snd] in Hr end.
  all: eapply minted_trans; [|first [exact Hr | eapply minted_trans; [exact Hr | minted_leaf]]].
  all: minted_report.
Qed.

Lemma updateZone_minted names k u : minted u (updateZone names k u).
Proof.
  unfold updateZone. cbv zeta.
  destruct (b_zones (m_board u) !! k) as [zone|]; [|apply minted_refl].
  destruct (negb (zone_onCopper zone) || zone_isRuleArea zone); [apply minted_refl|].
  case_bool_decide; [apply minted_refl|].
  remember (match m_zoneConnectionsCache u !! k with
            | Some pads => (pads, u)
            | None => ([], with_zoneConnectionsCache (<[k := []]> (m_zoneConnectionsCache u)) u)
            end) as cu eqn:Hcu.
  assert (minted u cu.2) as H1.
  { subst cu. case_match; cbn [snd]; minted_leaf. }
  clear Hcu. destruct cu as [cached u1]. cbn [snd] in H1.
  eapply minted_trans; [exact H1|].
  repeat (case_match; try apply minted_refl); try minted_leaf.
  all: match goal with H : resolveNet ?n ?v = _ |- _ =>
         pose proof (resolveNet_minted n v) as Hr; rewrite H in Hr; cbn [snd] in Hr end.
  all: eapply minted_trans; [|first [exact Hr | eapply minted_trans; [exact Hr | minted_leaf]]].
  all: minted_report.
Qed.

Lemma updateCopperZoneNets_minted nl u : minted u (updateCopperZoneNets nl u).
Proof.
  unfold updateCopperZoneNets. cbv zeta.
  set (names := netlistNetnames nl).
  set (u1 := foldl (fun u k => updateVia names k u) u _).
  assert (minted u u1) as H1.
  { apply (minted_foldl (fun u k => updateVia names k u)). intros. apply updateVia_minted. }
  eapply minted_trans; [exact H1|].
  apply (minted_foldl (fun u k => updateZone names k u)). intros. apply updateZone_minted.
Qed.

Lemma sweepFootprint_minted nl u k : minted u (sweepFootprint nl u k).
Proof.
  unfold sweepFootprint. cbv zeta.
  repeat case_match; simplify_eq; minted_leaf.
Qed.

Lemma testComponent_minted u ic : minted u (testComponent u ic).
Proof.
  unfold testComponent. repeat (case_match; try apply minted_refl).
  apply minted_foldl. intros v net. case_bool_decide; minted_leaf.
Qed.

Lemma testConnectivity_minted nl u : minted u (testConnectivity nl u).
Proof. apply minted_foldl, testComponent_minted. Qed.

Lemma SetNetCode_at_minted p code u : minted u (SetNetCode_at p code u).
Proof.
  unfold SetNetCode_at. repeat (case_match; try apply minted_refl). apply store_minted.
Qed.

Lemma clearPadNet_minted p u : minted u (clearPadNet p u).
Proof.
  unfold clearPadNet. case_match; [apply SetNetCode_at_minted | apply cacheNetname_minted].
Qed.

(** The pass up to the sweep of the board footprints. *)
Lemma reconcile_minted nl u :
  let u0 := with_footprintMap ∅ (with_counts 0 0 0 u) in
  let u1 := cacheCopperZoneConnections u0 in
  let u2 := if negb (m_isDryRun u1)
            then with_board (with_nets (List.map (fun net => SetIsCurrent (bool_decide (net_code net = 0)) net)
                                                 (b_nets (m_board u1))) (m_board u1)) u1
            else u1 in
  let u3 := foldl (processComponent (lastPreexisting (m_board u0))) u2
                  (imap (fun i c => (i, c)) nl) in
  let u4 := updateCopperZoneNets nl u3 in
  let u5 := foldl (sweepFootprint nl) u4 (seq 0 (length (b_footprints (m_board u4)))) in
  minted (with_counts 0 0 0 u) u5.
Proof.
  intros u0 u1 u2 u3 u4 u5.
  assert (minted (with_counts 0 0 0 u) u0) as H0 by (subst u0; minted_leaf).
  assert (minted u0 u1) as H1.
  { subst u1. unfold cacheCopperZoneConnections. apply minted_foldl.
    intros v kz. case_match; minted_leaf. }
  assert (minted u1 u2) as H2 by (subst u2; case_match; minted_leaf).
  assert (minted u2 u3) as H3 by apply minted_foldl, processComponent_minted.
  assert (minted u3 u4) as H4 by apply updateCopperZoneNets_minted.
  assert (minted u4 u5) as H5 by apply minted_foldl, sweepFootprint_minted.
  eauto using minted_trans.
Qed.


Lemma scanPad_minted s p : minted (scan_u s) (scan_u (scanPad s p)).
Proof.
  unfold scanPad. cbv zeta.
  repeat (case_match; cbn [scan_u]; try apply minted_refl).
  all: eapply minted_trans; [|apply clearPadNet_minted]; minted_report.
Qed.

Lemma foldl_scanPad_minted l : forall s, minted (scan_u s) (scan_u (foldl scanPad s l)).
Proof.
  induction l as [|p l IH]; intros s; cbn; [apply minted_refl|].
  eapply minted_trans; [apply scanPad_minted | apply IH].
Qed.

Lemma deleteSinglePadNets_minted u : minted u (deleteSinglePadNets u).
Proof.
  unfold deleteSinglePadNets. cbv zeta.
  set (s := foldl scanPad _ _).
  assert (minted u (scan_u s)) as H by apply (foldl_scanPad_minted _ (Build_SCAN 0 "" None u)).
  clearbody s.
  repeat case_match; try exact H.
  eapply minted_trans; [exact H | apply clearPadNet_minted].
Qed.

Lemma removeStaleNet_minted u n : minted u (removeStaleNet u n).
Proof. unfold removeStaleNet. case_match; [|apply minted_refl]. minted_leaf. Qed.

(** X8. The "Add net" messages of a pass show, in order, the names of
    distinct nets, each as [UnescapeString] shows it, and none of these nets
    was among the added nets before the pass, in a dry run as in a committing
    run, however many pads are moved to the net.  So no "Add net" message of
    the pass repeats the text of another when no two of these names are shown
    alike. *)
Theorem each_new_net_is_announced_once nl u :
  exists new names,
    m_reporter (UpdateNetlist nl u) = (m_reporter u ++ new)%list /\
    addedNetNames new = List.map (UnescapeString (m_frame u)) names /\
    NoDup names /\
    (forall name, name ∈ names -> lookupAddedNet name u = None) /\
    ((forall a b, a ∈ names -> b ∈ names ->
                  UnescapeString (m_frame u) a = UnescapeString (m_frame u) b -> a = b) ->
     NoDup (addedNetNames new)).
Proof.
  assert (exists new names,
            m_reporter (UpdateNetlist nl u) = (m_reporter u ++ new)%list /\
            addedNetNames new = List.map (UnescapeString (m_frame u)) names /\
            NoDup names /\
            (forall name, name ∈ names -> lookupAddedNet name u = None)) as H.
  { unfold UpdateNetlist. cbv zeta.
    pose proof (reconcile_minted nl u) as H. cbv zeta in H.
    set (u5 := foldl (sweepFootprint nl) _ _) in *. clearbody u5.
    set (u6 := if negb (m_isDryRun u5) then _ else _).
    assert (minted u5 u6) as H6.
    { subst u6. destruct (negb (m_isDryRun u5)).
      - set (v1 := testConnectivity nl u5).
        assert (minted u5 v1) as G1 by apply testConnectivity_minted.
        set (v2 := if m_deleteSinglePadNets v1 then _ else v1).
        assert (minted v1 v2) as G2.
        { subst v2. case_match; [apply deleteSinglePadNets_minted | apply minted_refl]. }
        set (v3 := foldl removeStaleNet v2 _).
        assert (minted v2 v3) as G3 by apply minted_foldl, removeStaleNet_minted.
        assert (minted v3 (Push (with_board (RemoveUnusedNets (m_board v3)) v3))) as G4
          by minted_leaf.
        eauto using minted_trans.
      - case_match; [apply deleteSinglePadNets_minted | apply minted_refl]. }
    destruct (minted_trans _ _ _ H H6) as (_ & new & names & Hr & Hn & Hnd & Ha & _).
    clearbody u6.
    exists (new ++ [ReportTail MsgEmpty RPT_SEVERITY_ACTION;
                    ReportTail MsgEmpty RPT_SEVERITY_ACTION;
                    ReportTail (MsgTotal (m_warningCount u6) (m_errorCount u6)) RPT_SEVERITY_INFO])%list,
           names.
    split; [destruct (m_isDryRun u6); cbn; rewrite Hr; cbn; by rewrite <- !app_assoc|].
    split; [rewrite addedNetNames_app; cbn; by rewrite app_nil_r|].
    split; [exact Hnd|]. intros name Hin. by destruct (Ha name Hin). }
  destruct H as (new & names & Hr & Hn & Hnd & Ha).
  exists new, names. split; [exact Hr|]. split; [exact Hn|]. split; [exact Hnd|].
  split; [exact Ha|].
  intros Hinj. rewrite Hn. clear - Hnd Hinj.
  induction Hnd as [|a l Hnotin Hl IH]; cbn; [constructor|].
  constructor.
  - intros (b & Hb & Hin)%list_elem_of_fmap.
    apply Hnotin. rewrite (Hinj a b); [done|left|by right|done].
  - apply IH. intros x y Hx Hy. apply Hinj; by right.
Qed.

Lemma each_new_net_is_announced_once_witness :
  exists new,
    m_reporter (UpdateNetlist ex_netlist_mixed (committingUpdater ex_frame false false false ex_board_mixed))
    = (m_reporter (committingUpdater ex_frame false false false ex_board_mixed) ++ new)%list /\
    NoDup (addedNetNames new).
Proof.
  destruct (each_new_net_is_announced_once ex_netlist_mixed
              (committingUpdater ex_frame false false false ex_board_mixed))
    as (new & names & Hr & _ & _ & _ & Hinj).
  exists new. split; [exact Hr|]. apply Hinj. intros a b _ _ H. exact H.
Defined.

(** Two nets whose names are shown alike are announced with the same
    text. *)
Example announcements_shown_alike :
  addedNetNames (m_reporter (UpdateNetlist ex_netlist_slash
                               (committingUpdater ex_frame_slash false false false ex_board_R1)))
  = ["/CLK"; "/CLK"].
Proof. vm_compute. reflexivity. Qed.

(** ** The dry-run caches *)

(** X9. What [getNetname] reads after [cacheNetname]: in a dry run the name
    just cached for that pad, and for any other pad what it read before; in
    a committing run the cache is written and never read. *)
Theorem getNetname_cacheNetname p name u q :
  getNetname (cacheNetname p name u) q
  = if m_isDryRun u && bool_decide (q = p) then name else getNetname u q.
Proof.
  unfold getNetname, cacheNetname. cbn.
  change (GetNetname (with_padNets _ u) q) with (GetNetname u q).
  destruct (m_isDryRun u); [|done]. cbn.
  case_bool_decide as H.
  - subst q. by rewrite lookup_insert_eq.
  - by rewrite lookup_insert_ne.
Qed.

(** ** The metadata of a footprint *)

Lemma store_same r f u : deref u r = Some f -> store r f u = u.
Proof.
  destruct r as [i|j]; cbn; intros H; rewrite list_insert_id by done.
  - destruct u as [? ? [] ? ? ? ? ? ? ? ? ? ? ? ? ? ? ? ? ? ?]. done.
  - by destruct u.
Qed.

Lemma syncedAttributes_bits c a n :
  Z.testbit FP_EXCLUDE_FROM_BOM n = false ->
  Z.testbit (syncedAttributes c a) n = Z.testbit a n.
Proof.
  intros Hn. unfold syncedAttributes. repeat case_match; [done|..].
  - by rewrite Z.lor_spec, Hn, orb_false_r.
  - destruct (decide (0 <= n)) as [Hpos|Hpos].
    + rewrite Z.land_spec, Z.lnot_spec, Hn by done. apply andb_true_r.
    + rewrite !Z.testbit_neg_r by lia. done.
Qed.

(** X10. In a committing run the metadata sync leaves the footprint with the
    reference, the value, the path and the properties of the component, and
    with the "exclude from BOM" attribute set exactly when the component has
    the property; the footprint identifier, the lock, the pads and every
    other attribute bit are kept, and so is every other footprint. *)
Theorem metadata_sync_result r c u f :
  m_isDryRun u = false -> deref u r = Some f ->
  exists f',
    deref (updateFootprintParameters r c u) r = Some f' /\
    metadata_synced f' c /\
    fp_fpid f' = fp_fpid f /\ fp_locked f' = fp_locked f /\ fp_pads f' = fp_pads f /\
    (forall n, Z.testbit FP_EXCLUDE_FROM_BOM n = false ->
               Z.testbit (fp_attributes f') n = Z.testbit (fp_attributes f) n) /\
    others r u (updateFootprintParameters r c u).
Proof.
  intros Hd Hf.
  destruct (updateFootprintParameters_commit (fun _ => False) r c u f Hd Hf) as (H1 & H2 & _).
  exists (syncedFootprint c f). split; [exact H1|].
  split; [apply syncedFootprint_synced|]. repeat split; try done.
  intros n Hn. apply syncedAttributes_bits, Hn.
Qed.

Lemma metadata_sync_result_witness :
  exists f',
    deref (updateFootprintParameters (OnBoard 0)
             (ex_component "R7" "22k" "Resistor_SMD:R_0603" {[ "exclude_from_bom" := "" ]} [])
             (BOARD_NETLIST_UPDATER ex_frame ex_board_R1)) (OnBoard 0) = Some f' /\
    metadata_synced f' (ex_component "R7" "22k" "Resistor_SMD:R_0603" {[ "exclude_from_bom" := "" ]} []) /\
    fp_fpid f' = fp_fpid ex_R1 /\ fp_locked f' = fp_locked ex_R1 /\ fp_pads f' = fp_pads ex_R1 /\
    (forall n, Z.testbit FP_EXCLUDE_FROM_BOM n = false ->
               Z.testbit (fp_attributes f') n = Z.testbit (fp_attributes ex_R1) n) /\
    others (OnBoard 0) (BOARD_NETLIST_UPDATER ex_frame ex_board_R1)
      (updateFootprintParameters (OnBoard 0)
         (ex_component "R7" "22k" "Resistor_SMD:R_0603" {[ "exclude_from_bom" := "" ]} [])
         (BOARD_NETLIST_UPDATER ex_frame ex_board_R1)).
Proof. apply metadata_sync_result; reflexivity. Defined.

(** X11. A footprint that has the metadata of the component already: the
    metadata sync leaves the updater as it is, in a dry run as in a
    committing run; nothing is reported and nothing is staged. *)
Theorem metadata_sync_of_synced_footprint r c u f :
  deref u r = Some f -> metadata_synced f c -> updateFootprintParameters r c u = u.
Proof.
  intros Hf Hs. unfold updateFootprintParameters. rewrite Hf.
  rewrite (syncParameters_synced c f u false Hs).
  rewrite (store_same r f u Hf). by destruct (GetStatus _ _).
Qed.

Lemma metadata_sync_of_synced_footprint_witness :
  updateFootprintParameters (OnBoard 0) ex_R1_component
    (BOARD_NETLIST_UPDATER ex_frame ex_board_R1)
  = BOARD_NETLIST_UPDATER ex_frame ex_board_R1.
Proof.
  apply (metadata_sync_of_synced_footprint _ _ _ ex_R1); [reflexivity|].
  repeat split.
Defined.

(** ** The pads of a footprint *)

(** X12. In a committing run, on a board whose unconnected net has no name,
    the pad update leaves each pad of the footprint as the netlist has it: a
    pad on copper whose name is a pin of the component is on the net of the
    pin and has its pin function; any other pad has no net and no pin
    function; the pin type is that of the pin, or empty. *)
Theorem pad_update_follows_the_netlist r c u f j pad :
  pads_ready u -> deref u r = Some f -> fp_pads f !! j = Some pad ->
  let net := GetNet c (pad_name pad) in
  exists f' pad',
    deref (updateComponentPadConnections r c u) r = Some f' /\
    length (fp_pads f') = length (fp_pads f) /\
    fp_pads f' !! j = Some pad' /\
    pad_name pad' = pad_name pad /\ pad_onCopper pad' = pad_onCopper pad /\
    pad_locked pad' = pad_locked pad /\
    pad_pinType pad' = (if IsValid net then cn_pinType net else "") /\
    (if IsValid net && pad_onCopper pad
     then pad_net pad' = cn_netName net /\ pad_pinFunction pad' = cn_pinFunction net
     else pad_net pad' = "" /\ pad_pinFunction pad' = "").
Proof.
  intros Hr Hf Hj net.
  destruct (updateComponentPadConnections_commit r c u f Hr Hf) as (H1 & _).
  exists (SetPads (syncedPad c <$> fp_pads f) f), (syncedPad c pad).
  split; [exact H1|]. cbn. rewrite length_fmap, list_lookup_fmap, Hj. cbn.
  do 2 (split; [done|]).
  unfold syncedPad. fold net. cbv zeta.
  destruct (IsValid net), (pad_onCopper pad) eqn:Hc; cbn; rewrite ?Hc; cbn; done.
Qed.

Lemma pad_update_follows_the_netlist_witness :
  let u := BOARD_NETLIST_UPDATER ex_frame ex_board_R1 in
  let c := ex_component "R1" "10k" "Resistor_SMD:R_0603" ∅ [ex_pin "1" "C"] in
  let net := GetNet c (pad_name (ex_pad "1" "A")) in
  exists f' pad',
    deref (updateComponentPadConnections (OnBoard 0) c u) (OnBoard 0) = Some f' /\
    length (fp_pads f') = length (fp_pads ex_R1) /\
    fp_pads f' !! 0%nat = Some pad' /\
    pad_name pad' = pad_name (ex_pad "1" "A") /\
    pad_onCopper pad' = pad_onCopper (ex_pad "1" "A") /\
    pad_locked pad' = pad_locked (ex_pad "1" "A") /\
    pad_pinType pad' = (if IsValid net then cn_pinType net else "") /\
    (if IsValid net && pad_onCopper (ex_pad "1" "A")
     then pad_net pad' = cn_netName net /\ pad_pinFunction pad' = cn_pinFunction net
     else pad_net pad' = "" /\ pad_pinFunction pad' = "").
Proof.
  intros u c.
  apply (pad_update_follows_the_netlist (OnBoard 0) c u ex_R1 0%nat (ex_pad "1" "A")).
  - split; [reflexivity|]. split; [reflexivity|]. intros name n H.
    change (m_addedNets u) with (∅ : gmap string (option NETINFO_ITEM)) in H.
    by rewrite lookup_empty in H.
  - reflexivity.
  - reflexivity.
Defined.

(** ** The pins the footprints lack *)

Lemma testComponent_closed u l ic :
  testComponent (with_counts (m_warningCount u) (m_errorCount u + Z.of_nat (length l))
                             (m_newFootprintsCount u)
                             (with_reporter (m_reporter u ++ l) u)) ic
  = with_counts (m_warningCount u)
                (m_errorCount u + Z.of_nat (length (l ++ missingPads u ic)))
                (m_newFootprintsCount u)
                (with_reporter (m_reporter u ++ (l ++ missingPads u ic)) u).
Proof.
  unfold testComponent, missingPads.
  change (footprintMap (with_counts _ _ _ _)) with (footprintMap u).
  destruct (footprintMap u !! ic.1) as [r|]; [|by rewrite app_nil_r].
  assert (deref (with_counts (m_warningCount u) (m_errorCount u + Z.of_nat (length l))
                   (m_newFootprintsCount u) (with_reporter (m_reporter u ++ l) u)) r
          = deref u r) as -> by (by destruct r).
  destruct (deref u r) as [fp|]; [|by rewrite app_nil_r].
  generalize (c_nets ic.2). intros nets. revert l.
  induction nets as [|net nets IH]; intros l; cbn [foldl List.filter List.map].
  { by rewrite app_nil_r. }
  case_bool_decide as Hp; cbn [negb]; [apply IH|].
  cbn [List.map].
  replace (inc_errorCount (report _ _ _))
    with (with_counts (m_warningCount u)
            (m_errorCount u + Z.of_nat (length (l ++ [Report (MsgPadNotFound (c_reference ic.2) (cn_pinName net) (fp_fpid fp)) RPT_SEVERITY_ERROR])))
            (m_newFootprintsCount u)
            (with_reporter (m_reporter u ++ (l ++ [Report (MsgPadNotFound (c_reference ic.2) (cn_pinName net) (fp_fpid fp)) RPT_SEVERITY_ERROR])) u)).
  2:{ unfold inc_errorCount, report, with_counts, with_reporter. cbn.
      rewrite length_app, app_assoc. cbn. f_equal. lia. }
  rewrite IH. by rewrite <- !app_assoc.
Qed.

(** X13. The connectivity test appends one Error for each pin of a netlist
    component that the footprint mapped to the component has no pad for, in
    the order of the netlist, and counts each of them; a component no
    footprint is mapped to is passed over, and nothing else of the updater
    changes. *)
Theorem testConnectivity_reports_the_missing_pads nl u :
  let new := List.concat (List.map (missingPads u) (imap (fun i c => (i, c)) nl)) in
  testConnectivity nl u
  = with_counts (m_warningCount u) (m_errorCount u + Z.of_nat (length new))
                (m_newFootprintsCount u) (with_reporter (m_reporter u ++ new) u).
Proof.
  cbv zeta. unfold testConnectivity.
  generalize (imap (fun i c => (i, c)) nl). intros ics.
  assert (forall l,
            foldl testComponent
              (with_counts (m_warningCount u) (m_errorCount u + Z.of_nat (length l))
                 (m_newFootprintsCount u) (with_reporter (m_reporter u ++ l) u)) ics
            = with_counts (m_warningCount u)
                (m_errorCount u + Z.of_nat (length (l ++ List.concat (List.map (missingPads u) ics))))
                (m_newFootprintsCount u)
                (with_reporter (m_reporter u ++ (l ++ List.concat (List.map (missingPads u) ics))) u)) as H.
  { induction ics as [|ic ics IH]; intros l; cbn [foldl List.map List.concat].
    - by rewrite app_nil_r.
    - rewrite testComponent_closed, IH. by rewrite <- !app_assoc. }
  specialize (H []). cbn [app length] in H. rewrite <- H. f_equal.
  destruct u. unfold with_counts, with_reporter. cbn. rewrite app_nil_r. f_equal. lia.
Qed.

(** ** The snapshot of the zone connections *)

(** X14. Before the pads are updated, the connected pads of every copper
    zone that is not a rule area are recorded under the zone; the entry of
    any other zone is left as it was, and nothing but the cache changes. *)
Theorem zone_connections_are_cached u k :
  m_zoneConnectionsCache (cacheCopperZoneConnections u) !! k
  = match b_zones (m_board u) !! k with
    | Some z => if electrical z then Some (zone_connectedPads z)
                else m_zoneConnectionsCache u !! k
    | None => m_zoneConnectionsCache u !! k
    end /\
  cacheCopperZoneConnections u
  = with_zoneConnectionsCache (m_zoneConnectionsCache (cacheCopperZoneConnections u)) u.
Proof.
  split.
  - unfold cacheCopperZoneConnections. apply (foldl_cache_lookup _ (fun i => i)). auto.
  - destruct (cacheCopperZoneConnections_only u) as [x Hx]. by rewrite Hx.
Qed.

(** ** The footprints the sweep keeps *)

(** X15. The sweep stages no removal for a footprint when unused footprints
    are not to be deleted, or the footprint is board-only, or it is locked,
    or the netlist has a component for it that is not excluded from the
    board; in a committing run the nets of all its pads are then marked
    current, so that they outlive the pass. *)
Theorem sweep_keeps_protected_footprints nl u k f :
  b_footprints (m_board u) !! k = Some f ->
  m_deleteUnusedComponents u = false \/ 0 < Z.land (fp_attributes f) FP_BOARD_ONLY \/
  fp_locked f = true \/ (exists c, sweepComponent nl u f = Some c /\ excluded c = false) ->
  let u' := sweepFootprint nl u k in
  m_commit u' = m_commit u /\
  b_footprints (m_board u') = b_footprints (m_board u) /\
  (m_isDryRun u = false -> forall pad, pad ∈ fp_pads f -> all_current (m_board u') (pad_net pad)).
Proof.
  intros Hk Hkeep. cbv zeta.
  assert (doDelete nl u f && negb (fp_locked f) = false) as Hdel.
  { unfold doDelete. destruct Hkeep as [H|[H|[H|(c & Hc & Hex)]]].
    - rewrite H. by destruct (Z.ltb _ _).
    - apply Z.ltb_lt in H. by rewrite H.
    - rewrite H. apply andb_false_r.
    - rewrite Hc. unfold excluded in Hex. rewrite Hex.
      by destruct (m_deleteUnusedComponents u), (Z.ltb _ _). }
  destruct (m_isDryRun u) eqn:Hd.
  - unfold sweepFootprint. rewrite Hk. cbv zeta.
    destruct (doDelete nl u f), (fp_locked f); cbn in *; rewrite ?Hd; done.
  - destruct (sweepFootprint_commit nl u k f Hd Hk) as [[H _]|(_ & Hb & Hc & _)]; [congruence|].
    split; [done|]. rewrite Hb. split; [apply foldl_markCurrent_footprints|].
    intros _ pad Hpad. by apply foldl_markCurrent_marks.
Qed.

Lemma sweep_keeps_protected_footprints_witness :
  let u := SetOptions true true false true false false
             (BOARD_NETLIST_UPDATER ex_frame ex_board_U1) in
  let u' := sweepFootprint [] u 0%nat in
  m_commit u' = m_commit u /\
  b_footprints (m_board u') = b_footprints (m_board u) /\
  (m_isDryRun u = false ->
   forall pad, pad ∈ fp_pads ex_U1_locked -> all_current (m_board u') (pad_net pad)).
Proof.
  intros u. apply (sweep_keeps_protected_footprints [] u 0%nat ex_U1_locked); [reflexivity|].
  right. right. left. reflexivity.
Defined.

(** ** The nets created during a pass *)

(** X16. A net the board lacks is created for the first pad that needs it
    and kept in the updater: for a later pad on the same net the net created
    then is found again, and nothing more is reported or staged. *)
Theorem net_is_created_once name u ch ch' :
  let res := findOrAddNet name None (u, ch) in
  findOrAddNet name None (res.2.1, ch') = (res.1, (res.2.1, ch')).
Proof.
  cbv zeta.
  destruct (findOrAddNet name None (u, ch)) as [n [u1 ch1]] eqn:Hres. cbn [fst snd].
  assert (lookupAddedNet name u1 = Some n) as Hl1.
  { unfold findOrAddNet in Hres.
    destruct (lookupAddedNet name u) as [n0|] eqn:Hl.
    - by injection Hres as <- <- <-.
    - destruct (negb (m_isDryRun u)); injection Hres as <- <- <-;
        unfold lookupAddedNet; cbn; by rewrite lookup_insert_eq. }
  unfold findOrAddNet. by rewrite Hl1.
Qed.

(** ** A whole committing pass *)

(** X17. What a committing pass that neither prunes the single-pad nets nor
    replaces footprints leaves, when the components are matched on pairwise
    distinct keys, the vias and the copper zones are on nets of the netlist
    and the net of code 0 has no name: every footprint a component of the
    netlist matches has the metadata of the component and its pads are on
    the nets of the component's pins; a component nothing matches is one no
    footprint could be loaded for; no footprint is left that the sweep would
    delete; every net but the unconnected one is bound to a pad. *)
Theorem committing_pass_syncs_the_board fr deleteUnused byTimestamp warn nl b :
  NoDup (componentKey byTimestamp <$> nl) ->
  NetnameOfCode UNCONNECTED b = "" ->
  items_on_netlist nl b ->
  board_in_sync nl (committingUpdater fr deleteUnused byTimestamp warn b)
    (m_board (UpdateNetlist nl (committingUpdater fr deleteUnused byTimestamp warn b))).
Proof.
  intros Hnd Hunc Hitems.
  destruct (committingUpdater_fields fr deleteUnused byTimestamp warn b)
    as (Hd & Hdsp & Hrep & Hnew & Hcom & Hadd & Hb & Hlbt & _).
  set (u := committingUpdater fr deleteUnused byTimestamp warn b) in *. clearbody u.
  apply UpdateNetlist_syncs; try done.
  - intros name n. by rewrite Hadd.
  - by rewrite Hlbt.
  - by rewrite Hb.
  - by rewrite Hb.
Qed.

Lemma committing_pass_syncs_the_board_witness :
  board_in_sync ex_netlist_mixed (committingUpdater ex_frame true false true ex_board_mixed)
    (m_board (UpdateNetlist ex_netlist_mixed
                (committingUpdater ex_frame true false true ex_board_mixed))).
Proof.
  apply committing_pass_syncs_the_board.
  - refine (bool_decide_unpack (NoDup _) _). vm_compute. exact I.
  - reflexivity.
  - split.
    + intros t Ht _. apply list_elem_of_singleton in Ht as ->.
      refine (bool_decide_unpack (_ ∈ _) _). vm_compute. exact I.
    + intros z Hz _. apply list_elem_of_singleton in Hz as ->.
      refine (bool_decide_unpack (_ ∈ _) _). vm_compute. exact I.
Defined.

(** ** The frame of the repair of zones and vias *)

Lemma repaired_refl names u : repaired names u u.
Proof. split; eauto; intros k x Hk; exists x; repeat split; try done; by left. Qed.

Lemma repaired_trans names u1 u2 u3 :
  repaired names u1 u2 -> repaired names u2 u3 -> repaired names u1 u3.
Proof.
  intros [Hf1 Hn1 Hd1 Hc1 Ht1 Hnt1 Hz1 Hnz1] [Hf2 Hn2 Hd2 Hc2 Ht2 Hnt2 Hz2 Hnz2].
  split; try congruence; eauto.
  - by etrans.
  - intros k t Hk. destruct (Ht1 k t Hk) as (t' & Hk' & Hty & Hch).
    destruct (Ht2 k t' Hk') as (t'' & Hk'' & Hty' & Hch').
    exists t''. split; [done|]. split; [congruence|].
    destruct Hch as [->|(? & ? & ? & Hin)].
    + destruct Hch' as [->|(? & ? & ? & ?)]; [by left|]. right. repeat split; try done. congruence.
    + right. repeat split; try done. eapply elem_of_prefix; eauto.
  - intros k z Hk. destruct (Hz1 k z Hk) as (z' & Hk' & Hc & Hr & Hp & Hch).
    destruct (Hz2 k z' Hk') as (z'' & Hk'' & Hc' & Hr' & Hp' & Hch').
    exists z''. split; [done|]. do 3 (split; [congruence|]).
    destruct Hch as [->|(? & ? & ? & Hin)].
    + destruct Hch' as [->|(? & ? & ? & ?)]; [by left|]. right. repeat split; try done. congruence.
    + right. repeat split; try done. eapply elem_of_prefix; eauto.
Qed.

Lemma repaired_foldl {A} names (f : UPDATER -> A -> UPDATER) l :
  (forall u x, repaired names u (f u x)) -> forall u, repaired names u (foldl f u l).
Proof.
  intros Hf. induction l as [|x l IH]; intros u; cbn; [apply repaired_refl|].
  eapply repaired_trans; [apply Hf | apply IH].
Qed.

(** A step that leaves the board, the transaction and the mode alone. *)
Lemma repaired_quiet names u u' :
  m_board u' = m_board u -> m_commit u' = m_commit u -> m_isDryRun u' = m_isDryRun u ->
  repaired names u u'.
Proof.
  intros Hb Hc Hd. split; rewrite ?Hb, ?Hc; try done.
  - intros k t Hk. exists t. repeat split; try done; by left.
  - intros k z Hk. exists z. repeat split; try done; by left.
Qed.

Lemma updateVia_repaired names k u : repaired names u (updateVia names k u).
Proof.
  unfold updateVia.
  destruct (b_tracks (m_board u) !! k) as [via|] eqn:Hk; [|apply repaired_refl].
  case_bool_decide as Hty; cbn [negb]; [|apply repaired_refl].
  case_bool_decide as Hin; [apply repaired_refl|].
  cbv zeta.
  destruct (negb (IsEmpty _)); [|by apply repaired_quiet].
  destruct (m_isDryRun u) eqn:Hd; cbn [negb];
    [change (m_isDryRun (report _ _ u)) with (m_isDryRun u); rewrite Hd; by apply repaired_quiet|].
  change (m_isDryRun (report _ _ u)) with (m_isDryRun u). rewrite Hd. cbn [negb].
  set (u1 := report _ _ u).
  destruct (resolveNet_fields (default "" (m_oldToNewNets u !! track_net via)) u1)
    as (_ & _ & _ & Hb & Hd').
  pose proof (resolveNet_commit (default "" (m_oldToNewNets u !! track_net via)) u1) as Hc.
  destruct (resolveNet _ u1) as [[n|] u2]; cbn [fst snd] in *.
  2:{ apply repaired_quiet; [by rewrite Hb | by rewrite Hc | by rewrite Hd']. }
  split; cbn; rewrite ?Hb, ?Hc; try done.
  - by apply prefix_app_r.
  - intros k' t Hk'. destruct (decide (k' = k)) as [->|Hne].
    + rewrite Hk in Hk'. injection Hk' as <-.
      rewrite list_lookup_insert_eq by (by eapply lookup_lt_Some).
      eexists. split; [done|]. split; [done|]. right. repeat split; try done.
      apply elem_of_app. right. left.
    + rewrite list_lookup_insert_ne by done. exists t. repeat split; try done; by left.
  - intros k' Hk'. rewrite list_lookup_insert_ne; [done|]. intros ->. congruence.
  - intros k' z Hk'. exists z. repeat split; try done; by left.
Qed.

Lemma updateZone_repaired names k u : repaired names u (updateZone names k u).
Proof.
  unfold updateZone.
  destruct (b_zones (m_board u) !! k) as [zone|] eqn:Hk; [|apply repaired_refl].
  destruct (negb (zone_onCopper zone) || zone_isRuleArea zone) eqn:He; [apply repaired_refl|].
  case_bool_decide as Hin; [apply repaired_refl|].
  assert (electrical zone = true) as Hel.
  { unfold electrical. apply orb_false_iff in He as [H1 H2].
    apply negb_false_iff in H1. by rewrite H1, H2. }
  remember (match m_zoneConnectionsCache u !! k with
            | Some pads => (pads, u)
            | None => ([], with_zoneConnectionsCache (<[k := []]> (m_zoneConnectionsCache u)) u)
            end) as cu eqn:Hcu.
  assert (m_board cu.2 = m_board u /\ m_commit cu.2 = m_commit u /\
          m_isDryRun cu.2 = m_isDryRun u) as (Hb0 & Hc0 & Hd0)
    by (subst cu; by case_match).
  clear Hcu. destruct cu as [cached u0]. cbn [snd] in *. cbv zeta.
  set (name := if IsEmpty _ then _ else _). clearbody name.
  destruct (negb (IsEmpty name));
    [|apply repaired_quiet; [exact Hb0 | exact Hc0 | exact Hd0]].
  change (m_isDryRun (report ?m ?s u0)) with (m_isDryRun u0). rewrite Hd0.
  destruct (m_isDryRun u) eqn:Hd; cbn [negb];
    [apply repaired_quiet; [exact Hb0 | exact Hc0 | by rewrite Hd]|].
  set (u1 := report _ _ u0).
  destruct (resolveNet_fields name u1) as (_ & _ & _ & Hb & Hd').
  pose proof (resolveNet_commit name u1) as Hc.
  destruct (resolveNet _ u1) as [[n|] u2]; cbn [fst snd] in *.
  2:{ apply repaired_quiet; [by rewrite Hb | by rewrite Hc | by (rewrite Hd', Hd; exact Hd0)]. }
  split; cbn; rewrite ?Hb, ?Hc; cbn; rewrite ?Hb0, ?Hc0; try done.
  - rewrite Hd', Hd. exact Hd0.
  - by apply prefix_app_r.
  - intros k' t Hk'. exists t. repeat split; try done; by left.
  - intros k' z Hk'. destruct (decide (k' = k)) as [->|Hne].
    + rewrite Hk in Hk'. injection Hk' as <-.
      rewrite list_lookup_insert_eq by (by eapply lookup_lt_Some).
      eexists. split; [done|]. do 3 (split; [done|]). right. repeat split; try done.
      apply elem_of_app. right. left.
    + rewrite list_lookup_insert_ne by done. exists z. repeat split; try done; by left.
  - intros k' Hk'. rewrite list_lookup_insert_ne; [done|]. intros ->. congruence.
Qed.

(** X18. The repair of zones and vias touches nothing but the net of a via,
    or of a copper zone that is not a rule area, whose net is not in the
    netlist, and only in a committing run: every other track and zone, the
    footprints and the net registry are as before, no item is added or
    dropped, and each item that has changed is staged as modified in the
    transaction. *)
Theorem zone_and_via_repair_is_staged nl u :
  let u' := updateCopperZoneNets nl u in
  b_footprints (m_board u') = b_footprints (m_board u) /\
  b_nets (m_board u') = b_nets (m_board u) /\
  length (b_tracks (m_board u')) = length (b_tracks (m_board u)) /\
  length (b_zones (m_board u')) = length (b_zones (m_board u)) /\
  (forall k t, b_tracks (m_board u) !! k = Some t ->
     exists t', b_tracks (m_board u') !! k = Some t' /\ track_type t' = track_type t /\
                (t' = t \/ track_type t = PCB_VIA_T /\ (track_net t ∉ netlistNetnames nl) /\
                           m_isDryRun u = false /\ ChModifyTrack k ∈ m_commit u')) /\
  (forall k z, b_zones (m_board u) !! k = Some z ->
     exists z', b_zones (m_board u') !! k = Some z' /\
                zone_onCopper z' = zone_onCopper z /\ zone_isRuleArea z' = zone_isRuleArea z /\
                zone_connectedPads z' = zone_connectedPads z /\
                (z' = z \/ electrical z = true /\ (zone_net z ∉ netlistNetnames nl) /\
                           m_isDryRun u = false /\ ChModifyZone k ∈ m_commit u')).
Proof.
  cbv zeta.
  assert (repaired (netlistNetnames nl) u (updateCopperZoneNets nl u)) as [Hf Hn Hd Hc Ht Hnt Hz Hnz].
  { unfold updateCopperZoneNets. cbv zeta.
    set (names := netlistNetnames nl).
    set (u1 := foldl (fun u k => updateVia names k u) u _).
    assert (repaired names u u1) as H1.
    { apply (repaired_foldl names (fun u k => updateVia names k u)).
      intros. apply updateVia_repaired. }
    eapply repaired_trans; [exact H1|].
    apply (repaired_foldl names (fun u k => updateZone names k u)).
    intros. apply updateZone_repaired. }
  assert (forall {A} (l l' : list A),
            (forall k x, l !! k = Some x -> is_Some (l' !! k)) ->
            (forall k, l !! k = None -> l' !! k = None) -> length l' = length l) as Hlen.
  { intros A l l' Hs Hnone.
    destruct (Nat.lt_trichotomy (length l') (length l)) as [Hlt|[Heq|Hgt]]; [|done|].
    - destruct (lookup_lt_is_Some_2 l (length l') Hlt) as [x Hx].
      destruct (Hs _ _ Hx) as [y Hy]. apply lookup_lt_Some in Hy. lia.
    - pose proof (Hnone (length l) (lookup_ge_None_2 _ _ (Nat.le_refl _))) as Hy.
      apply lookup_ge_None in Hy. lia. }
  repeat split; try done.
  - apply Hlen; [|done]. intros k t Hk. destruct (Ht k t Hk) as (t' & -> & _). eauto.
  - apply Hlen; [|done]. intros k z Hk. destruct (Hz k z Hk) as (z' & -> & _). eauto.
Qed.

(** ** The preview of a dry run *)

Lemma disconnectPad_dry p fpRef pad u ch :
  m_isDryRun u = true ->
  m_padNets (disconnectPad p fpRef pad (u, ch)).2.1 = <[p := ""]> (m_padNets u).
Proof.
  intros Hd. unfold disconnectPad.
  destruct (negb (IsEmpty (pad_net pad)));
    [|destruct (m_warnForNoNetPads u && pad_onCopper pad && negb (IsEmpty (pad_name pad)))];
    cbn; rewrite Hd; cbn; done.
Qed.

Lemma connectPad_dry p fpRef netName pad u ch :
  m_isDryRun u = true ->
  m_padNets (connectPad p fpRef netName pad (u, ch)).2.1
  = if bool_decide (pad_net pad ≠ netName) then <[p := netName]> (m_padNets u)
    else m_padNets u.
Proof.
  intros Hd. unfold connectPad. cbv zeta. rewrite Hd. cbn [negb]. rewrite andb_false_r.
  case_bool_decide as Hne; [|done].
  unfold findOrAddNet.
  destruct (FindNet netName (m_board u)) as [n|];
    [|destruct (lookupAddedNet netName u) as [n|]];
    cbn; rewrite ?Hd; cbn; destruct (negb (IsEmpty (pad_net pad))); cbn; rewrite Hd; cbn; done.
Qed.

Lemma updatePad_dry p fpRef c pad u ch :
  m_isDryRun u = true ->
  let res := updatePad p fpRef c pad (u, ch) in
  res.1 = pad /\ m_isDryRun res.2.1 = true /\
  forall q, m_padNets res.2.1 !! q
            = if bool_decide (q = p) then previewedNet c pad (m_padNets u !! p)
              else m_padNets u !! q.
Proof.
  intros Hd. cbv zeta.
  destruct (updatePad_steps p fpRef c pad u ch) as [Hs Hp]. destruct (Hp Hd) as [Hpad _].
  split; [done|]. split; [by rewrite (so_isDryRun _ _ (st_options _ _ Hs))|].
  clear Hs Hp Hpad. unfold updatePad, previewedNet, syncPin. cbv zeta.
  rewrite Hd. cbn [negb].
  set (net := GetNet c (pad_name pad)).
  set (u1 := cachePinFunction _ _ u).
  assert (m_isDryRun u1 = true) as Hd1 by done.
  intros q.
  destruct (negb (IsValid net) || negb (pad_onCopper pad)) eqn:Hc.
  - rewrite disconnectPad_dry by done. cbn. case_bool_decide as Hq.
    + subst q. by rewrite lookup_insert_eq.
    + by rewrite lookup_insert_ne.
  - rewrite connectPad_dry by done. cbn. case_bool_decide as Hne; case_bool_decide as Hq; try done.
    + subst q. by rewrite lookup_insert_eq.
    + by rewrite lookup_insert_ne.
    + by subst q.
Qed.

Lemma updatePads_dry r fpRef c pads : forall j0 u ch,
  m_isDryRun u = true ->
  let res := updatePads r fpRef c j0 pads (u, ch) in
  res.1 = pads /\ m_isDryRun res.2.1 = true /\
  forall j, m_padNets res.2.1 !! (r, j)
            = if bool_decide (j0 <= j)%nat
              then match pads !! (j - j0)%nat with
                   | Some pad => previewedNet c pad (m_padNets u !! (r, j))
                   | None => m_padNets u !! (r, j)
                   end
              else m_padNets u !! (r, j).
Proof.
  induction pads as [|pad pads IH]; intros j0 u ch Hd; cbn [updatePads].
  { cbn. repeat split; try done. intros j. by case_bool_decide. }
  destruct (updatePad_dry (r, j0) fpRef c pad u ch Hd) as (Hp & Hd1 & Hm1).
  destruct (updatePad (r, j0) fpRef c pad (u, ch)) as [pad' [u1 ch1]]. cbn [fst snd] in *.
  destruct (IH (S j0) u1 ch1 Hd1) as (Hps & Hd2 & Hm2).
  destruct (updatePads r fpRef c (S j0) pads (u1, ch1)) as [rest' [u2 ch2]]. cbn [fst snd] in *.
  split; [congruence|]. split; [done|]. intros j. rewrite Hm2, !Hm1.
  destruct (decide (j = j0)) as [->|Hne].
  - rewrite (bool_decide_eq_false_2 (S j0 <= j0)%nat) by lia.
    rewrite (bool_decide_eq_true_2 (j0 <= j0)%nat) by lia.
    rewrite bool_decide_eq_true_2 by done. by rewrite Nat.sub_diag.
  - rewrite (bool_decide_eq_false_2 ((r, j) = (r, j0))) by congruence.
    destruct (decide (j0 <= j)%nat) as [Hle|Hgt].
    + rewrite !bool_decide_eq_true_2 by lia.
      replace (j - j0)%nat with (S (j - S j0)) by lia. done.
    + by rewrite !bool_decide_eq_false_2 by lia.
Qed.

(** X19. What a dry run shows for a pad after the pad update of its
    footprint: no net when the component has no pin of the pad's name or the
    pad is not on copper; the net of the pin when the pad is on another net
    now; and otherwise what it showed before. *)
Theorem dry_run_previews_the_pad_nets r c u f j pad :
  m_isDryRun u = true -> deref u r = Some f -> fp_pads f !! j = Some pad ->
  let net := GetNet c (pad_name pad) in
  getNetname (updateComponentPadConnections r c u) (r, j)
  = if IsValid net && pad_onCopper pad
    then if bool_decide (pad_net pad = cn_netName net) then getNetname u (r, j)
         else cn_netName net
    else "".
Proof.
  intros Hd Hf Hj net.
  pose proof (updateComponentPadConnections_at r c u f Hf) as Hat.
  unfold updateComponentPadConnections in *. rewrite Hf in *.
  destruct (updatePads_dry r (fp_reference f) c (fp_pads f) 0%nat u false Hd) as (Hp & Hd1 & Hm).
  destruct (updatePads _ _ _ _ _ _) as [pads [u1 ch1]]. cbn [fst snd] in *. subst pads.
  set (u' := match (if GetStatus (m_commit u) r then None else Some f) with
             | Some cp => _ | None => _ end) in *.
  assert (m_isDryRun u' = true /\ m_padNets u' = m_padNets u1) as [Hd' Hm'].
  { subst u'. destruct r; repeat case_match; by split. }
  unfold getNetname. rewrite Hd', Hd, Hm', Hm.
  rewrite bool_decide_eq_true_2 by lia. rewrite Nat.sub_0_r, Hj.
  unfold GetNetname, pad_at. cbn [fst snd]. rewrite Hat, Hf. cbn. rewrite Hj. cbn.
  unfold previewedNet. fold net.
  destruct (IsValid net), (pad_onCopper pad); cbn; try done.
  case_bool_decide as H1; case_bool_decide as H2; try done; by destruct H1.
Qed.

Lemma dry_run_previews_the_pad_nets_witness :
  let u := SetOptions true true true true false true
             (BOARD_NETLIST_UPDATER ex_frame ex_board_R1) in
  let c := ex_component "R1" "10k" "Resistor_SMD:R_0603" ∅ [ex_pin "1" "C"] in
  let net := GetNet c (pad_name (ex_pad "1" "A")) in
  getNetname (updateComponentPadConnections (OnBoard 0) c u) (OnBoard 0, 0%nat)
  = if IsValid net && pad_onCopper (ex_pad "1" "A")
    then if bool_decide (pad_net (ex_pad "1" "A") = cn_netName net)
         then getNetname u (OnBoard 0, 0%nat)
         else cn_netName net
    else "".
Proof.
  intros u c.
  apply (dry_run_previews_the_pad_nets (OnBoard 0) c u ex_R1 0%nat (ex_pad "1" "A"));
    reflexivity.
Defined.

(** ** A component with one footprint *)

(** X20. A component that exactly one footprint of the board matches, in a
    committing run that does not replace footprints, on a board whose
    unconnected net has no name: the footprint is updated where it is, to
    the metadata of the component and the nets of its pins, and mapped to
    the component; the other footprints are untouched and no footprint is
    created. *)
Theorem unique_match_is_updated_in_place u i c k f :
  excluded c = false -> pads_ready u -> m_replaceFootprints u = false ->
  b_footprints (m_board u) !! k = Some f ->
  List.filter (matchesAt u c) (seq 0 (length (b_footprints (m_board u)))) = [k] ->
  let u' := processComponent (lastPreexisting (m_board u)) u (i, c) in
  b_footprints (m_board u') = <[k := synced c f]> (b_footprints (m_board u)) /\
  footprintMap u' !! i = Some (OnBoard k) /\
  m_newFootprints u' = m_newFootprints u.
Proof.
  intros Hex Hr Hrep Hk Hms. cbv zeta.
  set (u1 := report (MsgProcessingSymbol (c_reference c) (c_fpid c)) RPT_SEVERITY_INFO u).
  assert (processComponent (lastPreexisting (m_board u)) u (i, c)
          = updateComponentPadConnections (OnBoard k) c
              (updateFootprintParameters (OnBoard k) c
                 (with_footprintMap (<[i := OnBoard k]> (footprintMap u1)) u1))) as ->.
  { unfold processComponent. unfold excluded in Hex. rewrite Hex. fold u1.
    change (m_board u) with (m_board u1).
    rewrite <- (Nat.add_0_r (length (b_footprints (m_board u1)))).
    rewrite scanFootprints_preexisting by done.
    rewrite (scan_matching i c u1) by (done || apply NoDup_seq).
    change (matchesAt u1 c) with (matchesAt u c).
    change (m_board u1) with (m_board u). rewrite Hms. cbn [foldl length].
    rewrite bool_decide_eq_false_2 by lia.
    rewrite bool_decide_eq_false_2 by lia.
    unfold updateMatchedAt. change (m_board u1) with (m_board u). rewrite Hk.
    unfold updateMatched. change (m_replaceFootprints u1) with (m_replaceFootprints u).
    by rewrite Hrep. }
  assert (pads_ready u1) as Hr1 by done.
  destruct (sync_commit i (OnBoard k) c u1 f Hr1 Hk) as (Hat & Ho & Hdl & _).
  set (u' := updateComponentPadConnections _ _ _) in *.
  pose proof (st_length _ _ (d_steps _ _ _ Hdl)) as Hlen.
  split; [|split].
  - apply list_eq. intros j. destruct (decide (j = k)) as [->|Hne].
    + rewrite list_lookup_insert_eq by (by eapply lookup_lt_Some). exact Hat.
    + rewrite list_lookup_insert_ne by done. apply (Ho (OnBoard j)). congruence.
  - subst u'. rewrite updateComponentPadConnections_map, updateFootprintParameters_map.
    cbn. by rewrite lookup_insert_eq.
  - apply list_eq. intros j. by apply (Ho (Staged j)).
Qed.

Lemma unique_match_is_updated_in_place_witness :
  let u := committingUpdater ex_frame true false true ex_board_R1 in
  let c := ex_component "R1" "22k" "Resistor_SMD:R_0603" ∅ [ex_pin "1" "C"; ex_pin "2" "B"] in
  let u' := processComponent (lastPreexisting (m_board u)) u (0%nat, c) in
  b_footprints (m_board u') = <[0%nat := synced c ex_R1]> (b_footprints (m_board u)) /\
  footprintMap u' !! 0%nat = Some (OnBoard 0) /\
  m_newFootprints u' = m_newFootprints u.
Proof.
  intros u c.
  apply (unique_match_is_updated_in_place u 0%nat c 0%nat ex_R1); try reflexivity.
  split; [reflexivity|]. split; [reflexivity|]. intros name n H.
  change (m_addedNets u) with (∅ : gmap string (option NETINFO_ITEM)) in H.
  by rewrite lookup_empty in H.
Defined.

(** ** A component without footprint *)

(** X21. A component no footprint of the board matches, whose footprint the
    library has, in a committing run on a board whose unconnected net has no
    name: a footprint is created from the library one, its pads unbound and
    locked as the frame settings say, then given the metadata of the
    component and the nets of its pins; it is staged for addition and mapped
    to the component, and the footprints of the board are untouched. *)
Theorem unmatched_component_gets_a_new_footprint u i c fp :
  excluded c = false -> pads_ready u ->
  IsEmpty (c_fpid c) = false -> LoadFootprint (m_frame u) (c_fpid c) = Some fp ->
  List.filter (matchesAt u c) (seq 0 (length (b_footprints (m_board u)))) = [] ->
  let u' := processComponent (lastPreexisting (m_board u)) u (i, c) in
  let r := Staged (length (m_newFootprints u)) in
  let lib := SetPads (List.map (fun pad => SetNet "" (SetLocked (negb (m_AddUnlockedPads (m_frame u))) pad))
                               (fp_pads fp)) fp in
  b_footprints (m_board u') = b_footprints (m_board u) /\
  m_newFootprints u' = (m_newFootprints u ++ [synced c lib])%list /\
  footprintMap u' !! i = Some r /\
  ChAdd r ∈ m_commit u'.
Proof.
  intros Hex Hr Hid Hload Hms. cbv zeta.
  pose proof Hr as (Hd & _).
  set (u1 := report (MsgProcessingSymbol (c_reference c) (c_fpid c)) RPT_SEVERITY_INFO u).
  set (r := Staged (length (m_newFootprints u))).
  set (lib := SetPads _ fp).
  set (u2 := stage (ChAdd r)
               (with_addedComponents (m_addedComponents u1 ++ [r])
                  (with_newFootprints (m_newFootprints u1 ++ [lib])
                     (inc_newFootprintsCount
                        (report (MsgAdd (c_reference c) (c_fpid c)) RPT_SEVERITY_ACTION u1))))).
  assert (addNewComponent c u1 = (Some r, u2)) as Hadd.
  { unfold addNewComponent. rewrite Hid. change (m_frame u1) with (m_frame u). rewrite Hload.
    cbv zeta. cbn [m_isDryRun inc_newFootprintsCount with_counts report with_reporter].
    change (m_isDryRun u1) with (m_isDryRun u). rewrite Hd. done. }
  assert (processComponent (lastPreexisting (m_board u)) u (i, c)
          = updateComponentPadConnections r c
              (updateFootprintParameters r c
                 (with_footprintMap (<[i := r]> (footprintMap u2)) u2))) as ->.
  { unfold processComponent. unfold excluded in Hex. rewrite Hex. fold u1.
    change (m_board u) with (m_board u1).
    rewrite <- (Nat.add_0_r (length (b_footprints (m_board u1)))).
    rewrite scanFootprints_preexisting by done.
    rewrite (scan_matching i c u1) by (done || apply NoDup_seq).
    change (matchesAt u1 c) with (matchesAt u c).
    change (m_board u1) with (m_board u). rewrite Hms. cbn [foldl length].
    rewrite bool_decide_eq_true_2 by lia. by rewrite Hadd. }
  assert (steps u u2) as Hs2.
  { apply (steps_trans _ u1); [apply steps_report|].
    pose proof (addNewComponent_steps c u1) as H. by rewrite Hadd in H. }
  assert (pads_ready u2) as Hr2 by (by eapply pads_ready_steps).
  assert (deref u2 r = Some lib) as Hlib.
  { cbn. change (m_newFootprints u1) with (m_newFootprints u).
    by rewrite lookup_app_r, Nat.sub_diag by lia. }
  destruct (sync_commit i r c u2 lib Hr2 Hlib) as (Hat & Ho & Hdl & _).
  set (u' := updateComponentPadConnections _ _ _) in *.
  split; [|split; [|split]].
  - apply list_eq. intros j. by apply (Ho (OnBoard j)).
  - apply list_eq. intros j.
    destruct (decide (j = length (m_newFootprints u))) as [->|Hne].
    + rewrite lookup_app_r, Nat.sub_diag by lia. exact Hat.
    + etrans; [apply (Ho (Staged j)); unfold r; congruence|]. cbn.
      change (m_newFootprints u1) with (m_newFootprints u).
      destruct (decide (j < length (m_newFootprints u))%nat).
      * by rewrite !lookup_app_l by lia.
      * rewrite !lookup_ge_None_2; [done|rewrite length_app; cbn; lia..].
  - subst u'. rewrite updateComponentPadConnections_map, updateFootprintParameters_map.
    cbn. by rewrite lookup_insert_eq.
  - eapply elem_of_prefix; [|apply (st_commit _ _ (d_steps _ _ _ Hdl))].
    cbn. apply elem_of_app. right. left.
Qed.

Lemma unmatched_component_gets_a_new_footprint_witness :
  let u := committingUpdater ex_frame true false true ex_board_R1 in
  let c := ex_component "R2" "1k" "Resistor_SMD:R_0603" ∅ [ex_pin "1" "C"; ex_pin "2" "B"] in
  let fp := ex_footprint "REF**" "R_0603" "Resistor_SMD:R_0603"
                         [ex_pad "1" "lib"; ex_pad "2" "lib"] in
  let u' := processComponent (lastPreexisting (m_board u)) u (1%nat, c) in
  let r := Staged (length (m_newFootprints u)) in
  let lib := SetPads (List.map (fun pad => SetNet "" (SetLocked (negb (m_AddUnlockedPads (m_frame u))) pad))
                               (fp_pads fp)) fp in
  b_footprints (m_board u') = b_footprints (m_board u) /\
  m_newFootprints u' = (m_newFootprints u ++ [synced c lib])%list /\
  footprintMap u' !! 1%nat = Some r /\
  ChAdd r ∈ m_commit u'.
Proof.
  intros u c fp.
  apply (unmatched_component_gets_a_new_footprint u 1%nat c fp); try reflexivity.
  split; [reflexivity|]. split; [reflexivity|]. intros name n H.
  change (m_addedNets u) with (∅ : gmap string (option NETINFO_ITEM)) in H.
  by rewrite lookup_empty in H.
Defined.

(** ** The footprints a pass keeps *)

Lemma same_pad_refl p : same_pad p p.
Proof. by repeat split. Qed.

Lemma Forall2_same_pad_refl l : Forall2 same_pad l l.
Proof. induction l; constructor; [apply same_pad_refl | done]. Qed.


Lemma same_footprint_refl f : same_footprint f f.
Proof. repeat split. apply Forall2_same_pad_refl. Qed.











Lemma kept_deref u u' r f :
  kept u u' -> m_newFootprints u' = m_newFootprints u -> deref u r = Some f ->
  exists f0, deref u' r = Some f0 /\ same_footprint f f0.
Proof.
  intros [_ _ Hf] Hn Hr. destruct r as [i|j]; cbn in *.
  - destruct (Forall2_lookup_l _ _ _ _ _ Hf Hr) as (f0 & ? & ?). eauto.
  - rewrite Hn. exists f. split; [done | apply same_footprint_refl].
Qed.





































